(** * Sender: RTP/RTCP packetizer for MPEG-TS over Wifi-Display

    A shallow embedding of
    [media/libstagefright/wifi-display/source/Sender.cpp]: the TS
    accumulation buffer and its flush policy ([appendTSData],
    [onQueuePackets]), the pacing computation ([queuePackets]), the RTCP
    walker ([parseRTCP]) with the NACK handler ([parseTSFB]) and the port
    scan of [init].

    Bytes are [Init.Byte.byte]; fixed-width integers are [Z] with the
    wrap-around written out.  Calls into collaborators (the network
    session, the notification message, the looper) are recorded as a trace
    of [Event]s.  Logging and the blocks under [DEBUG_JITTER],
    [TRACK_BANDWIDTH] and [LOG_TRANSPORT_STREAM] are left out: they write
    no member the other code reads.

    Part I is the model, Part II the proofs. *)

From Stdlib Require Import String ZArith List Bool Lia.
From coqutil Require Import Byte Z.bitblast.
Import ListNotations.
Local Open Scope Z_scope.

(** * Part I: the model *)

(** ** Machine integers *)

Definition to_uint8 (z : Z) : Z := z mod 2 ^ 8.
Definition to_uint16 (z : Z) : Z := z mod 2 ^ 16.
Definition to_uint32 (z : Z) : Z := z mod 2 ^ 32.
Definition to_uint64 (z : Z) : Z := z mod 2 ^ 64.
Definition to_int32 (z : Z) : Z := (z + 2 ^ 31) mod 2 ^ 32 - 2 ^ 31.
Definition to_int64 (z : Z) : Z := (z + 2 ^ 63) mod 2 ^ 64 - 2 ^ 63.

(** ** Outcomes

    A call either returns, or stops on a failed [CHECK], or reads memory
    outside the bytes it was handed (undefined in C++), or, for the
    loops that are run on fuel, exhausts its fuel. *)

Inductive fault : Type :=
| CheckFailed
| OutOfBounds
| OutOfFuel.

Inductive res (A : Type) : Type :=
| Ok (a : A)
| Fault (f : fault).

Arguments Ok {A} a.
Arguments Fault {A} f.

Definition bind {A B : Type} (m : res A) (k : A -> res B) : res B :=
  match m with
  | Ok a => k a
  | Fault f => Fault f
  end.

Notation "x <- m ;; k" := (bind m (fun x => k))
  (at level 61, m at next level, right associativity).
Notation "' p <- m ;; k" := (bind m (fun x => let p := x in k))
  (at level 61, p pattern, m at next level, right associativity).

Definition CHECK (b : bool) : res unit :=
  if b then Ok tt else Fault CheckFailed.

(** ** Byte memory *)

(** [p[i]] for a pointer [p] to the bytes [mem]. *)
Definition load (mem : list byte) (i : Z) : res Z :=
  if (0 <=? i) && (i <? Z.of_nat (length mem))
  then Ok (byte.unsigned (nth (Z.to_nat i) mem Byte.x00))
  else Fault OutOfBounds.

(** The [n] bytes at [p + off]. *)
Definition load_bytes (mem : list byte) (off n : Z) : res (list byte) :=
  if (0 <=? off) && (0 <=? n) && (off + n <=? Z.of_nat (length mem))
  then Ok (firstn (Z.to_nat n) (skipn (Z.to_nat off) mem))
  else Fault OutOfBounds.

(** [memcpy(p + off, src, |src|)], and a run of consecutive byte stores. *)
Definition store_bytes (mem : list byte) (off : Z) (src : list byte) : list byte :=
  firstn (Z.to_nat off) mem ++ src
    ++ skipn (Z.to_nat off + length src) mem.

(** Modelled from the spec: [U16_AT] and [U32_AT] are declared in
    [media/stagefright/Utils.h], which is not under src/; the
    specification has them as "explicit big-endian encode/decode helpers
    operating on byte buffers". *)
Definition U16_AT (mem : list byte) (i : Z) : res Z :=
  b0 <- load mem i ;;
  b1 <- load mem (i + 1) ;;
  Ok (Z.lor (Z.shiftl b0 8) b1).

Definition U32_AT (mem : list byte) (i : Z) : res Z :=
  b0 <- load mem i ;;
  b1 <- load mem (i + 1) ;;
  b2 <- load mem (i + 2) ;;
  b3 <- load mem (i + 3) ;;
  Ok (Z.lor (Z.lor (Z.lor (Z.shiftl b0 24) (Z.shiftl b1 16)) (Z.shiftl b2 8)) b3).

(** ** ABuffer *)

(** Modelled from the spec: [ABuffer] is defined in
    [media/stagefright/foundation/ABuffer.h], which is not under src/; the
    specification has it as "a fixed-capacity byte region".  It is given
    by the members [Sender.cpp] uses: the backing store of [mCapacity]
    bytes, the length of the valid range (every range the sender sets
    starts at offset 0), and the integer tag. *)

Record ABuffer : Type := mkABuffer {
  mData : list byte;
  mCapacity : Z;
  mRangeLength : Z;
  mInt32Data : Z
}.

Definition capacity (b : ABuffer) : Z := mCapacity b.
Definition size (b : ABuffer) : Z := mRangeLength b.
Definition int32Data (b : ABuffer) : Z := mInt32Data b.

(** [new ABuffer(capacity)]: the malloc'ed store is shown as zero bytes. *)
Definition new_ABuffer (cap : Z) : ABuffer :=
  mkABuffer (repeat Byte.x00 (Z.to_nat cap)) cap cap 0.

(** [setRange(0, n)]. *)
Definition setRange0 (b : ABuffer) (n : Z) : ABuffer :=
  mkABuffer (mData b) (mCapacity b) n (mInt32Data b).

Definition setInt32Data (b : ABuffer) (v : Z) : ABuffer :=
  mkABuffer (mData b) (mCapacity b) (mRangeLength b) (to_int32 v).

Definition setData (b : ABuffer) (d : list byte) : ABuffer :=
  mkABuffer d (mCapacity b) (mRangeLength b) (mInt32Data b).

(** The bytes of the valid range, [data() .. data() + size()]. *)
Definition contents (b : ABuffer) : list byte :=
  firstn (Z.to_nat (size b)) (mData b).

(** ** Constants, enums and the trace *)

Definition kMaxRTPPacketSize : Z := 1500.
Definition kMaxNumTSPacketsPerRTPPacket : Z := (kMaxRTPPacketSize - 12) / 188.

(** Modelled from the spec: the status codes of [utils/Errors.h] and
    [media/stagefright/MediaErrors.h], not under src/, by the four the
    sender returns: success, the "unknown-error condition", the
    "malformed" and the "unsupported" results. *)
Inductive status_t : Type :=
| OK
| UNKNOWN_ERROR
| ERROR_MALFORMED
| ERROR_UNSUPPORTED.

(** Modelled from the spec: the enum of [Sender.h], not under src/:
    "transport mode in {UDP, TCP, TCP-interleaved}". *)
Inductive TransportMode : Type :=
| TRANSPORT_UDP
| TRANSPORT_TCP_INTERLEAVED
| TRANSPORT_TCP.

Definition status_eqb (a b : status_t) : bool :=
  match a, b with
  | OK, OK | UNKNOWN_ERROR, UNKNOWN_ERROR
  | ERROR_MALFORMED, ERROR_MALFORMED
  | ERROR_UNSUPPORTED, ERROR_UNSUPPORTED => true
  | _, _ => false
  end.

Definition is_interleaved (m : TransportMode) : bool :=
  match m with TRANSPORT_TCP_INTERLEAVED => true | _ => false end.

(** What the sender hands to its collaborators. *)
Inductive Event : Type :=
| SendRequest (sessionID : Z) (data : list byte)
    (* mNetSession->sendRequest(sessionID, data, size) *)
| BinaryData (channel : Z) (data : list byte)
    (* mNotify->dup(), what = kWhatBinaryData, posted *)
| PostQueuePackets (delayUs : Z) (timeUs whenUs metaDelayUs : Z)
                   (packets : list byte).
    (* AMessage(kWhatQueuePackets)->post(delayUs), with the meta the
       packets carry *)

(** The constants and the compile-time switch that [Sender.cpp] takes
    from [Sender.h], which is not under src/: they are parameters of the
    model.  [kSourceID] is a 32-bit constant, [kMaxHistoryLength] a
    [size_t].  The last parameter is the one thing the code reads that
    no argument carries: [pastDatagram k] is the byte found in memory
    [k] places after the last byte of a datagram.  [parseTSFB] reads
    the source id at [&data[8]] without a look at the size, so for a
    feedback packet with fewer than 12 bytes of the datagram left it
    takes these bytes in. *)
Record Config : Type := mkConfig {
  ENABLE_RETRANSMISSION : bool;
  kSourceID : Z;
  kMaxHistoryLength : Z;
  kRetransmissionPortOffset : Z;
  pastDatagram : nat -> byte
}.

(** ** The sender's members *)

(** The members [Sender.cpp] reads and writes.  Their declarations are in
    [Sender.h]; the RTP counters are [uint32_t] (the sender report writes
    them as four bytes), [mLastNTPTime] is [uint64_t], the two anchors of
    the pacing clock [int64_t]. *)

Record Sender : Type := mkSender {
  mTSQueue : ABuffer;
  mClientIP : string;
  mTransportMode : TransportMode;
  mRTPChannel : Z;
  mRTCPChannel : Z;
  mRTPPort : Z;
  mRTPSessionID : Z;
  mRTCPSessionID : Z;
  mRTPRetransmissionSessionID : Z;
  mRTCPRetransmissionSessionID : Z;
  mClientRTPPort : Z;
  mClientRTCPPort : Z;
  mFirstOutputBufferReadyTimeUs : Z;
  mFirstOutputBufferSentTimeUs : Z;
  mRTPSeqNo : Z;
  mRTPRetransmissionSeqNo : Z;
  mLastNTPTime : Z;
  mLastRTPTime : Z;
  mNumRTPSent : Z;
  mNumRTPOctetsSent : Z;
  mHistory : list ABuffer;
  mHistoryLength : Z;
  clockReads : nat   (* ghost: calls of ALooper::GetNowUs() so far *)
}.

(** The constructor. *)
Definition new_Sender : Sender :=
  {| mTSQueue :=
       setRange0 (new_ABuffer (12 + kMaxNumTSPacketsPerRTPPacket * 188)) 12;
     mClientIP := EmptyString;
     mTransportMode := TRANSPORT_UDP;
     mRTPChannel := 0;
     mRTCPChannel := 0;
     mRTPPort := 0;
     mRTPSessionID := 0;
     mRTCPSessionID := 0;
     mRTPRetransmissionSessionID := 0;
     mRTCPRetransmissionSessionID := 0;
     mClientRTPPort := 0;
     mClientRTCPPort := 0;
     mFirstOutputBufferReadyTimeUs := -1;
     mFirstOutputBufferSentTimeUs := -1;
     mRTPSeqNo := 0;
     mRTPRetransmissionSeqNo := 0;
     mLastNTPTime := 0;
     mLastRTPTime := 0;
     mNumRTPSent := 0;
     mNumRTPOctetsSent := 0;
     mHistory := [];
     mHistoryLength := 0;
     clockReads := 0 |}.

Definition set_clockReads (s : Sender) (n : nat) : Sender :=
  {| mTSQueue := mTSQueue s;
     mClientIP := mClientIP s;
     mTransportMode := mTransportMode s;
     mRTPChannel := mRTPChannel s;
     mRTCPChannel := mRTCPChannel s;
     mRTPPort := mRTPPort s;
     mRTPSessionID := mRTPSessionID s;
     mRTCPSessionID := mRTCPSessionID s;
     mRTPRetransmissionSessionID := mRTPRetransmissionSessionID s;
     mRTCPRetransmissionSessionID := mRTCPRetransmissionSessionID s;
     mClientRTPPort := mClientRTPPort s;
     mClientRTCPPort := mClientRTCPPort s;
     mFirstOutputBufferReadyTimeUs := mFirstOutputBufferReadyTimeUs s;
     mFirstOutputBufferSentTimeUs := mFirstOutputBufferSentTimeUs s;
     mRTPSeqNo := mRTPSeqNo s;
     mRTPRetransmissionSeqNo := mRTPRetransmissionSeqNo s;
     mLastNTPTime := mLastNTPTime s;
     mLastRTPTime := mLastRTPTime s;
     mNumRTPSent := mNumRTPSent s;
     mNumRTPOctetsSent := mNumRTPOctetsSent s;
     mHistory := mHistory s;
     mHistoryLength := mHistoryLength s;
     clockReads := n |}.

Definition set_mTSQueue (s : Sender) (q : ABuffer) : Sender :=
  {| mTSQueue := q;
     mClientIP := mClientIP s;
     mTransportMode := mTransportMode s;
     mRTPChannel := mRTPChannel s;
     mRTCPChannel := mRTCPChannel s;
     mRTPPort := mRTPPort s;
     mRTPSessionID := mRTPSessionID s;
     mRTCPSessionID := mRTCPSessionID s;
     mRTPRetransmissionSessionID := mRTPRetransmissionSessionID s;
     mRTCPRetransmissionSessionID := mRTCPRetransmissionSessionID s;
     mClientRTPPort := mClientRTPPort s;
     mClientRTCPPort := mClientRTCPPort s;
     mFirstOutputBufferReadyTimeUs := mFirstOutputBufferReadyTimeUs s;
     mFirstOutputBufferSentTimeUs := mFirstOutputBufferSentTimeUs s;
     mRTPSeqNo := mRTPSeqNo s;
     mRTPRetransmissionSeqNo := mRTPRetransmissionSeqNo s;
     mLastNTPTime := mLastNTPTime s;
     mLastRTPTime := mLastRTPTime s;
     mNumRTPSent := mNumRTPSent s;
     mNumRTPOctetsSent := mNumRTPOctetsSent s;
     mHistory := mHistory s;
     mHistoryLength := mHistoryLength s;
     clockReads := clockReads s |}.

(** The RTP bookkeeping a flush updates, in the order of the source:
    [++mRTPSeqNo], [++mNumRTPSent], [mNumRTPOctetsSent += ...],
    [mLastRTPTime], [mLastNTPTime].  The counters are [uint32_t], the NTP
    time [uint64_t]. *)
Definition set_rtp_state (s : Sender) (seqNo numSent octets rtpTime ntpTime : Z)
  : Sender :=
  {| mTSQueue := mTSQueue s;
     mClientIP := mClientIP s;
     mTransportMode := mTransportMode s;
     mRTPChannel := mRTPChannel s;
     mRTCPChannel := mRTCPChannel s;
     mRTPPort := mRTPPort s;
     mRTPSessionID := mRTPSessionID s;
     mRTCPSessionID := mRTCPSessionID s;
     mRTPRetransmissionSessionID := mRTPRetransmissionSessionID s;
     mRTCPRetransmissionSessionID := mRTCPRetransmissionSessionID s;
     mClientRTPPort := mClientRTPPort s;
     mClientRTCPPort := mClientRTCPPort s;
     mFirstOutputBufferReadyTimeUs := mFirstOutputBufferReadyTimeUs s;
     mFirstOutputBufferSentTimeUs := mFirstOutputBufferSentTimeUs s;
     mRTPSeqNo := seqNo;
     mRTPRetransmissionSeqNo := mRTPRetransmissionSeqNo s;
     mLastNTPTime := ntpTime;
     mLastRTPTime := rtpTime;
     mNumRTPSent := numSent;
     mNumRTPOctetsSent := octets;
     mHistory := mHistory s;
     mHistoryLength := mHistoryLength s;
     clockReads := clockReads s |}.

Definition set_history (s : Sender) (h : list ABuffer) (len : Z) : Sender :=
  {| mTSQueue := mTSQueue s;
     mClientIP := mClientIP s;
     mTransportMode := mTransportMode s;
     mRTPChannel := mRTPChannel s;
     mRTCPChannel := mRTCPChannel s;
     mRTPPort := mRTPPort s;
     mRTPSessionID := mRTPSessionID s;
     mRTCPSessionID := mRTCPSessionID s;
     mRTPRetransmissionSessionID := mRTPRetransmissionSessionID s;
     mRTCPRetransmissionSessionID := mRTCPRetransmissionSessionID s;
     mClientRTPPort := mClientRTPPort s;
     mClientRTCPPort := mClientRTCPPort s;
     mFirstOutputBufferReadyTimeUs := mFirstOutputBufferReadyTimeUs s;
     mFirstOutputBufferSentTimeUs := mFirstOutputBufferSentTimeUs s;
     mRTPSeqNo := mRTPSeqNo s;
     mRTPRetransmissionSeqNo := mRTPRetransmissionSeqNo s;
     mLastNTPTime := mLastNTPTime s;
     mLastRTPTime := mLastRTPTime s;
     mNumRTPSent := mNumRTPSent s;
     mNumRTPOctetsSent := mNumRTPOctetsSent s;
     mHistory := h;
     mHistoryLength := len;
     clockReads := clockReads s |}.

Definition set_mRTPRetransmissionSeqNo (s : Sender) (v : Z) : Sender :=
  {| mTSQueue := mTSQueue s;
     mClientIP := mClientIP s;
     mTransportMode := mTransportMode s;
     mRTPChannel := mRTPChannel s;
     mRTCPChannel := mRTCPChannel s;
     mRTPPort := mRTPPort s;
     mRTPSessionID := mRTPSessionID s;
     mRTCPSessionID := mRTCPSessionID s;
     mRTPRetransmissionSessionID := mRTPRetransmissionSessionID s;
     mRTCPRetransmissionSessionID := mRTCPRetransmissionSessionID s;
     mClientRTPPort := mClientRTPPort s;
     mClientRTCPPort := mClientRTCPPort s;
     mFirstOutputBufferReadyTimeUs := mFirstOutputBufferReadyTimeUs s;
     mFirstOutputBufferSentTimeUs := mFirstOutputBufferSentTimeUs s;
     mRTPSeqNo := mRTPSeqNo s;
     mRTPRetransmissionSeqNo := v;
     mLastNTPTime := mLastNTPTime s;
     mLastRTPTime := mLastRTPTime s;
     mNumRTPSent := mNumRTPSent s;
     mNumRTPOctetsSent := mNumRTPOctetsSent s;
     mHistory := mHistory s;
     mHistoryLength := mHistoryLength s;
     clockReads := clockReads s |}.

Definition set_first_output (s : Sender) (readyUs sentUs : Z) : Sender :=
  {| mTSQueue := mTSQueue s;
     mClientIP := mClientIP s;
     mTransportMode := mTransportMode s;
     mRTPChannel := mRTPChannel s;
     mRTCPChannel := mRTCPChannel s;
     mRTPPort := mRTPPort s;
     mRTPSessionID := mRTPSessionID s;
     mRTCPSessionID := mRTCPSessionID s;
     mRTPRetransmissionSessionID := mRTPRetransmissionSessionID s;
     mRTCPRetransmissionSessionID := mRTCPRetransmissionSessionID s;
     mClientRTPPort := mClientRTPPort s;
     mClientRTCPPort := mClientRTCPPort s;
     mFirstOutputBufferReadyTimeUs := readyUs;
     mFirstOutputBufferSentTimeUs := sentUs;
     mRTPSeqNo := mRTPSeqNo s;
     mRTPRetransmissionSeqNo := mRTPRetransmissionSeqNo s;
     mLastNTPTime := mLastNTPTime s;
     mLastRTPTime := mLastRTPTime s;
     mNumRTPSent := mNumRTPSent s;
     mNumRTPOctetsSent := mNumRTPOctetsSent s;
     mHistory := mHistory s;
     mHistoryLength := mHistoryLength s;
     clockReads := clockReads s |}.

(** ** The packetizer *)

Section SenderModel.

Variable cfg : Config.

(** Modelled from the spec: the looper's clock is an external
    collaborator ("the monotonic wall clock").  [clock k] is what the
    [k]-th call of [ALooper::GetNowUs()] returns. *)
Variable clock : nat -> Z.

Definition GetNowUs (s : Sender) : Z * Sender :=
  (to_int64 (clock (clockReads s)), set_clockReads s (S (clockReads s))).

(** [GetNowNTP()], in [uint64_t] arithmetic. *)
Definition ntp_of_us (t : Z) : Z :=
  let nowUs := to_uint64 t in
  let nowUs := to_uint64 (nowUs + ((70 * 365 + 17) * 24) * 60 * 60 * 1000000) in
  let hi := nowUs / 1000000 in
  let lo := to_uint64 ((2 ^ 32) * (nowUs mod 1000000)) / 1000000 in
  Z.lor (to_uint64 (Z.shiftl hi 32)) lo.

Definition GetNowNTP (s : Sender) : Z * Sender :=
  let '(nowUs, s) := GetNowUs s in
  (ntp_of_us nowUs, s).

(** [uint32_t rtpTime = (nowUs * 9ll) / 100ll]: signed 64-bit product and
    truncating division, then the conversion to 32 bits. *)
Definition rtpTime_of (nowUs : Z) : Z :=
  to_uint32 (Z.quot (to_int64 (nowUs * 9)) 100).

(** The twelve stores [rtp[0] .. rtp[11]], each into a [uint8_t]. *)
Definition rtp_header (timeDiscontinuity : bool) (seqNo rtpTime : Z)
  : list byte :=
  map byte.of_Z
    [ 0x80;
      Z.lor 33 (if timeDiscontinuity then Z.shiftl 1 7 else 0);
      Z.land (Z.shiftr seqNo 8) 0xff;
      Z.land seqNo 0xff;
      Z.shiftr rtpTime 24;
      Z.land (Z.shiftr rtpTime 16) 0xff;
      Z.land (Z.shiftr rtpTime 8) 0xff;
      Z.land rtpTime 0xff;
      Z.shiftr (kSourceID cfg) 24;
      Z.land (Z.shiftr (kSourceID cfg) 16) 0xff;
      Z.land (Z.shiftr (kSourceID cfg) 8) 0xff;
      Z.land (kSourceID cfg) 0xff ].

(** The part of the flush under [#if ENABLE_RETRANSMISSION]: tag the
    queue with the sequence number just used, push it on the history and
    take the next queue from the front of the history or from the heap. *)
Definition retain_in_history (s : Sender) : Sender :=
  let q := setInt32Data (mTSQueue s) (to_uint32 (mRTPSeqNo s - 1)) in
  let h := mHistory s ++ [q] in
  let len := mHistoryLength s + 1 in
  if kMaxHistoryLength cfg <? len then
    match h with
    | oldest :: rest => set_history (set_mTSQueue s oldest) rest (len - 1)
    | [] => set_history (set_mTSQueue s q) h len
    end
  else
    set_history
      (set_mTSQueue s (new_ABuffer (12 + kMaxNumTSPacketsPerRTPPacket * 188)))
      h len.

(** The first part of the body of [if (flush || size() == capacity())]:
    the header is stamped, the counters advance and the packet is handed
    out. *)
Definition stamp_queue (s : Sender) (timeDiscontinuity : bool)
  : Sender * list Event :=
  let '(nowUs, s) := GetNowUs s in
  let rtpTime := rtpTime_of nowUs in
  let q := mTSQueue s in
  let q := setData q
             (store_bytes (mData q) 0
                (rtp_header timeDiscontinuity (mRTPSeqNo s) rtpTime)) in
  let s := set_mTSQueue s q in
  let '(ntp, s) := GetNowNTP s in
  let s := set_rtp_state s
             (to_uint32 (mRTPSeqNo s + 1))
             (to_uint32 (mNumRTPSent s + 1))
             (to_uint32 (mNumRTPOctetsSent s + (size q - 12)))
             rtpTime ntp in
  let ev :=
    if is_interleaved (mTransportMode s)
    then BinaryData (mRTPChannel s) (contents q)
    else SendRequest (mRTPSessionID s) (contents q) in
  (s, [ev]).

(** The whole body: after the packet is out, the history step (when
    compiled in) and the reset of the queue to the header room. *)
Definition flush_queue (s : Sender) (timeDiscontinuity : bool)
  : Sender * list Event :=
  let '(s, evs) := stamp_queue s timeDiscontinuity in
  let s := if ENABLE_RETRANSMISSION cfg then retain_in_history s else s in
  (set_mTSQueue s (setRange0 (mTSQueue s) 12), evs).

Definition appendTSData (s : Sender) (data : list byte) (sz : Z)
    (timeDiscontinuity flush : bool) : res (Z * Sender * list Event) :=
  _ <- CHECK (sz =? 188) ;;
  _ <- CHECK (size (mTSQueue s) + sz <=? capacity (mTSQueue s)) ;;
  src <- load_bytes data 0 sz ;;
  let q := mTSQueue s in
  let q := setData q (store_bytes (mData q) (size q) src) in
  let q := setRange0 q (size q + sz) in
  let s := set_mTSQueue s q in
  if flush || (size (mTSQueue s) =? capacity (mTSQueue s)) then
    let '(s, evs) := flush_queue s timeDiscontinuity in
    Ok (sz, s, evs)
  else
    Ok (sz, s, []).


(** [onQueuePackets]: the batch is cut into 188-byte TS packets; the last
    one forces the flush.  The loop runs on fuel; [List.length packets]
    iterations always suffice. *)
Fixpoint onQueuePackets_loop (fuel : nat) (s : Sender) (packets : list byte)
    (offset : Z) : res (Sender * list Event) :=
  if offset <? Z.of_nat (List.length packets) then
    match fuel with
    | O => Fault OutOfFuel
    | S fuel' =>
        let lastTSPacket := Z.of_nat (List.length packets) <=? offset + 188 in
        '(_, s, evs) <- appendTSData s (skipn (Z.to_nat offset) packets) 188
                          true lastTSPacket ;;
        '(s, evs') <- onQueuePackets_loop fuel' s packets (offset + 188) ;;
        Ok (s, evs ++ evs')
    end
  else Ok (s, []).

Definition onQueuePackets (s : Sender) (packets : list byte)
  : res (Sender * list Event) :=
  let '(startTimeUs, s) := GetNowUs s in
  onQueuePackets_loop (List.length packets) s packets 0.

(** The looper delivering one [kWhatQueuePackets] message after the
    other to [onMessageReceived]. *)
Fixpoint deliver_batches (s : Sender) (batches : list (list byte))
  : res (Sender * list Event) :=
  match batches with
  | [] => Ok (s, [])
  | packets :: rest =>
      '(s, evs) <- onQueuePackets s packets ;;
      '(s, evs') <- deliver_batches s rest ;;
      Ok (s, evs ++ evs')
  end.

(** ** Pacing *)

(** [queuePackets]: [int64_t] arithmetic, wrapped. *)
Definition queuePackets (s : Sender) (timeUs : Z) (packets : list byte)
  : Sender * list Event :=
  if mFirstOutputBufferReadyTimeUs s <? 0 then
    let '(nowUs, s) := GetNowUs s in
    let whenUs := nowUs in
    let s := set_first_output s timeUs nowUs in
    let delayUs := 0 in
    (s, [PostQueuePackets (if 0 <? delayUs then delayUs else 0)
           timeUs whenUs delayUs packets])
  else
    let '(nowUs, s) := GetNowUs s in
    let whenUs :=
      to_int64 (to_int64 (timeUs - mFirstOutputBufferReadyTimeUs s)
                + mFirstOutputBufferSentTimeUs s) in
    let delayUs := to_int64 (whenUs - nowUs) in
    (s, [PostQueuePackets (if 0 <? delayUs then delayUs else 0)
           timeUs whenUs delayUs packets]).

(** ** The NACK handler *)

(** [buffer->int32Data() & 0xffff], as a [uint16_t]. *)
Definition bufferSeqNo_of (buffer : ABuffer) : Z :=
  to_uint16 (Z.land (int32Data buffer) 0xffff).

(** [for (size_t i = 0; i < 16; ++i)]: [n] iterations are left, the
    next one is for bit [i]. *)
Fixpoint blp_scan (n : nat) (i : Z) (seqNo bufferSeqNo blp : Z)
    (retransmit : bool) : Z * bool :=
  match n with
  | O => (blp, retransmit)
  | S n' =>
      if negb (Z.land blp (Z.shiftl 1 i) =? 0)
         && (bufferSeqNo =? Z.land (seqNo + i + 1) 0xffff)
      then blp_scan n' (i + 1) seqNo bufferSeqNo
             (to_uint16 (Z.land blp (Z.lnot (Z.shiftl 1 i)))) true
      else blp_scan n' (i + 1) seqNo bufferSeqNo blp retransmit
  end.

(** The retransmission packet built for [buffer]. *)
Definition retransRTP_of (retransSeqNo : Z) (buffer : ABuffer)
  : res (list byte) :=
  let bufferSeqNo := bufferSeqNo_of buffer in
  let retransRTP := new_ABuffer (2 + size buffer) in
  let rtp := mData retransRTP in
  header <- load_bytes (mData buffer) 0 12 ;;
  let rtp := store_bytes rtp 0 header in
  let rtp := store_bytes rtp 2
               [ byte.of_Z (Z.land (Z.shiftr retransSeqNo 8) 0xff);
                 byte.of_Z (Z.land retransSeqNo 0xff) ] in
  let rtp := store_bytes rtp 12
               [ byte.of_Z (Z.land (Z.shiftr bufferSeqNo 8) 0xff);
                 byte.of_Z (Z.land bufferSeqNo 0xff) ] in
  payload <- load_bytes (mData buffer) 12 (size buffer - 12) ;;
  let rtp := store_bytes rtp 14 payload in
  Ok (contents (setData retransRTP rtp)).

(** [while (it != mHistory.end())] for one NACK entry; returns the sender,
    the packets sent, and the final [blp] and [foundSeqNo]. *)
Fixpoint scan_history (s : Sender) (it : list ABuffer) (seqNo blp : Z)
    (foundSeqNo : bool) : res (Sender * list Event * Z * bool) :=
  match it with
  | [] => Ok (s, [], blp, foundSeqNo)
  | buffer :: next =>
      let bufferSeqNo := bufferSeqNo_of buffer in
      let '(blp, retransmit) :=
        if bufferSeqNo =? seqNo then (blp, true)
        else if negb (blp =? 0)
             then blp_scan 16 0 seqNo bufferSeqNo blp false
             else (blp, false) in
      if retransmit then
        retransRTP <- retransRTP_of (mRTPRetransmissionSeqNo s) buffer ;;
        let s := set_mRTPRetransmissionSeqNo s
                   (to_uint32 (mRTPRetransmissionSeqNo s + 1)) in
        let ev := SendRequest (mRTPRetransmissionSessionID s) retransRTP in
        let foundSeqNo := if bufferSeqNo =? seqNo then true else foundSeqNo in
        if foundSeqNo && (blp =? 0) then Ok (s, [ev], blp, foundSeqNo)
        else
          '(s, evs, blp, foundSeqNo) <- scan_history s next seqNo blp foundSeqNo ;;
          Ok (s, ev :: evs, blp, foundSeqNo)
      else scan_history s next seqNo blp foundSeqNo
  end.

(** [for (size_t i = 12; i < size; i += 4)], on fuel. *)
Fixpoint parseTSFB_entries (fuel : nat) (s : Sender) (data : list byte)
    (sz i : Z) : res (Sender * list Event) :=
  if i <? sz then
    match fuel with
    | O => Fault OutOfFuel
    | S fuel' =>
        seqNo <- U16_AT data i ;;
        blp <- U16_AT data (i + 2) ;;
        '(s, evs, _, _) <- scan_history s (mHistory s) seqNo blp false ;;
        '(s, evs') <- parseTSFB_entries fuel' s data sz (i + 4) ;;
        Ok (s, evs ++ evs')
    end
  else Ok (s, []).

(** The memory at the pointer [data], as far as a read without a bound
    can reach: what is left of the datagram, then the bytes that follow
    the datagram in memory. *)
Definition unchecked (data : list byte) : list byte :=
  data ++ map (pastDatagram cfg) (seq 0 12).

(** [parseTSFB].  [U32_AT(&data[8])] comes before any use of [size]: it
    is a read of the memory at [data + 8], inside the datagram or
    not. *)
Definition parseTSFB (s : Sender) (data : list byte) (sz : Z)
  : res (status_t * Sender * list Event) :=
  b0 <- load data 0 ;;
  if negb (Z.land b0 0x1f =? 1) then Ok (ERROR_UNSUPPORTED, s, [])
  else
    srcId <- U32_AT (unchecked data) 8 ;;
    if negb (srcId =? kSourceID cfg) then Ok (ERROR_MALFORMED, s, [])
    else
      '(s, evs) <- parseTSFB_entries (Z.to_nat sz) s data sz 12 ;;
      Ok (OK, s, evs).

(** ** The RTCP walker *)

(** [switch (data[1])]: only type 205 does anything beyond logging, and
    only under [ENABLE_RETRANSMISSION]; the status [parseTSFB] returns is
    dropped. *)
Definition dispatch_rtcp (s : Sender) (data : list byte) (packetType : Z)
    (headerLength : Z) : res (Sender * list Event) :=
  if (200 <=? packetType) && (packetType <=? 204) then Ok (s, [])
  else if (packetType =? 205) && ENABLE_RETRANSMISSION cfg then
    '(_, s, evs) <- parseTSFB s data headerLength ;;
    Ok (s, evs)
  else if packetType =? 206 then Ok (s, [])
  else Ok (s, []).

(** [while (size > 0)], on fuel; [data] is the memory from the current
    pointer to the end of the datagram, [sz] the current [size]. *)
Fixpoint parseRTCP_loop (fuel : nat) (s : Sender) (data : list byte) (sz : Z)
  : res (status_t * Sender * list Event) :=
  if 0 <? sz then
    match fuel with
    | O => Fault OutOfFuel
    | S fuel' =>
        if sz <? 8 then Ok (ERROR_MALFORMED, s, [])
        else
          b0 <- load data 0 ;;
          if negb (Z.shiftr b0 6 =? 2) then Ok (ERROR_UNSUPPORTED, s, [])
          else
            let after_padding (sz : Z) :=
              b2 <- load data 2 ;;
              b3 <- load data 3 ;;
              let headerLength := 4 * (Z.lor (Z.shiftl b2 8) b3) + 4 in
              if sz <? headerLength then Ok (ERROR_MALFORMED, s, [])
              else
                b1 <- load data 1 ;;
                '(s, evs) <- dispatch_rtcp s data b1 headerLength ;;
                '(err, s, evs') <-
                   parseRTCP_loop fuel' s
                     (skipn (Z.to_nat headerLength) data)
                     (sz - headerLength) ;;
                Ok (err, s, evs ++ evs') in
            if negb (Z.land b0 0x20 =? 0) then
              paddingLength <- load data (sz - 1) ;;
              if sz <? paddingLength + 12 then Ok (ERROR_MALFORMED, s, [])
              else after_padding (sz - paddingLength)
            else after_padding sz
    end
  else Ok (OK, s, []).

Definition parseRTCP (s : Sender) (buffer : list byte)
  : res (status_t * Sender * list Event) :=
  parseRTCP_loop (List.length buffer) s buffer (Z.of_nat (List.length buffer)).

End SenderModel.

(** ** Session setup *)

(** Modelled from the spec: the network session manager of
    [ANetworkSession.h] is an external collaborator ("socket creation,
    async datagram delivery"), not under src/.  It is an interface with
    the three calls [init] makes; a create call returns the status, the
    session id it stored through its out-pointer, and the manager's next
    state. *)
Class ANetworkSession (Net : Type) : Type := {
  createUDPSession : Net -> Z -> string -> Z -> status_t * Z * Net;
  createTCPDatagramSession : Net -> Z -> string -> Z -> status_t * Z * Net;
  destroySession : Net -> Z -> Net
}.

Definition set_session (s : Sender) (clientIP : string)
    (transportMode : TransportMode)
    (rtpChannel rtcpChannel rtpPort rtpSessionID rtcpSessionID : Z)
    (rtpRetransmissionSessionID rtcpRetransmissionSessionID : Z)
    (clientRTPPort clientRTCPPort : Z) : Sender :=
  {| mTSQueue := mTSQueue s;
     mClientIP := clientIP;
     mTransportMode := transportMode;
     mRTPChannel := rtpChannel;
     mRTCPChannel := rtcpChannel;
     mRTPPort := rtpPort;
     mRTPSessionID := rtpSessionID;
     mRTCPSessionID := rtcpSessionID;
     mRTPRetransmissionSessionID := rtpRetransmissionSessionID;
     mRTCPRetransmissionSessionID := rtcpRetransmissionSessionID;
     mClientRTPPort := clientRTPPort;
     mClientRTCPPort := clientRTCPPort;
     mFirstOutputBufferReadyTimeUs := mFirstOutputBufferReadyTimeUs s;
     mFirstOutputBufferSentTimeUs := mFirstOutputBufferSentTimeUs s;
     mRTPSeqNo := mRTPSeqNo s;
     mRTPRetransmissionSeqNo := mRTPRetransmissionSeqNo s;
     mLastNTPTime := mLastNTPTime s;
     mLastRTPTime := mLastRTPTime s;
     mNumRTPSent := mNumRTPSent s;
     mNumRTPOctetsSent := mNumRTPOctetsSent s;
     mHistory := mHistory s;
     mHistoryLength := mHistoryLength s;
     clockReads := clockReads s |}.

Section SessionSetup.

Variable cfg : Config.
Context {Net : Type} {net_ops : ANetworkSession Net}.

Definition is_udp (m : TransportMode) : bool :=
  match m with TRANSPORT_UDP => true | _ => false end.

Definition failed (err : status_t) : bool := negb (status_eqb err OK).

(** [mTransportMode == TRANSPORT_UDP ? createUDPSession(...)
                                     : createTCPDatagramSession(...)]. *)
Definition create_session (s : Sender) (net : Net) (localPort : Z)
    (clientIP : string) (remotePort : Z) : status_t * Z * Net :=
  if is_udp (mTransportMode s)
  then createUDPSession net localPort clientIP remotePort
  else createTCPDatagramSession net localPort clientIP remotePort.

(** [for (serverRtp = 15550;; serverRtp += 2)]: every [continue] goes to
    the next port pair, the only way out is the [break] at the end of the
    body.  [serverRtp] is an [int]. *)
Fixpoint init_scan (fuel : nat) (s : Sender) (net : Net) (clientIP : string)
    (clientRtp clientRtcp serverRtp : Z) : res (Sender * Net) :=
  match fuel with
  | O => Fault OutOfFuel
  | S fuel' =>
      let continue (net : Net) :=
        init_scan fuel' s net clientIP clientRtp clientRtcp
          (to_int32 (serverRtp + 2)) in
      let '(err, rtpSession, net) :=
        create_session s net serverRtp clientIP clientRtp in
      if failed err then continue net
      else
        let bound (net : Net) (rtpR rtcpR : Z) (rtcpSession : Z) :=
          Ok (set_session s (mClientIP s) (mTransportMode s)
                (mRTPChannel s) (mRTCPChannel s)
                serverRtp rtpSession rtcpSession rtpR rtcpR
                (mClientRTPPort s) (mClientRTCPPort s), net) in
        let retransmission (net : Net) (rtcpSession : Z) :=
          if ENABLE_RETRANSMISSION cfg && is_udp (mTransportMode s) then
            let '(err, rtpRetransmissionSession, net) :=
              createUDPSession net
                (serverRtp + kRetransmissionPortOffset cfg) clientIP
                (clientRtp + kRetransmissionPortOffset cfg) in
            if failed err then
              continue (destroySession (destroySession net rtcpSession)
                          rtpSession)
            else
              _ <- CHECK (0 <=? clientRtcp) ;;
              let '(err, rtcpRetransmissionSession, net) :=
                createUDPSession net
                  (serverRtp + 1 + kRetransmissionPortOffset cfg) clientIP
                  (clientRtp + 1 + kRetransmissionPortOffset cfg) in
              if failed err then
                continue
                  (destroySession
                     (destroySession
                        (destroySession net rtpRetransmissionSession)
                        rtcpSession)
                     rtpSession)
              else
                bound net rtpRetransmissionSession rtcpRetransmissionSession
                  rtcpSession
          else
            bound net (mRTPRetransmissionSessionID s)
              (mRTCPRetransmissionSessionID s) rtcpSession in
        if 0 <=? clientRtcp then
          let '(err, rtcpSession, net) :=
            create_session s net (serverRtp + 1) clientIP clientRtcp in
          if failed err then continue (destroySession net rtpSession)
          else retransmission net rtcpSession
        else retransmission net 0
  end.

Definition init (fuel : nat) (s : Sender) (net : Net) (clientIP : string)
    (clientRtp clientRtcp : Z) (transportMode : TransportMode)
  : res (status_t * Sender * Net) :=
  match transportMode with
  | TRANSPORT_TCP_INTERLEAVED =>
      Ok (OK,
          set_session s clientIP transportMode clientRtp clientRtcp 0 0 0
            (mRTPRetransmissionSessionID s) (mRTCPRetransmissionSessionID s)
            (mClientRTPPort s) (mClientRTCPPort s),
          net)
  | TRANSPORT_TCP =>
      Ok (OK,
          set_session s clientIP transportMode 0 0 20000 0 0
            (mRTPRetransmissionSessionID s) (mRTCPRetransmissionSessionID s)
            clientRtp clientRtcp,
          net)
  | TRANSPORT_UDP =>
      let s :=
        set_session s clientIP transportMode 0 0 (mRTPPort s)
          (mRTPSessionID s) (mRTCPSessionID s)
          (mRTPRetransmissionSessionID s) (mRTCPRetransmissionSessionID s)
          (mClientRTPPort s) (mClientRTCPPort s) in
      '(s, net) <- init_scan fuel s net clientIP clientRtp clientRtcp 15550 ;;
      if mRTPPort s =? 0 then Ok (UNKNOWN_ERROR, s, net)
      else Ok (OK, s, net)
  end.

End SessionSetup.

(** A network on which no port can be bound: every create call fails. *)
#[local] Instance unbindable : ANetworkSession unit := {|
  createUDPSession _ _ _ _ := (UNKNOWN_ERROR, 0, tt);
  createTCPDatagramSession _ _ _ _ := (UNKNOWN_ERROR, 0, tt);
  destroySession _ _ := tt
|}.

(** ** Invariants *)

Definition kQueueCapacity : Z := 12 + kMaxNumTSPacketsPerRTPPacket * 188.

(** A buffer allocated by the sender: [kQueueCapacity] bytes of store. *)
Definition buffer_ok (b : ABuffer) : bool :=
  (capacity b =? kQueueCapacity)
  && (Z.of_nat (List.length (mData b)) =? kQueueCapacity).

(** The accumulation buffer holds the header room and whole TS packets. *)
Definition queue_ok (q : ABuffer) : bool :=
  buffer_ok q && (12 <=? size q) && (size q <=? capacity q)
  && ((size q - 12) mod 188 =? 0).

Definition queue_inv (s : Sender) : Prop :=
  queue_ok (mTSQueue s) && forallb buffer_ok (mHistory s) = true.

(** Between two batches the queue holds the header room only. *)
Definition queue_idle (s : Sender) : Prop :=
  size (mTSQueue s) = 12.

(** The value of an outcome, for the byte reads that stay in range. *)
Definition res_eqb (r : res Z) (v : Z) : bool :=
  match r with
  | Ok x => x =? v
  | Fault _ => false
  end.

(** A retained packet: a full RTP packet whose header carries the
    sequence number the buffer is tagged with. *)
Definition entry_ok (b : ABuffer) : bool :=
  buffer_ok b && (12 <=? size b) && (size b <=? capacity b)
  && res_eqb (U16_AT (mData b) 2) (bufferSeqNo_of b).

(** The tags of a history of [n] packets when the next sequence number
    is [seqNo]: the [n] numbers before it, oldest first. *)
Definition expected_tags (seqNo : Z) (n : nat) : list Z :=
  map (fun j => to_int32 (to_uint32 (seqNo - Z.of_nat n + Z.of_nat j)))
      (seq 0 n).

Definition same_tags (l1 l2 : list Z) : bool :=
  if list_eq_dec Z.eq_dec l1 l2 then true else false.

Definition history_inv (cfg : Config) (s : Sender) : Prop :=
  (0 <=? mRTPSeqNo s) && (mRTPSeqNo s <? 2 ^ 32)
  && (mHistoryLength s =? Z.of_nat (List.length (mHistory s)))
  && (mHistoryLength s <=? kMaxHistoryLength cfg)
  && forallb entry_ok (mHistory s)
  && same_tags (map int32Data (mHistory s))
       (expected_tags (mRTPSeqNo s) (List.length (mHistory s))) = true.

(** ** The statements of the specification, in its own terms *)

(** The payload an event carries. *)
Definition event_data (ev : Event) : list byte :=
  match ev with
  | SendRequest _ data => data
  | BinaryData _ data => data
  | PostQueuePackets _ _ _ _ packets => packets
  end.

(** The 16-bit sequence number an RTP packet carries at bytes 2-3. *)
Definition rtp_seq_of (ev : Event) : res Z := U16_AT (event_data ev) 2.

(** Two bytes, big-endian. *)
Definition be16 (v : Z) : list byte :=
  [byte.of_Z (v / 256); byte.of_Z v].

(** Bit [i] of the NACK bitmask asks for sequence number
    [base + i + 1 (mod 65536)]. *)
Definition bit_match (seqNo blp : Z) (b : ABuffer) : bool :=
  existsb
    (fun i => Z.testbit blp i
              && (bufferSeqNo_of b =? (seqNo + i + 1) mod 65536))
    (map Z.of_nat (seq 0 16)).

Definition nack_match (seqNo blp : Z) (b : ABuffer) : bool :=
  (bufferSeqNo_of b =? seqNo) || bit_match seqNo blp b.

(** Retransmission framing: the original header with bytes 2-3 replaced by
    the retransmission counter, the original sequence number, the original
    payload. *)
Definition spec_retrans_frame (retransSeqNo : Z) (b : ABuffer) : list byte :=
  let packet := contents b in
  firstn 2 packet ++ be16 (retransSeqNo mod 65536)
    ++ firstn 8 (skipn 4 packet)
    ++ be16 (bufferSeqNo_of b) ++ skipn 12 packet.

Fixpoint spec_retransmissions (sessionID retransSeqNo : Z)
    (l : list ABuffer) : list Event :=
  match l with
  | [] => []
  | b :: l' =>
      SendRequest sessionID (spec_retrans_frame retransSeqNo b)
        :: spec_retransmissions sessionID (to_uint32 (retransSeqNo + 1)) l'
  end.

(** *** The RTCP header fields, as the specification names them *)

Definition byte_at (data : list byte) (i : Z) : Z :=
  byte.unsigned (nth (Z.to_nat i) data Byte.x00).

Definition rtcp_version (data : list byte) : Z := byte_at data 0 / 64.

Definition rtcp_padding_flag (data : list byte) : bool :=
  Z.testbit (byte_at data 0) 5.

Definition rtcp_packet_type (data : list byte) : Z := byte_at data 1.

(** The declared length: 4 times the 16-bit length field, plus 4 bytes. *)
Definition rtcp_length (data : list byte) : Z :=
  4 * (256 * byte_at data 2 + byte_at data 3) + 4.

(** The padding length a sub-packet claims: the last byte of what is left. *)
Definition rtcp_padding (data : list byte) (sz : Z) : Z :=
  byte_at data (sz - 1).

(** What is left once the claimed padding is taken off. *)
Definition rtcp_unpadded (data : list byte) (sz : Z) : Z :=
  if rtcp_padding_flag data then sz - rtcp_padding data sz else sz.

(** The walk over a compound packet and the status it ends with. *)
Inductive rtcp_walk : list byte -> Z -> status_t -> Prop :=
| walk_exhausted data sz :
    sz <= 0 ->
    rtcp_walk data sz OK
| walk_truncated data sz :
    0 < sz < 8 ->
    rtcp_walk data sz ERROR_MALFORMED
| walk_version data sz :
    8 <= sz -> rtcp_version data <> 2 ->
    rtcp_walk data sz ERROR_UNSUPPORTED
| walk_padding data sz :
    8 <= sz -> rtcp_version data = 2 ->
    rtcp_padding_flag data = true -> sz < rtcp_padding data sz + 12 ->
    rtcp_walk data sz ERROR_MALFORMED
| walk_length data sz :
    8 <= sz -> rtcp_version data = 2 ->
    (rtcp_padding_flag data = true -> rtcp_padding data sz + 12 <= sz) ->
    rtcp_unpadded data sz < rtcp_length data ->
    rtcp_walk data sz ERROR_MALFORMED
| walk_next data sz st :
    8 <= sz -> rtcp_version data = 2 ->
    (rtcp_padding_flag data = true -> rtcp_padding data sz + 12 <= sz) ->
    rtcp_length data <= rtcp_unpadded data sz ->
    rtcp_walk (skipn (Z.to_nat (rtcp_length data)) data)
      (rtcp_unpadded data sz - rtcp_length data) st ->
    rtcp_walk data sz st.


(** *** Sample inputs *)

Definition bytes_of (l : list Z) : list byte := map byte.of_Z l.

(** Zero bytes after every datagram. *)
Definition zeros_behind (k : nat) : byte := Byte.x00.

(** The values of the AOSP header, with retransmission compiled in or not. *)
Definition cfg_plain : Config := mkConfig false 0xdeadbeef 128 120 zeros_behind.
Definition cfg_retransmit : Config := mkConfig true 0xdeadbeef 128 120 zeros_behind.

Definition sample_clock (k : nat) : Z := 1000000 + 1000 * Z.of_nat k.


(** An 8-byte receiver report of version 0. *)
Definition rr_version0 : list byte := bytes_of [0x00; 201; 0; 1; 0; 0; 0; 0].

(** A well-formed 8-byte receiver report. *)
Definition rr_plain : list byte := bytes_of [0x80; 201; 0; 1; 0; 0; 0; 0].

(** A generic NACK (type 205, format 1) for source 0xdeadbeef asking for
    sequence number [seqNo] and the ones picked by [blp]. *)
Definition nack_for (seqNo blp : Z) : list byte :=
  bytes_of [0x81; 205; 0; 3; 0; 0; 0; 0; 0xde; 0xad; 0xbe; 0xef;
            seqNo / 256; seqNo; blp / 256; blp].

(** One TS packet: the sync byte and 187 zero bytes. *)
Definition ts_packet : list byte := byte.of_Z 0x47 :: repeat Byte.x00 187.

(** The sender after [n] single-packet batches. *)
Fixpoint sender_after (cfg : Config) (n : nat) : Sender :=
  match n with
  | O => new_Sender
  | S n' =>
      match onQueuePackets cfg sample_clock (sender_after cfg n') ts_packet with
      | Ok (s, _) => s
      | Fault _ => new_Sender
      end
  end.

(** The status of a call, the number of packets it sent and the
    retransmission counter it left. *)
Definition outcome_summary (r : res (status_t * Sender * list Event))
  : option (status_t * nat * Z) :=
  match r with
  | Ok (st, s, evs) => Some (st, List.length evs, mRTPRetransmissionSeqNo s)
  | Fault _ => None
  end.

(** *** Pacing, in the specification's terms *)

(** A run of [queuePackets] calls, each with its timestamp and batch. *)
Fixpoint queue_calls (clock : nat -> Z) (s : Sender)
    (calls : list (Z * list byte)) : Sender * list Event :=
  match calls with
  | [] => (s, [])
  | (timeUs, packets) :: rest =>
      let '(s1, evs1) := queuePackets clock s timeUs packets in
      let '(s2, evs2) := queue_calls clock s1 rest in
      (s2, evs1 ++ evs2)
  end.

Definition in_int64 (z : Z) : Prop := - 2 ^ 63 <= z < 2 ^ 63.

(** The message the specification has a later call post: the clock is
    read for the [k]-th time, the anchors are [firstPresentationTimeUs]
    and [firstSendWallClockUs]. *)
Definition spec_post (clock : nat -> Z)
    (firstPresentationTimeUs firstSendWallClockUs : Z) (k : nat)
    (timeUs : Z) (packets : list byte) : Event :=
  let now := to_int64 (clock k) in
  let intendedSendTime :=
    (timeUs - firstPresentationTimeUs) + firstSendWallClockUs in
  PostQueuePackets (Z.max 0 (intendedSendTime - now))
    timeUs intendedSendTime (intendedSendTime - now) packets.

Fixpoint spec_schedule (clock : nat -> Z)
    (firstPresentationTimeUs firstSendWallClockUs : Z) (k : nat)
    (calls : list (Z * list byte)) : list Event :=
  match calls with
  | [] => []
  | (timeUs, packets) :: rest =>
      spec_post clock firstPresentationTimeUs firstSendWallClockUs k
        timeUs packets
      :: spec_schedule clock firstPresentationTimeUs firstSendWallClockUs
           (S k) rest
  end.

(** None of the 64-bit differences and sums of the later calls
    overflows. *)
Fixpoint no_overflow (clock : nat -> Z)
    (firstPresentationTimeUs firstSendWallClockUs : Z) (k : nat)
    (calls : list (Z * list byte)) : Prop :=
  match calls with
  | [] => True
  | (timeUs, _) :: rest =>
      in_int64 (timeUs - firstPresentationTimeUs)
      /\ in_int64 (timeUs - firstPresentationTimeUs + firstSendWallClockUs)
      /\ in_int64 (timeUs - firstPresentationTimeUs + firstSendWallClockUs
                   - to_int64 (clock k))
      /\ no_overflow clock firstPresentationTimeUs firstSendWallClockUs
           (S k) rest
  end.

(** *** The states of a flush, named *)

(** The queue right after the copy of the TS packet, before any flush. *)
Definition appended (s : Sender) (data : list byte) : ABuffer :=
  setRange0
    (setData (mTSQueue s)
       (store_bytes (mData (mTSQueue s)) (size (mTSQueue s))
          (firstn 188 data)))
    (size (mTSQueue s) + 188).

(** The appended queue with the header stamped on it. *)
Definition stamped (cfg : Config) (clock : nat -> Z) (s : Sender)
    (data : list byte) (disc : bool) : ABuffer :=
  setData (appended s data)
    (store_bytes (mData (appended s data)) 0
       (rtp_header cfg disc (mRTPSeqNo s)
          (rtpTime_of (to_int64 (clock (clockReads s)))))).

(** How a flushed packet leaves: posted as binary data in interleaved
    mode, sent on the RTP session otherwise. *)
Definition rtp_event (s : Sender) (packet : list byte) : Event :=
  if is_interleaved (mTransportMode s)
  then BinaryData (mRTPChannel s) packet
  else SendRequest (mRTPSessionID s) packet.

(** The packet a flush retains: the stamped queue, tagged with the
    sequence number it went out with. *)
Definition retained (cfg : Config) (clock : nat -> Z) (s : Sender)
    (data : list byte) (disc : bool) : ABuffer :=
  setInt32Data (stamped cfg clock s data disc)
    (to_uint32 (to_uint32 (mRTPSeqNo s + 1) - 1)).

(** The queue can take one more TS packet. *)
Definition room (s : Sender) : Prop :=
  size (mTSQueue s) + 188 <= capacity (mTSQueue s).

(** The sequence numbers a run of flushes carries: consecutive from the
    sender's [mRTPSeqNo], modulo 65536. *)
Definition seq_run (s : Sender) (evs : list Event) (s' : Sender) : Prop :=
  map rtp_seq_of evs
  = map (fun j => Ok ((mRTPSeqNo s + Z.of_nat j) mod 2 ^ 16))
        (seq 0 (List.length evs))
  /\ mRTPSeqNo s' mod 2 ^ 16
     = (mRTPSeqNo s + Z.of_nat (List.length evs)) mod 2 ^ 16.

(** *** What the NACK handler may touch *)

(** An event of the retransmission session. *)
Definition is_retransmission (s : Sender) (ev : Event) : Prop :=
  exists packet, ev = SendRequest (mRTPRetransmissionSessionID s) packet.

(** [s'] is [s] up to the retransmission counter. *)
Definition same_but_retransSeqNo (s s' : Sender) : Prop :=
  s' = set_mRTPRetransmissionSeqNo s (mRTPRetransmissionSeqNo s').

(** The header and payload of a retained packet can be read back. *)
Definition readable (b : ABuffer) : Prop :=
  12 <= size b <= Z.of_nat (List.length (mData b)).

(** [n] increments of a [uint32_t] counter. *)
Fixpoint bump (n : nat) (r : Z) : Z :=
  match n with
  | O => r
  | S n' => bump n' (to_uint32 (r + 1))
  end.

(** A feedback packet that is a generic NACK for this sender with the one
    entry ([seqNo], [blp]). *)
Definition single_nack (cfg : Config) (data : list byte) (seqNo blp : Z)
  : Prop :=
  Z.land (byte_at data 0) 31 = 1
  /\ U32_AT data 8 = Ok (kSourceID cfg)
  /\ U16_AT data 12 = Ok seqNo
  /\ U16_AT data 14 = Ok blp.

(** A feedback packet that is a generic NACK for this sender with the
    entries [entries], each a sequence number and a bitmask, in the
    order they stand in the packet from offset 12 on. *)
Definition nack_with (cfg : Config) (data : list byte)
    (entries : list (Z * Z)) : Prop :=
  Z.land (byte_at data 0) 31 = 1
  /\ U32_AT data 8 = Ok (kSourceID cfg)
  /\ forall (j : nat) (seqNo blp : Z),
       nth_error entries j = Some (seqNo, blp) ->
       U16_AT data (12 + 4 * Z.of_nat j) = Ok seqNo
       /\ U16_AT data (12 + 4 * Z.of_nat j + 2) = Ok blp.

(** What the specification has the handler send for the entries of a
    NACK, entry by entry: the packets of the history the entry names,
    oldest first, in the retransmission framing, the retransmission
    counter running on from one entry to the next. *)
Fixpoint spec_nack_answers (sessionID retransSeqNo : Z)
    (history : list ABuffer) (entries : list (Z * Z)) : list (list Event) :=
  match entries with
  | [] => []
  | (seqNo, blp) :: rest =>
      let matched := filter (nack_match seqNo blp) history in
      spec_retransmissions sessionID retransSeqNo matched
      :: spec_nack_answers sessionID
           (bump (List.length matched) retransSeqNo) history rest
  end.

(** A sub-packet of a compound RTCP packet that is all there: at least
    the 8 bytes of a header, version 2, no padding, and as long as its
    length field says. *)
Definition whole_subpacket (sub : list byte) : Prop :=
  8 <= Z.of_nat (List.length sub)
  /\ rtcp_version sub = 2
  /\ rtcp_padding_flag sub = false
  /\ rtcp_length sub = Z.of_nat (List.length sub).

(** The NACK handler turns the feedback packet down: it is not a
    generic NACK (format 1), or the source id it carries is not the
    sender's. *)
Definition rejected_feedback (cfg : Config) (sub : list byte) : Prop :=
  Z.land (byte_at sub 0) 31 <> 1
  \/ (exists srcId, U32_AT sub 8 = Ok srcId /\ srcId <> kSourceID cfg).

(** *** More sample inputs *)

(** A history of at most two packets. *)
Definition cfg_small : Config := mkConfig true 0xdeadbeef 2 120 zeros_behind.

(** A generic NACK for source 0xdeadbeef with two entries. *)
Definition nack_for_two (seqNo1 blp1 seqNo2 blp2 : Z) : list byte :=
  bytes_of [0x81; 205; 0; 4; 0; 0; 0; 0; 0xde; 0xad; 0xbe; 0xef;
            seqNo1 / 256; seqNo1; blp1 / 256; blp1;
            seqNo2 / 256; seqNo2; blp2 / 256; blp2].

(** A transport-feedback packet of format 2, which the NACK handler does
    not know. *)
Definition tsfb_format2 : list byte :=
  bytes_of [0x82; 205; 0; 3; 0; 0; 0; 0; 0xde; 0xad; 0xbe; 0xef;
            0; 1; 0; 1].

(** *** The states the sender goes through *)

(** From the constructor, by the calls modelled here. *)
Inductive reachable (cfg : Config) (clock : nat -> Z) : Sender -> Prop :=
| reach_new :
    reachable cfg clock new_Sender
| reach_init (Net : Type) (net_ops : ANetworkSession Net)
      (fuel : nat) (s : Sender) (net : Net) (clientIP : string)
      (clientRtp clientRtcp : Z) (transportMode : TransportMode)
      (err : status_t) (s' : Sender) (net' : Net) :
    reachable cfg clock s ->
    init cfg fuel s net clientIP clientRtp clientRtcp transportMode
      = Ok (err, s', net') ->
    reachable cfg clock s'
| reach_queuePackets (s : Sender) (timeUs : Z) (packets : list byte) :
    reachable cfg clock s ->
    reachable cfg clock (fst (queuePackets clock s timeUs packets))
| reach_GetNowUs (s : Sender) :
    reachable cfg clock s ->
    reachable cfg clock (snd (GetNowUs clock s))
| reach_appendTSData (s : Sender) (data : list byte) (sz : Z)
      (timeDiscontinuity flush : bool) (n : Z) (s' : Sender)
      (evs : list Event) :
    reachable cfg clock s ->
    appendTSData cfg clock s data sz timeDiscontinuity flush
      = Ok (n, s', evs) ->
    reachable cfg clock s'
| reach_parseRTCP (s : Sender) (buffer : list byte) (err : status_t)
      (s' : Sender) (evs : list Event) :
    reachable cfg clock s ->
    parseRTCP cfg s buffer = Ok (err, s', evs) ->
    reachable cfg clock s'.

(** [init] writes the session members only. *)
Definition only_session_differs (s s' : Sender) : Prop :=
  s' = set_session s (mClientIP s') (mTransportMode s')
         (mRTPChannel s') (mRTCPChannel s') (mRTPPort s')
         (mRTPSessionID s') (mRTCPSessionID s')
         (mRTPRetransmissionSessionID s') (mRTCPRetransmissionSessionID s')
         (mClientRTPPort s') (mClientRTCPPort s').

(** What holds in every such state. *)
Definition sender_inv (cfg : Config) (s : Sender) : Prop :=
  queue_inv s /\ history_inv cfg s
  /\ (ENABLE_RETRANSMISSION cfg = false -> mHistory s = []).

(** ** The control channel and the session lifecycle *)

(** The members of [Sender] that the packetizer does not touch, next to
    the ones it does.  [mNumSRsSent] is a [uint32_t] like the other
    counters. *)
Record Handler : Type := mkHandler {
  sender : Sender;
  mRTPConnected : bool;
  mRTCPConnected : bool;
  mNumSRsSent : Z;
  mSendSRPending : bool
}.

(** The constructor, for these members. *)
Definition new_Handler : Handler :=
  {| sender := new_Sender;
     mRTPConnected := false;
     mRTCPConnected := false;
     mNumSRsSent := 0;
     mSendSRPending := false |}.

Definition set_sender (h : Handler) (s : Sender) : Handler :=
  {| sender := s;
     mRTPConnected := mRTPConnected h;
     mRTCPConnected := mRTCPConnected h;
     mNumSRsSent := mNumSRsSent h;
     mSendSRPending := mSendSRPending h |}.

Definition set_mRTPConnected (h : Handler) (b : bool) : Handler :=
  {| sender := sender h;
     mRTPConnected := b;
     mRTCPConnected := mRTCPConnected h;
     mNumSRsSent := mNumSRsSent h;
     mSendSRPending := mSendSRPending h |}.

Definition set_mRTCPConnected (h : Handler) (b : bool) : Handler :=
  {| sender := sender h;
     mRTPConnected := mRTPConnected h;
     mRTCPConnected := b;
     mNumSRsSent := mNumSRsSent h;
     mSendSRPending := mSendSRPending h |}.

Definition set_mNumSRsSent (h : Handler) (n : Z) : Handler :=
  {| sender := sender h;
     mRTPConnected := mRTPConnected h;
     mRTCPConnected := mRTCPConnected h;
     mNumSRsSent := n;
     mSendSRPending := mSendSRPending h |}.

Definition set_mSendSRPending (h : Handler) (b : bool) : Handler :=
  {| sender := sender h;
     mRTPConnected := mRTPConnected h;
     mRTCPConnected := mRTCPConnected h;
     mNumSRsSent := mNumSRsSent h;
     mSendSRPending := b |}.

Definition set_mRTPSessionID (s : Sender) (v : Z) : Sender :=
  set_session s (mClientIP s) (mTransportMode s) (mRTPChannel s)
    (mRTCPChannel s) (mRTPPort s) v (mRTCPSessionID s)
    (mRTPRetransmissionSessionID s) (mRTCPRetransmissionSessionID s)
    (mClientRTPPort s) (mClientRTCPPort s).

Definition set_mRTCPSessionID (s : Sender) (v : Z) : Sender :=
  set_session s (mClientIP s) (mTransportMode s) (mRTPChannel s)
    (mRTCPChannel s) (mRTPPort s) (mRTPSessionID s) v
    (mRTPRetransmissionSessionID s) (mRTCPRetransmissionSessionID s)
    (mClientRTPPort s) (mClientRTCPPort s).

Definition set_mRTPRetransmissionSessionID (s : Sender) (v : Z) : Sender :=
  set_session s (mClientIP s) (mTransportMode s) (mRTPChannel s)
    (mRTCPChannel s) (mRTPPort s) (mRTPSessionID s) (mRTCPSessionID s)
    v (mRTCPRetransmissionSessionID s)
    (mClientRTPPort s) (mClientRTCPPort s).

Definition set_mRTCPRetransmissionSessionID (s : Sender) (v : Z) : Sender :=
  set_session s (mClientIP s) (mTransportMode s) (mRTPChannel s)
    (mRTCPChannel s) (mRTPPort s) (mRTPSessionID s) (mRTCPSessionID s)
    (mRTPRetransmissionSessionID s) v
    (mClientRTPPort s) (mClientRTCPPort s).

(** What the handler posts upwards through [mNotify], next to the
    packets. *)
Inductive NotifyWhat : Type :=
| kWhatInitDone
| kWhatSessionDead.

Inductive Effect : Type :=
| Sent (ev : Event)
    (* a packet handed out, or a message of the packetizer *)
| PostSendSR (delayUs : Z)
    (* (new AMessage(kWhatSendSR, id()))->post(delayUs) *)
| Notify (what : NotifyWhat).
    (* mNotify->dup(), what = ..., posted *)

Definition notifyInitDone : list Effect := [Notify kWhatInitDone].
Definition notifySessionDead : list Effect := [Notify kWhatSessionDead].

(** Modelled from the spec: [AMessage] is one of the "generic
    buffer/message container implementations", not under src/.  It is
    given by what the handler asks of it: its [what] and the items it
    finds by name.  The values of [what] are the case labels of
    [onMessageReceived]. *)
Inductive What : Type :=
| kWhatRTPNotify
| kWhatRTCPNotify
| kWhatRTPRetransmissionNotify
| kWhatRTCPRetransmissionNotify
| kWhatQueuePackets
| kWhatSendSR.

Inductive Item : Type :=
| Int32 (v : Z)
| AString (str : string)
| Buffer (bytes : list byte).

Record AMessage : Type := mkAMessage {
  what : What;
  items : list (string * Item)
}.

Fixpoint findItem (l : list (string * Item)) (name : string) : option Item :=
  match l with
  | [] => None
  | (k, v) :: l' => if String.eqb k name then Some v else findItem l' name
  end.

Definition findInt32 (msg : AMessage) (name : string) : option Z :=
  match findItem (items msg) name with
  | Some (Int32 v) => Some v
  | _ => None
  end.

Definition findString (msg : AMessage) (name : string) : option string :=
  match findItem (items msg) name with
  | Some (AString str) => Some str
  | _ => None
  end.

Definition findBuffer (msg : AMessage) (name : string)
  : option (list byte) :=
  match findItem (items msg) name with
  | Some (Buffer bytes) => Some bytes
  | _ => None
  end.

(** [CHECK(msg->find...(name, &x))]. *)
Definition CHECK_found {A : Type} (o : option A) : res A :=
  match o with
  | Some a => Ok a
  | None => Fault CheckFailed
  end.

(** The notification reasons of [ANetworkSession.h], which is not under
    src/: three integer constants, parameters of the model.  They are case
    labels of one [switch], hence pairwise different. *)
Record Reasons : Type := mkReasons {
  kWhatError : Z;
  kWhatConnected : Z;
  kWhatDatagram : Z
}.

Definition reasons_distinct (r : Reasons) : Prop :=
  kWhatError r <> kWhatDatagram r
  /\ kWhatError r <> kWhatConnected r
  /\ kWhatDatagram r <> kWhatConnected r.

Definition kCNAME : string := "someone@somewhere".
Definition kNOTE : string := "Hell's frozen over.".

Definition strlen (str : string) : Z := Z.of_nat (String.length str).

(** The stores [data[0] .. data[n - 1]] at [data = buffer->data() +
    buffer->size()] stay inside the buffer's memory. *)
Definition writable (buffer : ABuffer) (n : Z) : res unit :=
  if (0 <=? size buffer)
     && (size buffer + n <=? Z.of_nat (List.length (mData buffer)))
  then Ok tt else Fault OutOfBounds.

Section Reports.

Variable cfg : Config.

(** [addSR]: the 28 stores, each into a [uint8_t], and the new range. *)
Definition addSR (s : Sender) (buffer : ABuffer) : res ABuffer :=
  _ <- writable buffer 28 ;;
  let data :=
    map byte.of_Z
      [ Z.lor 0x80 0;
        200;
        0;
        6;
        Z.shiftr (kSourceID cfg) 24;
        Z.land (Z.shiftr (kSourceID cfg) 16) 0xff;
        Z.land (Z.shiftr (kSourceID cfg) 8) 0xff;
        Z.land (kSourceID cfg) 0xff;
        Z.shiftr (mLastNTPTime s) (64 - 8);
        Z.land (Z.shiftr (mLastNTPTime s) (64 - 16)) 0xff;
        Z.land (Z.shiftr (mLastNTPTime s) (64 - 24)) 0xff;
        Z.land (Z.shiftr (mLastNTPTime s) 32) 0xff;
        Z.land (Z.shiftr (mLastNTPTime s) 24) 0xff;
        Z.land (Z.shiftr (mLastNTPTime s) 16) 0xff;
        Z.land (Z.shiftr (mLastNTPTime s) 8) 0xff;
        Z.land (mLastNTPTime s) 0xff;
        Z.land (Z.shiftr (mLastRTPTime s) 24) 0xff;
        Z.land (Z.shiftr (mLastRTPTime s) 16) 0xff;
        Z.land (Z.shiftr (mLastRTPTime s) 8) 0xff;
        Z.land (mLastRTPTime s) 0xff;
        Z.shiftr (mNumRTPSent s) 24;
        Z.land (Z.shiftr (mNumRTPSent s) 16) 0xff;
        Z.land (Z.shiftr (mNumRTPSent s) 8) 0xff;
        Z.land (mNumRTPSent s) 0xff;
        Z.shiftr (mNumRTPOctetsSent s) 24;
        Z.land (Z.shiftr (mNumRTPOctetsSent s) 16) 0xff;
        Z.land (Z.shiftr (mNumRTPOctetsSent s) 8) 0xff;
        Z.land (mNumRTPOctetsSent s) 0xff ] in
  Ok (setRange0
        (setData buffer (store_bytes (mData buffer) (size buffer) data))
        (size buffer + 28)).

(** [addSDES]: [offset] runs over the stores as in the source; the length
    field at [data[2]], [data[3]] is stored last. *)
Definition addSDES (buffer : ABuffer) : res ABuffer :=
  let head := map byte.of_Z [ Z.lor 0x80 1; 202 ] in
  let ssrc :=
    map byte.of_Z
      [ Z.shiftr (kSourceID cfg) 24;
        Z.land (Z.shiftr (kSourceID cfg) 16) 0xff;
        Z.land (Z.shiftr (kSourceID cfg) 8) 0xff;
        Z.land (kSourceID cfg) 0xff ] in
  let offset := 8 in
  let cname :=
    byte.of_Z 1 :: byte.of_Z (strlen kCNAME) :: list_byte_of_string kCNAME in
  let offset := offset + 1 + 1 + strlen kCNAME in
  let note :=
    byte.of_Z 7 :: byte.of_Z (strlen kNOTE) :: list_byte_of_string kNOTE in
  let offset := offset + 1 + 1 + strlen kNOTE in
  let terminator := [byte.of_Z 0] in
  let offset := offset + 1 in
  let count := if 0 <? offset mod 4 then 4 - offset mod 4 else 0 in
  let padding := repeat (byte.of_Z 0) (Z.to_nat count) in
  let offset := offset + count in
  let numWords := offset / 4 - 1 in
  let length_field :=
    map byte.of_Z [ Z.shiftr numWords 8; Z.land numWords 0xff ] in
  _ <- writable buffer offset ;;
  let mem := mData buffer in
  let mem := store_bytes mem (size buffer) head in
  let mem := store_bytes mem (size buffer + 4) ssrc in
  let mem :=
    store_bytes mem (size buffer + 8) (cname ++ note ++ terminator ++ padding) in
  let mem := store_bytes mem (size buffer + 2) length_field in
  Ok (setRange0 (setData buffer mem) (size buffer + offset)).

(** [onSendSR]: the report is built in a fresh buffer of 1500 bytes and
    posted as binary data in interleaved mode, sent on the RTCP session
    otherwise. *)
Definition onSendSR (h : Handler) : res (Handler * list Effect) :=
  let buffer := new_ABuffer 1500 in
  let buffer := setRange0 buffer 0 in
  buffer <- addSR (sender h) buffer ;;
  buffer <- addSDES buffer ;;
  let ev :=
    if is_interleaved (mTransportMode (sender h))
    then BinaryData (mRTCPChannel (sender h)) (contents buffer)
    else SendRequest (mRTCPSessionID (sender h)) (contents buffer) in
  Ok (set_mNumSRsSent h (to_uint32 (mNumSRsSent h + 1)), [Sent ev]).

(** [kSendSRIntervalUs] is a constant of [Sender.h]. *)
Variable kSendSRIntervalUs : Z.

Definition scheduleSendSR (h : Handler) : Handler * list Effect :=
  if mSendSRPending h || (mRTCPSessionID (sender h) =? 0) then (h, [])
  else (set_mSendSRPending h true, [PostSendSR kSendSRIntervalUs]).

(** ** The message handler *)

Variable clock : nat -> Z.
Variable reasons : Reasons.
Context {Net : Type} {net_ops : ANetworkSession Net}.

(** The case labels of the outer [switch] that lead into the
    notification block; the two for the retransmission sessions exist
    under [ENABLE_RETRANSMISSION] only. *)
Definition is_notify (w : What) : bool :=
  match w with
  | kWhatRTPNotify | kWhatRTCPNotify => true
  | kWhatRTPRetransmissionNotify | kWhatRTCPRetransmissionNotify =>
      ENABLE_RETRANSMISSION cfg
  | _ => false
  end.

(** [msg->what() == kWhatRTPNotify
     || msg->what() == kWhatRTPRetransmissionNotify]. *)
Definition is_rtp_notify (w : What) : bool :=
  match w with
  | kWhatRTPNotify => true
  | kWhatRTPRetransmissionNotify => ENABLE_RETRANSMISSION cfg
  | _ => false
  end.

Definition is_rtcp_notify (w : What) : bool :=
  match w with
  | kWhatRTCPNotify => true
  | kWhatRTCPRetransmissionNotify => ENABLE_RETRANSMISSION cfg
  | _ => false
  end.

Definition is_tcp (m : TransportMode) : bool :=
  match m with TRANSPORT_TCP => true | _ => false end.

(** [case ANetworkSession::kWhatError]. *)
Definition onError (h : Handler) (net : Net) (msg : AMessage)
  : res (Handler * Net * list Effect) :=
  sessionID <- CHECK_found (findInt32 msg "sessionID") ;;
  err <- CHECK_found (findInt32 msg "err") ;;
  errorOccuredDuringSend <- CHECK_found (findInt32 msg "send") ;;
  detail <- CHECK_found (findString msg "detail") ;;
  if is_rtp_notify (what msg) && (errorOccuredDuringSend =? 0)
  then Ok (h, net, [])
  else
    let net := destroySession net sessionID in
    let s := sender h in
    let s :=
      if sessionID =? mRTPSessionID s then set_mRTPSessionID s 0
      else if sessionID =? mRTCPSessionID s then set_mRTCPSessionID s 0
      else if ENABLE_RETRANSMISSION cfg
              && (sessionID =? mRTPRetransmissionSessionID s)
           then set_mRTPRetransmissionSessionID s 0
      else if ENABLE_RETRANSMISSION cfg
              && (sessionID =? mRTCPRetransmissionSessionID s)
           then set_mRTCPRetransmissionSessionID s 0
      else s in
    Ok (set_sender h s, net, notifySessionDead).

(** [case ANetworkSession::kWhatDatagram]: the status of [parseRTCP] is
    dropped. *)
Definition onDatagram (h : Handler) (net : Net) (msg : AMessage)
  : res (Handler * Net * list Effect) :=
  sessionID <- CHECK_found (findInt32 msg "sessionID") ;;
  data <- CHECK_found (findBuffer msg "data") ;;
  if is_rtcp_notify (what msg) then
    '(_, s, evs) <- parseRTCP cfg (sender h) data ;;
    Ok (set_sender h s, net, map Sent evs)
  else Ok (h, net, []).

(** [case ANetworkSession::kWhatConnected]; [TRESPASS()] stops like a
    failed [CHECK]. *)
Definition onConnected (h : Handler) (net : Net) (msg : AMessage)
  : res (Handler * Net * list Effect) :=
  _ <- CHECK (is_tcp (mTransportMode (sender h))) ;;
  sessionID <- CHECK_found (findInt32 msg "sessionID") ;;
  h <- (if sessionID =? mRTPSessionID (sender h) then
          _ <- CHECK (negb (mRTPConnected h)) ;;
          Ok (set_mRTPConnected h true)
        else if sessionID =? mRTCPSessionID (sender h) then
          _ <- CHECK (negb (mRTCPConnected h)) ;;
          Ok (set_mRTCPConnected h true)
        else Fault CheckFailed) ;;
  if mRTPConnected h
     && ((mClientRTCPPort (sender h) <? 0) || mRTCPConnected h)
  then Ok (h, net, notifyInitDone)
  else Ok (h, net, []).

Definition onMessageReceived (h : Handler) (net : Net) (msg : AMessage)
  : res (Handler * Net * list Effect) :=
  if is_notify (what msg) then
    reason <- CHECK_found (findInt32 msg "reason") ;;
    if reason =? kWhatError reasons then onError h net msg
    else if reason =? kWhatDatagram reasons then onDatagram h net msg
    else if reason =? kWhatConnected reasons then onConnected h net msg
    else Fault CheckFailed
  else
    match what msg with
    | kWhatQueuePackets =>
        packets <- CHECK_found (findBuffer msg "packets") ;;
        '(s, evs) <- onQueuePackets cfg clock (sender h) packets ;;
        Ok (set_sender h s, net, map Sent evs)
    | kWhatSendSR =>
        let h := set_mSendSRPending h false in
        if mRTCPSessionID (sender h) =? 0 then Ok (h, net, [])
        else
          '(h, effs) <- onSendSR h ;;
          let '(h, effs') := scheduleSendSR h in
          Ok (h, net, effs ++ effs')
    | _ => Ok (h, net, [])
    end.

(** The looper handing one message after the other to
    [onMessageReceived]. *)
Fixpoint deliver_messages (h : Handler) (net : Net) (msgs : list AMessage)
  : res (Handler * Net * list Effect) :=
  match msgs with
  | [] => Ok (h, net, [])
  | msg :: rest =>
      '(h, net, effs) <- onMessageReceived h net msg ;;
      '(h, net, effs') <- deliver_messages h net rest ;;
      Ok (h, net, effs ++ effs')
  end.

(** ** The end of the session setup, and the teardown *)

(** [finishInit]: the members [mRTPSessionID] and [mRTCPSessionID] are
    the out-pointers of the two calls, so they take what the call
    stored. *)
Definition finishInit (s : Sender) (net : Net)
  : status_t * Sender * Net * list Effect :=
  if negb (is_tcp (mTransportMode s)) then (OK, s, net, notifyInitDone)
  else
    let '(err, rtpSession, net) :=
      createTCPDatagramSession net (mRTPPort s) (mClientIP s)
        (mClientRTPPort s) in
    let s := set_mRTPSessionID s rtpSession in
    if failed err then (err, s, net, [])
    else if 0 <=? mClientRTCPPort s then
      let '(err, rtcpSession, net) :=
        createTCPDatagramSession net (mRTPPort s + 1) (mClientIP s)
          (mClientRTCPPort s) in
      let s := set_mRTCPSessionID s rtcpSession in
      if failed err then (err, s, net, [])
      else (OK, s, net, [])
    else (OK, s, net, []).

Definition getRTPPort (s : Sender) : Z := mRTPPort s.

(** The destructor. *)
Definition delete_Sender (s : Sender) (net : Net) : Net :=
  let net :=
    if ENABLE_RETRANSMISSION cfg
       && negb (mRTCPRetransmissionSessionID s =? 0)
    then destroySession net (mRTCPRetransmissionSessionID s) else net in
  let net :=
    if ENABLE_RETRANSMISSION cfg
       && negb (mRTPRetransmissionSessionID s =? 0)
    then destroySession net (mRTPRetransmissionSessionID s) else net in
  let net :=
    if negb (mRTCPSessionID s =? 0)
    then destroySession net (mRTCPSessionID s) else net in
  let net :=
    if negb (mRTPSessionID s =? 0)
    then destroySession net (mRTPSessionID s) else net in
  net.

End Reports.

(** ** What a batch puts on the wire *)

(** The payload an RTP packet carries after its 12-byte header. *)
Definition rtp_payload (ev : Event) : list byte := skipn 12 (event_data ev).

(** The TS bytes waiting in the accumulation buffer. *)
Definition pending (s : Sender) : list byte :=
  skipn 12 (contents (mTSQueue s)).

(** The lengths of the RTP packets that carry [n] TS packets: full ones
    of 7 TS packets, then one with the rest. *)
Definition packet_sizes (n : nat) : list Z :=
  repeat (12 + 188 * 7) (n / 7)
  ++ (if (n mod 7 =? 0)%nat then [] else [12 + 188 * Z.of_nat (n mod 7)]).

(** How a report leaves: posted as binary data in interleaved mode, sent
    on the RTCP session otherwise. *)
Definition rtcp_event (s : Sender) (packet : list byte) : Event :=
  if is_interleaved (mTransportMode s)
  then BinaryData (mRTCPChannel s) packet
  else SendRequest (mRTCPSessionID s) packet.

(** ** Runs of messages *)

(** How often a notification was posted. *)
Definition count_notify (w : NotifyWhat) (effs : list Effect) : nat :=
  List.length
    (filter (fun e => match e, w with
                      | Notify kWhatInitDone, kWhatInitDone => true
                      | Notify kWhatSessionDead, kWhatSessionDead => true
                      | _, _ => false
                      end) effs).

(** A notification of the network session with the given reason. *)
Definition notifies (cfg : Config) (msg : AMessage) (reason : Z) : Prop :=
  is_notify cfg (what msg) = true
  /\ findInt32 msg "reason" = Some reason.

(** The handler's members outside the packetizer are the same. *)
Definition same_flags (h h' : Handler) : Prop :=
  mRTPConnected h' = mRTPConnected h
  /\ mRTCPConnected h' = mRTCPConnected h
  /\ mNumSRsSent h' = mNumSRsSent h
  /\ mSendSRPending h' = mSendSRPending h.

(** ** A network that keeps books *)

(** Modelled from the spec: the network session manager is an external
    collaborator ("socket creation, async datagram delivery, connection
    establishment notifications").  This one binds a local port when
    [free] allows it and no open session holds it, hands out fresh
    session ids, and keeps the calls made and the sessions open. *)
Inductive NetCall : Type :=
| CreateUDP (localPort : Z) (remoteHost : string) (remotePort : Z)
| CreateTCPDatagram (localPort : Z) (remoteHost : string) (remotePort : Z)
| Destroy (sessionID : Z).

Record Network : Type := mkNetwork {
  calls : list NetCall;       (* newest last *)
  sessions : list (Z * Z);    (* open: session id and local port *)
  lastID : Z
}.

Definition bound (net : Network) (port : Z) : bool :=
  existsb (fun e => snd e =? port) (sessions net).

Definition open_session (free : Z -> bool) (call : NetCall) (net : Network)
    (port : Z) : status_t * Z * Network :=
  if free port && negb (bound net port) then
    (OK, lastID net + 1,
     {| calls := calls net ++ [call];
        sessions := (lastID net + 1, port) :: sessions net;
        lastID := lastID net + 1 |})
  else
    (UNKNOWN_ERROR, 0,
     {| calls := calls net ++ [call];
        sessions := sessions net;
        lastID := lastID net |}).

Definition close_session (net : Network) (id : Z) : Network :=
  {| calls := calls net ++ [Destroy id];
     sessions := filter (fun e => negb (fst e =? id)) (sessions net);
     lastID := lastID net |}.

Definition bookkeeping (free : Z -> bool) : ANetworkSession Network := {|
  createUDPSession net port ip rport :=
    open_session free (CreateUDP port ip rport) net port;
  createTCPDatagramSession net port ip rport :=
    open_session free (CreateTCPDatagram port ip rport) net port;
  destroySession := close_session
|}.

(** A network with nothing open yet. *)
Definition fresh_network : Network :=
  {| calls := []; sessions := []; lastID := 0 |}.

(** The local ports one round of the port scan of [init] binds, in the
    order it binds them. *)
Definition round_ports (cfg : Config) (clientRtcp serverRtp : Z) : list Z :=
  [serverRtp]
  ++ (if 0 <=? clientRtcp then [serverRtp + 1] else [])
  ++ (if ENABLE_RETRANSMISSION cfg
      then [serverRtp + kRetransmissionPortOffset cfg;
            serverRtp + 1 + kRetransmissionPortOffset cfg]
      else []).

(** All ports of the round can be bound. *)
Definition round_free (free : Z -> bool) (cfg : Config)
    (clientRtcp serverRtp : Z) : bool :=
  forallb free (round_ports cfg clientRtcp serverRtp).

(** The route of the packets: the transport mode, the channels and the
    sessions for RTP and RTCP. *)
Definition same_route (s s' : Sender) : Prop :=
  mTransportMode s' = mTransportMode s
  /\ mRTPChannel s' = mRTPChannel s
  /\ mRTPSessionID s' = mRTPSessionID s
  /\ mRTCPChannel s' = mRTCPChannel s
  /\ mRTCPSessionID s' = mRTCPSessionID s.

(** The sessions the sender holds, in the order the destructor takes
    them. *)
Definition held_sessions (cfg : Config) (s : Sender) : list Z :=
  filter (fun id => negb (id =? 0))
    ((if ENABLE_RETRANSMISSION cfg
      then [mRTCPRetransmissionSessionID s; mRTPRetransmissionSessionID s]
      else [])
     ++ [mRTCPSessionID s; mRTPSessionID s]).

(** ** Statements about the walker and the history *)

(** A whole sub-packet without padding that is no transport feedback for
    the NACK handler. *)
Definition plain_subpacket (cfg : Config) (sub : list byte) : Prop :=
  8 <= Z.of_nat (List.length sub)
  /\ rtcp_version sub = 2
  /\ rtcp_padding_flag sub = false
  /\ rtcp_length sub = Z.of_nat (List.length sub)
  /\ (rtcp_packet_type sub <> 205 \/ ENABLE_RETRANSMISSION cfg = false).

(** The last [n] elements of a list. *)
Definition last_n {A : Type} (n : Z) (l : list A) : list A :=
  skipn (List.length l - Z.to_nat n) l.

(** The NACK entries of a feedback packet of [sz] bytes, from offset
    [i] on: each is a sequence number and a bitmask. *)
Fixpoint nack_entries (fuel : nat) (data : list byte) (sz i : Z)
  : list (res Z * res Z) :=
  match fuel with
  | O => []
  | S fuel' =>
      if i <? sz
      then (U16_AT data i, U16_AT data (i + 2))
             :: nack_entries fuel' data sz (i + 4)
      else []
  end.

(** What a receiver does with a retransmission packet: the original
    sequence number goes back into the header and leaves the payload. *)
Definition undo_retransmission (frame : list byte) : list byte :=
  firstn 2 frame ++ firstn 2 (skipn 12 frame)
    ++ firstn 8 (skipn 4 frame) ++ skipn 14 frame.

(** ** More sample inputs *)

(** Values for the notification reasons. *)
Definition sample_reasons : Reasons := mkReasons 0 1 4.

(** A handler in TCP mode after [finishInit]: RTP session 1 on port
    20000, RTCP session 2, toward the client ports 5004 and 5005. *)
Definition tcp_handler : Handler :=
  set_sender new_Handler
    (set_session new_Sender "10.0.0.2"%string TRANSPORT_TCP 0 0 20000 1 2 0 0
       5004 5005).

(** The connected notification for a session. *)
Definition connected_msg (w : What) (sessionID : Z) : AMessage :=
  mkAMessage w [("reason"%string, Int32 1); ("sessionID"%string, Int32 sessionID)].

(** An error notification for a session. *)
Definition error_msg (w : What) (sessionID send : Z) : AMessage :=
  mkAMessage w
    [("reason"%string, Int32 0); ("sessionID"%string, Int32 sessionID);
     ("err"%string, Int32 (-32)); ("send"%string, Int32 send);
     ("detail"%string, AString "Broken pipe"%string)].


(** The message of the report timer. *)
Definition sendSR_msg : AMessage := mkAMessage kWhatSendSR [].

(** A generic NACK of 8 bytes, header only: the source id the handler
    reads lies after the datagram. *)
Definition short_feedback : list byte :=
  bytes_of [0x81; 205; 0; 1; 0; 0; 0; 0].

(** A network on which port 15550 is taken and every other port free. *)
Definition port_15550_taken (port : Z) : bool := negb (port =? 15550).

(** The first packet of the history. *)
Definition oldest_held (s : Sender) : ABuffer :=
  hd (new_ABuffer 0) (mHistory s).

(** * Part II: proofs *)

(** Closed facts about the sample inputs are settled by evaluation. *)
Ltac by_evaluation :=
  vm_compute;
  first [ reflexivity
        | intro; discriminate
        | split; first [reflexivity | intro; discriminate] ].

(** The byte-level operations stay folded under [cbn] and [simpl]. *)
#[local] Arguments store_bytes : simpl never.
#[local] Arguments rtp_header : simpl never.
#[local] Arguments new_ABuffer : simpl never.
#[local] Arguments to_uint32 : simpl never.
#[local] Arguments to_int32 : simpl never.
#[local] Arguments to_int64 : simpl never.
#[local] Arguments rtpTime_of : simpl never.
#[local] Arguments ntp_of_us : simpl never.
#[local] Arguments contents : simpl never.
#[local] Arguments Z.mul : simpl never.
#[local] Arguments Z.add : simpl never.
#[local] Arguments Z.sub : simpl never.

(** ** Byte stores *)

Lemma kQueueCapacity_eq : kQueueCapacity = 1328.
Proof. reflexivity. Qed.

Lemma length_store_bytes (mem : list byte) (off : Z) (src : list byte) :
  0 <= off ->
  off + Z.of_nat (List.length src) <= Z.of_nat (List.length mem) ->
  List.length (store_bytes mem off src) = List.length mem.
Proof.
  intros Hoff Hfit. unfold store_bytes.
  rewrite !length_app, length_firstn, length_skipn. lia.
Qed.

Lemma length_load_bytes (mem : list byte) (off n : Z) (bs : list byte) :
  load_bytes mem off n = Ok bs -> Z.of_nat (List.length bs) = n.
Proof.
  unfold load_bytes. intros H.
  destruct ((0 <=? off) && (0 <=? n) && (off + n <=? Z.of_nat (List.length mem))) eqn:E;
    [|discriminate].
  injection H as <-.
  rewrite !andb_true_iff in E. destruct E as [[E1 E2] E3].
  rewrite length_firstn, length_skipn. lia.
Qed.

Lemma load_bytes_ok (mem : list byte) (off n : Z) :
  0 <= off -> 0 <= n -> off + n <= Z.of_nat (List.length mem) ->
  load_bytes mem off n = Ok (firstn (Z.to_nat n) (skipn (Z.to_nat off) mem)).
Proof.
  intros. unfold load_bytes.
  replace ((0 <=? off) && (0 <=? n) && (off + n <=? Z.of_nat (List.length mem)))
    with true; [reflexivity|].
  symmetry. rewrite !andb_true_iff. lia.
Qed.

Lemma buffer_ok_iff (b : ABuffer) :
  buffer_ok b = true <->
  capacity b = kQueueCapacity /\ Z.of_nat (List.length (mData b)) = kQueueCapacity.
Proof. unfold buffer_ok. rewrite andb_true_iff, !Z.eqb_eq. tauto. Qed.

Lemma queue_ok_iff (q : ABuffer) :
  queue_ok q = true <->
  buffer_ok q = true /\ 12 <= size q <= capacity q /\ (size q - 12) mod 188 = 0.
Proof.
  unfold queue_ok. rewrite !andb_true_iff, !Z.leb_le, Z.eqb_eq. tauto.
Qed.

Lemma queue_inv_iff (s : Sender) :
  queue_inv s <->
  queue_ok (mTSQueue s) = true /\ Forall (fun b => buffer_ok b = true) (mHistory s).
Proof.
  unfold queue_inv. rewrite andb_true_iff, forallb_forall, Forall_forall. tauto.
Qed.

Lemma buffer_ok_new : buffer_ok (new_ABuffer kQueueCapacity) = true.
Proof. vm_compute. reflexivity. Qed.

(** ** Buffers kept in the history *)

Section HistoryBuffers.

Variable cfg : Config.
Variable clock : nat -> Z.

Lemma retain_in_history_queue (s : Sender) :
  buffer_ok (mTSQueue s) = true ->
  Forall (fun b => buffer_ok b = true) (mHistory s) ->
  buffer_ok (mTSQueue (retain_in_history cfg s)) = true
  /\ Forall (fun b => buffer_ok b = true) (mHistory (retain_in_history cfg s)).
Proof.
  intros Hq Hh. unfold retain_in_history.
  set (q := setInt32Data (mTSQueue s) _).
  assert (Hq' : buffer_ok q = true) by exact Hq.
  assert (Hall : Forall (fun b => buffer_ok b = true) (mHistory s ++ [q])).
  { apply Forall_app. split; [exact Hh|]. constructor; [exact Hq'|constructor]. }
  destruct (kMaxHistoryLength cfg <? mHistoryLength s + 1).
  - destruct (mHistory s ++ [q]) as [|oldest rest] eqn:E.
    + destruct (mHistory s); discriminate.
    + inversion Hall; subst. simpl. auto.
  - simpl. split; [apply buffer_ok_new | exact Hall].
Qed.

End HistoryBuffers.

(** ** One call of appendTSData *)

Section AppendSteps.

Variable cfg : Config.
Variable clock : nat -> Z.

Lemma appendTSData_no_flush (s : Sender) (data : list byte) (disc : bool) :
  size (mTSQueue s) + 188 <= capacity (mTSQueue s) ->
  188 <= Z.of_nat (List.length data) ->
  size (mTSQueue s) + 188 <> capacity (mTSQueue s) ->
  appendTSData cfg clock s data 188 disc false
  = Ok (188, set_mTSQueue s (appended s data), []).
Proof.
  intros Hfit Hdata Hne. unfold appendTSData.
  change (188 =? 188) with true. cbn [CHECK bind].
  replace (size (mTSQueue s) + 188 <=? capacity (mTSQueue s)) with true
    by (symmetry; apply Z.leb_le; lia).
  cbn [CHECK bind].
  rewrite load_bytes_ok by lia. cbn [bind].
  change (skipn (Z.to_nat 0) data) with data.
  change (Z.to_nat 188) with 188%nat.
  cbn [mTSQueue set_mTSQueue size capacity setRange0 setData mCapacity mRangeLength orb].
  destruct (_ =? _) eqn:E; [|reflexivity].
  apply Z.eqb_eq in E. contradiction.
Qed.

Lemma appendTSData_flush (s : Sender) (data : list byte) (disc flush : bool) :
  size (mTSQueue s) + 188 <= capacity (mTSQueue s) ->
  188 <= Z.of_nat (List.length data) ->
  flush = true \/ size (mTSQueue s) + 188 = capacity (mTSQueue s) ->
  appendTSData cfg clock s data 188 disc flush
  = Ok (188,
        fst (flush_queue cfg clock (set_mTSQueue s (appended s data)) disc),
        [rtp_event s (contents (stamped cfg clock s data disc))]).
Proof.
  intros Hfit Hdata Hfl. unfold appendTSData.
  change (188 =? 188) with true. cbn [CHECK bind].
  replace (size (mTSQueue s) + 188 <=? capacity (mTSQueue s)) with true
    by (symmetry; apply Z.leb_le; lia).
  cbn [CHECK bind].
  rewrite load_bytes_ok by lia. cbn [bind].
  change (skipn (Z.to_nat 0) data) with data.
  change (Z.to_nat 188) with 188%nat.
  cbn [mTSQueue set_mTSQueue size capacity setRange0 setData mCapacity mRangeLength].
  match goal with |- (if ?c then _ else _) = _ => replace c with true end.
  2:{ symmetry. apply orb_true_iff. destruct Hfl as [->| E]; [now left|right].
      apply Z.eqb_eq. exact E. }
  unfold flush_queue, stamp_queue, GetNowNTP, GetNowUs, rtp_event, stamped, appended.
  cbn [fst snd mTSQueue set_mTSQueue set_clockReads set_rtp_state
       mTransportMode mRTPChannel mRTPSessionID clockReads mRTPSeqNo
       mData setData setRange0 size mRangeLength].
  reflexivity.
Qed.

End AppendSteps.

(** ** What a flush changes *)

Section FlushFrame.

Variable cfg : Config.
Variable clock : nat -> Z.

(** Fields [retain_in_history] leaves alone. *)
Lemma retain_in_history_frame (s : Sender) :
  let s' := retain_in_history cfg s in
  mRTPSeqNo s' = mRTPSeqNo s
  /\ mNumRTPSent s' = mNumRTPSent s
  /\ mNumRTPOctetsSent s' = mNumRTPOctetsSent s
  /\ mLastRTPTime s' = mLastRTPTime s
  /\ mRTPRetransmissionSeqNo s' = mRTPRetransmissionSeqNo s
  /\ mFirstOutputBufferReadyTimeUs s' = mFirstOutputBufferReadyTimeUs s
  /\ mFirstOutputBufferSentTimeUs s' = mFirstOutputBufferSentTimeUs s
  /\ mTransportMode s' = mTransportMode s
  /\ mRTPSessionID s' = mRTPSessionID s
  /\ mRTPChannel s' = mRTPChannel s
  /\ mRTPRetransmissionSessionID s' = mRTPRetransmissionSessionID s
  /\ clockReads s' = clockReads s.
Proof.
  unfold retain_in_history.
  destruct (kMaxHistoryLength cfg <? mHistoryLength s + 1).
  - destruct (mHistory s ++ _); cbn; repeat split.
  - cbn; repeat split.
Qed.

Lemma flush_queue_frame (s : Sender) (disc : bool) :
  let s' := fst (flush_queue cfg clock s disc) in
  mRTPSeqNo s' = to_uint32 (mRTPSeqNo s + 1)
  /\ mNumRTPSent s' = to_uint32 (mNumRTPSent s + 1)
  /\ mNumRTPOctetsSent s'
     = to_uint32 (mNumRTPOctetsSent s + (size (mTSQueue s) - 12))
  /\ mLastRTPTime s' = rtpTime_of (to_int64 (clock (clockReads s)))
  /\ mRTPRetransmissionSeqNo s' = mRTPRetransmissionSeqNo s
  /\ mFirstOutputBufferReadyTimeUs s' = mFirstOutputBufferReadyTimeUs s
  /\ mFirstOutputBufferSentTimeUs s' = mFirstOutputBufferSentTimeUs s
  /\ mTransportMode s' = mTransportMode s
  /\ mRTPSessionID s' = mRTPSessionID s
  /\ mRTPChannel s' = mRTPChannel s
  /\ mRTPRetransmissionSessionID s' = mRTPRetransmissionSessionID s
  /\ clockReads s' = S (S (clockReads s))
  /\ size (mTSQueue s') = 12.
Proof.
  unfold flush_queue, stamp_queue, GetNowNTP, GetNowUs.
  cbn [fst snd mTSQueue set_mTSQueue set_clockReads set_rtp_state
       mTransportMode mRTPChannel mRTPSessionID clockReads mRTPSeqNo
       mNumRTPSent mNumRTPOctetsSent
       mData setData setRange0 size mRangeLength].
  destruct (ENABLE_RETRANSMISSION cfg).
  - match goal with |- context [retain_in_history cfg ?x] =>
      pose proof (retain_in_history_frame x) as H; cbv zeta in H;
      set (r := retain_in_history cfg x) in *
    end.
    cbn in H. cbn. intuition congruence.
  - cbn. repeat split.
Qed.

Lemma queue_ok_reset (q : ABuffer) :
  buffer_ok q = true -> queue_ok (setRange0 q 12) = true.
Proof.
  intros H. apply queue_ok_iff. split; [exact H|].
  apply buffer_ok_iff in H. destruct H as [H _].
  unfold size, capacity, setRange0 in *. cbn [mRangeLength mCapacity].
  rewrite H, kQueueCapacity_eq. split; [lia|reflexivity].
Qed.

Lemma flush_queue_inv (s : Sender) (disc : bool) :
  queue_inv s ->
  queue_inv (fst (flush_queue cfg clock s disc)).
Proof.
  rewrite !queue_inv_iff, !queue_ok_iff. intros [(Hb & Hsz & Hmod) Hh].
  apply buffer_ok_iff in Hb. destruct Hb as [Hcap Hlen].
  unfold flush_queue, stamp_queue, GetNowNTP, GetNowUs.
  cbn [fst snd mTSQueue set_mTSQueue set_clockReads set_rtp_state
       mTransportMode mRTPChannel mRTPSessionID clockReads mRTPSeqNo
       mNumRTPSent mNumRTPOctetsSent
       mData setData setRange0 size mRangeLength].
  set (q := setData (mTSQueue s) _).
  assert (Hq : buffer_ok q = true).
  { apply buffer_ok_iff. subst q. cbn [capacity mCapacity setData mData].
    split; [exact Hcap|].
    rewrite length_store_bytes; [exact Hlen|lia|].
    change (Z.of_nat (List.length (rtp_header _ _ _ _))) with 12.
    unfold capacity in *. rewrite kQueueCapacity_eq in *. lia. }
  destruct (ENABLE_RETRANSMISSION cfg).
  - match goal with |- context [retain_in_history cfg ?x] =>
      destruct (retain_in_history_queue cfg x) as [H1 H2];
      [exact Hq | exact Hh | set (r := retain_in_history cfg x) in *]
    end.
    cbn [mTSQueue mHistory set_mTSQueue]. split; [|exact H2].
    apply queue_ok_iff, queue_ok_reset, H1.
  - cbn [mTSQueue mHistory set_mTSQueue set_rtp_state]. split; [|exact Hh].
    apply queue_ok_iff, queue_ok_reset, Hq.
Qed.

End FlushFrame.

(** ** The flush policy *)

Lemma firstn_store_bytes_head (mem src : list byte) :
  firstn (List.length src) (store_bytes mem 0 src) = src.
Proof.
  unfold store_bytes. change (Z.to_nat 0) with 0%nat.
  rewrite firstn_O, app_nil_l, firstn_app, Nat.sub_diag, firstn_O, app_nil_r.
  apply firstn_all.
Qed.

Lemma queue_inv_new_Sender : queue_inv new_Sender /\ queue_idle new_Sender.
Proof. split; vm_compute; reflexivity. Qed.

Lemma appended_queue_inv (s : Sender) (data : list byte) :
  queue_inv s ->
  size (mTSQueue s) + 188 <= capacity (mTSQueue s) ->
  188 <= Z.of_nat (List.length data) ->
  queue_inv (set_mTSQueue s (appended s data)).
Proof.
  rewrite !queue_inv_iff, !queue_ok_iff. intros [(Hb & Hsz & Hmod) Hh] Hfit Hdata.
  cbn [mTSQueue mHistory set_mTSQueue]. split; [|exact Hh].
  apply buffer_ok_iff in Hb. destruct Hb as [Hcap Hlen].
  unfold appended, size, capacity in *.
  cbn [setRange0 setData mData mCapacity mRangeLength].
  rewrite buffer_ok_iff. unfold capacity.
  cbn [setRange0 setData mData mCapacity mRangeLength].
  split; [split; [exact Hcap|] | split; [lia|]].
  - rewrite length_store_bytes; [exact Hlen|lia|].
    rewrite length_firstn. lia.
  - replace (mRangeLength (mTSQueue s) + 188 - 12)
      with ((mRangeLength (mTSQueue s) - 12) + 1 * 188) by lia.
    rewrite Z.mod_add by lia. exact Hmod.
Qed.

Lemma queue_inv_size (s : Sender) :
  queue_inv s ->
  capacity (mTSQueue s) = 12 + kMaxNumTSPacketsPerRTPPacket * 188
  /\ size (mTSQueue s) <= capacity (mTSQueue s)
  /\ exists k, 0 <= k <= kMaxNumTSPacketsPerRTPPacket
               /\ size (mTSQueue s) = 12 + 188 * k.
Proof.
  rewrite queue_inv_iff, queue_ok_iff, buffer_ok_iff.
  intros [((Hcap & _) & Hsz & Hmod) _].
  split; [exact Hcap|]. split; [lia|].
  exists ((size (mTSQueue s) - 12) / 188).
  rewrite Hcap, kQueueCapacity_eq in Hsz.
  change kMaxNumTSPacketsPerRTPPacket with 7.
  pose proof (Z.div_mod (size (mTSQueue s) - 12) 188 ltac:(lia)) as Hdm.
  rewrite Hmod in Hdm. split; [|lia].
  split; [apply Z.div_pos; lia|].
  apply Z.div_le_upper_bound; lia.
Qed.

Lemma stamped_header (cfg : Config) (clock : nat -> Z) (s : Sender)
    (data : list byte) (disc : bool) :
  queue_inv s ->
  firstn 12 (contents (stamped cfg clock s data disc))
  = rtp_header cfg disc (mRTPSeqNo s)
      (rtpTime_of (to_int64 (clock (clockReads s)))).
Proof.
  intros Hinv.
  unfold contents, stamped, appended, size.
  cbn [setData setRange0 mData mRangeLength].
  apply queue_inv_iff in Hinv. destruct Hinv as [Hq _].
  apply queue_ok_iff in Hq. destruct Hq as (Hb & Hsz & _).
  unfold size in *.
  rewrite firstn_firstn.
  replace (Nat.min 12 (Z.to_nat (mRangeLength (mTSQueue s) + 188)))
    with 12%nat by lia.
  change 12%nat
    with (List.length (rtp_header cfg disc (mRTPSeqNo s)
            (rtpTime_of (to_int64 (clock (clockReads s)))))) at 1.
  apply firstn_store_bytes_head.
Qed.

(** C1: one call of [appendTSData] with a 188-byte TS packet that fits.
    A flush (the stamped queue handed to the network session or posted
    as binary data) happens exactly when [flush] is set or the queue has
    reached its capacity; the queue length stays 12 plus a whole number
    of TS packets within the capacity 12 + 7 * 188, 7 being the largest
    count that keeps the packet within 1500 bytes, and is 12 again after
    a flush.  The constructor establishes the invariant. *)
Theorem appendTSData_flush_policy
    (cfg : Config) (clock : nat -> Z) (s : Sender) (data : list byte)
    (timeDiscontinuity flush : bool) :
  queue_inv s ->
  size (mTSQueue s) + 188 <= capacity (mTSQueue s) ->
  188 <= Z.of_nat (List.length data) ->
  exists s' evs,
    appendTSData cfg clock s data 188 timeDiscontinuity flush
      = Ok (188, s', evs)
    /\ (evs = [rtp_event s (contents (stamped cfg clock s data timeDiscontinuity))]
        <-> (flush = true
             \/ size (mTSQueue s) + 188 = capacity (mTSQueue s)))
    /\ (evs = []
        <-> ~ (flush = true
               \/ size (mTSQueue s) + 188 = capacity (mTSQueue s)))
    /\ firstn 12 (contents (stamped cfg clock s data timeDiscontinuity))
       = rtp_header cfg timeDiscontinuity (mRTPSeqNo s)
           (rtpTime_of (to_int64 (clock (clockReads s))))
    /\ queue_inv s'
    /\ capacity (mTSQueue s') = 12 + kMaxNumTSPacketsPerRTPPacket * 188
    /\ (12 + kMaxNumTSPacketsPerRTPPacket * 188 <= 1500
        < 12 + (kMaxNumTSPacketsPerRTPPacket + 1) * 188)
    /\ size (mTSQueue s') <= capacity (mTSQueue s')
    /\ (exists k, 0 <= k <= kMaxNumTSPacketsPerRTPPacket
                  /\ size (mTSQueue s') = 12 + 188 * k)
    /\ (evs <> [] -> size (mTSQueue s') = 12)
    /\ (evs = [] -> size (mTSQueue s') = size (mTSQueue s) + 188)
    /\ queue_inv new_Sender /\ size (mTSQueue new_Sender) = 12.
Proof.
  intros Hinv Hfit Hdata.
  pose proof (stamped_header cfg clock s data timeDiscontinuity Hinv)
    as Hstamp.
  assert (Hinit := queue_inv_new_Sender).
  assert (Hbound :
    12 + kMaxNumTSPacketsPerRTPPacket * 188 <= 1500
      < 12 + (kMaxNumTSPacketsPerRTPPacket + 1) * 188).
  { change kMaxNumTSPacketsPerRTPPacket with 7. lia. }
  assert (Happ := appended_queue_inv s data Hinv Hfit Hdata).
  destruct (Bool.bool_dec flush true) as [Hf | Hf];
    [| destruct (Z.eq_dec (size (mTSQueue s) + 188) (capacity (mTSQueue s)))
         as [Hc | Hc]].
  1, 2: eexists; eexists; split;
    [ apply appendTSData_flush; solve [assumption | auto] | ];
    pose proof (flush_queue_inv cfg clock _ timeDiscontinuity Happ) as Hinv';
    pose proof (flush_queue_frame cfg clock
                  (set_mTSQueue s (appended s data)) timeDiscontinuity) as Hfr;
    cbv zeta in Hfr;
    destruct (queue_inv_size _ Hinv') as (Hcap' & Hle' & Hk');
    repeat split; try assumption; try tauto; try discriminate;
      try (intros; apply Hfr); try (intros; discriminate);
      try apply Hinit; auto.
  - eexists; eexists; split.
    + destruct flush; [congruence|]. apply appendTSData_no_flush; assumption.
    + destruct (queue_inv_size _ Happ) as (Hcap' & Hle' & Hk').
      repeat split; try assumption; try tauto; try discriminate;
        try (intros [?|?]; congruence); try apply Hinit.
Qed.

(** ** Header bytes *)

Lemma unsigned_of_Z_mod (z : Z) : byte.unsigned (byte.of_Z z) = z mod 2 ^ 8.
Proof. apply byte.unsigned_of_Z. Qed.

Lemma load_ok (mem : list byte) (i : Z) :
  0 <= i < Z.of_nat (List.length mem) ->
  load mem i = Ok (byte.unsigned (nth (Z.to_nat i) mem Byte.x00)).
Proof.
  intros H. unfold load.
  replace ((0 <=? i) && (i <? Z.of_nat (List.length mem))) with true;
    [reflexivity|].
  symmetry. apply andb_true_iff. split; [apply Z.leb_le | apply Z.ltb_lt]; lia.
Qed.

Lemma load_of_Z (l : list Z) (i : Z) :
  0 <= i < Z.of_nat (List.length l) ->
  load (map byte.of_Z l) i = Ok (nth (Z.to_nat i) l 0 mod 2 ^ 8).
Proof.
  intros H. rewrite load_ok by (rewrite length_map; exact H).
  change Byte.x00 with (byte.of_Z 0). rewrite map_nth.
  rewrite unsigned_of_Z_mod. reflexivity.
Qed.

Lemma load_prefix (mem pre : list byte) (i : Z) :
  firstn (List.length pre) mem = pre ->
  0 <= i < Z.of_nat (List.length pre) ->
  load mem i = load pre i.
Proof.
  intros Hpre Hi.
  assert (Hlen : (List.length pre <= List.length mem)%nat).
  { rewrite <- Hpre at 1. rewrite length_firstn. lia. }
  rewrite !load_ok by lia. f_equal. f_equal.
  transitivity (nth (Z.to_nat i) (firstn (List.length pre) mem) Byte.x00);
    [|rewrite Hpre; reflexivity].
  rewrite nth_firstn.
  replace (Z.to_nat i <? List.length pre)%nat with true; [reflexivity|].
  symmetry. apply Nat.ltb_lt. lia.
Qed.

Lemma be16_of_bytes (x : Z) :
  Z.lor (Z.shiftl (Z.land (Z.shiftr x 8) 255 mod 2 ^ 8) 8)
        (Z.land x 255 mod 2 ^ 8)
  = x mod 2 ^ 16.
Proof.
  change 255 with (Z.ones 8). Z.bitblast.
Qed.

Lemma be32_of_bytes (x : Z) :
  Z.lor
    (Z.lor
       (Z.lor (Z.shiftl (Z.shiftr x 24 mod 2 ^ 8) 24)
              (Z.shiftl (Z.land (Z.shiftr x 16) 255 mod 2 ^ 8) 16))
       (Z.shiftl (Z.land (Z.shiftr x 8) 255 mod 2 ^ 8) 8))
    (Z.land x 255 mod 2 ^ 8)
  = x mod 2 ^ 32.
Proof.
  change 255 with (Z.ones 8). Z.bitblast.
Qed.

Lemma rtpTime_of_90kHz (nowUs : Z) :
  0 <= nowUs * 9 < 2 ^ 63 ->
  rtpTime_of nowUs = (nowUs * 90000 / 1000000) mod 2 ^ 32.
Proof.
  intros H. unfold rtpTime_of, to_uint32, to_int64.
  rewrite (Z.mod_small (nowUs * 9 + 2 ^ 63)) by lia.
  replace (nowUs * 9 + 2 ^ 63 - 2 ^ 63) with (nowUs * 9) by lia.
  rewrite Z.quot_div_nonneg by lia.
  replace (nowUs * 90000) with (nowUs * 9 * 10000) by lia.
  change 1000000 with (100 * 10000).
  rewrite Z.div_mul_cancel_r by lia. reflexivity.
Qed.

Lemma to_uint32_mod16 (x : Z) : to_uint32 x mod 2 ^ 16 = x mod 2 ^ 16.
Proof.
  unfold to_uint32. apply Z.mod_mod_divide.
  exists (2 ^ 16). reflexivity.
Qed.

(** ** The stamped packet *)

Lemma rtp_header_fields (cfg : Config) (disc : bool) (seqNo rtpTime : Z)
    (packet : list byte) :
  firstn 12 packet = rtp_header cfg disc seqNo rtpTime ->
  load packet 0 = Ok 0x80
  /\ load packet 1 = Ok (33 + (if disc then 128 else 0))
  /\ U16_AT packet 2 = Ok (seqNo mod 2 ^ 16)
  /\ U32_AT packet 4 = Ok (rtpTime mod 2 ^ 32)
  /\ U32_AT packet 8 = Ok (kSourceID cfg mod 2 ^ 32).
Proof.
  intros Hpre.
  assert (Hld : forall i, 0 <= i < 12 ->
            load packet i = load (rtp_header cfg disc seqNo rtpTime) i).
  { intros i Hi. apply load_prefix; [exact Hpre | exact Hi]. }
  unfold U16_AT, U32_AT.
  rewrite !Hld by lia. unfold rtp_header.
  rewrite !load_of_Z by (cbn [List.length]; lia).
  cbn [bind nth Z.to_nat Pos.to_nat Pos.iter_op Nat.add].
  repeat split.
  - destruct disc; reflexivity.
  - f_equal. apply be16_of_bytes.
  - f_equal. apply be32_of_bytes.
  - f_equal. apply be32_of_bytes.
Qed.

Lemma stamped_payload (cfg : Config) (clock : nat -> Z) (s : Sender)
    (data : list byte) (disc : bool) :
  queue_inv s ->
  size (mTSQueue s) + 188 <= capacity (mTSQueue s) ->
  188 <= Z.of_nat (List.length data) ->
  skipn 12 (contents (stamped cfg clock s data disc))
  = skipn 12 (contents (mTSQueue s)) ++ firstn 188 data.
Proof.
  rewrite queue_inv_iff, queue_ok_iff, buffer_ok_iff.
  intros [((Hcap & Hlen) & Hsz & _) _] Hfit Hdata.
  unfold contents, stamped, appended, size, capacity in *.
  cbn [setData setRange0 mData mRangeLength].
  set (mem := mData (mTSQueue s)) in *.
  set (d := firstn 188 data).
  assert (Hd : List.length d = 188%nat).
  { subst d. rewrite length_firstn. lia. }
  remember (Z.to_nat (mRangeLength (mTSQueue s))) as n eqn:Hn.
  assert (Hn12 : (12 <= n)%nat) by lia.
  assert (Hnlen : (n + 188 <= List.length mem)%nat) by lia.
  replace (Z.to_nat (mRangeLength (mTSQueue s) + 188)) with (n + 188)%nat by lia.
  unfold store_bytes. rewrite <- Hn.
  change (Z.to_nat 0) with 0%nat. rewrite firstn_O, app_nil_l.
  change (0 + List.length (rtp_header _ _ _ _))%nat with 12%nat.
  rewrite firstn_app.
  change (List.length (rtp_header _ _ _ _)) with 12%nat.
  rewrite skipn_app.
  rewrite (firstn_all2 (n := (n + 188)%nat) (rtp_header _ _ _ _))
    by (change (List.length (rtp_header _ _ _ _)) with 12%nat; lia).
  change (List.length (rtp_header _ _ _ _)) with 12%nat.
  rewrite (skipn_all2 (n := 12%nat) (rtp_header _ _ _ _))
    by (change (List.length (rtp_header _ _ _ _)) with 12%nat; lia).
  rewrite app_nil_l, Nat.sub_diag, skipn_O.
  rewrite skipn_app, length_firstn.
  replace (Nat.min n (List.length mem)) with n by lia.
  replace (12 - n)%nat with 0%nat by lia. rewrite skipn_O.
  rewrite firstn_app, length_skipn, length_firstn.
  replace (Nat.min n (List.length mem) - 12)%nat with (n - 12)%nat by lia.
  rewrite (firstn_all2 (n := (n + 188 - 12)%nat))
    by (rewrite length_skipn, length_firstn; lia).
  f_equal.
  replace (n + 188 - 12 - (n - 12))%nat with 188%nat by lia.
  rewrite firstn_app, Hd, Nat.sub_diag, firstn_O, app_nil_r.
  rewrite <- Hd. apply firstn_all.
Qed.

Lemma stamped_length (cfg : Config) (clock : nat -> Z) (s : Sender)
    (data : list byte) (disc : bool) :
  queue_inv s ->
  size (mTSQueue s) + 188 <= capacity (mTSQueue s) ->
  188 <= Z.of_nat (List.length data) ->
  Z.of_nat (List.length (contents (stamped cfg clock s data disc)))
  = size (mTSQueue s) + 188.
Proof.
  rewrite queue_inv_iff, queue_ok_iff, buffer_ok_iff.
  intros [((Hcap & Hlen) & Hsz & _) _] Hfit Hdata.
  unfold contents, stamped, appended, size, capacity in *.
  cbn [setData setRange0 mData mRangeLength].
  rewrite length_firstn, !length_store_bytes.
  - lia.
  - lia.
  - rewrite length_firstn. lia.
  - lia.
  - rewrite length_store_bytes; [|lia|rewrite length_firstn; lia].
    change (Z.of_nat (List.length (rtp_header _ _ _ _))) with 12.
    rewrite kQueueCapacity_eq in *. lia.
Qed.

(** ** The RTP header *)

(** C2: the packet a flush hands out.  Byte 0 is 0x80 (version 2, no
    padding, no extension, no CSRC); byte 1 is payload type 33 with the
    marker bit equal to [timeDiscontinuity]; bytes 2-3 are the low 16 bits
    of [mRTPSeqNo], big-endian; bytes 4-7 the 32-bit RTP time, which is
    the clock reading in 90 kHz units; bytes 8-11 the source id; the rest
    is the accumulated TS payload.  The flush adds one to the sequence
    number and to the packet count and the payload size to the octet
    count, each a [uint32_t]. *)
Theorem flush_stamps_rtp_header
    (cfg : Config) (clock : nat -> Z) (s : Sender) (data : list byte)
    (timeDiscontinuity flush : bool) :
  queue_inv s ->
  size (mTSQueue s) + 188 <= capacity (mTSQueue s) ->
  188 <= Z.of_nat (List.length data) ->
  flush = true \/ size (mTSQueue s) + 188 = capacity (mTSQueue s) ->
  exists s' packet,
    appendTSData cfg clock s data 188 timeDiscontinuity flush
      = Ok (188, s', [rtp_event s packet])
    /\ Z.of_nat (List.length packet) = size (mTSQueue s) + 188
    /\ skipn 12 packet = skipn 12 (contents (mTSQueue s)) ++ firstn 188 data
    /\ load packet 0 = Ok 0x80
    /\ (exists b1, load packet 1 = Ok b1
                   /\ Z.land b1 0x7f = 33
                   /\ Z.testbit b1 7 = timeDiscontinuity)
    /\ U16_AT packet 2 = Ok (mRTPSeqNo s mod 2 ^ 16)
    /\ U32_AT packet 4 = Ok (rtpTime_of (to_int64 (clock (clockReads s))))
    /\ (0 <= to_int64 (clock (clockReads s)) * 9 < 2 ^ 63 ->
        rtpTime_of (to_int64 (clock (clockReads s)))
        = (to_int64 (clock (clockReads s)) * 90000 / 1000000) mod 2 ^ 32)
    /\ U32_AT packet 8 = Ok (kSourceID cfg mod 2 ^ 32)
    /\ mRTPSeqNo s' = to_uint32 (mRTPSeqNo s + 1)
    /\ mRTPSeqNo s' mod 2 ^ 16 = (mRTPSeqNo s + 1) mod 2 ^ 16
    /\ mNumRTPSent s' = to_uint32 (mNumRTPSent s + 1)
    /\ mNumRTPOctetsSent s'
       = to_uint32 (mNumRTPOctetsSent s + (Z.of_nat (List.length packet) - 12)).
Proof.
  intros Hinv Hfit Hdata Hfl.
  pose proof (stamped_header cfg clock s data timeDiscontinuity Hinv)
    as Hstamp.
  pose proof (stamped_length cfg clock s data timeDiscontinuity
                Hinv Hfit Hdata) as Hlen.
  pose proof (stamped_payload cfg clock s data timeDiscontinuity
                Hinv Hfit Hdata) as Hpay.
  destruct (rtp_header_fields _ _ _ _ _ Hstamp) as (H0 & H1 & H2 & H4 & H8).
  pose proof (flush_queue_frame cfg clock
                (set_mTSQueue s (appended s data)) timeDiscontinuity) as Hfr.
  cbv zeta in Hfr. destruct Hfr as (Fseq & Fnum & Foct & _).
  eexists; eexists. split; [apply appendTSData_flush; assumption|].
  split; [exact Hlen|]. split; [exact Hpay|]. split; [exact H0|].
  split.
  { eexists. split; [exact H1|]. destruct timeDiscontinuity; split; reflexivity. }
  split; [exact H2|].
  split.
  { rewrite H4. f_equal. unfold rtpTime_of, to_uint32.
    apply Z.mod_mod. lia. }
  split; [apply rtpTime_of_90kHz|].
  split; [exact H8|].
  split; [exact Fseq|].
  split; [rewrite Fseq; apply to_uint32_mod16|].
  split; [exact Fnum|].
  rewrite Foct, Hlen. reflexivity.
Qed.

(** ** Runs of flushes *)

Lemma seq_run_nil (s s' : Sender) :
  mRTPSeqNo s' = mRTPSeqNo s -> seq_run s [] s'.
Proof.
  intros H. split; [reflexivity|]. cbn [List.length]. rewrite H. f_equal. lia.
Qed.

Lemma seq_from (n m : nat) : seq n m = map (Nat.add n) (seq 0 m).
Proof.
  revert n. induction m as [|m IH]; intros n; [reflexivity|].
  cbn [seq map]. f_equal; [lia|].
  rewrite <- (seq_shift m 0), map_map, (IH (S n)).
  apply map_ext. intros j. lia.
Qed.

Lemma seq_run_app (s s1 s2 : Sender) (e1 e2 : list Event) :
  seq_run s e1 s1 -> seq_run s1 e2 s2 -> seq_run s (e1 ++ e2) s2.
Proof.
  intros [H1 H1'] [H2 H2'].
  assert (Hshift : forall j : Z,
            (mRTPSeqNo s1 + j) mod 2 ^ 16
            = (mRTPSeqNo s + Z.of_nat (List.length e1) + j) mod 2 ^ 16).
  { intros j. rewrite (Z.add_mod (mRTPSeqNo s1)) by lia. rewrite H1'.
    rewrite <- Z.add_mod by lia. reflexivity. }
  split.
  - rewrite map_app, length_app, seq_app, map_app, H1, H2. f_equal.
    cbn [Nat.add]. rewrite (seq_from (List.length e1)), map_map.
    apply map_ext. intros j. rewrite Hshift. do 2 f_equal. lia.
  - rewrite H2', Hshift, length_app. f_equal. lia.
Qed.

Lemma rtp_seq_of_rtp_event (s : Sender) (packet : list byte) :
  rtp_seq_of (rtp_event s packet) = U16_AT packet 2.
Proof.
  unfold rtp_seq_of, rtp_event. destruct (is_interleaved _); reflexivity.
Qed.

Section SequenceRuns.

Variable cfg : Config.
Variable clock : nat -> Z.

Lemma appendTSData_step (s : Sender) (data : list byte) (disc flush : bool) :
  queue_inv s -> room s -> 188 <= Z.of_nat (List.length data) ->
  exists s' evs,
    appendTSData cfg clock s data 188 disc flush = Ok (188, s', evs)
    /\ queue_inv s' /\ room s'
    /\ (flush = true -> queue_idle s')
    /\ seq_run s evs s'.
Proof.
  intros Hinv Hroom Hdata. unfold room in Hroom.
  pose proof (appended_queue_inv s data Hinv Hroom Hdata) as Happ.
  assert (Hidle_room : forall s0, queue_inv s0 -> queue_idle s0 -> room s0).
  { intros s0 H0 H1. unfold room, queue_idle in *.
    destruct (queue_inv_size _ H0) as (Hc & _). rewrite H1, Hc.
    change kMaxNumTSPacketsPerRTPPacket with 7. lia. }
  destruct (Bool.bool_dec flush true) as [Hf | Hf];
    [| destruct (Z.eq_dec (size (mTSQueue s) + 188) (capacity (mTSQueue s)))
         as [Hc | Hc]].
  1, 2: eexists; eexists; split;
    [ apply appendTSData_flush; solve [assumption | auto] | ];
    pose proof (flush_queue_inv cfg clock _ disc Happ) as Hinv';
    pose proof (flush_queue_frame cfg clock
                  (set_mTSQueue s (appended s data)) disc) as Hfr;
    cbv zeta in Hfr; destruct Hfr as (Fseq & Hfr);
    assert (Hidle : queue_idle
                      (fst (flush_queue cfg clock
                              (set_mTSQueue s (appended s data)) disc)))
      by (unfold queue_idle; apply Hfr);
    (split; [exact Hinv'|]); (split; [apply Hidle_room; assumption|]);
    (split; [intros _; exact Hidle|]);
    (split;
     [ cbn [map List.length seq]; rewrite rtp_seq_of_rtp_event;
       destruct (rtp_header_fields _ _ _ _ _
                   (stamped_header cfg clock s data disc Hinv))
         as (_ & _ & H2 & _);
       rewrite H2; do 3 f_equal; lia
     | rewrite Fseq; cbn [List.length mRTPSeqNo set_mTSQueue];
       apply to_uint32_mod16 ]).
  { eexists; eexists; split.
    + destruct flush; [congruence|]. apply appendTSData_no_flush; assumption.
    + split; [exact Happ|]. split.
      * unfold room. destruct (queue_inv_size _ Happ) as (Hcap & Hle & k & Hk & Hsz).
        cbn [mTSQueue set_mTSQueue] in *.
        assert (size (appended s data) = size (mTSQueue s) + 188) by reflexivity.
        assert (capacity (appended s data) = capacity (mTSQueue s)) by reflexivity.
        change kMaxNumTSPacketsPerRTPPacket with 7 in *. lia.
      * split; [intros; congruence|]. apply seq_run_nil. reflexivity. }
Qed.

End SequenceRuns.

(** ** Batches *)

Section Batches.

Variable cfg : Config.
Variable clock : nat -> Z.

Lemma queue_idle_room (s : Sender) : queue_inv s -> queue_idle s -> room s.
Proof.
  intros H0 H1. unfold room, queue_idle in *.
  destruct (queue_inv_size _ H0) as (Hc & _). rewrite H1, Hc.
  change kMaxNumTSPacketsPerRTPPacket with 7. lia.
Qed.

Lemma onQueuePackets_loop_run (packets : list byte) :
  forall (fuel : nat) (s : Sender) (offset : Z),
    queue_inv s -> room s ->
    0 <= offset <= Z.of_nat (List.length packets) ->
    (Z.of_nat (List.length packets) - offset) mod 188 = 0 ->
    Z.of_nat (List.length packets) - offset <= Z.of_nat fuel ->
    exists s' evs,
      onQueuePackets_loop cfg clock fuel s packets offset = Ok (s', evs)
      /\ queue_inv s'
      /\ (offset < Z.of_nat (List.length packets) -> queue_idle s')
      /\ (offset = Z.of_nat (List.length packets) -> s' = s)
      /\ seq_run s evs s'.
Proof.
  induction fuel as [|fuel IH]; intros s offset Hinv Hroom Hoff Hmod Hfuel.
  - assert (offset = Z.of_nat (List.length packets)) by lia.
    exists s, []. cbn [onQueuePackets_loop].
    replace (offset <? Z.of_nat (List.length packets)) with false
      by (symmetry; apply Z.ltb_ge; lia).
    repeat split; try assumption; try lia. apply seq_run_nil. reflexivity.
  - cbn [onQueuePackets_loop].
    destruct (offset <? Z.of_nat (List.length packets)) eqn:Hlt.
    + apply Z.ltb_lt in Hlt.
      assert (Hrem : 188 <= Z.of_nat (List.length packets) - offset).
      { pose proof (Z.div_mod (Z.of_nat (List.length packets) - offset) 188
                      ltac:(lia)) as Hdm.
        rewrite Hmod in Hdm.
        assert (0 < (Z.of_nat (List.length packets) - offset) / 188) by
          (apply Z.div_str_pos; split; [lia|];
           destruct (Z_lt_le_dec (Z.of_nat (List.length packets) - offset) 188)
             as [Hs|Hs]; [|lia];
           rewrite Z.mod_small in Hmod by lia; lia).
        lia. }
      destruct (appendTSData_step cfg clock s
                  (skipn (Z.to_nat offset) packets) true
                  (Z.of_nat (List.length packets) <=? offset + 188)
                  Hinv Hroom)
        as (s1 & e1 & Happ & Hinv1 & Hroom1 & Hidle1 & Hrun1).
      { rewrite length_skipn. lia. }
      rewrite Happ. cbn [bind].
      destruct (IH s1 (offset + 188) Hinv1 Hroom1) as
        (s2 & e2 & Hloop & Hinv2 & Hidle2 & Hsame2 & Hrun2).
      { lia. }
      { replace (Z.of_nat (List.length packets) - (offset + 188))
          with (Z.of_nat (List.length packets) - offset + (-1) * 188) by lia.
        rewrite Z.mod_add by lia. exact Hmod. }
      { lia. }
      rewrite Hloop. cbn [bind].
      exists s2, (e1 ++ e2). split; [reflexivity|].
      split; [exact Hinv2|]. split.
      * intros _.
        destruct (Z.eq_dec (offset + 188) (Z.of_nat (List.length packets)))
          as [Hlast | Hmore].
        -- rewrite (Hsame2 Hlast). apply Hidle1. apply Z.leb_le. lia.
        -- apply Hidle2. lia.
      * split; [lia|]. eapply seq_run_app; eassumption.
    + apply Z.ltb_ge in Hlt.
      exists s, []. repeat split; try assumption; try lia.
      apply seq_run_nil. reflexivity.
Qed.

Lemma onQueuePackets_run (s : Sender) (packets : list byte) :
  queue_inv s -> queue_idle s ->
  Z.of_nat (List.length packets) mod 188 = 0 ->
  exists s' evs,
    onQueuePackets cfg clock s packets = Ok (s', evs)
    /\ queue_inv s' /\ queue_idle s' /\ seq_run s evs s'.
Proof.
  intros Hinv Hidle Hmod. unfold onQueuePackets, GetNowUs.
  set (s0 := set_clockReads s (S (clockReads s))).
  assert (Hinv0 : queue_inv s0) by exact Hinv.
  assert (Hidle0 : queue_idle s0) by exact Hidle.
  destruct (onQueuePackets_loop_run packets (List.length packets) s0 0
              Hinv0 (queue_idle_room _ Hinv0 Hidle0))
    as (s' & evs & Hloop & Hinv' & Hidle' & Hsame' & Hrun').
  { lia. }
  { rewrite Z.sub_0_r. exact Hmod. }
  { lia. }
  exists s', evs. split; [exact Hloop|]. split; [exact Hinv'|]. split.
  - destruct (Z.eq_dec 0 (Z.of_nat (List.length packets))) as [He|Hne].
    + rewrite (Hsame' He). exact Hidle0.
    + apply Hidle'. lia.
  - exact Hrun'.
Qed.

Lemma deliver_batches_run (batches : list (list byte)) :
  forall s : Sender,
    queue_inv s -> queue_idle s ->
    Forall (fun packets => Z.of_nat (List.length packets) mod 188 = 0) batches ->
    exists s' evs,
      deliver_batches cfg clock s batches = Ok (s', evs)
      /\ queue_inv s' /\ queue_idle s' /\ seq_run s evs s'.
Proof.
  induction batches as [|packets rest IH]; intros s Hinv Hidle Hall.
  - exists s, []. repeat split; try assumption. apply seq_run_nil. reflexivity.
  - inversion Hall as [|? ? Hp Hrest]; subst.
    destruct (onQueuePackets_run s packets Hinv Hidle Hp)
      as (s1 & e1 & H1 & Hinv1 & Hidle1 & Hrun1).
    destruct (IH s1 Hinv1 Hidle1 Hrest)
      as (s2 & e2 & H2 & Hinv2 & Hidle2 & Hrun2).
    exists s2, (e1 ++ e2). cbn [deliver_batches]. rewrite H1. cbn [bind].
    rewrite H2. cbn [bind]. split; [reflexivity|].
    split; [exact Hinv2|]. split; [exact Hidle2|].
    eapply seq_run_app; eassumption.
Qed.

End Batches.

(** C3: whatever way the TS packets are grouped into batches, the RTP
    packets flushed while the batches are delivered carry consecutive
    sequence numbers: the [j]-th one carries [mRTPSeqNo + j] modulo
    65536, so each is its predecessor plus one modulo 65536. *)
Theorem rtp_sequence_numbers_consecutive
    (cfg : Config) (clock : nat -> Z) (s : Sender)
    (batches : list (list byte)) :
  queue_inv s -> queue_idle s ->
  Forall (fun packets => Z.of_nat (List.length packets) mod 188 = 0) batches ->
  exists s' evs,
    deliver_batches cfg clock s batches = Ok (s', evs)
    /\ (forall j d, (j < List.length evs)%nat ->
          rtp_seq_of (nth j evs d)
          = Ok ((mRTPSeqNo s + Z.of_nat j) mod 65536))
    /\ (forall j d, (S j < List.length evs)%nat ->
          exists a b,
            rtp_seq_of (nth j evs d) = Ok a
            /\ rtp_seq_of (nth (S j) evs d) = Ok b
            /\ b = (a + 1) mod 65536).
Proof.
  intros Hinv Hidle Hall.
  destruct (deliver_batches_run cfg clock batches s Hinv Hidle Hall)
    as (s' & evs & Hrun & _ & _ & Hseq & _).
  exists s', evs. split; [exact Hrun|].
  assert (Hnth : forall j d, (j < List.length evs)%nat ->
            rtp_seq_of (nth j evs d)
            = Ok ((mRTPSeqNo s + Z.of_nat j) mod 65536)).
  { intros j d Hj.
    rewrite <- (map_nth rtp_seq_of evs d j), Hseq.
    rewrite (nth_indep _ _ (Ok ((mRTPSeqNo s + Z.of_nat 0) mod 2 ^ 16)))
      by (rewrite length_map, length_seq; exact Hj).
    rewrite (map_nth (fun j => Ok ((mRTPSeqNo s + Z.of_nat j) mod 2 ^ 16))).
    rewrite seq_nth by exact Hj. reflexivity. }
  split; [exact Hnth|].
  intros j d Hj. eexists; eexists.
  split; [apply Hnth; lia|]. split; [apply Hnth; exact Hj|].
  change 65536 with (2 ^ 16).
  rewrite Z.add_mod_idemp_l by lia. f_equal. lia.
Qed.

(** ** One step of the RTCP walk *)

Lemma byte_at_range (data : list byte) (i : Z) : 0 <= byte_at data i < 256.
Proof. unfold byte_at. apply byte.unsigned_range. Qed.

Lemma load_byte_at (data : list byte) (i : Z) :
  0 <= i < Z.of_nat (List.length data) ->
  load data i = Ok (byte_at data i).
Proof. intros H. rewrite load_ok by exact H. reflexivity. Qed.

Lemma land_bit5 (b : Z) :
  negb (Z.land b 32 =? 0) = Z.testbit b 5.
Proof.
  destruct (Z.land b 32 =? 0) eqn:E; cbn [negb].
  - apply Z.eqb_eq in E.
    assert (H : Z.testbit (Z.land b 32) 5 = false)
      by (rewrite E; apply Z.testbit_0_l).
    rewrite Z.land_spec in H. change (Z.testbit 32 5) with true in H.
    rewrite andb_true_r in H. symmetry. exact H.
  - apply Z.eqb_neq in E. destruct (Z.testbit b 5) eqn:T; [reflexivity|].
    exfalso. apply E. apply Z.bits_inj'. intros n Hn.
    rewrite Z.land_spec, Z.testbit_0_l. change 32 with (2 ^ 5).
    rewrite Z.pow2_bits_eqb by lia.
    destruct (Z.eqb_spec 5 n) as [<-|Hne].
    + rewrite T. reflexivity.
    + apply andb_false_r.
Qed.

Lemma lor_shiftl_8 (hi lo : Z) :
  0 <= lo < 256 -> Z.lor (Z.shiftl hi 8) lo = 256 * hi + lo.
Proof.
  intros H. rewrite Z.or_to_plus.
  - rewrite Z.shiftl_mul_pow2 by lia. lia.
  - rewrite <- (Z.mod_small lo (2 ^ 8)) by lia.
    apply Z.bits_inj'. intros n Hn.
    rewrite Z.land_spec, Z.testbit_0_l.
    destruct (Z.lt_ge_cases n 8).
    + rewrite Z.shiftl_spec_low by lia. reflexivity.
    + rewrite Z.mod_pow2_bits_high by lia. apply andb_false_r.
Qed.

Section WalkSteps.

Variable cfg : Config.

Lemma parseRTCP_loop_exhausted (fuel : nat) (s : Sender) (data : list byte)
    (sz : Z) :
  sz <= 0 -> parseRTCP_loop cfg fuel s data sz = Ok (OK, s, []).
Proof.
  intros H. destruct fuel; cbn [parseRTCP_loop];
    replace (0 <? sz) with false by (symmetry; apply Z.ltb_ge; lia);
    reflexivity.
Qed.

Lemma parseRTCP_loop_truncated (fuel : nat) (s : Sender) (data : list byte)
    (sz : Z) :
  0 < sz < 8 ->
  parseRTCP_loop cfg (S fuel) s data sz = Ok (ERROR_MALFORMED, s, []).
Proof.
  intros H. cbn [parseRTCP_loop].
  replace (0 <? sz) with true by (symmetry; apply Z.ltb_lt; lia).
  replace (sz <? 8) with true by (symmetry; apply Z.ltb_lt; lia).
  reflexivity.
Qed.

Lemma parseRTCP_loop_version (fuel : nat) (s : Sender) (data : list byte)
    (sz : Z) :
  8 <= sz <= Z.of_nat (List.length data) ->
  rtcp_version data <> 2 ->
  parseRTCP_loop cfg (S fuel) s data sz = Ok (ERROR_UNSUPPORTED, s, []).
Proof.
  intros H Hv. cbn [parseRTCP_loop].
  replace (0 <? sz) with true by (symmetry; apply Z.ltb_lt; lia).
  replace (sz <? 8) with false by (symmetry; apply Z.ltb_ge; lia).
  rewrite load_byte_at by lia. cbn [bind].
  rewrite Z.shiftr_div_pow2 by lia. change (2 ^ 6) with 64.
  fold (rtcp_version data).
  replace (rtcp_version data =? 2) with false
    by (symmetry; apply Z.eqb_neq; exact Hv).
  reflexivity.
Qed.

Lemma parseRTCP_loop_padding (fuel : nat) (s : Sender) (data : list byte)
    (sz : Z) :
  8 <= sz <= Z.of_nat (List.length data) ->
  rtcp_version data = 2 ->
  rtcp_padding_flag data = true ->
  sz < rtcp_padding data sz + 12 ->
  parseRTCP_loop cfg (S fuel) s data sz = Ok (ERROR_MALFORMED, s, []).
Proof.
  intros H Hv Hflag Hpad. cbn [parseRTCP_loop].
  replace (0 <? sz) with true by (symmetry; apply Z.ltb_lt; lia).
  replace (sz <? 8) with false by (symmetry; apply Z.ltb_ge; lia).
  rewrite load_byte_at by lia. cbn [bind].
  rewrite Z.shiftr_div_pow2 by lia. change (2 ^ 6) with 64.
  fold (rtcp_version data). rewrite Hv. cbn [Z.eqb Pos.eqb negb].
  rewrite land_bit5. fold (rtcp_padding_flag data). rewrite Hflag.
  rewrite load_byte_at by lia. cbn [bind]. fold (rtcp_padding data sz).
  replace (sz <? rtcp_padding data sz + 12) with true
    by (symmetry; apply Z.ltb_lt; lia).
  reflexivity.
Qed.

(** Past the version and padding checks, on to the length check. *)
Lemma parseRTCP_loop_checked (fuel : nat) (s : Sender) (data : list byte)
    (sz : Z) :
  8 <= sz <= Z.of_nat (List.length data) ->
  rtcp_version data = 2 ->
  (rtcp_padding_flag data = true -> rtcp_padding data sz + 12 <= sz) ->
  parseRTCP_loop cfg (S fuel) s data sz
  = if rtcp_unpadded data sz <? rtcp_length data
    then Ok (ERROR_MALFORMED, s, [])
    else
      '(s1, evs) <- dispatch_rtcp cfg s data (rtcp_packet_type data)
                      (rtcp_length data) ;;
      '(err, s2, evs') <-
         parseRTCP_loop cfg fuel s1
           (skipn (Z.to_nat (rtcp_length data)) data)
           (rtcp_unpadded data sz - rtcp_length data) ;;
      Ok (err, s2, evs ++ evs').
Proof.
  intros H Hv Hpad. cbn [parseRTCP_loop].
  replace (0 <? sz) with true by (symmetry; apply Z.ltb_lt; lia).
  replace (sz <? 8) with false by (symmetry; apply Z.ltb_ge; lia).
  rewrite load_byte_at by lia. cbn [bind].
  rewrite Z.shiftr_div_pow2 by lia. change (2 ^ 6) with 64.
  fold (rtcp_version data). rewrite Hv. cbn [Z.eqb Pos.eqb negb].
  rewrite land_bit5. fold (rtcp_padding_flag data).
  rewrite !(load_byte_at data 1), !(load_byte_at data 2),
    !(load_byte_at data 3) by lia.
  cbn [bind].
  rewrite lor_shiftl_8 by apply byte_at_range.
  fold (rtcp_length data). fold (rtcp_packet_type data).
  unfold rtcp_unpadded.
  destruct (rtcp_padding_flag data) eqn:Hflag.
  - rewrite load_byte_at by lia. cbn [bind]. fold (rtcp_padding data sz).
    replace (sz <? rtcp_padding data sz + 12) with false
      by (symmetry; apply Z.ltb_ge; auto).
    reflexivity.
  - reflexivity.
Qed.

End WalkSteps.

(** ** The outcome of the walk *)

Lemma byte_at_app (sub rest : list byte) (i : Z) :
  0 <= i < Z.of_nat (List.length sub) ->
  byte_at (sub ++ rest) i = byte_at sub i.
Proof.
  intros H. unfold byte_at. rewrite app_nth1 by lia. reflexivity.
Qed.

Lemma load_app (sub rest : list byte) (i : Z) :
  0 <= i < Z.of_nat (List.length sub) ->
  load (sub ++ rest) i = load sub i.
Proof.
  intros H. rewrite !load_byte_at by (rewrite ?length_app; lia).
  rewrite byte_at_app by exact H. reflexivity.
Qed.

Lemma U32_AT_app (sub rest : list byte) (i : Z) :
  0 <= i -> i + 3 < Z.of_nat (List.length sub) ->
  U32_AT (sub ++ rest) i = U32_AT sub i.
Proof.
  intros H0 H1. unfold U32_AT. rewrite !load_app by lia. reflexivity.
Qed.

Lemma U32_AT_length (mem : list byte) (i v : Z) :
  U32_AT mem i = Ok v -> 0 <= i /\ i + 3 < Z.of_nat (List.length mem).
Proof.
  unfold U32_AT, load. intros H.
  destruct ((0 <=? i) && (i <? Z.of_nat (List.length mem))) eqn:E0;
    cbn [bind] in H; [|discriminate].
  destruct ((0 <=? i + 1) && (i + 1 <? Z.of_nat (List.length mem)));
    cbn [bind] in H; [|discriminate].
  destruct ((0 <=? i + 2) && (i + 2 <? Z.of_nat (List.length mem)));
    cbn [bind] in H; [|discriminate].
  destruct ((0 <=? i + 3) && (i + 3 <? Z.of_nat (List.length mem))) eqn:E3;
    cbn [bind] in H; [|discriminate].
  apply andb_true_iff in E0, E3. destruct E0 as [E0 _]. destruct E3 as [_ E3].
  apply Z.leb_le in E0. apply Z.ltb_lt in E3. lia.
Qed.

(** The source id read inside the datagram is the one the unchecked read
    gives. *)
Lemma U32_AT_unchecked (cfg : Config) (data : list byte) (v : Z) :
  U32_AT data 8 = Ok v -> U32_AT (unchecked cfg data) 8 = Ok v.
Proof.
  intros H. destruct (U32_AT_length _ _ _ H) as [H0 H1].
  unfold unchecked. rewrite U32_AT_app by lia. exact H.
Qed.

(** The unchecked read always gives a value. *)
Lemma U32_AT_unchecked_returns (cfg : Config) (data : list byte) :
  exists v, U32_AT (unchecked cfg data) 8 = Ok v.
Proof.
  assert (Hlen : 12 <= Z.of_nat (List.length (unchecked cfg data))).
  { unfold unchecked. rewrite length_app, length_map, length_seq. lia. }
  unfold U32_AT. rewrite !load_byte_at by lia. cbn [bind].
  eexists. reflexivity.
Qed.

Section WalkOutcome.

Variable cfg : Config.

Lemma rtcp_length_min (data : list byte) : 4 <= rtcp_length data.
Proof.
  unfold rtcp_length.
  pose proof (byte_at_range data 2). pose proof (byte_at_range data 3). lia.
Qed.

Lemma rtcp_unpadded_le (data : list byte) (sz : Z) :
  rtcp_unpadded data sz <= sz.
Proof.
  unfold rtcp_unpadded, rtcp_padding. destruct (rtcp_padding_flag data); [|lia].
  pose proof (byte_at_range data (sz - 1)). lia.
Qed.

End WalkOutcome.


(** ** What the walk may change *)

Lemma same_but_refl (s : Sender) : same_but_retransSeqNo s s.
Proof. unfold same_but_retransSeqNo. destruct s; reflexivity. Qed.

Lemma same_but_trans (s1 s2 s3 : Sender) :
  same_but_retransSeqNo s1 s2 -> same_but_retransSeqNo s2 s3 ->
  same_but_retransSeqNo s1 s3.
Proof.
  unfold same_but_retransSeqNo. intros H12 H23.
  rewrite H23 at 1. rewrite H12. reflexivity.
Qed.

Lemma same_but_set (s : Sender) (v : Z) :
  same_but_retransSeqNo s (set_mRTPRetransmissionSeqNo s v).
Proof. reflexivity. Qed.

Lemma same_but_session (s s' : Sender) :
  same_but_retransSeqNo s s' ->
  mRTPRetransmissionSessionID s' = mRTPRetransmissionSessionID s
  /\ mHistory s' = mHistory s.
Proof. intros H. rewrite H. split; reflexivity. Qed.

Section WalkFrame.

Variable cfg : Config.

Lemma scan_history_frame (it : list ABuffer) :
  forall (s s' : Sender) (seqNo blp blp' : Z) (found found' : bool)
         (evs : list Event),
    scan_history s it seqNo blp found = Ok (s', evs, blp', found') ->
    same_but_retransSeqNo s s' /\ Forall (is_retransmission s) evs.
Proof.
  induction it as [|buffer next IH];
    intros s s' seqNo blp blp' found found' evs H; cbn [scan_history] in H.
  - injection H as <- <- <- <-. split; [apply same_but_refl | constructor].
  - destruct (if bufferSeqNo_of buffer =? seqNo then (blp, true)
              else if negb (blp =? 0)
                   then blp_scan 16 0 seqNo (bufferSeqNo_of buffer) blp false
                   else (blp, false)) as [blp1 retransmit].
    destruct retransmit; [|eapply IH; eassumption].
    destruct (retransRTP_of (mRTPRetransmissionSeqNo s) buffer) as [pkt|f];
      cbn [bind] in H; [|discriminate].
    set (s1 := set_mRTPRetransmissionSeqNo s _) in H.
    assert (Hev : is_retransmission s
                    (SendRequest (mRTPRetransmissionSessionID s1) pkt))
      by (exists pkt; reflexivity).
    destruct (_ && _).
    + injection H as <- <- <- <-.
      split; [apply same_but_set | constructor; [exact Hev | constructor]].
    + destruct (scan_history s1 next seqNo blp1 _)
        as [[[[s2 e2] b2] f2]|f] eqn:Hrec; cbn [bind] in H; [|discriminate].
      injection H as <- <- <- <-.
      destruct (IH _ _ _ _ _ _ _ _ Hrec) as [Hs He].
      split; [eapply same_but_trans; [apply same_but_set | exact Hs]|].
      constructor; [exact Hev|].
      revert He. apply Forall_impl. intros ev [p ->]. exists p. reflexivity.
Qed.

Lemma parseTSFB_entries_frame (data : list byte) (sz : Z) :
  forall (fuel : nat) (s s' : Sender) (i : Z) (evs : list Event),
    parseTSFB_entries fuel s data sz i = Ok (s', evs) ->
    same_but_retransSeqNo s s' /\ Forall (is_retransmission s) evs.
Proof.
  induction fuel as [|fuel IH]; intros s s' i evs H;
    cbn [parseTSFB_entries] in H; destruct (i <? sz); try discriminate;
    try (injection H as <- <-; split; [apply same_but_refl | constructor]).
  destruct (U16_AT data i) as [seqNo|]; cbn [bind] in H; [|discriminate].
  destruct (U16_AT data (i + 2)) as [blp|]; cbn [bind] in H; [|discriminate].
  destruct (scan_history s (mHistory s) seqNo blp false)
    as [[[[s1 e1] b1] f1]|f] eqn:Hscan; cbn [bind] in H; [|discriminate].
  destruct (parseTSFB_entries fuel s1 data sz (i + 4))
    as [[s2 e2]|f] eqn:Hrec; cbn [bind] in H; [|discriminate].
  injection H as <- <-.
  destruct (scan_history_frame _ _ _ _ _ _ _ _ _ Hscan) as [Hs1 He1].
  destruct (IH _ _ _ _ Hrec) as [Hs2 He2].
  split; [eapply same_but_trans; eassumption|].
  apply Forall_app. split; [exact He1|].
  destruct (same_but_session _ _ Hs1) as [Hsid _].
  revert He2. apply Forall_impl. intros ev [p ->]. exists p. congruence.
Qed.

Lemma parseTSFB_frame (s s' : Sender) (data : list byte) (sz : Z)
    (st : status_t) (evs : list Event) :
  parseTSFB cfg s data sz = Ok (st, s', evs) ->
  same_but_retransSeqNo s s' /\ Forall (is_retransmission s) evs
  /\ (st <> OK -> s' = s /\ evs = []).
Proof.
  unfold parseTSFB. intros H.
  destruct (load data 0) as [b0|]; cbn [bind] in H; [|discriminate].
  destruct (negb (Z.land b0 31 =? 1)).
  { injection H as <- <- <-.
    split; [apply same_but_refl|]. split; [constructor | auto]. }
  destruct (U32_AT (unchecked cfg data) 8) as [srcId|]; cbn [bind] in H;
    [|discriminate].
  destruct (negb (srcId =? kSourceID cfg)).
  { injection H as <- <- <-.
    split; [apply same_but_refl|]. split; [constructor | auto]. }
  destruct (parseTSFB_entries _ s data sz 12) as [[s1 e1]|] eqn:He;
    cbn [bind] in H; [|discriminate].
  injection H as <- <- <-.
  destruct (parseTSFB_entries_frame _ _ _ _ _ _ _ He) as [Hs Hev].
  split; [exact Hs|]. split; [exact Hev | congruence].
Qed.

Lemma dispatch_rtcp_frame (s s' : Sender) (data : list byte)
    (packetType headerLength : Z) (evs : list Event) :
  dispatch_rtcp cfg s data packetType headerLength = Ok (s', evs) ->
  same_but_retransSeqNo s s' /\ Forall (is_retransmission s) evs.
Proof.
  unfold dispatch_rtcp. intros H.
  destruct (_ && _).
  { injection H as <- <-. split; [apply same_but_refl | constructor]. }
  destruct (_ && _).
  { destruct (parseTSFB cfg s data headerLength) as [[[st s1] e1]|] eqn:Ht;
      cbn [bind] in H; [|discriminate].
    injection H as <- <-.
    destruct (parseTSFB_frame _ _ _ _ _ _ Ht) as (Hs & He & _). auto. }
  destruct (_ =? _); injection H as <- <-;
    (split; [apply same_but_refl | constructor]).
Qed.

Lemma parseRTCP_loop_frame :
  forall (fuel : nat) (s s' : Sender) (data : list byte) (sz : Z)
         (st : status_t) (evs : list Event),
    parseRTCP_loop cfg fuel s data sz = Ok (st, s', evs) ->
    same_but_retransSeqNo s s' /\ Forall (is_retransmission s) evs.
Proof.
  assert (Hstop : forall (s s' : Sender) (st st' : status_t) (evs : list Event),
            @Ok (status_t * Sender * list Event) (st, s, []) = Ok (st', s', evs) ->
            same_but_retransSeqNo s s' /\ Forall (is_retransmission s) evs).
  { intros s s' st st' evs H. injection H as <- <- <-.
    split; [apply same_but_refl | constructor]. }
  induction fuel as [|fuel IH]; intros s s' data sz st evs H;
    cbn [parseRTCP_loop] in H;
    (destruct (0 <? sz); [|eapply Hstop; eassumption]); [discriminate|].
  destruct (sz <? 8); [eapply Hstop; eassumption|].
  destruct (load data 0) as [b0|]; cbn [bind] in H; [|discriminate].
  destruct (negb (Z.shiftr b0 6 =? 2)); [eapply Hstop; eassumption|].
  assert (Hafter : forall sz0,
    (b2 <- load data 2 ;;
     b3 <- load data 3 ;;
     (if sz0 <? 4 * Z.lor (Z.shiftl b2 8) b3 + 4
      then Ok (ERROR_MALFORMED, s, [])
      else
        b1 <- load data 1 ;;
        ' (s0, evs0) <- dispatch_rtcp cfg s data b1
                         (4 * Z.lor (Z.shiftl b2 8) b3 + 4) ;;
        ' (err, s1, evs') <-
           parseRTCP_loop cfg fuel s0
             (skipn (Z.to_nat (4 * Z.lor (Z.shiftl b2 8) b3 + 4)) data)
             (sz0 - (4 * Z.lor (Z.shiftl b2 8) b3 + 4)) ;;
        Ok (err, s1, evs0 ++ evs'))) = Ok (st, s', evs) ->
    same_but_retransSeqNo s s' /\ Forall (is_retransmission s) evs).
  { clear H. intros sz0 H.
    destruct (load data 2) as [b2|]; cbn [bind] in H; [|discriminate].
    destruct (load data 3) as [b3|]; cbn [bind] in H; [|discriminate].
    destruct (sz0 <? _); [eapply Hstop; eassumption|].
    destruct (load data 1) as [b1|]; cbn [bind] in H; [|discriminate].
    destruct (dispatch_rtcp cfg s data b1 _) as [[s1 e1]|] eqn:Hd;
      cbn [bind] in H; [|discriminate].
    destruct (parseRTCP_loop cfg fuel s1 _ _) as [[[st2 s2] e2]|] eqn:Hr;
      cbn [bind] in H; [|discriminate].
    injection H as <- <- <-.
    destruct (dispatch_rtcp_frame _ _ _ _ _ _ Hd) as [Hs1 He1].
    destruct (IH _ _ _ _ _ _ Hr) as [Hs2 He2].
    split; [eapply same_but_trans; eassumption|].
    apply Forall_app. split; [exact He1|].
    destruct (same_but_session _ _ Hs1) as [Hsid _].
    revert He2. apply Forall_impl. intros ev [p ->]. exists p. congruence. }
  destruct (negb (Z.land b0 32 =? 0)).
  - destruct (load data (sz - 1)) as [pad|]; cbn [bind] in H; [|discriminate].
    destruct (sz <? pad + 12); [eapply Hstop; eassumption|].
    eapply Hafter; exact H.
  - eapply Hafter; exact H.
Qed.

(** *** The walk always returns *)

Lemma retransRTP_of_returns (r : Z) (b : ABuffer) :
  readable b -> exists packet, retransRTP_of r b = Ok packet.
Proof.
  unfold readable, retransRTP_of, load_bytes. intros Hb.
  replace ((0 <=? 0) && (0 <=? 12)
           && (0 + 12 <=? Z.of_nat (List.length (mData b)))) with true
    by (symmetry; rewrite !andb_true_iff, !Z.leb_le; lia).
  cbn [bind].
  replace ((0 <=? 12) && (0 <=? size b - 12)
           && (12 + (size b - 12) <=? Z.of_nat (List.length (mData b))))
    with true
    by (symmetry; rewrite !andb_true_iff, !Z.leb_le; lia).
  cbn [bind]. eexists. reflexivity.
Qed.

Lemma scan_history_returns (it : list ABuffer) :
  Forall readable it ->
  forall (s : Sender) (seqNo blp : Z) (found : bool),
    exists r, scan_history s it seqNo blp found = Ok r.
Proof.
  induction 1 as [|buffer next Hb Hnext IH]; intros s seqNo blp found;
    cbn [scan_history]; [eexists; reflexivity|].
  destruct (if bufferSeqNo_of buffer =? seqNo then (blp, true)
            else if negb (blp =? 0)
                 then blp_scan 16 0 seqNo (bufferSeqNo_of buffer) blp false
                 else (blp, false)) as [blp1 retransmit].
  destruct retransmit; [|apply IH].
  destruct (retransRTP_of_returns (mRTPRetransmissionSeqNo s) buffer Hb)
    as (packet & ->).
  cbn [bind]. destruct (_ && _); [eexists; reflexivity|].
  destruct (IH (set_mRTPRetransmissionSeqNo s
                  (to_uint32 (mRTPRetransmissionSeqNo s + 1)))
              seqNo blp1
              (if bufferSeqNo_of buffer =? seqNo then true else found))
    as ([[[s2 e2] b2] f2] & ->).
  cbn [bind]. eexists. reflexivity.
Qed.

Lemma U16_AT_returns (data : list byte) (i : Z) :
  0 <= i -> i + 1 < Z.of_nat (List.length data) ->
  exists v, U16_AT data i = Ok v.
Proof.
  intros H0 H1. unfold U16_AT. rewrite !load_byte_at by lia. cbn [bind].
  eexists. reflexivity.
Qed.

Lemma parseTSFB_entries_returns (data : list byte) (sz : Z) :
  sz <= Z.of_nat (List.length data) ->
  forall (fuel : nat) (s : Sender) (i : Z),
    Forall readable (mHistory s) ->
    0 <= i -> (sz - i) mod 4 = 0 -> sz - i <= Z.of_nat fuel ->
    exists r, parseTSFB_entries fuel s data sz i = Ok r.
Proof.
  intros Hlen.
  induction fuel as [|fuel IH]; intros s i Hread Hi Hmod Hfuel;
    cbn [parseTSFB_entries]; destruct (Z.ltb_spec i sz) as [Hlt|Hge];
    try (eexists; reflexivity); [lia|].
  assert (Hfour : 4 <= sz - i).
  { destruct (Z_lt_le_dec (sz - i) 4) as [Hs|Hs]; [|exact Hs].
    rewrite Z.mod_small in Hmod by lia. lia. }
  destruct (U16_AT_returns data i) as (seqNo & ->); [lia | lia|].
  destruct (U16_AT_returns data (i + 2)) as (blp & ->); [lia | lia|].
  cbn [bind].
  destruct (scan_history_returns (mHistory s) Hread s seqNo blp false)
    as ([[[s1 e1] b1] f1] & Hscan).
  rewrite Hscan. cbn [bind].
  destruct (scan_history_frame _ _ _ _ _ _ _ _ _ Hscan) as [Hs1 _].
  destruct (same_but_session _ _ Hs1) as [_ Hhist].
  destruct (IH s1 (i + 4)) as ([s2 e2] & ->).
  - rewrite Hhist. exact Hread.
  - lia.
  - replace (sz - (i + 4)) with (sz - i + (-1) * 4) by lia.
    rewrite Z.mod_add by lia. exact Hmod.
  - lia.
  - cbn [bind]. eexists. reflexivity.
Qed.

(** The NACK handler returns for every feedback packet [parseRTCP]
    hands it: the one read that is not kept inside the sub-packet, the
    source id, has no bound to go past. *)
Lemma parseTSFB_returns (s : Sender) (data : list byte) (sz : Z) :
  1 <= Z.of_nat (List.length data) ->
  sz <= Z.of_nat (List.length data) -> sz mod 4 = 0 ->
  Forall readable (mHistory s) ->
  exists r, parseTSFB cfg s data sz = Ok r.
Proof.
  intros H1 Hlen Hmod Hread. unfold parseTSFB.
  rewrite load_byte_at by lia. cbn [bind].
  destruct (negb _); [eexists; reflexivity|].
  destruct (U32_AT_unchecked_returns cfg data) as (srcId & ->). cbn [bind].
  destruct (negb _); [eexists; reflexivity|].
  destruct (parseTSFB_entries_returns data sz Hlen (Z.to_nat sz) s 12 Hread)
    as ([s1 e1] & ->).
  - lia.
  - replace (sz - 12) with (sz + (-3) * 4) by lia.
    rewrite Z.mod_add by lia. exact Hmod.
  - lia.
  - cbn [bind]. eexists. reflexivity.
Qed.

Lemma rtcp_length_mod (data : list byte) : rtcp_length data mod 4 = 0.
Proof.
  unfold rtcp_length.
  replace (4 * (256 * byte_at data 2 + byte_at data 3) + 4)
    with ((256 * byte_at data 2 + byte_at data 3 + 1) * 4) by lia.
  apply Z.mod_mul. lia.
Qed.

Lemma dispatch_rtcp_returns (s : Sender) (data : list byte) (packetType : Z) :
  rtcp_length data <= Z.of_nat (List.length data) ->
  (ENABLE_RETRANSMISSION cfg = true -> Forall readable (mHistory s)) ->
  exists s' evs,
    dispatch_rtcp cfg s data packetType (rtcp_length data) = Ok (s', evs)
    /\ (ENABLE_RETRANSMISSION cfg = false -> s' = s /\ evs = []).
Proof.
  intros Hlen Hread. unfold dispatch_rtcp.
  pose proof (rtcp_length_min data) as Hmin.
  destruct ((200 <=? packetType) && (packetType <=? 204));
    [exists s, []; auto|].
  destruct (packetType =? 205); cbn [andb].
  - destruct (ENABLE_RETRANSMISSION cfg) eqn:E.
    + destruct (parseTSFB_returns s data (rtcp_length data))
        as ([[st s1] e1] & ->);
        [lia | lia | apply rtcp_length_mod | auto |].
      cbn [bind]. exists s1, e1. split; [reflexivity | discriminate].
    + exists s, []. destruct (packetType =? 206); auto.
  - exists s, []. destruct (packetType =? 206); auto.
Qed.

Lemma parseRTCP_loop_returns :
  forall (fuel : nat) (s : Sender) (data : list byte) (sz : Z),
    sz <= Z.of_nat (List.length data) ->
    sz <= Z.of_nat fuel ->
    (ENABLE_RETRANSMISSION cfg = true -> Forall readable (mHistory s)) ->
    exists st s' evs,
      parseRTCP_loop cfg fuel s data sz = Ok (st, s', evs)
      /\ rtcp_walk data sz st
      /\ (ENABLE_RETRANSMISSION cfg = false -> s' = s /\ evs = []).
Proof.
  induction fuel as [|fuel IH]; intros s data sz Hlen Hfuel Hread.
  - exists OK, s, []. rewrite parseRTCP_loop_exhausted by lia.
    split; [reflexivity|]. split; [apply walk_exhausted; lia | auto].
  - destruct (Z_le_gt_dec sz 0) as [Hz|Hpos].
    { exists OK, s, []. rewrite parseRTCP_loop_exhausted by lia.
      split; [reflexivity|]. split; [apply walk_exhausted; lia | auto]. }
    destruct (Z_lt_le_dec sz 8) as [Hshort|Hlong].
    { exists ERROR_MALFORMED, s, [].
      rewrite parseRTCP_loop_truncated by lia.
      split; [reflexivity|]. split; [apply walk_truncated; lia | auto]. }
    destruct (Z.eq_dec (rtcp_version data) 2) as [Hv|Hv].
    2:{ exists ERROR_UNSUPPORTED, s, [].
        rewrite parseRTCP_loop_version by (lia || assumption).
        split; [reflexivity|].
        split; [apply walk_version; lia || assumption | auto]. }
    assert (Hcases :
      (rtcp_padding_flag data = true /\ sz < rtcp_padding data sz + 12)
      \/ (rtcp_padding_flag data = true -> rtcp_padding data sz + 12 <= sz)).
    { destruct (rtcp_padding_flag data); [|right; discriminate].
      destruct (Z_lt_le_dec sz (rtcp_padding data sz + 12)); auto. }
    destruct Hcases as [[Hflag Hbad] | Hok].
    { exists ERROR_MALFORMED, s, [].
      rewrite parseRTCP_loop_padding by (lia || assumption).
      split; [reflexivity|].
      split; [apply walk_padding; lia || assumption | auto]. }
    rewrite parseRTCP_loop_checked by (lia || assumption).
    destruct (rtcp_unpadded data sz <? rtcp_length data) eqn:Hl.
    { apply Z.ltb_lt in Hl. exists ERROR_MALFORMED, s, [].
      split; [reflexivity|].
      split; [apply walk_length; (lia || assumption) | auto]. }
    apply Z.ltb_ge in Hl.
    pose proof (rtcp_length_min data) as Hmin.
    pose proof (rtcp_unpadded_le data sz) as Hup.
    destruct (dispatch_rtcp_returns s data (rtcp_packet_type data))
      as (s1 & e1 & Hd & Hoff1); [lia | exact Hread|].
    rewrite Hd. cbn [bind].
    destruct (dispatch_rtcp_frame _ _ _ _ _ _ Hd) as [Hs1 _].
    destruct (same_but_session _ _ Hs1) as [_ Hhist].
    destruct (IH s1 (skipn (Z.to_nat (rtcp_length data)) data)
                (rtcp_unpadded data sz - rtcp_length data))
      as (st & s2 & e2 & Hr & Hw & Hoff2);
      [rewrite length_skipn; lia | lia
      | intros He; rewrite Hhist; auto |].
    rewrite Hr. cbn [bind].
    exists st, s2, (e1 ++ e2). split; [reflexivity|].
    split; [apply walk_next; (lia || assumption)|].
    intros He. destruct (Hoff1 He) as [-> ->].
    destruct (Hoff2 He) as [-> ->]. auto.
Qed.

End WalkFrame.



(** ** Feedback the NACK handler turns down *)

Section RejectedFeedback.

Variable cfg : Config.

(** Fuel beyond the size of what is left changes nothing. *)
Lemma parseRTCP_loop_fuel :
  forall (fuel1 fuel2 : nat) (s : Sender) (data : list byte) (sz : Z),
    sz <= Z.of_nat (List.length data) ->
    sz <= Z.of_nat fuel1 -> sz <= Z.of_nat fuel2 ->
    parseRTCP_loop cfg fuel1 s data sz = parseRTCP_loop cfg fuel2 s data sz.
Proof.
  induction fuel1 as [|fuel1 IH]; intros fuel2 s data sz Hlen H1 H2.
  - rewrite !parseRTCP_loop_exhausted by lia. reflexivity.
  - destruct (Z_le_gt_dec sz 0) as [Hz|Hpos];
      [rewrite !parseRTCP_loop_exhausted by lia; reflexivity|].
    destruct fuel2 as [|fuel2]; [lia|].
    destruct (Z_lt_le_dec sz 8) as [Hshort|Hlong];
      [rewrite !parseRTCP_loop_truncated by lia; reflexivity|].
    destruct (Z.eq_dec (rtcp_version data) 2) as [Hv|Hv];
      [|rewrite !parseRTCP_loop_version by (lia || assumption); reflexivity].
    assert (Hcases :
      (rtcp_padding_flag data = true /\ sz < rtcp_padding data sz + 12)
      \/ (rtcp_padding_flag data = true -> rtcp_padding data sz + 12 <= sz)).
    { destruct (rtcp_padding_flag data); [|right; discriminate].
      destruct (Z_lt_le_dec sz (rtcp_padding data sz + 12)); auto. }
    destruct Hcases as [[Hflag Hbad] | Hok];
      [rewrite !parseRTCP_loop_padding by (lia || assumption); reflexivity|].
    rewrite !parseRTCP_loop_checked by (lia || assumption).
    destruct (rtcp_unpadded data sz <? rtcp_length data) eqn:Hl;
      [reflexivity|].
    apply Z.ltb_ge in Hl.
    pose proof (rtcp_length_min data) as Hmin.
    pose proof (rtcp_unpadded_le data sz) as Hup.
    destruct (dispatch_rtcp cfg s data _ _) as [[s1 e1]|]; cbn [bind];
      [|reflexivity].
    rewrite (IH fuel2); [reflexivity | rewrite length_skipn; lia | lia | lia].
Qed.

(** The NACK handler turns down a feedback packet that is not a generic
    NACK, or one for another source, without touching the sender. *)
Lemma parseTSFB_rejects (s : Sender) (data : list byte) (sz : Z) :
  1 <= Z.of_nat (List.length data) ->
  (Z.land (byte_at data 0) 31 <> 1
   /\ parseTSFB cfg s data sz = Ok (ERROR_UNSUPPORTED, s, []))
  \/ (Z.land (byte_at data 0) 31 = 1
      /\ forall srcId, U32_AT data 8 = Ok srcId -> srcId <> kSourceID cfg ->
           parseTSFB cfg s data sz = Ok (ERROR_MALFORMED, s, [])).
Proof.
  intros Hlen. unfold parseTSFB. rewrite load_byte_at by lia. cbn [bind].
  destruct (Z.eq_dec (Z.land (byte_at data 0) 31) 1) as [He|Hne].
  - right. split; [exact He|]. intros srcId Hsrc Hneq.
    rewrite He. cbn [Z.eqb Pos.eqb negb].
    rewrite (U32_AT_unchecked cfg _ _ Hsrc). cbn [bind].
    replace (srcId =? kSourceID cfg) with false
      by (symmetry; apply Z.eqb_neq; exact Hneq).
    reflexivity.
  - left. split; [exact Hne|].
    replace (Z.land (byte_at data 0) 31 =? 1) with false
      by (symmetry; apply Z.eqb_neq; exact Hne).
    reflexivity.
Qed.

Lemma dispatch_rtcp_rejected (s : Sender) (data : list byte)
    (headerLength : Z) :
  1 <= Z.of_nat (List.length data) ->
  Z.land (byte_at data 0) 31 <> 1
  \/ (exists srcId, U32_AT data 8 = Ok srcId /\ srcId <> kSourceID cfg) ->
  dispatch_rtcp cfg s data 205 headerLength = Ok (s, []).
Proof.
  intros Hlen Hrej. unfold dispatch_rtcp.
  change ((200 <=? 205) && (205 <=? 204)) with false.
  change (205 =? 205) with true. cbn [andb].
  destruct (ENABLE_RETRANSMISSION cfg); [|reflexivity].
  destruct (parseTSFB_rejects s data headerLength Hlen)
    as [[Hne Hr] | [He Hr]].
  - rewrite Hr. reflexivity.
  - destruct Hrej as [Hne | (srcId & Hsrc & Hneq)]; [contradiction|].
    rewrite (Hr srcId Hsrc Hneq). reflexivity.
Qed.

End RejectedFeedback.

Lemma parseRTCP_loop_skips_rejected
    (cfg : Config) (fuel : nat) (s : Sender) (data : list byte) (sz : Z) :
  8 <= sz <= Z.of_nat (List.length data) ->
  rtcp_version data = 2 ->
  (rtcp_padding_flag data = true -> rtcp_padding data sz + 12 <= sz) ->
  rtcp_length data <= rtcp_unpadded data sz ->
  rtcp_packet_type data = 205 ->
  Z.land (byte_at data 0) 31 <> 1
  \/ (exists srcId, U32_AT data 8 = Ok srcId /\ srcId <> kSourceID cfg) ->
  parseRTCP_loop cfg (S fuel) s data sz
  = parseRTCP_loop cfg fuel s
      (skipn (Z.to_nat (rtcp_length data)) data)
      (rtcp_unpadded data sz - rtcp_length data).
Proof.
  intros Hsz Hv Hpad Hlen Htype Hrej.
  rewrite parseRTCP_loop_checked by assumption.
  replace (rtcp_unpadded data sz <? rtcp_length data) with false
    by (symmetry; apply Z.ltb_ge; exact Hlen).
  rewrite Htype, dispatch_rtcp_rejected by (lia || assumption).
  cbn [bind].
  destruct (parseRTCP_loop cfg fuel s _ _) as [[[st s1] e1]|f];
    reflexivity.
Qed.

Lemma U16_AT_app (sub rest : list byte) (i : Z) :
  0 <= i -> i + 1 < Z.of_nat (List.length sub) ->
  U16_AT (sub ++ rest) i = U16_AT sub i.
Proof.
  intros H0 H1. unfold U16_AT. rewrite !load_app by lia. reflexivity.
Qed.

Section RejectedFeedback.

Variable cfg : Config.

Lemma whole_header (sub rest : list byte) :
  8 <= Z.of_nat (List.length sub) ->
  rtcp_version (sub ++ rest) = rtcp_version sub
  /\ rtcp_padding_flag (sub ++ rest) = rtcp_padding_flag sub
  /\ rtcp_length (sub ++ rest) = rtcp_length sub
  /\ rtcp_packet_type (sub ++ rest) = rtcp_packet_type sub
  /\ byte_at (sub ++ rest) 0 = byte_at sub 0.
Proof.
  intros H. unfold rtcp_version, rtcp_padding_flag, rtcp_length,
    rtcp_packet_type.
  rewrite !byte_at_app by lia. repeat split; reflexivity.
Qed.

(** The walk over a buffer that starts with a whole sub-packet: the
    sub-packet is dispatched, then the walk starts again behind it. *)
Lemma parseRTCP_whole (s : Sender) (sub rest : list byte) :
  whole_subpacket sub ->
  parseRTCP cfg s (sub ++ rest)
  = '(s1, evs1) <- dispatch_rtcp cfg s (sub ++ rest) (rtcp_packet_type sub)
                     (rtcp_length sub) ;;
    '(st, s2, evs2) <- parseRTCP cfg s1 rest ;;
    Ok (st, s2, evs1 ++ evs2).
Proof.
  intros (Hlen & Hv & Hflag & Hwhole).
  destruct (whole_header sub rest Hlen) as (Ev & Ef & El & Et & _).
  unfold parseRTCP. rewrite length_app.
  replace (List.length sub + List.length rest)%nat
    with (S (List.length sub + List.length rest - 1))%nat by lia.
  rewrite parseRTCP_loop_checked;
    [ | rewrite length_app; lia | congruence
      | rewrite Ef, Hflag; discriminate ].
  unfold rtcp_unpadded. rewrite Ef, Hflag, El, Et, Hwhole.
  replace (Z.of_nat (S (List.length sub + List.length rest - 1))
           <? Z.of_nat (List.length sub)) with false
    by (symmetry; apply Z.ltb_ge; lia).
  rewrite Nat2Z.id, skipn_app, Nat.sub_diag, skipn_all, skipn_O, app_nil_l.
  replace (Z.of_nat (S (List.length sub + List.length rest - 1))
           - Z.of_nat (List.length sub))
    with (Z.of_nat (List.length rest)) by lia.
  destruct (dispatch_rtcp cfg s (sub ++ rest) _ _) as [[s1 e1]|];
    cbn [bind]; [|reflexivity].
  rewrite (parseRTCP_loop_fuel cfg
             (List.length sub + List.length rest - 1) (List.length rest))
    by lia.
  reflexivity.
Qed.

Lemma parseTSFB_entries_app (sub rest : list byte) (sz : Z) :
  sz <= Z.of_nat (List.length sub) ->
  forall (fuel : nat) (s : Sender) (i : Z),
    0 <= i -> (sz - i) mod 4 = 0 ->
    parseTSFB_entries fuel s (sub ++ rest) sz i
    = parseTSFB_entries fuel s sub sz i.
Proof.
  intros Hlen.
  induction fuel as [|fuel IH]; intros s i Hi Hmod; cbn [parseTSFB_entries];
    [reflexivity|].
  destruct (Z.ltb_spec i sz) as [Hlt|Hge]; [|reflexivity].
  assert (Hfour : 4 <= sz - i).
  { destruct (Z_lt_le_dec (sz - i) 4) as [Hs|Hs]; [|exact Hs].
    rewrite Z.mod_small in Hmod by lia. lia. }
  rewrite !U16_AT_app by lia.
  destruct (U16_AT sub i) as [seqNo|]; cbn [bind]; [|reflexivity].
  destruct (U16_AT sub (i + 2)) as [blp|]; cbn [bind]; [|reflexivity].
  destruct (scan_history s (mHistory s) seqNo blp false)
    as [[[[s1 e1] b1] f1]|]; cbn [bind]; [|reflexivity].
  rewrite IH; [reflexivity | lia |].
  replace (sz - (i + 4)) with (sz - i + (-1) * 4) by lia.
  rewrite Z.mod_add by lia. exact Hmod.
Qed.

(** What the dispatch of a whole sub-packet does is settled by the
    sub-packet: the bytes after it have no part in it.  (The source id
    of a feedback packet of 8 bytes is read from them, but then the
    handler has no entry to serve and its status is dropped.) *)
Lemma dispatch_rtcp_whole (s : Sender) (sub rest1 rest2 : list byte) :
  whole_subpacket sub ->
  dispatch_rtcp cfg s (sub ++ rest1) (rtcp_packet_type sub) (rtcp_length sub)
  = dispatch_rtcp cfg s (sub ++ rest2) (rtcp_packet_type sub)
      (rtcp_length sub).
Proof.
  intros (Hlen & Hv & Hflag & Hwhole). unfold dispatch_rtcp.
  destruct (_ && _); [reflexivity|].
  destruct (_ && _); [|reflexivity].
  unfold parseTSFB. rewrite !load_app by lia.
  destruct (load sub 0) as [b0|]; cbn [bind]; [|reflexivity].
  destruct (negb _); [reflexivity|].
  pose proof (rtcp_length_mod sub) as Hmod.
  destruct (Z_lt_le_dec (Z.of_nat (List.length sub)) 12) as [Hshort|Hlong].
  - destruct (U32_AT_unchecked_returns cfg (sub ++ rest1)) as (v1 & ->).
    destruct (U32_AT_unchecked_returns cfg (sub ++ rest2)) as (v2 & ->).
    cbn [bind].
    assert (Hnone : forall data,
              parseTSFB_entries (Z.to_nat (rtcp_length sub)) s data
                (rtcp_length sub) 12 = Ok (s, [])).
    { intros data. destruct (Z.to_nat (rtcp_length sub));
        cbn [parseTSFB_entries];
        replace (12 <? rtcp_length sub) with false
          by (symmetry; apply Z.ltb_ge; lia);
        reflexivity. }
    rewrite !Hnone. cbn [bind].
    destruct (negb (v1 =? _)), (negb (v2 =? _)); reflexivity.
  - unfold unchecked. rewrite <- !app_assoc.
    rewrite !(U32_AT_app sub) by lia.
    destruct (U32_AT sub 8) as [srcId|]; cbn [bind]; [|reflexivity].
    destruct (negb _); [reflexivity|].
    rewrite !(parseTSFB_entries_app sub) by
      (lia || (replace (rtcp_length sub - 12)
                 with (rtcp_length sub + (-3) * 4) by lia;
               rewrite Z.mod_add by lia; exact Hmod)).
    reflexivity.
Qed.

(** A feedback packet the handler turns down, in front of what is left
    of a buffer, is walked over without a trace. *)
Lemma parseRTCP_skips_rejected (s : Sender) (sub rest : list byte) :
  whole_subpacket sub -> rtcp_packet_type sub = 205 ->
  rejected_feedback cfg sub ->
  parseRTCP cfg s (sub ++ rest) = parseRTCP cfg s rest.
Proof.
  intros Hsub Htype Hrej. rewrite parseRTCP_whole by exact Hsub.
  destruct Hsub as (Hlen & _).
  destruct (whole_header sub rest Hlen) as (_ & _ & _ & _ & E0).
  rewrite Htype, dispatch_rtcp_rejected.
  - cbn [bind]. destruct (parseRTCP cfg s rest) as [[[st s1] e1]|];
      reflexivity.
  - rewrite length_app. lia.
  - destruct Hrej as [Hne | (srcId & Hsrc & Hneq)].
    + left. rewrite E0. exact Hne.
    + right. exists srcId. split; [|exact Hneq].
      destruct (U32_AT_length _ _ _ Hsrc) as [H0 H1].
      rewrite U32_AT_app by lia. exact Hsrc.
Qed.

(** The same behind any number of whole sub-packets. *)
Lemma parseRTCP_without_rejected (before : list (list byte))
    (sub rest : list byte) :
  Forall whole_subpacket before ->
  whole_subpacket sub -> rtcp_packet_type sub = 205 ->
  rejected_feedback cfg sub ->
  forall s : Sender,
    parseRTCP cfg s (concat before ++ sub ++ rest)
    = parseRTCP cfg s (concat before ++ rest).
Proof.
  intros Hbefore Hsub Htype Hrej.
  induction Hbefore as [|b before Hb _ IH]; intros s; cbn [concat app].
  - apply parseRTCP_skips_rejected; assumption.
  - rewrite <- !app_assoc. rewrite !(parseRTCP_whole s b) by exact Hb.
    rewrite (dispatch_rtcp_whole s b (concat before ++ sub ++ rest)
               (concat before ++ rest)) by exact Hb.
    destruct (dispatch_rtcp cfg s _ _ _) as [[s1 e1]|]; cbn [bind];
      [|reflexivity].
    rewrite IH. reflexivity.
Qed.

End RejectedFeedback.

(** C10: a transport-feedback sub-packet the NACK handler turns down,
    for its format or for its source id, anywhere in a compound buffer
    of whole sub-packets.  The handler returns its error without a
    retransmission and without touching the sender, in whatever state it
    is called; and what [parseRTCP] returns for the buffer (status,
    sender and packets sent) is what it returns for the buffer without
    that sub-packet.  The sub-packets behind it are processed: a
    feedback packet that follows it is handed to the NACK handler in the
    state the sender was in, what the handler sends for it is sent, and
    the walk goes on behind it from the state the handler left. *)
Theorem rejected_nack_is_skipped
    (cfg : Config) (s : Sender) (before : list (list byte))
    (sub rest : list byte) :
  Forall whole_subpacket before ->
  whole_subpacket sub ->
  rtcp_packet_type sub = 205 ->
  rejected_feedback cfg sub ->
  (forall s0 : Sender,
      exists err,
        parseTSFB cfg s0 (sub ++ rest) (rtcp_length sub) = Ok (err, s0, [])
        /\ err <> OK)
  /\ parseRTCP cfg s (concat before ++ sub ++ rest)
     = parseRTCP cfg s (concat before ++ rest)
  /\ (forall (next tail : list byte) (st1 : status_t) (s1 : Sender)
             (evs1 : list Event),
        rest = next ++ tail ->
        whole_subpacket next -> rtcp_packet_type next = 205 ->
        ENABLE_RETRANSMISSION cfg = true ->
        Forall readable (mHistory s) ->
        parseTSFB cfg s (next ++ tail) (rtcp_length next)
          = Ok (st1, s1, evs1) ->
        exists st2 s2 evs2,
          parseRTCP cfg s1 tail = Ok (st2, s2, evs2)
          /\ parseRTCP cfg s (sub ++ rest) = Ok (st2, s2, evs1 ++ evs2)).
Proof.
  intros Hbefore Hsub Htype Hrej. split; [|split].
  - intros s0. destruct Hsub as (Hlen & _).
    destruct (whole_header sub rest Hlen) as (_ & _ & _ & _ & E0).
    destruct (parseTSFB_rejects cfg s0 (sub ++ rest) (rtcp_length sub))
      as [[Hne Hr] | [He Hr]]; [rewrite length_app; lia | |].
    + exists ERROR_UNSUPPORTED. split; [exact Hr | discriminate].
    + destruct Hrej as [Hne | (srcId & Hsrc & Hneq)];
        [rewrite E0 in He; contradiction|].
      exists ERROR_MALFORMED. split; [|discriminate].
      apply (Hr srcId); [|exact Hneq].
      destruct (U32_AT_length _ _ _ Hsrc) as [H0 H1].
      rewrite U32_AT_app by lia. exact Hsrc.
  - apply parseRTCP_without_rejected; assumption.
  - intros next tail st1 s1 evs1 -> Hnext Hntype Hen Hread Hnack.
    rewrite (parseRTCP_skips_rejected cfg s sub _ Hsub Htype Hrej).
    rewrite (parseRTCP_whole cfg s next tail Hnext).
    unfold dispatch_rtcp. rewrite Hntype, Hen.
    change ((200 <=? 205) && (205 <=? 204)) with false.
    change ((205 =? 205) && true) with true. cbv iota.
    rewrite Hnack. cbn [bind].
    destruct (parseTSFB_frame cfg _ _ _ _ _ _ Hnack) as (Hs1 & _ & _).
    destruct (same_but_session _ _ Hs1) as [_ Hhist].
    unfold parseRTCP.
    destruct (parseRTCP_loop_returns cfg (List.length tail) s1 tail
                (Z.of_nat (List.length tail)) ltac:(lia) ltac:(lia))
      as (st2 & s2 & evs2 & Hr & _ & _).
    { intros _. rewrite Hhist. exact Hread. }
    rewrite Hr. cbn [bind]. exists st2, s2, evs2. split; reflexivity.
Qed.

(** C5 (as amended): a sub-packet of a version other than 2 is not
    skipped: the walk stops on it with the unsupported status, whatever
    follows it, and nothing after it is looked at.  A transport-feedback
    sub-packet whose format is not 1 is turned down by the NACK handler
    with the unsupported status and skipped: the walk goes on with what
    follows it. *)
Theorem unsupported_version_stops_unsupported_nack_skipped
    (cfg : Config) (s : Sender) (sub rest : list byte) :
  8 <= Z.of_nat (List.length sub) ->
  (rtcp_version sub <> 2 ->
   parseRTCP cfg s (sub ++ rest) = Ok (ERROR_UNSUPPORTED, s, []))
  /\ (rtcp_version sub = 2 ->
      rtcp_padding_flag sub = false ->
      rtcp_length sub = Z.of_nat (List.length sub) ->
      rtcp_packet_type sub = 205 ->
      Z.land (byte_at sub 0) 31 <> 1 ->
      parseTSFB cfg s (sub ++ rest) (rtcp_length sub)
        = Ok (ERROR_UNSUPPORTED, s, [])
      /\ parseRTCP cfg s (sub ++ rest) = parseRTCP cfg s rest).
Proof.
  intros Hsub.
  assert (Hver : rtcp_version (sub ++ rest) = rtcp_version sub)
    by (unfold rtcp_version; rewrite byte_at_app by lia; reflexivity).
  assert (Hflag : rtcp_padding_flag (sub ++ rest) = rtcp_padding_flag sub)
    by (unfold rtcp_padding_flag; rewrite byte_at_app by lia; reflexivity).
  assert (Hlen : rtcp_length (sub ++ rest) = rtcp_length sub)
    by (unfold rtcp_length; rewrite !byte_at_app by lia; reflexivity).
  assert (Htyp : rtcp_packet_type (sub ++ rest) = rtcp_packet_type sub)
    by (unfold rtcp_packet_type; rewrite byte_at_app by lia; reflexivity).
  assert (Hfmt : byte_at (sub ++ rest) 0 = byte_at sub 0)
    by (apply byte_at_app; lia).
  unfold parseRTCP. rewrite length_app.
  replace (List.length sub + List.length rest)%nat
    with (S (List.length sub + List.length rest - 1))%nat by lia.
  split.
  - intros Hv. apply parseRTCP_loop_version.
    + rewrite length_app. lia.
    + rewrite Hver. exact Hv.
  - intros Hv Hnopad Hwhole Htype Hne. split.
    + destruct (parseTSFB_rejects cfg s (sub ++ rest) (rtcp_length sub))
        as [[_ Hr] | [He _]];
        [rewrite length_app; lia | exact Hr | congruence].
    + rewrite parseRTCP_loop_skips_rejected.
      * unfold rtcp_unpadded. rewrite Hflag, Hnopad, Hlen, Hwhole.
        rewrite Nat2Z.id, skipn_app, Nat.sub_diag, skipn_all, skipn_O,
          app_nil_l.
        replace (Z.of_nat (S (List.length sub + List.length rest - 1))
                 - Z.of_nat (List.length sub))
          with (Z.of_nat (List.length rest)) by lia.
        apply parseRTCP_loop_fuel; lia.
      * rewrite length_app. lia.
      * congruence.
      * rewrite Hflag, Hnopad. discriminate.
      * unfold rtcp_unpadded. rewrite Hflag, Hnopad, Hlen, Hwhole. lia.
      * congruence.
      * left. congruence.
Qed.

(** C5, the sentence as written, fails on the code: with the version-0
    report in front, the NACK behind it is never looked at and the call
    returns the unsupported status, where the NACK alone is answered by
    two retransmissions and OK. *)
Lemma unsupported_version_claim_counterexample :
  parseRTCP cfg_retransmit (sender_after cfg_retransmit 3)
    (rr_version0 ++ nack_for 1 1)
  = Ok (ERROR_UNSUPPORTED, sender_after cfg_retransmit 3, [])
  /\ outcome_summary
       (parseRTCP cfg_retransmit (sender_after cfg_retransmit 3)
          (nack_for 1 1))
     = Some (OK, 2%nat, 2)
  /\ parseRTCP cfg_plain new_Sender (rr_version0 ++ rr_plain)
     = Ok (ERROR_UNSUPPORTED, new_Sender, [])
  /\ parseRTCP cfg_plain new_Sender rr_plain = Ok (OK, new_Sender, []).
Proof.
  repeat split; vm_compute; reflexivity.
Qed.

(** ** The scan of the bitmask *)

Lemma land_pow2_testbit (b i : Z) :
  0 <= i -> negb (Z.land b (Z.shiftl 1 i) =? 0) = Z.testbit b i.
Proof.
  intros Hi. rewrite Z.shiftl_1_l.
  destruct (Z.land b (2 ^ i) =? 0) eqn:E; cbn [negb].
  - apply Z.eqb_eq in E.
    assert (H : Z.testbit (Z.land b (2 ^ i)) i = false)
      by (rewrite E; apply Z.testbit_0_l).
    rewrite Z.land_spec, Z.pow2_bits_true, andb_true_r in H by lia.
    symmetry. exact H.
  - apply Z.eqb_neq in E. destruct (Z.testbit b i) eqn:T; [reflexivity|].
    exfalso. apply E. apply Z.bits_inj'. intros n Hn.
    rewrite Z.land_spec, Z.testbit_0_l, Z.pow2_bits_eqb by lia.
    destruct (Z.eqb_spec i n) as [<-|Hne].
    + rewrite T. reflexivity.
    + apply andb_false_r.
Qed.

Lemma land_0xffff (x : Z) : Z.land x 65535 = x mod 2 ^ 16.
Proof. change 65535 with (Z.ones 16). apply Z.land_ones. lia. Qed.

Lemma testbit_above (b j : Z) :
  0 <= b < 2 ^ 16 -> 16 <= j -> Z.testbit b j = false.
Proof.
  intros Hb Hj. rewrite <- (Z.mod_small b (2 ^ 16)) by lia.
  apply Z.mod_pow2_bits_high. lia.
Qed.

(** Clearing bit [i] of a 16-bit mask, as [blp &= ~(1 << i)] does. *)
Lemma clear_bit_testbit (blp i j : Z) :
  0 <= blp < 2 ^ 16 -> 0 <= i -> 0 <= j ->
  Z.testbit (to_uint16 (Z.land blp (Z.lnot (Z.shiftl 1 i)))) j
  = Z.testbit blp j && negb (i =? j).
Proof.
  intros Hb Hi Hj. unfold to_uint16. rewrite Z.shiftl_1_l.
  destruct (Z.lt_ge_cases j 16) as [Hlt|Hge].
  - rewrite Z.mod_pow2_bits_low, Z.land_spec, Z.lnot_spec,
      Z.pow2_bits_eqb by lia.
    reflexivity.
  - rewrite Z.mod_pow2_bits_high by lia.
    rewrite (testbit_above blp j) by lia. reflexivity.
Qed.

Lemma to_uint16_range (x : Z) : 0 <= to_uint16 x < 2 ^ 16.
Proof. unfold to_uint16. apply Z.mod_pos_bound. lia. Qed.

Lemma blp_scan_spec (seqNo tag : Z) :
  forall (n : nat) (i blp : Z) (r : bool),
    0 <= i -> 0 <= blp < 2 ^ 16 ->
    0 <= fst (blp_scan n i seqNo tag blp r) < 2 ^ 16
    /\ snd (blp_scan n i seqNo tag blp r)
       = r || existsb
                (fun j => Z.testbit blp j
                          && (tag =? (seqNo + j + 1) mod 65536))
                (map Z.of_nat (seq (Z.to_nat i) n))
    /\ (forall j, 0 <= j ->
          Z.testbit (fst (blp_scan n i seqNo tag blp r)) j
          = Z.testbit blp j
            && negb ((i <=? j) && (j <? i + Z.of_nat n)
                     && (tag =? (seqNo + j + 1) mod 65536))).
Proof.
  induction n as [|n IH]; intros i blp r Hi Hb.
  - cbn [blp_scan fst snd seq map existsb].
    split; [exact Hb|]. split; [rewrite orb_false_r; reflexivity|].
    intros j Hj.
    replace ((i <=? j) && (j <? i + Z.of_nat 0)) with false
      by (symmetry; apply andb_false_iff;
          destruct (Z.leb_spec i j); [right; apply Z.ltb_ge; lia | now left]).
    cbn [andb negb]. rewrite andb_true_r. reflexivity.
  - cbn [blp_scan seq map existsb].
    rewrite land_pow2_testbit, land_0xffff by exact Hi.
    rewrite Z2Nat.id by exact Hi. change 65536 with (2 ^ 16).
    destruct (Z.testbit blp i && (tag =? (seqNo + i + 1) mod 2 ^ 16)) eqn:C.
    + apply andb_true_iff in C. destruct C as [Cb Ct]. apply Z.eqb_eq in Ct.
      destruct (IH (i + 1)
                  (to_uint16 (Z.land blp (Z.lnot (Z.shiftl 1 i)))) true
                  ltac:(lia) (to_uint16_range _)) as (R1 & R2 & R3).
      split; [exact R1|]. split.
      * rewrite R2. cbn [orb]. rewrite orb_true_r. reflexivity.
      * intros j Hj. rewrite R3, clear_bit_testbit by lia.
        destruct (Z.eqb_spec i j) as [<-|Hne].
        -- rewrite Z.leb_refl.
           replace (i <? i + Z.of_nat (S n)) with true
             by (symmetry; apply Z.ltb_lt; lia).
           replace (tag =? (seqNo + i + 1) mod 2 ^ 16) with true
             by (symmetry; apply Z.eqb_eq; exact Ct).
           cbn [andb negb]. rewrite !andb_false_r. reflexivity.
        -- cbn [negb]. rewrite andb_true_r.
           replace ((i + 1 <=? j) && (j <? i + 1 + Z.of_nat n))
             with ((i <=? j) && (j <? i + Z.of_nat (S n))); [reflexivity|].
           destruct (Z.leb_spec i j), (Z.leb_spec (i + 1) j),
             (Z.ltb_spec j (i + Z.of_nat (S n))),
             (Z.ltb_spec j (i + 1 + Z.of_nat n)); try reflexivity; lia.
    + destruct (IH (i + 1) blp r ltac:(lia) Hb) as (R1 & R2 & R3).
      replace (Z.to_nat (i + 1)) with (S (Z.to_nat i)) in R2 by lia.
      split; [exact R1|]. split; [exact R2|].
      intros j Hj. rewrite R3 by exact Hj.
      destruct (Z.eqb_spec i j) as [<-|Hne].
      * replace (i + 1 <=? i) with false by (symmetry; apply Z.leb_gt; lia).
        rewrite Z.leb_refl.
        replace (i <? i + Z.of_nat (S n)) with true
          by (symmetry; apply Z.ltb_lt; lia).
        cbn [andb negb]. rewrite andb_true_r.
        apply andb_false_iff in C. destruct C as [C|C]; rewrite C;
          [reflexivity | cbn [negb]; rewrite andb_true_r; reflexivity].
      * replace ((i + 1 <=? j) && (j <? i + 1 + Z.of_nat n))
          with ((i <=? j) && (j <? i + Z.of_nat (S n))); [reflexivity|].
        destruct (Z.leb_spec i j), (Z.leb_spec (i + 1) j),
          (Z.ltb_spec j (i + Z.of_nat (S n))),
          (Z.ltb_spec j (i + 1 + Z.of_nat n)); try reflexivity; lia.
Qed.

(** ** The retransmission packet *)

Lemma existsb_ext_in {A : Type} (f g : A -> bool) (l : list A) :
  (forall x, In x l -> f x = g x) -> existsb f l = existsb g l.
Proof.
  induction l as [|x l IH]; intros H; [reflexivity|].
  cbn [existsb]. rewrite (H x) by (left; reflexivity).
  rewrite IH by (intros y Hy; apply H; right; exact Hy). reflexivity.
Qed.

Lemma bufferSeqNo_of_range (b : ABuffer) : 0 <= bufferSeqNo_of b < 2 ^ 16.
Proof. unfold bufferSeqNo_of. apply to_uint16_range. Qed.

Lemma bit_match_zero (seqNo : Z) (b : ABuffer) : bit_match seqNo 0 b = false.
Proof.
  unfold bit_match. apply not_true_is_false. intros H.
  apply existsb_exists in H. destruct H as (i & _ & H).
  rewrite Z.testbit_0_l in H. discriminate.
Qed.

Lemma blp_scan_16 (seqNo blp : Z) (b : ABuffer) :
  0 <= blp < 2 ^ 16 ->
  snd (blp_scan 16 0 seqNo (bufferSeqNo_of b) blp false)
    = bit_match seqNo blp b
  /\ 0 <= fst (blp_scan 16 0 seqNo (bufferSeqNo_of b) blp false) < 2 ^ 16
  /\ (forall b', bufferSeqNo_of b' <> bufferSeqNo_of b ->
        bit_match seqNo
          (fst (blp_scan 16 0 seqNo (bufferSeqNo_of b) blp false)) b'
        = bit_match seqNo blp b').
Proof.
  intros Hb.
  destruct (blp_scan_spec seqNo (bufferSeqNo_of b) 16 0 blp false
              ltac:(lia) Hb) as (R1 & R2 & R3).
  split; [exact R2|]. split; [exact R1|].
  intros b' Hne. unfold bit_match. apply existsb_ext_in.
  intros j Hj. apply in_map_iff in Hj. destruct Hj as (k & <- & Hk).
  apply in_seq in Hk. rewrite R3 by lia.
  destruct (Z.eqb_spec (bufferSeqNo_of b')
              ((seqNo + Z.of_nat k + 1) mod 65536)) as [He|Hn];
    [|rewrite !andb_false_r; reflexivity].
  replace (bufferSeqNo_of b =? (seqNo + Z.of_nat k + 1) mod 65536) with false
    by (symmetry; apply Z.eqb_neq; congruence).
  rewrite andb_false_r. cbn [negb]. rewrite !andb_true_r. reflexivity.
Qed.

Lemma byte_of_Z_mod (x y : Z) :
  x mod 2 ^ 8 = y mod 2 ^ 8 -> byte.of_Z x = byte.of_Z y.
Proof.
  intros H. apply byte.unsigned_inj. rewrite !byte.unsigned_of_Z.
  exact H.
Qed.

Lemma be16_of_counter (v : Z) :
  [ byte.of_Z (Z.land (Z.shiftr v 8) 255); byte.of_Z (Z.land v 255) ]
  = be16 (v mod 65536).
Proof.
  unfold be16. f_equal; [|f_equal]; apply byte_of_Z_mod.
  - change 255 with (Z.ones 8). change 65536 with (2 ^ 16).
    change 256 with (2 ^ 8). Z.bitblast.
  - change 255 with (Z.ones 8). change 65536 with (2 ^ 16). Z.bitblast.
Qed.

Lemma split_12 (l : list byte) :
  List.length l = 12%nat ->
  exists h0 h1 h2 h3 h4 h5 h6 h7 h8 h9 h10 h11,
    l = [h0; h1; h2; h3; h4; h5; h6; h7; h8; h9; h10; h11].
Proof.
  intros H.
  do 12 (destruct l as [|? l]; [discriminate|]).
  destruct l; [|discriminate].
  repeat eexists.
Qed.

Lemma retransRTP_of_frame (r : Z) (b : ABuffer) :
  12 <= size b <= Z.of_nat (List.length (mData b)) ->
  retransRTP_of r b = Ok (spec_retrans_frame r b).
Proof.
  intros Hsz. unfold retransRTP_of, spec_retrans_frame.
  rewrite !load_bytes_ok by lia. cbn [bind].
  change (skipn (Z.to_nat 0) (mData b)) with (mData b).
  unfold contents at 1, new_ABuffer.
  cbn [setData mData size mRangeLength].
  unfold contents. unfold size in *.
  remember (Z.to_nat (mRangeLength b)) as n eqn:Hn.
  assert (Hn12 : (12 <= n)%nat) by lia.
  assert (Hnlen : (n <= List.length (mData b))%nat) by lia.
  replace (Z.to_nat (2 + mRangeLength b)) with (14 + (n - 12))%nat by lia.
  replace (Z.to_nat (mRangeLength b - 12)) with (n - 12)%nat by lia.
  change (Z.to_nat 12) with 12%nat.
  set (pkt := firstn n (mData b)).
  assert (Hpkt : List.length pkt = n)
    by (subst pkt; rewrite length_firstn; lia).
  assert (Hhdr : firstn 12 (mData b) = firstn 12 pkt).
  { subst pkt. rewrite firstn_firstn. f_equal. lia. }
  assert (Hpay : firstn (n - 12) (skipn 12 (mData b)) = skipn 12 pkt).
  { subst pkt. rewrite skipn_firstn_comm. reflexivity. }
  rewrite Hhdr, Hpay.
  assert (Hsplit : pkt = firstn 12 pkt ++ skipn 12 pkt)
    by (symmetry; apply firstn_skipn).
  set (payload := skipn 12 pkt) in *.
  assert (Hpl : List.length payload = (n - 12)%nat)
    by (subst payload; rewrite length_skipn; lia).
  destruct (split_12 (firstn 12 pkt)) as
    (h0 & h1 & h2 & h3 & h4 & h5 & h6 & h7 & h8 & h9 & h10 & h11 & Hh).
  { rewrite length_firstn. lia. }
  rewrite Hh in *. rewrite Hsplit.
  rewrite !be16_of_counter.
  rewrite repeat_app.
  unfold store_bytes.
  change (Z.to_nat 0) with 0%nat. change (Z.to_nat 2) with 2%nat.
  change (Z.to_nat 12) with 12%nat. change (Z.to_nat 14) with 14%nat.
  cbn [Nat.add List.length repeat firstn skipn app be16].
  rewrite <- Hpl.
  rewrite skipn_all2 by (rewrite repeat_length; lia).
  rewrite app_nil_r.
  replace (S (S (S (S (S (S (S (S (S (S (S (S (S (S (List.length payload)))))))))))))))
    with (List.length
            (h0 :: h1 :: byte.of_Z (r mod 65536 / 256)
               :: byte.of_Z (r mod 65536) :: h4 :: h5 :: h6 :: h7 :: h8
               :: h9 :: h10 :: h11
               :: byte.of_Z (bufferSeqNo_of b / 256)
               :: byte.of_Z (bufferSeqNo_of b) :: payload))
    by reflexivity.
  rewrite firstn_all.
  change 65536 with (2 ^ 16).
  rewrite (Z.mod_small (bufferSeqNo_of b)) by apply bufferSeqNo_of_range.
  reflexivity.
Qed.

(** ** The scan of the history *)

Lemma filter_none {A : Type} (f : A -> bool) (l : list A) :
  (forall x, In x l -> f x = false) -> filter f l = [].
Proof.
  induction l as [|x l IH]; intros H; [reflexivity|].
  cbn [filter]. rewrite (H x) by (left; reflexivity).
  apply IH. intros y Hy. apply H. right. exact Hy.
Qed.

Lemma scan_history_spec (seqNo : Z) (it : list ABuffer) :
  forall (s : Sender) (blp : Z) (found : bool),
    Forall readable it ->
    NoDup (map bufferSeqNo_of it) ->
    0 <= blp < 2 ^ 16 ->
    (found = true -> ~ In seqNo (map bufferSeqNo_of it)) ->
    exists s' blp',
      scan_history s it seqNo blp found
      = Ok (s',
            spec_retransmissions (mRTPRetransmissionSessionID s)
              (mRTPRetransmissionSeqNo s)
              (filter (nack_match seqNo blp) it),
            blp',
            found || existsb (fun b => bufferSeqNo_of b =? seqNo) it)
      /\ s' = set_mRTPRetransmissionSeqNo s
                (bump (List.length (filter (nack_match seqNo blp) it))
                   (mRTPRetransmissionSeqNo s)).
Proof.
  induction it as [|buffer next IH]; intros s blp found Hread Hnd Hblp Hfound.
  - exists s, blp. cbn [scan_history filter spec_retransmissions existsb
                         List.length bump].
    rewrite orb_false_r. split; [reflexivity|]. destruct s; reflexivity.
  - inversion Hread as [|? ? Hr Hread']; subst.
    cbn [map] in Hnd. inversion Hnd as [|? ? Hnotin Hnd']; subst.
    assert (Hother : forall b', In b' next ->
              bufferSeqNo_of b' <> bufferSeqNo_of buffer).
    { intros b' Hin He. apply Hnotin. rewrite <- He. apply in_map. exact Hin. }
    assert (Hnm : nack_match seqNo blp buffer
                  = (bufferSeqNo_of buffer =? seqNo)
                    || bit_match seqNo blp buffer) by reflexivity.
    cbn [scan_history filter existsb]. rewrite Hnm. clear Hnm.
    destruct (bufferSeqNo_of buffer =? seqNo) eqn:Hbase.
    + (* the base sequence number *)
      apply Z.eqb_eq in Hbase. cbn [orb].
      rewrite retransRTP_of_frame by exact Hr. cbn [bind].
      cbn [spec_retransmissions List.length bump andb].
      rewrite orb_true_r.
      destruct (blp =? 0) eqn:Hz.
      * apply Z.eqb_eq in Hz. subst blp.
        rewrite (filter_none (nack_match seqNo 0) next).
        { eexists; eexists. split; reflexivity. }
        intros b' Hin. unfold nack_match. rewrite bit_match_zero.
        rewrite orb_false_r. apply Z.eqb_neq.
        rewrite <- Hbase. apply Hother. exact Hin.
      * destruct (IH (set_mRTPRetransmissionSeqNo s
                        (to_uint32 (mRTPRetransmissionSeqNo s + 1)))
                    blp true Hread' Hnd' Hblp)
          as (s' & blp' & Hrec & Hs').
        { intros _. rewrite <- Hbase. exact Hnotin. }
        rewrite Hrec. cbn [bind orb].
        exists s', blp'. split; [reflexivity|]. rewrite Hs'. reflexivity.
    + apply Z.eqb_neq in Hbase. cbn [orb].
      assert (Hfilter : forall blp1,
                (forall b', In b' next ->
                   bit_match seqNo blp1 b' = bit_match seqNo blp b') ->
                filter (nack_match seqNo blp1) next
                = filter (nack_match seqNo blp) next).
      { intros blp1 H. apply filter_ext_in. intros b' Hin.
        unfold nack_match. rewrite (H b' Hin). reflexivity. }
      destruct (blp =? 0) eqn:Hz; cbn [negb].
      * apply Z.eqb_eq in Hz. subst blp. rewrite bit_match_zero.
        destruct (IH s 0 found Hread' Hnd' Hblp)
          as (s' & blp' & Hrec & Hs').
        { intros Hf Hin. apply (Hfound Hf). right. exact Hin. }
        exists s', blp'. split; assumption.
      * destruct (blp_scan_16 seqNo blp buffer Hblp) as (R1 & R2 & R3).
        destruct (blp_scan 16 0 seqNo (bufferSeqNo_of buffer) blp false)
          as [blp1 r1] eqn:Hscan.
        cbn [fst snd] in R1, R2, R3. subst r1.
        destruct (bit_match seqNo blp buffer) eqn:Hbm.
        -- rewrite retransRTP_of_frame by exact Hr. cbn [bind].
           cbn [spec_retransmissions List.length bump].
           destruct (found && (blp1 =? 0)) eqn:Hbrk.
           ++ apply andb_true_iff in Hbrk. destruct Hbrk as [Hf Hz1].
              apply Z.eqb_eq in Hz1. subst blp1 found.
              rewrite (filter_none (nack_match seqNo blp) next).
              { cbn [orb]. eexists; eexists. split; reflexivity. }
              intros b' Hin. unfold nack_match.
              rewrite <- (R3 b' (Hother b' Hin)), bit_match_zero.
              rewrite orb_false_r. apply Z.eqb_neq. intros He.
              apply (Hfound eq_refl). right. rewrite <- He.
              apply in_map. exact Hin.
           ++ destruct (IH (set_mRTPRetransmissionSeqNo s
                              (to_uint32 (mRTPRetransmissionSeqNo s + 1)))
                          blp1 found Hread' Hnd' R2)
                as (s' & blp' & Hrec & Hs').
              { intros Hf Hin. apply (Hfound Hf). right. exact Hin. }
              rewrite Hrec. cbn [bind].
              rewrite (Hfilter blp1) in *
                by (intros b' Hin; apply R3, Hother, Hin).
              exists s', blp'. split; [reflexivity|]. rewrite Hs'. reflexivity.
        -- destruct (IH s blp1 found Hread' Hnd' R2)
             as (s' & blp' & Hrec & Hs').
           { intros Hf Hin. apply (Hfound Hf). right. exact Hin. }
           rewrite (Hfilter blp1) in *
             by (intros b' Hin; apply R3, Hother, Hin).
           exists s', blp'. split; assumption.
Qed.

(** ** The tags of the history *)

Lemma history_inv_iff (cfg : Config) (s : Sender) :
  history_inv cfg s <->
  0 <= mRTPSeqNo s < 2 ^ 32
  /\ mHistoryLength s = Z.of_nat (List.length (mHistory s))
  /\ mHistoryLength s <= kMaxHistoryLength cfg
  /\ Forall (fun b => entry_ok b = true) (mHistory s)
  /\ map int32Data (mHistory s)
     = expected_tags (mRTPSeqNo s) (List.length (mHistory s)).
Proof.
  unfold history_inv, same_tags.
  rewrite !andb_true_iff, forallb_forall, Forall_forall,
    Z.leb_le, Z.ltb_lt, Z.eqb_eq, Z.leb_le.
  destruct (list_eq_dec Z.eq_dec _ _) as [E|E]; intuition congruence.
Qed.

Lemma entry_ok_iff (b : ABuffer) :
  entry_ok b = true <->
  buffer_ok b = true /\ 12 <= size b <= capacity b
  /\ U16_AT (mData b) 2 = Ok (bufferSeqNo_of b).
Proof.
  unfold entry_ok, res_eqb. rewrite !andb_true_iff, !Z.leb_le.
  destruct (U16_AT (mData b) 2) as [v|f].
  - rewrite Z.eqb_eq. intuition congruence.
  - intuition discriminate.
Qed.

Lemma entry_ok_readable (b : ABuffer) : entry_ok b = true -> readable b.
Proof.
  rewrite entry_ok_iff, buffer_ok_iff. unfold readable.
  intros ((Hc & Hl) & Hs & _). lia.
Qed.

Lemma to_int32_mod16 (x : Z) : to_int32 x mod 2 ^ 16 = x mod 2 ^ 16.
Proof.
  unfold to_int32.
  replace ((x + 2 ^ 31) mod 2 ^ 32 - 2 ^ 31)
    with ((x + 2 ^ 31) mod 2 ^ 32 + (- 2 ^ 15) * 2 ^ 16) by lia.
  rewrite Z.mod_add by lia.
  rewrite Z.mod_mod_divide by (exists (2 ^ 16); reflexivity).
  replace (x + 2 ^ 31) with (x + 2 ^ 15 * 2 ^ 16) by lia.
  apply Z.mod_add. lia.
Qed.

Lemma bufferSeqNo_of_tag (b : ABuffer) :
  bufferSeqNo_of b = int32Data b mod 2 ^ 16.
Proof.
  unfold bufferSeqNo_of, to_uint16. rewrite land_0xffff.
  apply Z.mod_mod. lia.
Qed.

Lemma history_tags (cfg : Config) (s : Sender) :
  history_inv cfg s ->
  map bufferSeqNo_of (mHistory s)
  = map (fun j => (mRTPSeqNo s - Z.of_nat (List.length (mHistory s))
                   + Z.of_nat j) mod 2 ^ 16)
        (seq 0 (List.length (mHistory s))).
Proof.
  rewrite history_inv_iff. intros (_ & _ & _ & _ & Htags).
  transitivity (map (fun t => t mod 2 ^ 16) (map int32Data (mHistory s))).
  - rewrite map_map. apply map_ext. apply bufferSeqNo_of_tag.
  - rewrite Htags. unfold expected_tags. rewrite map_map.
    apply map_ext. intros j. rewrite to_int32_mod16. apply to_uint32_mod16.
Qed.

Lemma NoDup_consecutive (a : Z) (n : nat) :
  Z.of_nat n <= 65536 ->
  NoDup (map (fun j => (a + Z.of_nat j) mod 2 ^ 16) (seq 0 n)).
Proof.
  intros Hn. apply NoDup_map_NoDup_ForallPairs; [|apply seq_NoDup].
  intros x y Hx Hy Heq. apply in_seq in Hx, Hy.
  pose proof (Z.div_mod (a + Z.of_nat x) (2 ^ 16) ltac:(lia)) as Dx.
  pose proof (Z.div_mod (a + Z.of_nat y) (2 ^ 16) ltac:(lia)) as Dy.
  rewrite Heq in Dx.
  change (2 ^ 16) with 65536 in *. lia.
Qed.

Lemma history_NoDup (cfg : Config) (s : Sender) :
  history_inv cfg s -> kMaxHistoryLength cfg <= 65536 ->
  NoDup (map bufferSeqNo_of (mHistory s)).
Proof.
  intros Hinv Hmax. rewrite (history_tags cfg s Hinv).
  apply history_inv_iff in Hinv. apply NoDup_consecutive. lia.
Qed.

Lemma history_readable (cfg : Config) (s : Sender) :
  history_inv cfg s -> Forall readable (mHistory s).
Proof.
  rewrite history_inv_iff. intros (_ & _ & _ & Hok & _).
  revert Hok. apply Forall_impl. intros b. apply entry_ok_readable.
Qed.

(** *** Counting the matches *)

Lemma filter_or_length {A : Type} (f g : A -> bool) (l : list A) :
  (forall x, In x l -> f x = true -> g x = false) ->
  List.length (filter (fun x => f x || g x) l)
  = (List.length (filter f l) + List.length (filter g l))%nat.
Proof.
  induction l as [|x l IH]; intros H; [reflexivity|].
  cbn [filter].
  specialize (IH (fun y Hy => H y (or_intror Hy))).
  pose proof (H x (or_introl eq_refl)) as Hx.
  destruct (f x); cbn [orb List.length].
  - rewrite (Hx eq_refl). cbn [List.length]. lia.
  - destruct (g x); cbn [List.length]; lia.
Qed.

Lemma filter_unique (l : list ABuffer) (v : Z) :
  NoDup (map bufferSeqNo_of l) -> In v (map bufferSeqNo_of l) ->
  List.length (filter (fun b => bufferSeqNo_of b =? v) l) = 1%nat.
Proof.
  induction l as [|b l IH]; intros Hnd Hin; [contradiction|].
  cbn [map] in Hnd. inversion Hnd as [|? ? Hnotin Hnd']; subst.
  cbn [filter]. destruct (Z.eqb_spec (bufferSeqNo_of b) v) as [He|Hne].
  - cbn [List.length]. f_equal.
    rewrite filter_none; [reflexivity|].
    intros b' Hb'. apply Z.eqb_neq. intros He'. apply Hnotin.
    rewrite He, <- He'. apply in_map. exact Hb'.
  - apply IH; [exact Hnd'|]. destruct Hin as [Hin|Hin]; [contradiction|exact Hin].
Qed.

Lemma base_is_not_a_bit (seqNo blp : Z) (b : ABuffer) :
  (bufferSeqNo_of b =? seqNo) = true -> bit_match seqNo blp b = false.
Proof.
  intros He. apply Z.eqb_eq in He. unfold bit_match.
  apply not_true_is_false. intros H.
  apply existsb_exists in H. destruct H as (i & Hi & H).
  apply in_map_iff in Hi. destruct Hi as (k & <- & Hk). apply in_seq in Hk.
  apply andb_true_iff in H. destruct H as [_ H]. apply Z.eqb_eq in H.
  pose proof (bufferSeqNo_of_range b) as Hr. rewrite He in *.
  change 65536 with (2 ^ 16) in H.
  pose proof (Z.div_mod (seqNo + Z.of_nat k + 1) (2 ^ 16) ltac:(lia)) as D.
  rewrite <- H in D. change (2 ^ 16) with 65536 in *. lia.
Qed.

Lemma bump_mod16 (n : nat) :
  forall r, bump n r mod 2 ^ 16 = (r + Z.of_nat n) mod 2 ^ 16.
Proof.
  induction n as [|n IH]; intros r; cbn [bump].
  - f_equal. lia.
  - rewrite IH. rewrite Z.add_mod by lia. rewrite to_uint32_mod16.
    rewrite <- Z.add_mod by lia. f_equal. lia.
Qed.

Lemma bump_succ (n : nat) :
  forall r, bump (S n) r = to_uint32 (r + Z.of_nat (S n)).
Proof.
  induction n as [|n IH]; intros r.
  - cbn [bump]. reflexivity.
  - change (bump (S (S n)) r) with (bump (S n) (to_uint32 (r + 1))).
    rewrite IH. unfold to_uint32.
    rewrite Z.add_mod_idemp_l by lia. f_equal. lia.
Qed.

Lemma spec_retrans_frame_mod (r r' : Z) (b : ABuffer) :
  r mod 2 ^ 16 = r' mod 2 ^ 16 ->
  spec_retrans_frame r b = spec_retrans_frame r' b.
Proof.
  intros H. unfold spec_retrans_frame. change 65536 with (2 ^ 16).
  rewrite H. reflexivity.
Qed.

Lemma spec_retransmissions_length (sid : Z) (l : list ABuffer) :
  forall r, List.length (spec_retransmissions sid r l) = List.length l.
Proof.
  induction l as [|b l IH]; intros r; cbn [spec_retransmissions List.length];
    [reflexivity | rewrite IH; reflexivity].
Qed.

Lemma spec_retransmissions_nth (sid : Z) (d : Event) (d' : ABuffer)
    (l : list ABuffer) :
  forall (r : Z) (j : nat),
    (j < List.length l)%nat ->
    nth j (spec_retransmissions sid r l) d
    = SendRequest sid (spec_retrans_frame (r + Z.of_nat j) (nth j l d')).
Proof.
  induction l as [|b l IH]; intros r j Hj; cbn [List.length] in Hj; [lia|].
  destruct j as [|j]; cbn [spec_retransmissions nth].
  - f_equal. apply spec_retrans_frame_mod. f_equal. lia.
  - rewrite IH by lia. f_equal. apply spec_retrans_frame_mod.
    rewrite Z.add_mod by lia. rewrite to_uint32_mod16.
    rewrite <- Z.add_mod by lia. f_equal. lia.
Qed.

(** ** One NACK entry *)

Lemma parseTSFB_single_entry (cfg : Config) (s s' : Sender)
    (data : list byte) (seqNo blp blp' : Z) (found : bool)
    (evs : list Event) :
  single_nack cfg data seqNo blp ->
  scan_history s (mHistory s) seqNo blp false = Ok (s', evs, blp', found) ->
  parseTSFB cfg s data 16 = Ok (OK, s', evs).
Proof.
  intros (Hfmt & Hsrc & Hseq & Hblp) Hscan. unfold parseTSFB.
  assert (Hlen : 16 <= Z.of_nat (List.length data)).
  { unfold U16_AT in Hblp.
    destruct (load data 14) as [b0|]; cbn [bind] in Hblp; [|discriminate].
    unfold load in Hblp. change (14 + 1) with 15 in Hblp.
    destruct ((0 <=? 15) && (15 <? Z.of_nat (List.length data))) eqn:E;
      [|discriminate].
    apply andb_true_iff in E. destruct E as [_ E]. apply Z.ltb_lt in E. lia. }
  rewrite load_byte_at by lia. cbn [bind].
  rewrite Hfmt. cbn [Z.eqb Pos.eqb negb].
  rewrite (U32_AT_unchecked cfg _ _ Hsrc). cbn [bind].
  rewrite Z.eqb_refl. cbn [negb].
  change (Z.to_nat 16) with 16%nat. cbn [parseTSFB_entries].
  change (12 <? 16) with true. cbv iota.
  change (12 + 2) with 14. rewrite Hseq, Hblp. cbn [bind].
  rewrite Hscan. cbn [bind].
  change (12 + 4 <? 16) with false. cbv iota. cbn [bind].
  rewrite app_nil_r. reflexivity.
Qed.

Lemma Ok_inj {A : Type} (a b : A) : Ok a = Ok b -> a = b.
Proof. intros H. congruence. Qed.

Lemma U16_AT_range (mem : list byte) (i v : Z) :
  U16_AT mem i = Ok v -> 0 <= v < 2 ^ 16.
Proof.
  unfold U16_AT, load. intros H.
  destruct ((0 <=? i) && (i <? Z.of_nat (List.length mem)));
    [|discriminate H].
  destruct ((0 <=? i + 1) && (i + 1 <? Z.of_nat (List.length mem)));
    [|discriminate H].
  cbn [bind] in H. apply Ok_inj in H. subst v.
  pose proof (byte.unsigned_range (nth (Z.to_nat i) mem Byte.x00)) as R1.
  pose proof (byte.unsigned_range (nth (Z.to_nat (i + 1)) mem Byte.x00))
    as R2.
  rewrite lor_shiftl_8 by lia. lia.
Qed.

Lemma bump_add (n m : nat) :
  forall r, bump (n + m) r = bump m (bump n r).
Proof.
  induction n as [|n IH]; intros r; cbn [bump Nat.add];
    [reflexivity | apply IH].
Qed.

Lemma concat_length_cons {A : Type} (l : list A) (ls : list (list A)) :
  List.length (concat (l :: ls))
  = (List.length l + List.length (concat ls))%nat.
Proof. cbn [concat]. apply length_app. Qed.

Section NackEntry.

Variable cfg : Config.

(** The loop over the entries sends what the specification has it send,
    entry by entry. *)
Lemma parseTSFB_entries_spec (data : list byte) (sz : Z) :
  forall (entries : list (Z * Z)) (fuel : nat) (s : Sender) (i : Z),
    Forall readable (mHistory s) ->
    NoDup (map bufferSeqNo_of (mHistory s)) ->
    sz = i + 4 * Z.of_nat (List.length entries) ->
    sz - i <= Z.of_nat fuel ->
    (forall (j : nat) (seqNo blp : Z),
        nth_error entries j = Some (seqNo, blp) ->
        U16_AT data (i + 4 * Z.of_nat j) = Ok seqNo
        /\ U16_AT data (i + 4 * Z.of_nat j + 2) = Ok blp) ->
    let answers :=
      spec_nack_answers (mRTPRetransmissionSessionID s)
        (mRTPRetransmissionSeqNo s) (mHistory s) entries in
    parseTSFB_entries fuel s data sz i
    = Ok (set_mRTPRetransmissionSeqNo s
            (bump (List.length (concat answers))
               (mRTPRetransmissionSeqNo s)),
          concat answers).
Proof.
  induction entries as [|[seqNo blp] entries IH];
    intros fuel s i Hread Hnd Hsz Hfuel Hentries answers; subst answers.
  - cbn [List.length] in Hsz. cbn [spec_nack_answers concat List.length bump].
    replace (set_mRTPRetransmissionSeqNo s (mRTPRetransmissionSeqNo s))
      with s by (destruct s; reflexivity).
    destruct fuel; cbn [parseTSFB_entries];
      replace (i <? sz) with false by (symmetry; apply Z.ltb_ge; lia);
      reflexivity.
  - cbn [List.length] in Hsz.
    destruct fuel as [|fuel]; [lia|].
    cbn [parseTSFB_entries].
    replace (i <? sz) with true by (symmetry; apply Z.ltb_lt; lia).
    destruct (Hentries 0%nat seqNo blp eq_refl) as [Hseq Hblp].
    replace (i + 4 * Z.of_nat 0) with i in Hseq, Hblp by lia.
    rewrite Hseq, Hblp. cbn [bind].
    pose proof (U16_AT_range _ _ _ Hblp) as Hrange.
    destruct (scan_history_spec seqNo (mHistory s) s blp false Hread Hnd
                Hrange ltac:(discriminate))
      as (s1 & blp' & Hscan & Hs1).
    rewrite Hscan. cbn [bind].
    assert (Hhist : mHistory s1 = mHistory s) by (rewrite Hs1; reflexivity).
    assert (Hsid : mRTPRetransmissionSessionID s1
                   = mRTPRetransmissionSessionID s)
      by (rewrite Hs1; reflexivity).
    assert (Hctr : mRTPRetransmissionSeqNo s1
                   = bump (List.length
                             (filter (nack_match seqNo blp) (mHistory s)))
                       (mRTPRetransmissionSeqNo s))
      by (rewrite Hs1; reflexivity).
    rewrite (IH fuel s1 (i + 4)).
    + cbn [bind spec_nack_answers]. rewrite Hhist, Hsid, Hctr.
      rewrite concat_length_cons, spec_retransmissions_length, bump_add.
      cbn [concat]. rewrite Hs1. reflexivity.
    + rewrite Hhist. exact Hread.
    + rewrite Hhist. exact Hnd.
    + lia.
    + lia.
    + intros j seqNo2 blp2 Hj.
      destruct (Hentries (S j) seqNo2 blp2 Hj) as [H1 H2].
      replace (i + 4 + 4 * Z.of_nat j) with (i + 4 * Z.of_nat (S j)) by lia.
      split; assumption.
Qed.

(** The answer to the [j]-th entry. *)
Lemma spec_nack_answers_nth (sid : Z) (history : list ABuffer) :
  forall (entries : list (Z * Z)) (r : Z) (j : nat) (seqNo blp : Z),
    nth_error entries j = Some (seqNo, blp) ->
    nth j (spec_nack_answers sid r history entries) []
    = spec_retransmissions sid
        (bump (List.length
                 (concat (firstn j (spec_nack_answers sid r history entries))))
           r)
        (filter (nack_match seqNo blp) history).
Proof.
  induction entries as [|[seqNo0 blp0] entries IH];
    intros r j seqNo blp Hj; [destruct j; discriminate Hj|].
  destruct j as [|j]; cbn [nth_error] in Hj.
  - injection Hj as -> ->. reflexivity.
  - cbn [spec_nack_answers nth firstn].
    rewrite (IH _ j seqNo blp Hj).
    rewrite concat_length_cons, spec_retransmissions_length, bump_add.
    reflexivity.
Qed.

Lemma spec_nack_answers_length (sid : Z) (history : list ABuffer) :
  forall (entries : list (Z * Z)) (r : Z),
    List.length (spec_nack_answers sid r history entries)
    = List.length entries.
Proof.
  induction entries as [|[seqNo blp] entries IH]; intros r;
    cbn [spec_nack_answers List.length]; [reflexivity|].
  rewrite IH. reflexivity.
Qed.

End NackEntry.

(** C6: a NACK with any number of entries.  The handler serves every
    entry, in order, and sends nothing else.  For every entry whose base
    sequence number is in the history, [k] packets of which are picked
    by its bitmask (bit [i] picks [seqNo + i + 1] modulo 65536), it
    sends exactly [k + 1] packets on the retransmission session, oldest
    first; the [i]-th is a copy of the matched packet's 12-byte header
    with bytes 2-3 holding the retransmission counter, advanced once for
    every packet sent before it (for this entry or an earlier one),
    then the two bytes of the packet's own sequence number (the one its
    header carries), then its payload.  The counter ends as many higher
    as packets were sent. *)
Theorem nack_entry_retransmits
    (cfg : Config) (s : Sender) (entries : list (Z * Z))
    (data : list byte) :
  history_inv cfg s ->
  kMaxHistoryLength cfg <= 65536 ->
  nack_with cfg data entries ->
  let answers :=
    spec_nack_answers (mRTPRetransmissionSessionID s)
      (mRTPRetransmissionSeqNo s) (mHistory s) entries in
  exists s',
    parseTSFB cfg s data (12 + 4 * Z.of_nat (List.length entries))
    = Ok (OK, s', concat answers)
    /\ s' = set_mRTPRetransmissionSeqNo s
              (bump (List.length (concat answers))
                 (mRTPRetransmissionSeqNo s))
    /\ List.length answers = List.length entries
    /\ forall (j : nat) (seqNo blp : Z),
         nth_error entries j = Some (seqNo, blp) ->
         In seqNo (map bufferSeqNo_of (mHistory s)) ->
         let matched := filter (nack_match seqNo blp) (mHistory s) in
         let k := List.length (filter (bit_match seqNo blp) (mHistory s)) in
         let sent_before := List.length (concat (firstn j answers)) in
         List.length (nth j answers []) = S k
         /\ List.length matched = S k
         /\ (forall i d d', (i < S k)%nat ->
               nth i (nth j answers []) d
               = SendRequest (mRTPRetransmissionSessionID s)
                   (spec_retrans_frame
                      (mRTPRetransmissionSeqNo s + Z.of_nat sent_before
                       + Z.of_nat i)
                      (nth i matched d')))
         /\ Forall (fun b => In b (mHistory s)
                             /\ U16_AT (contents b) 2 = Ok (bufferSeqNo_of b)
                             /\ Z.of_nat
                                  (List.length (spec_retrans_frame 0 b))
                                = size b + 2)
              matched.
Proof.
  intros Hinv Hmax (Hfmt & Hsrc & Hentries) answers.
  pose proof (history_NoDup cfg s Hinv Hmax) as Hnd.
  pose proof (history_readable cfg s Hinv) as Hread.
  set (sz := 12 + 4 * Z.of_nat (List.length entries)).
  exists (set_mRTPRetransmissionSeqNo s
            (bump (List.length (concat answers))
               (mRTPRetransmissionSeqNo s))).
  split.
  { unfold parseTSFB.
    assert (Hlen : 12 <= Z.of_nat (List.length data)).
    { destruct (U32_AT_length _ _ _ Hsrc). lia. }
    rewrite load_byte_at by lia. cbn [bind].
    rewrite Hfmt. cbn [Z.eqb Pos.eqb negb].
    rewrite (U32_AT_unchecked cfg _ _ Hsrc). cbn [bind].
    rewrite Z.eqb_refl. cbn [negb].
    rewrite (parseTSFB_entries_spec data sz entries (Z.to_nat sz) s 12
               Hread Hnd eq_refl ltac:(subst sz; lia) Hentries).
    reflexivity. }
  split; [reflexivity|].
  split; [apply spec_nack_answers_length|].
  intros j seqNo blp Hj Hin matched k sent_before.
  assert (Hcount : List.length matched = S k).
  { subst matched k. unfold nack_match.
    rewrite filter_or_length
      by (intros b _ Hb; apply base_is_not_a_bit; exact Hb).
    rewrite (filter_unique _ _ Hnd Hin). reflexivity. }
  assert (Hanswer : nth j answers []
                    = spec_retransmissions (mRTPRetransmissionSessionID s)
                        (bump sent_before (mRTPRetransmissionSeqNo s))
                        matched)
    by (apply spec_nack_answers_nth; exact Hj).
  split; [rewrite Hanswer, spec_retransmissions_length; exact Hcount|].
  split; [exact Hcount|].
  split.
  { intros i d d' Hi. rewrite Hanswer.
    rewrite (spec_retransmissions_nth _ d d') by lia.
    f_equal. apply spec_retrans_frame_mod.
    rewrite Z.add_mod by lia. rewrite bump_mod16.
    rewrite <- Z.add_mod by lia. reflexivity. }
  apply Forall_forall. intros b Hb. subst matched.
  apply filter_In in Hb. destruct Hb as [Hb _].
  split; [exact Hb|].
  apply history_inv_iff in Hinv. destruct Hinv as (_ & _ & _ & Hok & _).
  rewrite Forall_forall in Hok. specialize (Hok b Hb).
  apply entry_ok_iff in Hok. destruct Hok as (Hbuf & Hsz & Hseq).
  apply buffer_ok_iff in Hbuf. destruct Hbuf as [Hcap Hlen].
  split.
  - unfold U16_AT in *. unfold contents.
    rewrite !(load_prefix (mData b) (firstn (Z.to_nat (size b)) (mData b)))
      in Hseq.
    + exact Hseq.
    + rewrite length_firstn. f_equal. lia.
    + rewrite length_firstn. lia.
    + rewrite length_firstn. f_equal. lia.
    + rewrite length_firstn. lia.
  - unfold spec_retrans_frame, be16, contents.
    rewrite !length_app, !length_firstn, !length_skipn, !length_firstn.
    cbn [List.length]. lia.
Qed.

(** ** Retaining a flushed packet *)

Lemma to_uint32_idem_add (x d : Z) :
  to_uint32 (to_uint32 x + d) = to_uint32 (x + d).
Proof. unfold to_uint32. apply Z.add_mod_idemp_l. lia. Qed.

Lemma expected_tags_succ (x : Z) (n : nat) :
  expected_tags x (S n)
  = to_int32 (to_uint32 (x - Z.of_nat n - 1)) :: expected_tags x n.
Proof.
  unfold expected_tags. cbn [seq map]. f_equal.
  - do 2 f_equal. lia.
  - rewrite <- seq_shift, map_map. apply map_ext. intros j.
    do 2 f_equal. lia.
Qed.

Lemma expected_tags_snoc (x : Z) (n : nat) :
  expected_tags (to_uint32 (x + 1)) (S n)
  = expected_tags x n ++ [to_int32 (to_uint32 (to_uint32 (x + 1) - 1))].
Proof.
  unfold expected_tags. rewrite seq_S, map_app. cbn [map Nat.add]. f_equal.
  - apply map_ext. intros j. f_equal.
    replace (to_uint32 (x + 1) - Z.of_nat (S n) + Z.of_nat j)
      with (to_uint32 (x + 1) + (- Z.of_nat (S n) + Z.of_nat j)) by lia.
    rewrite to_uint32_idem_add. f_equal. lia.
  - do 3 f_equal. lia.
Qed.

Section Retention.

Variable cfg : Config.
Variable clock : nat -> Z.

Lemma retained_seqNo (s : Sender) (data : list byte) (disc : bool) :
  bufferSeqNo_of (retained cfg clock s data disc) = mRTPSeqNo s mod 2 ^ 16.
Proof.
  rewrite bufferSeqNo_of_tag. unfold retained.
  cbn [int32Data mInt32Data setInt32Data].
  rewrite to_int32_mod16, to_uint32_mod16.
  rewrite Zminus_mod, to_uint32_mod16, <- Zminus_mod. f_equal. lia.
Qed.

Lemma retained_entry_ok (s : Sender) (data : list byte) (disc : bool) :
  queue_inv s ->
  size (mTSQueue s) + 188 <= capacity (mTSQueue s) ->
  188 <= Z.of_nat (List.length data) ->
  entry_ok (retained cfg clock s data disc) = true.
Proof.
  intros Hinv Hfit Hdata.
  pose proof (appended_queue_inv s data Hinv Hfit Hdata) as Happ.
  apply queue_inv_iff in Happ. destruct Happ as [Hq _].
  cbn [mTSQueue set_mTSQueue] in Hq.
  apply queue_ok_iff in Hq. destruct Hq as (Hb & Hsz & _).
  apply buffer_ok_iff in Hb. destruct Hb as [Hcap Hlen].
  assert (Hlen' : Z.of_nat (List.length (mData (stamped cfg clock s data disc)))
                  = kQueueCapacity).
  { unfold stamped. cbn [setData mData].
    rewrite length_store_bytes; [exact Hlen | lia |].
    change (Z.of_nat (List.length (rtp_header _ _ _ _))) with 12.
    rewrite Hlen, kQueueCapacity_eq. lia. }
  apply entry_ok_iff. split; [|split].
  - apply buffer_ok_iff. split; [exact Hcap | exact Hlen'].
  - exact Hsz.
  - rewrite retained_seqNo.
    assert (Hpre : firstn 12 (mData (retained cfg clock s data disc))
                   = rtp_header cfg disc (mRTPSeqNo s)
                       (rtpTime_of (to_int64 (clock (clockReads s))))).
    { unfold retained, stamped. cbn [setInt32Data setData mData].
      change 12%nat
        with (List.length (rtp_header cfg disc (mRTPSeqNo s)
                (rtpTime_of (to_int64 (clock (clockReads s)))))) at 1.
      apply firstn_store_bytes_head. }
    destruct (rtp_header_fields _ _ _ _ _ Hpre) as (_ & _ & H2 & _).
    exact H2.
Qed.

(** The sender when the history step starts. *)
Lemma stamp_queue_state (s : Sender) (data : list byte) (disc : bool) :
  let s1 := fst (stamp_queue cfg clock (set_mTSQueue s (appended s data)) disc) in
  mTSQueue s1 = stamped cfg clock s data disc
  /\ mRTPSeqNo s1 = to_uint32 (mRTPSeqNo s + 1)
  /\ mHistory s1 = mHistory s
  /\ mHistoryLength s1 = mHistoryLength s.
Proof. repeat split. Qed.

Lemma flush_queue_retains (s : Sender) (disc : bool) :
  ENABLE_RETRANSMISSION cfg = true ->
  fst (flush_queue cfg clock s disc)
  = set_mTSQueue (retain_in_history cfg (fst (stamp_queue cfg clock s disc)))
      (setRange0
         (mTSQueue (retain_in_history cfg (fst (stamp_queue cfg clock s disc))))
         12).
Proof.
  intros He. unfold flush_queue.
  destruct (stamp_queue cfg clock s disc) as [s1 evs]. rewrite He.
  reflexivity.
Qed.

Lemma retain_in_history_spec (s1 : Sender) :
  let q := setInt32Data (mTSQueue s1) (to_uint32 (mRTPSeqNo s1 - 1)) in
  0 <= mRTPSeqNo s1 < 2 ^ 32 ->
  mHistoryLength s1 = Z.of_nat (List.length (mHistory s1)) ->
  mHistoryLength s1 <= kMaxHistoryLength cfg ->
  Forall (fun b => entry_ok b = true) (mHistory s1 ++ [q]) ->
  map int32Data (mHistory s1 ++ [q])
    = expected_tags (mRTPSeqNo s1) (S (List.length (mHistory s1))) ->
  history_inv cfg (retain_in_history cfg s1)
  /\ (kMaxHistoryLength cfg < mHistoryLength s1 + 1 ->
      mHistory s1 ++ [q]
        = mTSQueue (retain_in_history cfg s1)
          :: mHistory (retain_in_history cfg s1))
  /\ (mHistoryLength s1 + 1 <= kMaxHistoryLength cfg ->
      mHistory (retain_in_history cfg s1) = mHistory s1 ++ [q]
      /\ mTSQueue (retain_in_history cfg s1) = new_ABuffer kQueueCapacity).
Proof.
  intros q Hseq Hlen Hmax Hok Htags. unfold retain_in_history. fold q.
  destruct (kMaxHistoryLength cfg <? mHistoryLength s1 + 1) eqn:Hev.
  - apply Z.ltb_lt in Hev.
    destruct (mHistory s1 ++ [q]) as [|oldest rest] eqn:Hfull.
    { destruct (mHistory s1); discriminate. }
    assert (Hrest : List.length rest = List.length (mHistory s1)).
    { apply (f_equal (@List.length ABuffer)) in Hfull.
      rewrite length_app in Hfull. cbn [List.length] in Hfull. lia. }
    split; [|split; [intros _; reflexivity | intros; lia]].
    apply history_inv_iff.
    cbn [mRTPSeqNo mHistory mHistoryLength set_history set_mTSQueue].
    rewrite Hrest.
    split; [exact Hseq|]. split; [lia|]. split; [lia|].
    inversion Hok; subst. split; [assumption|].
    rewrite expected_tags_succ in Htags. cbn [map] in Htags.
    injection Htags as _ Htags. exact Htags.
  - apply Z.ltb_ge in Hev.
    split; [|split; [intros; lia | intros _; split; reflexivity]].
    apply history_inv_iff.
    cbn [mRTPSeqNo mHistory mHistoryLength set_history set_mTSQueue].
    rewrite length_app. cbn [List.length].
    split; [exact Hseq|]. split; [lia|]. split; [lia|].
    split; [exact Hok|].
    rewrite Htags. f_equal. lia.
Qed.

(** The history step of a flush, from the sender before the call. *)
Lemma retain_after_stamp (s : Sender) (data : list byte) (disc : bool) :
  queue_inv s -> history_inv cfg s ->
  size (mTSQueue s) + 188 <= capacity (mTSQueue s) ->
  188 <= Z.of_nat (List.length data) ->
  let r := retain_in_history cfg
             (fst (stamp_queue cfg clock
                     (set_mTSQueue s (appended s data)) disc)) in
  let sent := retained cfg clock s data disc in
  history_inv cfg r
  /\ (kMaxHistoryLength cfg < mHistoryLength s + 1 ->
      mHistory s ++ [sent] = mTSQueue r :: mHistory r)
  /\ (mHistoryLength s + 1 <= kMaxHistoryLength cfg ->
      mHistory r = mHistory s ++ [sent]
      /\ mTSQueue r = new_ABuffer kQueueCapacity).
Proof.
  intros Hqinv Hhinv Hfit Hdata r sent. subst r sent.
  apply history_inv_iff in Hhinv.
  destruct Hhinv as (Hseq & Hlen & Hbound & Hok & Htags).
  destruct (stamp_queue_state s data disc) as (Eq & Es & Eh & El).
  pose proof (retain_in_history_spec
                (fst (stamp_queue cfg clock
                        (set_mTSQueue s (appended s data)) disc)))
    as Hspec.
  cbv zeta in Hspec. rewrite Eq, Es, Eh, El in Hspec.
  fold (retained cfg clock s data disc) in Hspec.
  apply Hspec.
  - unfold to_uint32. apply Z.mod_pos_bound. lia.
  - exact Hlen.
  - exact Hbound.
  - apply Forall_app. split; [exact Hok|].
    constructor; [|constructor].
    apply (retained_entry_ok s data disc); assumption.
  - rewrite map_app, Htags, expected_tags_snoc. reflexivity.
Qed.

End Retention.

(** ** Eviction *)

Lemma tags_consecutive (x : Z) (l : list ABuffer) :
  map int32Data l = expected_tags x (List.length l) ->
  map bufferSeqNo_of l
  = map (fun j => (x - Z.of_nat (List.length l) + Z.of_nat j) mod 2 ^ 16)
        (seq 0 (List.length l)).
Proof.
  intros Htags.
  transitivity (map (fun t => t mod 2 ^ 16) (map int32Data l)).
  - rewrite map_map. apply map_ext. apply bufferSeqNo_of_tag.
  - rewrite Htags. unfold expected_tags. rewrite map_map.
    apply map_ext. intros j. rewrite to_int32_mod16. apply to_uint32_mod16.
Qed.

Lemma existsb_not_in (l : list ABuffer) (v : Z) :
  ~ In v (map bufferSeqNo_of l) ->
  existsb (fun b => bufferSeqNo_of b =? v) l = false.
Proof.
  intros H. apply not_true_is_false. intros E.
  apply existsb_exists in E. destruct E as (b & Hb & E).
  apply Z.eqb_eq in E. apply H. rewrite <- E. apply in_map. exact Hb.
Qed.

(** C7: a flush with the retransmission code compiled in and a history
    bound below 65536.  The flushed packet, tagged with its sequence
    number, goes to the end of the history, and the history stays within
    [kMaxHistoryLength]: when one more would exceed it, exactly the
    oldest entry leaves and its buffer, reset to the header room, is the
    next accumulation buffer; otherwise a fresh buffer is allocated.  The
    sequence number of the evicted packet is no longer in the history: a
    NACK entry for it runs through, finds no base match, and a NACK for
    it alone returns OK with nothing sent and the sender unchanged. *)
Theorem history_is_bounded_and_recycled
    (cfg : Config) (clock : nat -> Z) (s : Sender) (data : list byte)
    (timeDiscontinuity flush : bool) :
  ENABLE_RETRANSMISSION cfg = true ->
  kMaxHistoryLength cfg < 65536 ->
  queue_inv s -> history_inv cfg s ->
  size (mTSQueue s) + 188 <= capacity (mTSQueue s) ->
  188 <= Z.of_nat (List.length data) ->
  flush = true \/ size (mTSQueue s) + 188 = capacity (mTSQueue s) ->
  let sent := retained cfg clock s data timeDiscontinuity in
  exists s',
    appendTSData cfg clock s data 188 timeDiscontinuity flush
      = Ok (188, s', [rtp_event s (contents sent)])
    /\ history_inv cfg s'
    /\ Z.of_nat (List.length (mHistory s')) <= kMaxHistoryLength cfg
    /\ bufferSeqNo_of sent = mRTPSeqNo s mod 2 ^ 16
    /\ (kMaxHistoryLength cfg < Z.of_nat (List.length (mHistory s)) + 1 ->
        exists oldest,
          mHistory s ++ [sent] = oldest :: mHistory s'
          /\ mTSQueue s' = setRange0 oldest 12
          /\ ~ In (bufferSeqNo_of oldest) (map bufferSeqNo_of (mHistory s'))
          /\ (forall blp, 0 <= blp < 65536 ->
                exists s2 evs blp',
                  scan_history s' (mHistory s') (bufferSeqNo_of oldest)
                    blp false
                  = Ok (s2, evs, blp', false))
          /\ (forall nack,
                single_nack cfg nack (bufferSeqNo_of oldest) 0 ->
                parseTSFB cfg s' nack 16 = Ok (OK, s', [])))
    /\ (Z.of_nat (List.length (mHistory s)) + 1 <= kMaxHistoryLength cfg ->
        mHistory s' = mHistory s ++ [sent]
        /\ mTSQueue s' = setRange0 (new_ABuffer kQueueCapacity) 12).
Proof.
  intros Hen Hmax Hqinv Hhinv Hfit Hdata Hfl sent.
  pose proof Hhinv as Hh. apply history_inv_iff in Hh.
  destruct Hh as (Hseq & Hlen & Hbound & Hok & Htags).
  set (s0 := set_mTSQueue s (appended s data)).
  set (s1 := fst (stamp_queue cfg clock s0 timeDiscontinuity)).
  set (r := retain_in_history cfg s1).
  destruct (retain_after_stamp cfg clock s data timeDiscontinuity
              Hqinv Hhinv Hfit Hdata) as (Hinv' & Hevict & Hkeep).
  fold s0 s1 r in Hinv', Hevict, Hkeep. fold sent in Hevict, Hkeep.
  exists (set_mTSQueue r (setRange0 (mTSQueue r) 12)).
  assert (Hinv2 : history_inv cfg (set_mTSQueue r (setRange0 (mTSQueue r) 12)))
    by exact Hinv'.
  split.
  { rewrite appendTSData_flush by assumption. fold s0.
    rewrite flush_queue_retains by exact Hen. reflexivity. }
  split; [exact Hinv2|].
  split.
  { apply history_inv_iff in Hinv2. lia. }
  split; [apply retained_seqNo|].
  cbn [mHistory mTSQueue set_mTSQueue].
  split; [|intros Hroom; destruct Hkeep as [K1 K2]; [lia|];
           rewrite K1, K2; split; reflexivity].
  intros Hfull. specialize (Hevict ltac:(lia)).
  exists (mTSQueue r). split; [exact Hevict|]. split; [reflexivity|].
  assert (Hnd : NoDup (map bufferSeqNo_of (mHistory s ++ [sent]))).
  { rewrite (tags_consecutive (to_uint32 (mRTPSeqNo s + 1))).
    - apply NoDup_consecutive. rewrite length_app. cbn [List.length]. lia.
    - rewrite length_app. cbn [List.length].
      replace (List.length (mHistory s) + 1)%nat
        with (S (List.length (mHistory s))) by lia.
      rewrite map_app, Htags, expected_tags_snoc. reflexivity. }
  rewrite Hevict in Hnd. cbn [map] in Hnd.
  inversion Hnd as [|? ? Hnotin Hnd']; subst.
  split; [exact Hnotin|].
  assert (Hread : Forall readable (mHistory r))
    by (apply (history_readable cfg); exact Hinv').
  assert (Hscan : forall blp, 0 <= blp < 65536 ->
            exists s2 blp',
              scan_history (set_mTSQueue r (setRange0 (mTSQueue r) 12))
                (mHistory r) (bufferSeqNo_of (mTSQueue r)) blp false
              = Ok (s2,
                    spec_retransmissions (mRTPRetransmissionSessionID r)
                      (mRTPRetransmissionSeqNo r)
                      (filter (nack_match (bufferSeqNo_of (mTSQueue r)) blp)
                         (mHistory r)),
                    blp', false)
              /\ s2 = set_mRTPRetransmissionSeqNo
                        (set_mTSQueue r (setRange0 (mTSQueue r) 12))
                        (bump (List.length
                                 (filter (nack_match
                                            (bufferSeqNo_of (mTSQueue r)) blp)
                                    (mHistory r)))
                           (mRTPRetransmissionSeqNo r))).
  { intros blp Hblp.
    destruct (scan_history_spec (bufferSeqNo_of (mTSQueue r)) (mHistory r)
                (set_mTSQueue r (setRange0 (mTSQueue r) 12)) blp false
                Hread Hnd' ltac:(change (2 ^ 16) with 65536; lia)
                ltac:(discriminate))
      as (s2 & blp' & Hsc & Hs2).
    rewrite (existsb_not_in _ _ Hnotin) in Hsc.
    exists s2, blp'. split; assumption. }
  split.
  - intros blp Hblp. destruct (Hscan blp Hblp) as (s2 & blp' & Hsc & _).
    eexists; eexists; eexists. exact Hsc.
  - intros nack Hnack.
    destruct (Hscan 0 ltac:(lia)) as (s2 & blp' & Hsc & Hs2).
    rewrite (filter_none (nack_match (bufferSeqNo_of (mTSQueue r)) 0)) in Hsc, Hs2.
    2, 3: intros b Hb; unfold nack_match; rewrite bit_match_zero, orb_false_r;
      apply Z.eqb_neq; intros He; apply Hnotin; rewrite <- He;
      apply in_map; exact Hb.
    cbn [spec_retransmissions List.length bump] in Hsc, Hs2.
    assert (Hsame : s2 = set_mTSQueue r (setRange0 (mTSQueue r) 12)).
    { rewrite Hs2. destruct r; reflexivity. }
    rewrite Hsame in Hsc.
    eapply parseTSFB_single_entry; eassumption.
Qed.

(** ** Pacing *)

Lemma to_int64_small (z : Z) : in_int64 z -> to_int64 z = z.
Proof.
  unfold in_int64, to_int64. intros H.
  rewrite Z.mod_small by lia. lia.
Qed.

Lemma to_int64_range (z : Z) : in_int64 (to_int64 z).
Proof.
  unfold in_int64, to_int64.
  pose proof (Z.mod_pos_bound (z + 2 ^ 63) (2 ^ 64) ltac:(lia)). lia.
Qed.

Section PacingFacts.

Variable clock : nat -> Z.

Lemma queuePackets_unanchored (s : Sender) (timeUs : Z) (packets : list byte) :
  mFirstOutputBufferReadyTimeUs s < 0 ->
  queuePackets clock s timeUs packets
  = (set_first_output (set_clockReads s (S (clockReads s))) timeUs
       (to_int64 (clock (clockReads s))),
     [PostQueuePackets 0 timeUs (to_int64 (clock (clockReads s))) 0 packets]).
Proof.
  intros H. unfold queuePackets, GetNowUs.
  replace (mFirstOutputBufferReadyTimeUs s <? 0) with true
    by (symmetry; apply Z.ltb_lt; exact H).
  reflexivity.
Qed.

Lemma queuePackets_anchored (s : Sender) (timeUs : Z) (packets : list byte) :
  0 <= mFirstOutputBufferReadyTimeUs s ->
  in_int64 (timeUs - mFirstOutputBufferReadyTimeUs s) ->
  in_int64 (timeUs - mFirstOutputBufferReadyTimeUs s
            + mFirstOutputBufferSentTimeUs s) ->
  in_int64 (timeUs - mFirstOutputBufferReadyTimeUs s
            + mFirstOutputBufferSentTimeUs s
            - to_int64 (clock (clockReads s))) ->
  queuePackets clock s timeUs packets
  = (set_clockReads s (S (clockReads s)),
     [spec_post clock (mFirstOutputBufferReadyTimeUs s)
        (mFirstOutputBufferSentTimeUs s) (clockReads s) timeUs packets]).
Proof.
  intros H H1 H2 H3. unfold queuePackets, GetNowUs, spec_post.
  replace (mFirstOutputBufferReadyTimeUs s <? 0) with false
    by (symmetry; apply Z.ltb_ge; exact H).
  cbn [mFirstOutputBufferReadyTimeUs mFirstOutputBufferSentTimeUs
       set_clockReads].
  rewrite (to_int64_small _ H1), (to_int64_small _ H2), (to_int64_small _ H3).
  f_equal. f_equal. f_equal.
  destruct (Z.ltb_spec 0
              (timeUs - mFirstOutputBufferReadyTimeUs s
               + mFirstOutputBufferSentTimeUs s
               - to_int64 (clock (clockReads s)))); lia.
Qed.

Lemma queue_calls_anchored (calls : list (Z * list byte)) :
  forall s : Sender,
    0 <= mFirstOutputBufferReadyTimeUs s ->
    no_overflow clock (mFirstOutputBufferReadyTimeUs s)
      (mFirstOutputBufferSentTimeUs s) (clockReads s) calls ->
    snd (queue_calls clock s calls)
    = spec_schedule clock (mFirstOutputBufferReadyTimeUs s)
        (mFirstOutputBufferSentTimeUs s) (clockReads s) calls.
Proof.
  induction calls as [|[timeUs packets] rest IH]; intros s Hanch Hov;
    [reflexivity|].
  cbn [no_overflow] in Hov. destruct Hov as (H1 & H2 & H3 & Hrest).
  cbn [queue_calls spec_schedule].
  rewrite queuePackets_anchored by assumption.
  specialize (IH (set_clockReads s (S (clockReads s))) Hanch Hrest).
  destruct (queue_calls clock (set_clockReads s (S (clockReads s))) rest)
    as [s2 evs2].
  cbn [snd app] in *. rewrite IH. reflexivity.
Qed.

End PacingFacts.

(** C8 (as amended): a call made while no anchor is set, as the first
    call is, records its timestamp and the wall time as the anchors and
    posts the batch with delay 0.  When that timestamp is not negative,
    every later call posts its batch with delay
    [max 0 ((timeUs - firstPresentationTimeUs) + firstSendWallClockUs - now)],
    [now] being the wall time of that call, as long as the 64-bit sums do
    not overflow.  Each call only posts a message and returns. *)
Theorem queuePackets_schedule
    (clock : nat -> Z) (s : Sender) (timeUs0 : Z) (packets0 : list byte)
    (later : list (Z * list byte)) :
  mFirstOutputBufferReadyTimeUs s < 0 ->
  0 <= timeUs0 ->
  no_overflow clock timeUs0 (to_int64 (clock (clockReads s)))
    (S (clockReads s)) later ->
  let now0 := to_int64 (clock (clockReads s)) in
  let s1 := fst (queuePackets clock s timeUs0 packets0) in
  queuePackets clock s timeUs0 packets0
    = (s1, [PostQueuePackets 0 timeUs0 now0 0 packets0])
  /\ mFirstOutputBufferReadyTimeUs s1 = timeUs0
  /\ mFirstOutputBufferSentTimeUs s1 = now0
  /\ snd (queue_calls clock s ((timeUs0, packets0) :: later))
     = PostQueuePackets 0 timeUs0 now0 0 packets0
         :: spec_schedule clock timeUs0 now0 (S (clockReads s)) later.
Proof.
  intros Hun Hpos Hov now0 s1. subst s1.
  rewrite queuePackets_unanchored by exact Hun. cbn [fst].
  split; [reflexivity|]. split; [reflexivity|]. split; [reflexivity|].
  cbn [queue_calls]. rewrite queuePackets_unanchored by exact Hun.
  pose proof (queue_calls_anchored clock later
                (set_first_output (set_clockReads s (S (clockReads s)))
                   timeUs0 now0)) as H.
  cbn [mFirstOutputBufferReadyTimeUs mFirstOutputBufferSentTimeUs
       clockReads set_first_output set_clockReads] in H.
  specialize (H Hpos Hov).
  destruct (queue_calls clock _ later) as [s2 evs2].
  cbn [snd app] in *. rewrite H. reflexivity.
Qed.

(** C8, the sentence as written, fails on the code: after a first call
    with timestamp -5, the second call (timestamp 1000000, one
    millisecond later) is taken for a first call again and posted with
    delay 0, where the sentence has it wait 999005 microseconds; and
    after a first call with timestamp 1, a timestamp of -2^63 makes the
    64-bit difference wrap, so that the batch is posted with a delay of
    2^63 - 1001 microseconds where the sentence has delay 0. *)
Lemma queuePackets_claim_counterexample :
  snd (queue_calls sample_clock new_Sender [(-5, []); (1000000, [])])
  = [ PostQueuePackets 0 (-5) 1000000 0 [];
      PostQueuePackets 0 1000000 1001000 0 [] ]
  /\ spec_schedule sample_clock (-5) 1000000 1 [(1000000, [])]
     = [ PostQueuePackets 999005 1000000 2000005 999005 [] ]
  /\ snd (queue_calls sample_clock new_Sender [(1, []); (- 2 ^ 63, [])])
     = [ PostQueuePackets 0 1 1000000 0 [];
         PostQueuePackets (2 ^ 63 - 1001) (- 2 ^ 63) (- 2 ^ 63 + 999999)
           (2 ^ 63 - 1001) [] ]
  /\ spec_schedule sample_clock 1 1000000 1 [(- 2 ^ 63, [])]
     = [ PostQueuePackets 0 (- 2 ^ 63) (- 2 ^ 63 + 999999)
           (- 2 ^ 63 - 1001) [] ].
Proof. repeat split; vm_compute; reflexivity. Qed.

(** ** The port scan *)

Section PortScan.

Variable cfg : Config.
Context {Net : Type} {net_ops : ANetworkSession Net}.

(** When the first bind of every round fails, the scan uses up any
    amount of fuel: it never leaves the loop. *)
Lemma init_scan_never_binds
    (Hudp : forall net port ip rport,
        failed (fst (fst (createUDPSession net port ip rport))) = true)
    (Htcp : forall net port ip rport,
        failed (fst (fst (createTCPDatagramSession net port ip rport))) = true) :
  forall (fuel : nat) (s : Sender) (net : Net) (clientIP : string)
         (clientRtp clientRtcp serverRtp : Z),
    init_scan cfg fuel s net clientIP clientRtp clientRtcp serverRtp
    = Fault OutOfFuel.
Proof.
  induction fuel as [|fuel IH]; intros s net clientIP clientRtp clientRtcp
    serverRtp; [reflexivity|].
  cbn [init_scan].
  assert (Hfail : failed (fst (fst (create_session s net serverRtp clientIP
                                      clientRtp))) = true).
  { unfold create_session. destruct (is_udp (mTransportMode s)); auto. }
  destruct (create_session s net serverRtp clientIP clientRtp)
    as [[err rtpSession] net'].
  cbn [fst] in Hfail. rewrite Hfail. apply IH.
Qed.

End PortScan.

(** C9, on the code: with a network session on which no port can be
    bound, the port scan of [init] in UDP mode never ends: whatever the
    number of rounds it is given, it is still scanning, and no status,
    [UNKNOWN_ERROR] or other, is ever returned.  In TCP mode [init] binds
    nothing and returns OK with port 20000. *)
Theorem init_never_returns_when_no_port_binds
    (cfg : Config) (fuel : nat) (s : Sender) (clientIP : string)
    (clientRtp clientRtcp : Z) :
  init (net_ops := unbindable) cfg fuel s tt clientIP clientRtp clientRtcp
    TRANSPORT_UDP
  = Fault OutOfFuel
  /\ exists s',
       init (net_ops := unbindable) cfg fuel s tt clientIP clientRtp
         clientRtcp TRANSPORT_TCP
       = Ok (OK, s', tt)
       /\ mRTPPort s' = 20000.
Proof.
  split.
  - unfold init.
    rewrite (init_scan_never_binds (net_ops := unbindable) cfg);
      [reflexivity | reflexivity..].
  - eexists. split; reflexivity.
Qed.

(** ** The states the sender goes through *)

Section ReachableStates.

Variable cfg : Config.
Variable clock : nat -> Z.

(** A call that returns has passed both checks and read a whole packet. *)
Lemma appendTSData_returns (s s' : Sender) (data : list byte) (sz n : Z)
    (disc flush : bool) (evs : list Event) :
  appendTSData cfg clock s data sz disc flush = Ok (n, s', evs) ->
  sz = 188
  /\ size (mTSQueue s) + 188 <= capacity (mTSQueue s)
  /\ 188 <= Z.of_nat (List.length data).
Proof.
  unfold appendTSData, CHECK. intros H.
  destruct (sz =? 188) eqn:E1; cbn [bind] in H; [|discriminate].
  apply Z.eqb_eq in E1. subst sz.
  destruct (size (mTSQueue s) + 188 <=? capacity (mTSQueue s)) eqn:E2;
    cbn [bind] in H; [|discriminate].
  apply Z.leb_le in E2.
  unfold load_bytes in H.
  destruct ((0 <=? 0) && (0 <=? 188)
            && (0 + 188 <=? Z.of_nat (List.length data))) eqn:E3;
    cbn [bind] in H; [|discriminate].
  apply andb_true_iff in E3. destruct E3 as [_ E3]. apply Z.leb_le in E3.
  split; [reflexivity|]. split; [exact E2 | lia].
Qed.

Lemma sender_inv_new_Sender :
  0 <= kMaxHistoryLength cfg -> sender_inv cfg new_Sender.
Proof.
  intros Hmax. split; [apply queue_inv_new_Sender|]. split; [|reflexivity].
  apply history_inv_iff. cbn [new_Sender mRTPSeqNo mHistory mHistoryLength
                               List.length map].
  repeat split; try lia; try constructor.
Qed.

Lemma Ok_triple_inv {A B C : Type} (a a' : A) (b b' : B) (c c' : C) :
  Ok (a, b, c) = Ok (a', b', c') -> a = a' /\ b = b' /\ c = c'.
Proof. intros H. injection H. auto. Qed.

Lemma history_inv_flush_plain (s : Sender) (disc : bool) :
  ENABLE_RETRANSMISSION cfg = false ->
  mHistory s = [] ->
  history_inv cfg s ->
  history_inv cfg (fst (flush_queue cfg clock s disc))
  /\ mHistory (fst (flush_queue cfg clock s disc)) = [].
Proof.
  intros Hen Hnil Hh.
  assert (Hseq : mRTPSeqNo (fst (flush_queue cfg clock s disc))
                 = to_uint32 (mRTPSeqNo s + 1))
    by apply (flush_queue_frame cfg clock s disc).
  assert (Hhist : mHistory (fst (flush_queue cfg clock s disc)) = mHistory s
                  /\ mHistoryLength (fst (flush_queue cfg clock s disc))
                     = mHistoryLength s).
  { unfold flush_queue. rewrite Hen. split; reflexivity. }
  destruct Hhist as [Hhist Hlen'].
  split; [|rewrite Hhist; exact Hnil].
  apply history_inv_iff in Hh.
  destruct Hh as (_ & Hlen & Hbound & _ & _).
  apply history_inv_iff. rewrite Hseq, Hhist, Hlen', Hnil in *.
  split; [unfold to_uint32; apply Z.mod_pos_bound; lia|].
  split; [exact Hlen|]. split; [exact Hbound|].
  split; [constructor | reflexivity].
Qed.

Lemma sender_inv_appendTSData (s s' : Sender) (data : list byte) (sz n : Z)
    (disc flush : bool) (evs : list Event) :
  sender_inv cfg s ->
  appendTSData cfg clock s data sz disc flush = Ok (n, s', evs) ->
  sender_inv cfg s'.
Proof.
  intros (Hq & Hh & Hoff) Happ.
  destruct (appendTSData_returns _ _ _ _ _ _ _ _ Happ) as (-> & Hfit & Hdata).
  pose proof (appended_queue_inv s data Hq Hfit Hdata) as Hq1.
  assert (Hcases : (flush = false
                    /\ size (mTSQueue s) + 188 <> capacity (mTSQueue s))
                   \/ (flush = true
                       \/ size (mTSQueue s) + 188 = capacity (mTSQueue s))).
  { destruct flush; [right; left; reflexivity|].
    destruct (Z.eq_dec (size (mTSQueue s) + 188) (capacity (mTSQueue s)));
      [right; right; assumption | left; split; [reflexivity | assumption]]. }
  destruct Hcases as [[-> Hne] | Hfl].
  - rewrite appendTSData_no_flush in Happ by assumption.
    apply Ok_triple_inv in Happ. destruct Happ as (_ & Hs' & _).
    rewrite <- Hs'. clear Hs'.
    split; [exact Hq1|]. split; [exact Hh | exact Hoff].
  - rewrite appendTSData_flush in Happ by assumption.
    apply Ok_triple_inv in Happ. destruct Happ as (_ & Hs' & _).
    rewrite <- Hs'. clear Hs'.
    split; [apply flush_queue_inv; exact Hq1|].
    destruct (ENABLE_RETRANSMISSION cfg) eqn:Hen.
    + rewrite flush_queue_retains by exact Hen.
      destruct (retain_after_stamp cfg clock s data disc Hq Hh Hfit Hdata)
        as (Hinv' & _).
      split; [exact Hinv' | discriminate].
    + destruct (history_inv_flush_plain
                  (set_mTSQueue s (appended s data)) disc Hen
                  (Hoff eq_refl) Hh) as [H1 H2].
      split; [exact H1 | intros _; exact H2].
Qed.

Lemma sender_inv_same_but (s s' : Sender) :
  sender_inv cfg s -> same_but_retransSeqNo s s' -> sender_inv cfg s'.
Proof.
  intros Hinv Hs. rewrite Hs. exact Hinv.
Qed.

Lemma sender_inv_parseRTCP (s s' : Sender) (buffer : list byte)
    (err : status_t) (evs : list Event) :
  sender_inv cfg s ->
  parseRTCP cfg s buffer = Ok (err, s', evs) ->
  sender_inv cfg s'.
Proof.
  intros Hinv Hr. unfold parseRTCP in Hr.
  destruct (parseRTCP_loop_frame cfg _ _ _ _ _ _ _ Hr) as [Hs _].
  eapply sender_inv_same_but; eassumption.
Qed.

Lemma sender_inv_queuePackets (s : Sender) (timeUs : Z)
    (packets : list byte) :
  sender_inv cfg s ->
  sender_inv cfg (fst (queuePackets clock s timeUs packets)).
Proof.
  intros Hinv. unfold queuePackets, GetNowUs.
  destruct (mFirstOutputBufferReadyTimeUs s <? 0); exact Hinv.
Qed.

Lemma init_scan_frame (Net : Type) (net_ops : ANetworkSession Net) :
  forall (fuel : nat) (s s' : Sender) (net net' : Net) (clientIP : string)
         (clientRtp clientRtcp serverRtp : Z),
    init_scan cfg fuel s net clientIP clientRtp clientRtcp serverRtp
      = Ok (s', net') ->
    only_session_differs s s'.
Proof.
  induction fuel as [|fuel IH];
    intros s s' net net' clientIP clientRtp clientRtcp serverRtp H;
    cbn [init_scan] in H; [discriminate|].
  repeat
    (match type of H with
     | context [let '(_, _) := ?x in _] =>
         destruct x as [[? ?] ?]
     | context [if ?c then _ else _] => destruct c
     | context [CHECK ?b] => destruct b; cbn [CHECK bind] in H
     end; try discriminate; try (eapply IH; eassumption)).
  all: injection H as <- _; reflexivity.
Qed.

Lemma init_frame (Net : Type) (net_ops : ANetworkSession Net)
    (fuel : nat) (s s' : Sender) (net net' : Net) (clientIP : string)
    (clientRtp clientRtcp : Z) (transportMode : TransportMode)
    (err : status_t) :
  init cfg fuel s net clientIP clientRtp clientRtcp transportMode
    = Ok (err, s', net') ->
  only_session_differs s s'.
Proof.
  unfold init. intros H. destruct transportMode.
  - destruct (init_scan cfg fuel _ net clientIP clientRtp clientRtcp 15550)
      as [[s1 net1]|] eqn:Hscan; cbn [bind] in H; [|discriminate].
    apply init_scan_frame in Hscan.
    assert (s' = s1) by (destruct (mRTPPort s1 =? 0); congruence).
    subst s1. rewrite Hscan. reflexivity.
  - injection H as _ <- _. reflexivity.
  - injection H as _ <- _. reflexivity.
Qed.

Lemma sender_inv_init (Net : Type) (net_ops : ANetworkSession Net)
    (fuel : nat) (s s' : Sender) (net net' : Net) (clientIP : string)
    (clientRtp clientRtcp : Z) (transportMode : TransportMode)
    (err : status_t) :
  sender_inv cfg s ->
  init cfg fuel s net clientIP clientRtp clientRtcp transportMode
    = Ok (err, s', net') ->
  sender_inv cfg s'.
Proof.
  intros Hinv H. apply init_frame in H. rewrite H. exact Hinv.
Qed.

(** The invariants the theorems on the packetizer and on the history
    assume hold in every state the sender goes through. *)
Lemma reachable_sender_inv (s : Sender) :
  0 <= kMaxHistoryLength cfg ->
  reachable cfg clock s -> sender_inv cfg s.
Proof.
  intros Hmax Hreach. induction Hreach.
  - apply sender_inv_new_Sender. exact Hmax.
  - eapply sender_inv_init; eassumption.
  - apply sender_inv_queuePackets. assumption.
  - assumption.
  - eapply sender_inv_appendTSData; eassumption.
  - eapply sender_inv_parseRTCP; eassumption.
Qed.

End ReachableStates.

(** ** Where the payload of a batch goes *)

Section Conservation.

Variable cfg : Config.
Variable clock : nat -> Z.

Lemma pending_length (s : Sender) :
  queue_inv s -> Z.of_nat (List.length (pending s)) = size (mTSQueue s) - 12.
Proof.
  rewrite queue_inv_iff, queue_ok_iff, buffer_ok_iff.
  intros [((Hcap & Hlen) & Hsz & _) _].
  unfold pending, contents, size, capacity in *.
  rewrite length_skipn, length_firstn. lia.
Qed.

Lemma pending_idle (s : Sender) :
  queue_inv s -> queue_idle s -> pending s = [].
Proof.
  intros Hinv Hidle. apply length_zero_iff_nil.
  pose proof (pending_length s Hinv) as H. unfold queue_idle in Hidle. lia.
Qed.

Lemma pending_appended (s : Sender) (data : list byte) :
  queue_inv s ->
  size (mTSQueue s) + 188 <= capacity (mTSQueue s) ->
  188 <= Z.of_nat (List.length data) ->
  pending (set_mTSQueue s (appended s data)) = pending s ++ firstn 188 data.
Proof.
  rewrite queue_inv_iff, queue_ok_iff, buffer_ok_iff.
  intros [((Hcap & Hlen) & Hsz & _) _] Hfit Hdata.
  unfold pending, contents, appended, size, capacity in *.
  cbn [mTSQueue set_mTSQueue setData setRange0 mData mRangeLength].
  set (mem := mData (mTSQueue s)) in *.
  set (d := firstn 188 data).
  assert (Hd : List.length d = 188%nat).
  { subst d. rewrite length_firstn. lia. }
  remember (Z.to_nat (mRangeLength (mTSQueue s))) as n eqn:Hn.
  assert (Hn12 : (12 <= n)%nat) by lia.
  assert (Hnlen : (n + 188 <= List.length mem)%nat) by lia.
  replace (Z.to_nat (mRangeLength (mTSQueue s) + 188)) with (n + 188)%nat by lia.
  unfold store_bytes. rewrite <- Hn.
  rewrite firstn_app, length_firstn.
  replace (Nat.min n (List.length mem)) with n by lia.
  rewrite (firstn_all2 (n := (n + 188)%nat)) by (rewrite length_firstn; lia).
  replace (n + 188 - n)%nat with 188%nat by lia.
  rewrite firstn_app, Hd, Nat.sub_diag, firstn_O, app_nil_r.
  rewrite <- Hd at 1. rewrite firstn_all.
  rewrite skipn_app, length_firstn.
  replace (12 - Nat.min n (List.length mem))%nat with 0%nat by lia.
  reflexivity.
Qed.

Lemma rtp_payload_rtp_event (s : Sender) (packet : list byte) :
  rtp_payload (rtp_event s packet) = skipn 12 packet
  /\ event_data (rtp_event s packet) = packet.
Proof.
  unfold rtp_payload, rtp_event.
  destruct (is_interleaved (mTransportMode s)); split; reflexivity.
Qed.

Lemma to_uint32_mod (x : Z) : to_uint32 x mod 2 ^ 32 = x mod 2 ^ 32.
Proof. unfold to_uint32. apply Z.mod_mod. lia. Qed.

(** One call of [appendTSData], with what it does to the bytes and to
    the counters. *)
Lemma appendTSData_accounts (s : Sender) (data : list byte)
    (disc flush : bool) :
  queue_inv s -> room s -> 188 <= Z.of_nat (List.length data) ->
  exists s' evs,
    appendTSData cfg clock s data 188 disc flush = Ok (188, s', evs)
    /\ queue_inv s' /\ room s'
    /\ concat (map rtp_payload evs) ++ pending s'
       = pending s ++ firstn 188 data
    /\ (mNumRTPOctetsSent s' + Z.of_nat (List.length (pending s'))) mod 2 ^ 32
       = (mNumRTPOctetsSent s + Z.of_nat (List.length (pending s)) + 188)
           mod 2 ^ 32
    /\ mNumRTPSent s' mod 2 ^ 32
       = (mNumRTPSent s + Z.of_nat (List.length evs)) mod 2 ^ 32
    /\ ((flush = true \/ size (mTSQueue s) + 188 = capacity (mTSQueue s)) ->
        queue_idle s'
        /\ map (fun ev => Z.of_nat (List.length (event_data ev))) evs
           = [size (mTSQueue s) + 188])
    /\ (~ (flush = true \/ size (mTSQueue s) + 188 = capacity (mTSQueue s)) ->
        evs = [] /\ size (mTSQueue s') = size (mTSQueue s) + 188).
Proof.
  intros Hinv Hroom Hdata. unfold room in Hroom.
  pose proof (appended_queue_inv s data Hinv Hroom Hdata) as Happ.
  pose proof (pending_appended s data Hinv Hroom Hdata) as Hpend.
  pose proof (pending_length s Hinv) as Hlen.
  destruct (Bool.bool_dec flush true) as [Hf | Hf];
    [| destruct (Z.eq_dec (size (mTSQueue s) + 188) (capacity (mTSQueue s)))
         as [Hc | Hc]].
  1, 2:
    eexists; eexists; split;
    [ apply appendTSData_flush; solve [assumption | auto] | ];
    pose proof (flush_queue_inv cfg clock _ disc Happ) as Hinv';
    pose proof (flush_queue_frame cfg clock
                  (set_mTSQueue s (appended s data)) disc) as Hfr;
    cbv zeta in Hfr;
    destruct Hfr as (_ & Fsent & Foct & _ & _ & _ & _ & _ & _ & _ & _ & _ & Fsz);
    assert (Hidle : queue_idle
                      (fst (flush_queue cfg clock
                              (set_mTSQueue s (appended s data)) disc)))
      by exact Fsz;
    (split; [exact Hinv'|]);
    (split; [apply queue_idle_room; assumption|]);
    rewrite (pending_idle _ Hinv' Hidle);
    cbn [map concat List.length];
    destruct (rtp_payload_rtp_event s
                (contents (stamped cfg clock s data disc))) as (Hpay & Hdat);
    rewrite Hpay, Hdat, !app_nil_r;
    (split; [apply stamped_payload; assumption|]);
    (split;
     [ rewrite Foct; cbn [mTSQueue set_mTSQueue mNumRTPOctetsSent];
       change (size (appended s data)) with (size (mTSQueue s) + 188);
       rewrite Z.add_0_r, to_uint32_mod; f_equal; lia |]);
    (split;
     [ rewrite Fsent; cbn [mNumRTPSent set_mTSQueue];
       rewrite to_uint32_mod; reflexivity |]);
    (split;
     [ intros _; split; [exact Hidle|];
       rewrite (stamped_length cfg clock s data disc Hinv Hroom Hdata);
       reflexivity
     | intros Hno; exfalso; apply Hno; auto ]).
  eexists; eexists; split.
  - destruct flush; [congruence|]. apply appendTSData_no_flush; assumption.
  - split; [exact Happ|]. split.
    + unfold room.
      destruct (queue_inv_size _ Happ) as (Hcap & Hle & k & Hk & Hsz).
      cbn [mTSQueue set_mTSQueue] in *.
      assert (size (appended s data) = size (mTSQueue s) + 188) by reflexivity.
      assert (capacity (appended s data) = capacity (mTSQueue s)) by reflexivity.
      change kMaxNumTSPacketsPerRTPPacket with 7 in *. lia.
    + cbn [map concat List.length app]. rewrite Hpend.
      split; [reflexivity|].
      split.
      { cbn [mNumRTPOctetsSent set_mTSQueue].
        rewrite length_app, length_firstn. f_equal. lia. }
      split.
      { cbn [mNumRTPSent set_mTSQueue]. f_equal. lia. }
      split.
      { intros [Hyes | Hyes]; [congruence | contradiction]. }
      intros _. split; reflexivity.
Qed.

Lemma packet_sizes_full (n : nat) :
  packet_sizes (7 + n) = (12 + 188 * 7) :: packet_sizes n.
Proof.
  unfold packet_sizes.
  replace (7 + n)%nat with (n + 1 * 7)%nat by lia.
  rewrite Nat.div_add, Nat.Div0.mod_add by lia.
  rewrite Nat.add_comm. reflexivity.
Qed.

Lemma packet_sizes_one (j : nat) :
  (1 <= j <= 7)%nat -> packet_sizes j = [12 + 188 * Z.of_nat j].
Proof.
  intros Hj. unfold packet_sizes.
  destruct (Nat.eq_dec j 7) as [-> | Hne]; [reflexivity|].
  rewrite Nat.div_small, Nat.mod_small by lia.
  destruct (Nat.eqb_spec j 0); [lia | reflexivity].
Qed.

Lemma packet_sizes_length (n : nat) :
  List.length (packet_sizes n) = ((n + 6) / 7)%nat.
Proof.
  unfold packet_sizes. rewrite length_app, repeat_length.
  pose proof (Nat.div_mod_eq n 7) as Hn.
  pose proof (Nat.mod_upper_bound n 7 ltac:(lia)) as Hr.
  destruct (Nat.eqb_spec (n mod 7) 0) as [H0 | H0]; cbn [List.length].
  - replace (n + 6)%nat with (6 + (n / 7) * 7)%nat by lia.
    rewrite Nat.div_add by lia.
    rewrite (Nat.div_small 6) by lia. lia.
  - replace (n + 6)%nat with ((n mod 7 - 1) + (n / 7 + 1) * 7)%nat by lia.
    rewrite Nat.div_add by lia.
    rewrite (Nat.div_small (n mod 7 - 1)) by lia. lia.
Qed.

(** The loop of [onQueuePackets], from any state whose queue has room. *)
Lemma onQueuePackets_loop_accounts (packets : list byte) :
  forall (fuel : nat) (s : Sender) (offset : Z),
    queue_inv s -> room s ->
    0 <= offset <= Z.of_nat (List.length packets) ->
    (Z.of_nat (List.length packets) - offset) mod 188 = 0 ->
    Z.of_nat (List.length packets) - offset <= Z.of_nat fuel ->
    exists s' evs,
      onQueuePackets_loop cfg clock fuel s packets offset = Ok (s', evs)
      /\ queue_inv s'
      /\ (offset < Z.of_nat (List.length packets) -> queue_idle s')
      /\ (offset = Z.of_nat (List.length packets) -> s' = s /\ evs = [])
      /\ concat (map rtp_payload evs) ++ pending s'
         = pending s ++ skipn (Z.to_nat offset) packets
      /\ (mNumRTPOctetsSent s' + Z.of_nat (List.length (pending s')))
           mod 2 ^ 32
         = (mNumRTPOctetsSent s + Z.of_nat (List.length (pending s))
            + (Z.of_nat (List.length packets) - offset)) mod 2 ^ 32
      /\ mNumRTPSent s' mod 2 ^ 32
         = (mNumRTPSent s + Z.of_nat (List.length evs)) mod 2 ^ 32
      /\ (forall k m : Z,
            size (mTSQueue s) = 12 + 188 * k ->
            Z.of_nat (List.length packets) - offset = 188 * m ->
            0 < m ->
            map (fun ev => Z.of_nat (List.length (event_data ev))) evs
            = packet_sizes (Z.to_nat (k + m))).
Proof.
  induction fuel as [|fuel IH]; intros s offset Hinv Hroom Hoff Hmod Hfuel.
  - assert (offset = Z.of_nat (List.length packets)) by lia.
    exists s, []. cbn [onQueuePackets_loop].
    replace (offset <? Z.of_nat (List.length packets)) with false
      by (symmetry; apply Z.ltb_ge; lia).
    split; [reflexivity|]. split; [assumption|]. split; [lia|].
    split; [auto|]. cbn [map concat app List.length].
    rewrite skipn_all2 by lia. rewrite app_nil_r.
    split; [reflexivity|]. split; [f_equal; lia|].
    split; [f_equal; lia|]. intros; lia.
  - cbn [onQueuePackets_loop].
    destruct (offset <? Z.of_nat (List.length packets)) eqn:Hlt.
    + apply Z.ltb_lt in Hlt.
      assert (Hrem : 188 <= Z.of_nat (List.length packets) - offset).
      { pose proof (Z.div_mod (Z.of_nat (List.length packets) - offset) 188
                      ltac:(lia)) as Hdm.
        rewrite Hmod in Hdm.
        assert (0 < (Z.of_nat (List.length packets) - offset) / 188) by
          (apply Z.div_str_pos; split; [lia|];
           destruct (Z_lt_le_dec (Z.of_nat (List.length packets) - offset) 188)
             as [Hs|Hs]; [|lia];
           rewrite Z.mod_small in Hmod by lia; lia).
        lia. }
      destruct (appendTSData_accounts s
                  (skipn (Z.to_nat offset) packets) true
                  (Z.of_nat (List.length packets) <=? offset + 188)
                  Hinv Hroom)
        as (s1 & e1 & Happ & Hinv1 & Hroom1 & Hpay1 & Hoct1 & Hsent1
            & Hflush1 & Hkeep1).
      { rewrite length_skipn. lia. }
      rewrite Happ. cbn [bind].
      destruct (IH s1 (offset + 188) Hinv1 Hroom1) as
        (s2 & e2 & Hloop & Hinv2 & Hidle2 & Hsame2 & Hpay2 & Hoct2 & Hsent2
         & Hsizes2).
      { lia. }
      { replace (Z.of_nat (List.length packets) - (offset + 188))
          with (Z.of_nat (List.length packets) - offset + (-1) * 188) by lia.
        rewrite Z.mod_add by lia. exact Hmod. }
      { lia. }
      rewrite Hloop. cbn [bind].
      exists s2, (e1 ++ e2). split; [reflexivity|].
      split; [exact Hinv2|].
      assert (Hlast_idle :
                offset + 188 = Z.of_nat (List.length packets) -> queue_idle s1).
      { intros Hlast. apply Hflush1. left. apply Z.leb_le. lia. }
      split.
      { intros _.
        destruct (Z.eq_dec (offset + 188) (Z.of_nat (List.length packets)))
          as [Hlast | Hmore].
        - destruct (Hsame2 Hlast) as (-> & _). auto.
        - apply Hidle2. lia. }
      split; [lia|].
      split.
      { rewrite map_app, concat_app, <- app_assoc, Hpay2, app_assoc, Hpay1.
        rewrite <- app_assoc. f_equal.
        replace (Z.to_nat (offset + 188)) with (188 + Z.to_nat offset)%nat
          by lia.
        rewrite <- skipn_skipn. apply firstn_skipn. }
      split.
      { rewrite Hoct2.
        rewrite <- Z.add_mod_idemp_l by lia. rewrite Hoct1.
        rewrite Z.add_mod_idemp_l by lia. f_equal. lia. }
      split.
      { rewrite Hsent2.
        rewrite <- Z.add_mod_idemp_l by lia. rewrite Hsent1.
        rewrite Z.add_mod_idemp_l by lia. f_equal.
        rewrite length_app. lia. }
      intros k m Hk Hm Hmpos.
      destruct (queue_inv_size _ Hinv) as (Hcap & _ & k0 & Hk0 & Hsz0).
      change kMaxNumTSPacketsPerRTPPacket with 7 in Hcap.
      unfold room in Hroom.
      assert (Hkk : 0 <= k <= 6) by lia.
      destruct (Z.eq_dec (offset + 188) (Z.of_nat (List.length packets)))
        as [Hlast | Hmore].
      * destruct (Hsame2 Hlast) as (_ & ->). rewrite app_nil_r.
        destruct Hflush1 as (_ & ->).
        { left. apply Z.leb_le. lia. }
        assert (m = 1) by lia. subst m.
        rewrite packet_sizes_one by lia. f_equal. lia.
      * destruct (Z.eq_dec (size (mTSQueue s) + 188) (capacity (mTSQueue s)))
          as [Hfull | Hnot].
        -- destruct Hflush1 as (Hidle1 & Hsz1); [right; exact Hfull|].
           rewrite map_app, Hsz1.
           rewrite (Hsizes2 0 (m - 1)); [ | exact Hidle1 | lia | lia ].
           replace (Z.to_nat (k + m)) with (7 + Z.to_nat (0 + (m - 1)))%nat
             by lia.
           rewrite packet_sizes_full. cbn [app]. f_equal. lia.
        -- destruct Hkeep1 as (-> & Hsz1).
           { intros [Hl | Hf]; [apply Z.leb_le in Hl; lia | contradiction]. }
           cbn [app].
           rewrite (Hsizes2 (k + 1) (m - 1)); [ | lia | lia | lia ].
           f_equal. lia.
    + apply Z.ltb_ge in Hlt.
      assert (offset = Z.of_nat (List.length packets)) by lia.
      exists s, []. split; [reflexivity|]. split; [assumption|].
      split; [lia|]. split; [auto|]. cbn [map concat app List.length].
      rewrite skipn_all2 by lia. rewrite app_nil_r.
      split; [reflexivity|]. split; [f_equal; lia|].
      split; [f_equal; lia|]. intros; lia.
Qed.

(** One batch, from an idle queue. *)
Lemma onQueuePackets_accounts (s : Sender) (packets : list byte) :
  queue_inv s -> queue_idle s ->
  Z.of_nat (List.length packets) mod 188 = 0 ->
  exists s' evs,
    onQueuePackets cfg clock s packets = Ok (s', evs)
    /\ queue_inv s' /\ queue_idle s'
    /\ concat (map rtp_payload evs) = packets
    /\ mNumRTPOctetsSent s' mod 2 ^ 32
       = (mNumRTPOctetsSent s + Z.of_nat (List.length packets)) mod 2 ^ 32
    /\ mNumRTPSent s' mod 2 ^ 32
       = (mNumRTPSent s + Z.of_nat (List.length evs)) mod 2 ^ 32
    /\ map (fun ev => Z.of_nat (List.length (event_data ev))) evs
       = packet_sizes (List.length packets / 188).
Proof.
  intros Hinv Hidle Hmod. unfold onQueuePackets, GetNowUs.
  set (s0 := set_clockReads s (S (clockReads s))).
  assert (Hinv0 : queue_inv s0) by exact Hinv.
  assert (Hidle0 : queue_idle s0) by exact Hidle.
  destruct (onQueuePackets_loop_accounts packets (List.length packets) s0 0
              Hinv0 (queue_idle_room _ Hinv0 Hidle0))
    as (s' & evs & Hloop & Hinv' & Hidle' & Hsame' & Hpay & Hoct & Hsent
        & Hsizes).
  { lia. }
  { rewrite Z.sub_0_r. exact Hmod. }
  { lia. }
  assert (Hidle2 : queue_idle s').
  { destruct (Z.eq_dec 0 (Z.of_nat (List.length packets))) as [He|Hne].
    - destruct (Hsame' He) as (-> & _). exact Hidle0.
    - apply Hidle'. lia. }
  exists s', evs. split; [exact Hloop|]. split; [exact Hinv'|].
  split; [exact Hidle2|].
  rewrite (pending_idle _ Hinv' Hidle2) in Hpay, Hoct.
  rewrite (pending_idle _ Hinv0 Hidle0) in Hpay, Hoct.
  cbn [List.length app] in Hoct. rewrite app_nil_r in Hpay.
  change (Z.to_nat 0) with 0%nat in Hpay. rewrite skipn_O in Hpay.
  split; [exact Hpay|].
  split.
  { rewrite Z.add_0_r in Hoct. rewrite Hoct. f_equal.
    change (mNumRTPOctetsSent s0) with (mNumRTPOctetsSent s). lia. }
  split; [exact Hsent|].
  destruct (Z.eq_dec 0 (Z.of_nat (List.length packets))) as [He|Hne].
  - destruct (Hsame' He) as (_ & ->).
    destruct packets; [reflexivity | cbn [List.length] in He; lia].
  - pose proof (Z.div_exact (Z.of_nat (List.length packets)) 188 ltac:(lia))
      as Hex.
    apply Hex in Hmod.
    rewrite (Hsizes 0 (Z.of_nat (List.length packets) / 188)).
    + f_equal.
      change 188 with (Z.of_nat 188). rewrite <- Nat2Z.inj_div. lia.
    + exact Hidle0.
    + lia.
    + lia.
Qed.

End Conservation.

(** X1: the batches delivered to an idle sender leave as the payload of
    the RTP packets it sends, byte for byte and in order: nothing is
    lost, repeated or reordered, and the queue is idle again.  The octet
    counter of the sender report moves by the number of these bytes,
    modulo 2^32. *)
Theorem batches_payload_is_conserved
    (cfg : Config) (clock : nat -> Z) (batches : list (list byte)) :
  forall s : Sender,
    queue_inv s -> queue_idle s ->
    Forall (fun packets => Z.of_nat (List.length packets) mod 188 = 0)
      batches ->
    exists s' evs,
      deliver_batches cfg clock s batches = Ok (s', evs)
      /\ concat (map rtp_payload evs) = concat batches
      /\ queue_idle s'
      /\ mNumRTPOctetsSent s' mod 2 ^ 32
         = (mNumRTPOctetsSent s + Z.of_nat (List.length (concat batches)))
             mod 2 ^ 32.
Proof.
  induction batches as [|packets rest IH]; intros s Hinv Hidle Hall.
  - exists s, []. cbn [deliver_batches map concat List.length].
    rewrite Z.add_0_r. auto.
  - inversion Hall as [|? ? Hp Hrest]; subst.
    destruct (onQueuePackets_accounts cfg clock s packets Hinv Hidle Hp)
      as (s1 & e1 & H1 & Hinv1 & Hidle1 & Hpay1 & Hoct1 & _).
    destruct (IH s1 Hinv1 Hidle1 Hrest)
      as (s2 & e2 & H2 & Hpay2 & Hidle2 & Hoct2).
    exists s2, (e1 ++ e2). cbn [deliver_batches]. rewrite H1. cbn [bind].
    rewrite H2. cbn [bind]. split; [reflexivity|].
    split.
    { rewrite map_app, concat_app, Hpay1, Hpay2. reflexivity. }
    split; [exact Hidle2|].
    rewrite Hoct2. rewrite <- Z.add_mod_idemp_l by lia. rewrite Hoct1.
    rewrite Z.add_mod_idemp_l by lia. f_equal.
    cbn [concat]. rewrite length_app. lia.
Qed.

(** X2: a batch of [n] TS packets delivered to an idle sender leaves in
    ceil(n/7) RTP packets: full ones of 12 + 7 * 188 bytes, then one with
    the rest; the packet counter moves by that number, modulo 2^32. *)
Theorem batch_is_cut_into_full_packets
    (cfg : Config) (clock : nat -> Z) (s : Sender) (packets : list byte) :
  queue_inv s -> queue_idle s ->
  Z.of_nat (List.length packets) mod 188 = 0 ->
  let n := (List.length packets / 188)%nat in
  exists s' evs,
    onQueuePackets cfg clock s packets = Ok (s', evs)
    /\ map (fun ev => Z.of_nat (List.length (event_data ev))) evs
       = repeat 1328 (n / 7)
         ++ (if (n mod 7 =? 0)%nat then []
             else [12 + 188 * Z.of_nat (n mod 7)])
    /\ List.length evs = ((n + 6) / 7)%nat
    /\ mNumRTPSent s' mod 2 ^ 32
       = (mNumRTPSent s + Z.of_nat ((n + 6) / 7)) mod 2 ^ 32.
Proof.
  intros Hinv Hidle Hmod n.
  destruct (onQueuePackets_accounts cfg clock s packets Hinv Hidle Hmod)
    as (s' & evs & H1 & _ & _ & _ & _ & Hsent & Hsizes).
  assert (Hlen : List.length evs = ((n + 6) / 7)%nat).
  { rewrite <- (length_map (fun ev => Z.of_nat (List.length (event_data ev)))).
    rewrite Hsizes. apply packet_sizes_length. }
  exists s', evs. split; [exact H1|]. split; [exact Hsizes|].
  split; [exact Hlen|]. rewrite Hsent, Hlen. reflexivity.
Qed.

(** ** The sender report and the source description *)

Lemma store_bytes_middle (P M R : list byte) (k : Z) (d : list byte) :
  0 <= k -> k + Z.of_nat (List.length d) <= Z.of_nat (List.length M) ->
  store_bytes (P ++ M ++ R) (Z.of_nat (List.length P) + k) d
  = P ++ store_bytes M k d ++ R.
Proof.
  intros Hk Hfit. unfold store_bytes.
  replace (Z.to_nat (Z.of_nat (List.length P) + k))
    with (List.length P + Z.to_nat k)%nat by lia.
  rewrite firstn_app_2. rewrite firstn_app.
  replace (Z.to_nat k - List.length M)%nat with 0%nat by lia.
  rewrite firstn_O, app_nil_r.
  rewrite <- Nat.add_assoc, skipn_app.
  rewrite skipn_all2 by lia.
  replace (List.length P + (Z.to_nat k + List.length d) - List.length P)%nat
    with (Z.to_nat k + List.length d)%nat by lia.
  rewrite skipn_app.
  replace (Z.to_nat k + List.length d - List.length M)%nat with 0%nat by lia.
  rewrite skipn_O. cbn [app]. rewrite <- !app_assoc. reflexivity.
Qed.

(** The memory of a buffer with room for [n] more bytes: the valid
    range, the [n] bytes after it, and the rest. *)
Lemma split_region (buffer : ABuffer) (n : Z) :
  0 <= n ->
  writable buffer n = Ok tt ->
  exists P M R,
    mData buffer = P ++ M ++ R
    /\ contents buffer = P
    /\ Z.of_nat (List.length P) = size buffer
    /\ Z.of_nat (List.length M) = n.
Proof.
  intros Hn Hw. unfold writable in Hw.
  destruct ((0 <=? size buffer)
            && (size buffer + n <=? Z.of_nat (List.length (mData buffer))))
    eqn:Hc; [|discriminate].
  apply andb_true_iff in Hc. destruct Hc as [H0 H1].
  apply Z.leb_le in H0. apply Z.leb_le in H1.
  exists (firstn (Z.to_nat (size buffer)) (mData buffer)),
         (firstn (Z.to_nat n) (skipn (Z.to_nat (size buffer)) (mData buffer))),
         (skipn (Z.to_nat n) (skipn (Z.to_nat (size buffer)) (mData buffer))).
  split; [rewrite !firstn_skipn; reflexivity|].
  split; [reflexivity|].
  rewrite !length_firstn, length_skipn. lia.
Qed.

Lemma writable_iff (buffer : ABuffer) (n : Z) :
  writable buffer n = Ok tt
  <-> 0 <= size buffer
      /\ size buffer + n <= Z.of_nat (List.length (mData buffer)).
Proof.
  unfold writable.
  destruct (Z.leb_spec 0 (size buffer));
    destruct (Z.leb_spec (size buffer + n)
                (Z.of_nat (List.length (mData buffer))));
    cbn [andb]; split; intros H1; try discriminate; try lia; auto.
Qed.

Lemma contents_region (buffer : ABuffer) (P M R : list byte) (n : Z) :
  Z.of_nat (List.length P) = size buffer ->
  Z.of_nat (List.length M) = n ->
  contents (setRange0 (setData buffer (P ++ M ++ R)) (size buffer + n))
  = P ++ M.
Proof.
  intros HP HM. unfold contents, size in *.
  cbn [setRange0 setData mData mRangeLength].
  replace (Z.to_nat (mRangeLength buffer + n))
    with (List.length P + List.length M)%nat by lia.
  rewrite firstn_app_2. rewrite firstn_app, Nat.sub_diag, firstn_O, app_nil_r.
  rewrite firstn_all. reflexivity.
Qed.

Lemma store_bytes_all (M d : list byte) :
  List.length d = List.length M -> store_bytes M 0 d = d.
Proof.
  intros H. unfold store_bytes. change (Z.to_nat 0) with 0%nat.
  rewrite firstn_O. cbn [app Nat.add]. rewrite skipn_all2 by lia.
  apply app_nil_r.
Qed.

Lemma land_255_mod (y : Z) : Z.land y 255 mod 2 ^ 8 = y mod 2 ^ 8.
Proof.
  change 255 with (Z.ones 8). rewrite Z.land_ones by lia.
  apply Z.mod_mod. lia.
Qed.

Lemma be32_of_masked_bytes (x : Z) :
  Z.lor
    (Z.lor
       (Z.lor (Z.shiftl (Z.land (Z.shiftr x 24) 255 mod 2 ^ 8) 24)
              (Z.shiftl (Z.land (Z.shiftr x 16) 255 mod 2 ^ 8) 16))
       (Z.shiftl (Z.land (Z.shiftr x 8) 255 mod 2 ^ 8) 8))
    (Z.land x 255 mod 2 ^ 8)
  = x mod 2 ^ 32.
Proof.
  rewrite (land_255_mod (Z.shiftr x 24)). apply be32_of_bytes.
Qed.

(** The index of a byte read, evaluated. *)
Ltac index_nth :=
  repeat match goal with
         | |- context [Z.to_nat ?z] =>
             let n := eval vm_compute in (Z.to_nat z) in
             change (Z.to_nat z) with n
         end.

Section Reports.

Variable cfg : Config.

(** The sender report [addSR] stores, read back. *)
Lemma addSR_appends (s : Sender) (buffer : ABuffer) :
  writable buffer 28 = Ok tt ->
  exists buffer' sr,
    addSR cfg s buffer = Ok buffer'
    /\ List.length (mData buffer') = List.length (mData buffer)
    /\ size buffer' = size buffer + 28
    /\ contents buffer' = contents buffer ++ sr
    /\ List.length sr = 28%nat
    /\ byte_at sr 0 = 0x80 /\ byte_at sr 1 = 200
    /\ byte_at sr 2 = 0 /\ byte_at sr 3 = 6
    /\ U32_AT sr 4 = Ok (kSourceID cfg mod 2 ^ 32)
    /\ U32_AT sr 8 = Ok ((mLastNTPTime s / 2 ^ 32) mod 2 ^ 32)
    /\ U32_AT sr 12 = Ok (mLastNTPTime s mod 2 ^ 32)
    /\ U32_AT sr 16 = Ok (mLastRTPTime s mod 2 ^ 32)
    /\ U32_AT sr 20 = Ok (mNumRTPSent s mod 2 ^ 32)
    /\ U32_AT sr 24 = Ok (mNumRTPOctetsSent s mod 2 ^ 32).
Proof.
  intros Hw.
  destruct (split_region buffer 28 ltac:(lia) Hw)
    as (P & M & R & Hmem & Hcont & HP & HM).
  unfold addSR. rewrite Hw. cbn [bind].
  match goal with
  | |- context [store_bytes _ _ (map byte.of_Z ?l)] => set (fields := l)
  end.
  exists (setRange0
            (setData buffer
               (store_bytes (mData buffer) (size buffer)
                  (map byte.of_Z fields)))
            (size buffer + 28)),
         (map byte.of_Z fields).
  split; [reflexivity|].
  split.
  { cbn [setRange0 setData mData].
    apply writable_iff in Hw. destruct Hw as [Hw0 Hw1].
    apply length_store_bytes; [exact Hw0|].
    cbn [List.length map fields]. lia. }
  split; [reflexivity|].
  split.
  { rewrite Hmem, <- HP.
    rewrite <- (Z.add_0_r (Z.of_nat (List.length P))) at 1.
    rewrite store_bytes_middle by (cbn [List.length map fields]; lia).
    rewrite store_bytes_all by (cbn [List.length map fields]; lia).
    rewrite HP, Hcont.
    apply contents_region; [lia | reflexivity]. }
  split; [reflexivity|].
  unfold byte_at, U32_AT.
  rewrite !load_of_Z by (cbn [List.length fields]; lia).
  index_nth. subst fields. cbn [bind nth map].
  rewrite !unsigned_of_Z_mod.
  repeat split; try reflexivity.
  - f_equal. apply be32_of_bytes.
  - f_equal.
    replace (Z.shiftr (mLastNTPTime s) (64 - 8))
      with (Z.shiftr (Z.shiftr (mLastNTPTime s) 32) 24)
      by (rewrite Z.shiftr_shiftr by lia; reflexivity).
    replace (Z.shiftr (mLastNTPTime s) (64 - 16))
      with (Z.shiftr (Z.shiftr (mLastNTPTime s) 32) 16)
      by (rewrite Z.shiftr_shiftr by lia; reflexivity).
    replace (Z.shiftr (mLastNTPTime s) (64 - 24))
      with (Z.shiftr (Z.shiftr (mLastNTPTime s) 32) 8)
      by (rewrite Z.shiftr_shiftr by lia; reflexivity).
    rewrite be32_of_bytes. rewrite Z.shiftr_div_pow2 by lia. reflexivity.
  - f_equal. apply be32_of_masked_bytes.
  - f_equal. apply be32_of_masked_bytes.
  - f_equal. apply be32_of_bytes.
  - f_equal. apply be32_of_bytes.
Qed.

(** The four stores of [addSDES] fill a region of 52 bytes. *)
Lemma sdes_region (M : list byte) (b4 b5 b6 b7 : byte) :
  List.length M = 52%nat ->
  store_bytes
    (store_bytes
       (store_bytes
          (store_bytes M 0 (map byte.of_Z [Z.lor 0x80 1; 202]))
          (0 + 4) [b4; b5; b6; b7])
       (0 + 8)
       ((byte.of_Z 1 :: byte.of_Z (strlen kCNAME)
           :: list_byte_of_string kCNAME)
        ++ (byte.of_Z 7 :: byte.of_Z (strlen kNOTE)
              :: list_byte_of_string kNOTE)
        ++ [byte.of_Z 0] ++ repeat (byte.of_Z 0) 3))
    (0 + 2) (map byte.of_Z [Z.shiftr 12 8; Z.land 12 0xff])
  = map byte.of_Z [0x81; 202; 0; 12] ++ [b4; b5; b6; b7]
    ++ map byte.of_Z [1; 17] ++ list_byte_of_string kCNAME
    ++ map byte.of_Z [7; 19] ++ list_byte_of_string kNOTE
    ++ map byte.of_Z [0; 0; 0; 0].
Proof.
  intros HM.
  do 52 (destruct M as [|? M]; [discriminate HM|]).
  destruct M; [|discriminate HM].
  vm_compute. reflexivity.
Qed.

Lemma store_bytes_middle_at (P M R : list byte) (base k : Z)
    (d : list byte) :
  Z.of_nat (List.length P) = base ->
  0 <= k -> k + Z.of_nat (List.length d) <= Z.of_nat (List.length M) ->
  store_bytes (P ++ M ++ R) (base + k) d = P ++ store_bytes M k d ++ R.
Proof. intros <-. apply store_bytes_middle. Qed.

(** The source description [addSDES] stores: the header with the length
    in words minus one, the source, the CNAME and NOTE items, the
    terminator and the padding to a multiple of four bytes. *)
Lemma addSDES_appends (buffer : ABuffer) :
  writable buffer 52 = Ok tt ->
  exists buffer' sdes,
    addSDES cfg buffer = Ok buffer'
    /\ size buffer' = size buffer + 52
    /\ contents buffer' = contents buffer ++ sdes
    /\ List.length sdes = 52%nat
    /\ byte_at sdes 0 = 0x81 /\ byte_at sdes 1 = 202
    /\ byte_at sdes 2 = 0 /\ byte_at sdes 3 = 12
    /\ U32_AT sdes 4 = Ok (kSourceID cfg mod 2 ^ 32)
    /\ skipn 8 sdes
       = map byte.of_Z [1; strlen kCNAME] ++ list_byte_of_string kCNAME
         ++ map byte.of_Z [7; strlen kNOTE] ++ list_byte_of_string kNOTE
         ++ map byte.of_Z [0; 0; 0; 0].
Proof.
  intros Hw.
  destruct (split_region buffer 52 ltac:(lia) Hw)
    as (P & M & R & Hmem & Hcont & HP & HM).
  unfold addSDES.
  change (8 + 1 + 1 + strlen kCNAME + 1 + 1 + strlen kNOTE + 1) with 49.
  change (49 mod 4) with 1. cbv iota beta zeta.
  change (if 0 <? 1 then 4 - 1 else 0) with 3.
  change (49 + 3) with 52. change (52 / 4 - 1) with 12.
  rewrite Hw. cbn [bind].
  set (ssrc := map byte.of_Z
                 [Z.shiftr (kSourceID cfg) 24;
                  Z.land (Z.shiftr (kSourceID cfg) 16) 255;
                  Z.land (Z.shiftr (kSourceID cfg) 8) 255;
                  Z.land (kSourceID cfg) 255]).
  eexists. eexists. split; [reflexivity|]. split; [reflexivity|].
  assert (Hstores :
    store_bytes
      (store_bytes
         (store_bytes
            (store_bytes (mData buffer) (size buffer)
               (map byte.of_Z [Z.lor 128 1; 202]))
            (size buffer + 4) ssrc)
         (size buffer + 8)
         ((byte.of_Z 1 :: byte.of_Z (strlen kCNAME)
             :: list_byte_of_string kCNAME)
          ++ (byte.of_Z 7 :: byte.of_Z (strlen kNOTE)
                :: list_byte_of_string kNOTE)
          ++ [byte.of_Z 0] ++ repeat (byte.of_Z 0) (Z.to_nat 3)))
      (size buffer + 2) (map byte.of_Z [Z.shiftr 12 8; Z.land 12 255])
    = P ++ (map byte.of_Z [0x81; 202; 0; 12] ++ ssrc
            ++ map byte.of_Z [1; 17] ++ list_byte_of_string kCNAME
            ++ map byte.of_Z [7; 19] ++ list_byte_of_string kNOTE
            ++ map byte.of_Z [0; 0; 0; 0]) ++ R).
  { rewrite Hmem.
    set (head := map byte.of_Z [Z.lor 128 1; 202]).
    set (its := (byte.of_Z 1 :: byte.of_Z (strlen kCNAME)
                   :: list_byte_of_string kCNAME)
                ++ (byte.of_Z 7 :: byte.of_Z (strlen kNOTE)
                      :: list_byte_of_string kNOTE)
                ++ [byte.of_Z 0] ++ repeat (byte.of_Z 0) (Z.to_nat 3)).
    set (len := map byte.of_Z [Z.shiftr 12 8; Z.land 12 255]).
    assert (Hhead : List.length head = 2%nat) by reflexivity.
    assert (Hssrc : List.length ssrc = 4%nat) by reflexivity.
    assert (Hits : List.length its = 44%nat) by reflexivity.
    assert (Hlen : List.length len = 2%nat) by reflexivity.
    assert (HM' : List.length M = 52%nat) by lia.
    assert (H1 : List.length (store_bytes M 0 head) = 52%nat)
      by (rewrite length_store_bytes; lia).
    assert (H2 : List.length (store_bytes (store_bytes M 0 head) 4 ssrc)
                 = 52%nat)
      by (rewrite length_store_bytes; lia).
    assert (H3 : List.length
                   (store_bytes
                      (store_bytes (store_bytes M 0 head) 4 ssrc) 8 its)
                 = 52%nat)
      by (rewrite length_store_bytes; lia).
    rewrite <- (Z.add_0_r (size buffer)) at 1.
    rewrite (store_bytes_middle_at P M R (size buffer) 0) by (auto; lia).
    rewrite (store_bytes_middle_at P _ R (size buffer) 4) by (auto; lia).
    rewrite (store_bytes_middle_at P _ R (size buffer) 8) by (auto; lia).
    rewrite (store_bytes_middle_at P _ R (size buffer) 2) by (auto; lia).
    do 2 f_equal.
    subst ssrc head its len. cbn [map].
    apply (sdes_region M). exact HM'. }
  rewrite Hstores.
  split.
  { rewrite Hcont. apply contents_region; [exact HP | reflexivity]. }
  split; [reflexivity|].
  split; [reflexivity|]. split; [reflexivity|].
  split; [reflexivity|]. split; [reflexivity|].
  split.
  { unfold U32_AT. subst ssrc.
    change (map byte.of_Z [129; 202; 0; 12]
            ++ map byte.of_Z
                 [Z.shiftr (kSourceID cfg) 24;
                  Z.land (Z.shiftr (kSourceID cfg) 16) 255;
                  Z.land (Z.shiftr (kSourceID cfg) 8) 255;
                  Z.land (kSourceID cfg) 255]
            ++ ?rest)
      with (map byte.of_Z
              [129; 202; 0; 12;
               Z.shiftr (kSourceID cfg) 24;
               Z.land (Z.shiftr (kSourceID cfg) 16) 255;
               Z.land (Z.shiftr (kSourceID cfg) 8) 255;
               Z.land (kSourceID cfg) 255] ++ rest).
    rewrite !load_app by (cbn [List.length map]; lia).
    rewrite !load_of_Z by (cbn [List.length]; lia).
    index_nth. cbn [bind nth].
    f_equal. apply be32_of_bytes. }
  reflexivity.
Qed.

Lemma writable_fresh (n : Z) :
  0 <= n <= 1500 -> writable (setRange0 (new_ABuffer 1500) 0) n = Ok tt.
Proof.
  intros Hn. apply writable_iff. unfold new_ABuffer, size.
  cbn [setRange0 mData mRangeLength]. rewrite repeat_length. lia.
Qed.

(** The walk of [parseRTCP] over a sender report followed by a source
    description. *)
Lemma parseRTCP_two_reports (s : Sender) (sr sdes : list byte) :
  List.length sr = 28%nat ->
  byte_at sr 0 = 0x80 -> byte_at sr 1 = 200 ->
  byte_at sr 2 = 0 -> byte_at sr 3 = 6 ->
  List.length sdes = 52%nat ->
  byte_at sdes 0 = 0x81 -> byte_at sdes 1 = 202 ->
  byte_at sdes 2 = 0 -> byte_at sdes 3 = 12 ->
  parseRTCP cfg s (sr ++ sdes) = Ok (OK, s, []).
Proof.
  intros Lsr A0 A1 A2 A3 Lsdes B0 B1 B2 B3.
  unfold parseRTCP. rewrite length_app, Lsr, Lsdes.
  change (28 + 52)%nat with (S (S 78)).
  assert (V1 : rtcp_version (sr ++ sdes) = 2).
  { unfold rtcp_version. rewrite byte_at_app by lia. rewrite A0. reflexivity. }
  assert (F1 : rtcp_padding_flag (sr ++ sdes) = false).
  { unfold rtcp_padding_flag. rewrite byte_at_app by lia. rewrite A0.
    reflexivity. }
  assert (T1 : rtcp_packet_type (sr ++ sdes) = 200).
  { unfold rtcp_packet_type. rewrite byte_at_app by lia. exact A1. }
  assert (L1 : rtcp_length (sr ++ sdes) = 28).
  { unfold rtcp_length. rewrite !byte_at_app by lia. rewrite A2, A3.
    reflexivity. }
  rewrite parseRTCP_loop_checked;
    [ | rewrite length_app; lia | exact V1 | rewrite F1; discriminate ].
  unfold rtcp_unpadded. rewrite F1, T1, L1.
  change (Z.of_nat (S (S 78)) <? 28) with false. cbv iota.
  change (dispatch_rtcp cfg s (sr ++ sdes) 200 28) with (Ok (A := Sender * list Event) (s, [])).
  cbn [bind].
  replace (skipn (Z.to_nat 28) (sr ++ sdes)) with sdes.
  2: { change (Z.to_nat 28) with 28%nat. rewrite <- Lsr.
       rewrite skipn_app, skipn_all, Nat.sub_diag. reflexivity. }
  change (Z.of_nat (S (S 78)) - 28) with 52.
  assert (V2 : rtcp_version sdes = 2).
  { unfold rtcp_version. rewrite B0. reflexivity. }
  assert (F2 : rtcp_padding_flag sdes = false).
  { unfold rtcp_padding_flag. rewrite B0. reflexivity. }
  assert (T2 : rtcp_packet_type sdes = 202) by exact B1.
  assert (L2 : rtcp_length sdes = 52).
  { unfold rtcp_length. rewrite B2, B3. reflexivity. }
  rewrite parseRTCP_loop_checked;
    [ | lia | exact V2 | rewrite F2; discriminate ].
  unfold rtcp_unpadded. rewrite F2, T2, L2.
  change (52 <? 52) with false. cbv iota.
  change (dispatch_rtcp cfg s sdes 202 52) with (Ok (A := Sender * list Event) (s, [])).
  cbn [bind].
  rewrite parseRTCP_loop_exhausted by lia. reflexivity.
Qed.

(** [onSendSR], with the packet it hands out. *)
Lemma onSendSR_sends (h : Handler) :
  exists sr sdes,
    onSendSR cfg h
    = Ok (set_mNumSRsSent h (to_uint32 (mNumSRsSent h + 1)),
          [Sent (rtcp_event (sender h) (sr ++ sdes))])
    /\ (exists buffer, addSR cfg (sender h) (setRange0 (new_ABuffer 1500) 0)
                       = Ok buffer /\ contents buffer = sr)
    /\ List.length sr = 28%nat
    /\ byte_at sr 0 = 0x80 /\ byte_at sr 1 = 200
    /\ byte_at sr 2 = 0 /\ byte_at sr 3 = 6
    /\ U32_AT sr 4 = Ok (kSourceID cfg mod 2 ^ 32)
    /\ U32_AT sr 8 = Ok ((mLastNTPTime (sender h) / 2 ^ 32) mod 2 ^ 32)
    /\ U32_AT sr 12 = Ok (mLastNTPTime (sender h) mod 2 ^ 32)
    /\ U32_AT sr 16 = Ok (mLastRTPTime (sender h) mod 2 ^ 32)
    /\ U32_AT sr 20 = Ok (mNumRTPSent (sender h) mod 2 ^ 32)
    /\ U32_AT sr 24 = Ok (mNumRTPOctetsSent (sender h) mod 2 ^ 32)
    /\ List.length sdes = 52%nat
    /\ byte_at sdes 0 = 0x81 /\ byte_at sdes 1 = 202
    /\ byte_at sdes 2 = 0 /\ byte_at sdes 3 = 12
    /\ U32_AT sdes 4 = Ok (kSourceID cfg mod 2 ^ 32).
Proof.
  destruct (addSR_appends (sender h) (setRange0 (new_ABuffer 1500) 0)
              (writable_fresh 28 ltac:(lia)))
    as (b1 & sr & Hsr & Hmem1 & Hsz1 & Hc1 & Lsr & A0 & A1 & A2 & A3 & A4
        & A8 & A12 & A16 & A20 & A24).
  assert (Hw2 : writable b1 52 = Ok tt).
  { apply writable_iff. rewrite Hsz1, Hmem1.
    unfold size, new_ABuffer. cbn [setRange0 mData mRangeLength].
    rewrite repeat_length. lia. }
  destruct (addSDES_appends b1 Hw2)
    as (b2 & sdes & Hsdes & Hsz2 & Hc2 & Lsdes & B0 & B1 & B2 & B3 & B4 & _).
  assert (Hempty : contents (setRange0 (new_ABuffer 1500) 0) = []) by reflexivity.
  rewrite Hempty in Hc1. cbn [app] in Hc1.
  exists sr, sdes. split.
  { unfold onSendSR. rewrite Hsr. cbn [bind]. rewrite Hsdes. cbn [bind].
    rewrite Hc2, Hc1. reflexivity. }
  split; [exists b1; auto|].
  repeat (split; [assumption|]). assumption.
Qed.

End Reports.

(** X3: the sender report that [addSR] appends to a buffer with room for
    it reads back as: version 2 without padding or report blocks, type
    200, a length field of 6 words (28 bytes), the source id, the NTP
    time of the last flush in two 32-bit halves, the RTP time of the last
    flush, and the packet and octet counts. *)
Theorem addSR_report_reads_back
    (cfg : Config) (s : Sender) (buffer : ABuffer) :
  0 <= size buffer ->
  size buffer + 28 <= Z.of_nat (List.length (mData buffer)) ->
  exists buffer' sr,
    addSR cfg s buffer = Ok buffer'
    /\ size buffer' = size buffer + 28
    /\ contents buffer' = contents buffer ++ sr
    /\ rtcp_version sr = 2 /\ rtcp_padding_flag sr = false
    /\ Z.land (byte_at sr 0) 0x1f = 0
    /\ rtcp_packet_type sr = 200
    /\ rtcp_length sr = 28 /\ Z.of_nat (List.length sr) = 28
    /\ U32_AT sr 4 = Ok (kSourceID cfg mod 2 ^ 32)
    /\ U32_AT sr 8 = Ok ((mLastNTPTime s / 2 ^ 32) mod 2 ^ 32)
    /\ U32_AT sr 12 = Ok (mLastNTPTime s mod 2 ^ 32)
    /\ U32_AT sr 16 = Ok (mLastRTPTime s mod 2 ^ 32)
    /\ U32_AT sr 20 = Ok (mNumRTPSent s mod 2 ^ 32)
    /\ U32_AT sr 24 = Ok (mNumRTPOctetsSent s mod 2 ^ 32).
Proof.
  intros H0 H1.
  destruct (addSR_appends cfg s buffer) as
    (b1 & sr & Hsr & _ & Hsz1 & Hc1 & Lsr & A0 & A1 & A2 & A3 & Hrest).
  { apply writable_iff. auto. }
  exists b1, sr. split; [exact Hsr|]. split; [exact Hsz1|].
  split; [exact Hc1|].
  unfold rtcp_version, rtcp_padding_flag, rtcp_packet_type, rtcp_length.
  rewrite A0, A1, A2, A3, Lsr.
  repeat (split; [reflexivity|]). exact Hrest.
Qed.

(** X4: the source description that [addSDES] appends is a whole number
    of 32-bit words (52 bytes) whose length field counts these words
    minus one; it names the source and carries the CNAME item, the NOTE
    item, the terminating zero and three zero bytes of padding. *)
Theorem addSDES_is_word_aligned (cfg : Config) (buffer : ABuffer) :
  0 <= size buffer ->
  size buffer + 52 <= Z.of_nat (List.length (mData buffer)) ->
  exists buffer' sdes,
    addSDES cfg buffer = Ok buffer'
    /\ size buffer' = size buffer + Z.of_nat (List.length sdes)
    /\ contents buffer' = contents buffer ++ sdes
    /\ Z.of_nat (List.length sdes) mod 4 = 0
    /\ rtcp_length sdes = Z.of_nat (List.length sdes)
    /\ rtcp_version sdes = 2 /\ rtcp_padding_flag sdes = false
    /\ Z.land (byte_at sdes 0) 0x1f = 1
    /\ rtcp_packet_type sdes = 202
    /\ U32_AT sdes 4 = Ok (kSourceID cfg mod 2 ^ 32)
    /\ skipn 8 sdes
       = map byte.of_Z [1; strlen kCNAME] ++ list_byte_of_string kCNAME
         ++ map byte.of_Z [7; strlen kNOTE] ++ list_byte_of_string kNOTE
         ++ map byte.of_Z [0; 0; 0; 0].
Proof.
  intros H0 H1.
  destruct (addSDES_appends cfg buffer) as
    (b1 & sdes & Hsdes & Hsz & Hc & Lsdes & B0 & B1 & B2 & B3 & B4 & Hitems).
  { apply writable_iff. auto. }
  exists b1, sdes. split; [exact Hsdes|].
  split; [rewrite Hsz, Lsdes; reflexivity|].
  split; [exact Hc|].
  unfold rtcp_version, rtcp_padding_flag, rtcp_packet_type, rtcp_length.
  rewrite B0, B1, B2, B3, Lsdes.
  repeat (split; [reflexivity|]). split; [exact B4 | exact Hitems].
Qed.

(** X5: [onSendSR] always returns; it hands out one packet of 80 bytes,
    on the RTCP channel in interleaved mode and on the RTCP session
    otherwise, and counts it.  The packet is the sender report followed
    by the source description, and the sender's own [parseRTCP] walks it
    to the end with status OK and without any effect. *)
Theorem onSendSR_sends_a_compound_report (cfg : Config) (h : Handler) :
  exists packet,
    onSendSR cfg h
    = Ok (set_mNumSRsSent h (to_uint32 (mNumSRsSent h + 1)),
          [Sent (rtcp_event (sender h) packet)])
    /\ List.length packet = 80%nat
    /\ rtcp_packet_type packet = 200 /\ rtcp_length packet = 28
    /\ rtcp_packet_type (skipn 28 packet) = 202
    /\ rtcp_length (skipn 28 packet) = 52
    /\ (forall s, parseRTCP cfg s packet = Ok (OK, s, [])).
Proof.
  destruct (onSendSR_sends cfg h)
    as (sr & sdes & Hsend & _ & Lsr & A0 & A1 & A2 & A3 & _ & _ & _ & _ & _
        & _ & Lsdes & B0 & B1 & B2 & B3 & _).
  exists (sr ++ sdes). split; [exact Hsend|].
  split; [rewrite length_app, Lsr, Lsdes; reflexivity|].
  assert (Hskip : skipn 28 (sr ++ sdes) = sdes).
  { rewrite <- Lsr. rewrite skipn_app, skipn_all, Nat.sub_diag. reflexivity. }
  rewrite Hskip.
  unfold rtcp_packet_type, rtcp_length.
  rewrite !byte_at_app by lia.
  rewrite A1, A2, A3, B1, B2, B3.
  repeat (split; [reflexivity|]).
  intros s. apply parseRTCP_two_reports; assumption.
Qed.

(** ** The times a report carries *)

Section ReportTimes.

Variable cfg : Config.
Variable clock : nat -> Z.

Lemma retain_in_history_ntp (s : Sender) :
  mLastNTPTime (retain_in_history cfg s) = mLastNTPTime s.
Proof.
  unfold retain_in_history.
  destruct (kMaxHistoryLength cfg <? mHistoryLength s + 1).
  - destruct (mHistory s ++ _); reflexivity.
  - reflexivity.
Qed.

(** The NTP time a flush records is taken from the clock reading after
    the one the RTP time is taken from. *)
Lemma flush_queue_ntp (s : Sender) (disc : bool) :
  mLastNTPTime (fst (flush_queue cfg clock s disc))
  = ntp_of_us (to_int64 (clock (S (clockReads s)))).
Proof.
  unfold flush_queue, stamp_queue, GetNowNTP, GetNowUs.
  cbn [fst snd mTSQueue set_mTSQueue set_clockReads set_rtp_state
       mTransportMode mRTPChannel mRTPSessionID clockReads mRTPSeqNo
       mNumRTPSent mNumRTPOctetsSent
       mData setData setRange0 size mRangeLength].
  destruct (ENABLE_RETRANSMISSION cfg).
  - cbn [mLastNTPTime set_mTSQueue]. rewrite retain_in_history_ntp.
    reflexivity.
  - reflexivity.
Qed.

End ReportTimes.

(** X6: the sender report built after a flush describes that flush: it
    carries the source id and the RTP timestamp of the packet just sent,
    the packet and octet counts including that packet, and the NTP time
    computed from the clock reading that follows the one behind the RTP
    timestamp. *)
Theorem report_describes_last_flush
    (cfg : Config) (clock : nat -> Z) (s : Sender) (data : list byte)
    (timeDiscontinuity flush : bool) :
  queue_inv s ->
  size (mTSQueue s) + 188 <= capacity (mTSQueue s) ->
  188 <= Z.of_nat (List.length data) ->
  flush = true \/ size (mTSQueue s) + 188 = capacity (mTSQueue s) ->
  let ntp := ntp_of_us (to_int64 (clock (S (clockReads s)))) in
  exists s' packet,
    appendTSData cfg clock s data 188 timeDiscontinuity flush
      = Ok (188, s', [rtp_event s packet])
    /\ forall h : Handler,
         sender h = s' ->
         exists report,
           onSendSR cfg h
           = Ok (set_mNumSRsSent h (to_uint32 (mNumSRsSent h + 1)),
                 [Sent (rtcp_event s' report)])
           /\ U32_AT report 4 = U32_AT packet 8
           /\ U32_AT report 8 = Ok ((ntp / 2 ^ 32) mod 2 ^ 32)
           /\ U32_AT report 12 = Ok (ntp mod 2 ^ 32)
           /\ U32_AT report 16 = U32_AT packet 4
           /\ U32_AT report 16
              = Ok (rtpTime_of (to_int64 (clock (clockReads s))))
           /\ U32_AT report 20 = Ok (to_uint32 (mNumRTPSent s + 1))
           /\ U32_AT report 24
              = Ok (to_uint32
                      (mNumRTPOctetsSent s
                       + (Z.of_nat (List.length packet) - 12))).
Proof.
  intros Hinv Hfit Hdata Hfl ntp.
  pose proof (stamped_header cfg clock s data timeDiscontinuity Hinv)
    as Hstamp.
  pose proof (stamped_length cfg clock s data timeDiscontinuity
                Hinv Hfit Hdata) as Hlen.
  destruct (rtp_header_fields _ _ _ _ _ Hstamp) as (_ & _ & _ & H4 & H8).
  pose proof (flush_queue_frame cfg clock
                (set_mTSQueue s (appended s data)) timeDiscontinuity) as Hfr.
  cbv zeta in Hfr. destruct Hfr as (_ & Fnum & Foct & Frtp & _).
  pose proof (flush_queue_ntp cfg clock
                (set_mTSQueue s (appended s data)) timeDiscontinuity) as Fntp.
  eexists; eexists. split; [apply appendTSData_flush; assumption|].
  intros h Hh.
  destruct (onSendSR_sends cfg h)
    as (sr & sdes & Hsend & _ & Lsr & _ & _ & _ & _ & A4 & A8 & A12 & A16
        & A20 & A24 & _).
  exists (sr ++ sdes). rewrite Hh in Hsend, A8, A12, A16, A20, A24.
  split; [exact Hsend|].
  rewrite !U32_AT_app by lia.
  rewrite A4, A8, A12, A16, A20, A24, H4, H8, Fnum, Foct, Frtp, Fntp, Hlen.
  change (clockReads (set_mTSQueue s (appended s data))) with (clockReads s).
  change (mNumRTPSent (set_mTSQueue s (appended s data)))
    with (mNumRTPSent s).
  change (mNumRTPOctetsSent (set_mTSQueue s (appended s data)))
    with (mNumRTPOctetsSent s).
  change (size (mTSQueue (set_mTSQueue s (appended s data))))
    with (size (mTSQueue s) + 188).
  assert (Hidem : forall x, to_uint32 x mod 2 ^ 32 = to_uint32 x).
  { intros x. unfold to_uint32. apply Z.mod_mod. lia. }
  assert (Hrtp : rtpTime_of (to_int64 (clock (clockReads s))) mod 2 ^ 32
                 = rtpTime_of (to_int64 (clock (clockReads s)))).
  { unfold rtpTime_of. apply Hidem. }
  rewrite !Hidem, Hrtp.
  repeat split; reflexivity.
Qed.

Lemma lor_shiftl_32 (hi lo : Z) :
  0 <= lo < 2 ^ 32 -> Z.lor (Z.shiftl hi 32) lo = hi * 2 ^ 32 + lo.
Proof.
  intros Hlo. rewrite Z.shiftl_mul_pow2 by lia.
  assert (Hland : Z.land (hi * 2 ^ 32) lo = 0).
  { apply Z.bits_inj'. intros n Hn. rewrite Z.land_spec, Z.bits_0.
    destruct (Z_lt_le_dec n 32) as [Hs | Hs].
    + rewrite Z.mul_pow2_bits_low by lia. reflexivity.
    + rewrite (Z.bits_above_log2 lo n); [apply andb_false_r | lia |].
      destruct (Z.eq_dec lo 0) as [-> | Hne]; [cbn; lia|].
      apply Z.log2_lt_pow2; [lia|].
      apply Z.lt_le_trans with (2 ^ 32); [lia|].
      apply Z.pow_le_mono_r; lia. }
  rewrite <- Z.lxor_lor by exact Hland.
  symmetry. apply Z.add_nocarry_lxor. exact Hland.
Qed.

Lemma ntp_of_us_closed (t : Z) :
  0 <= t -> t + 2208988800 * 1000000 < 2 ^ 32 * 1000000 ->
  ntp_of_us t
  = (t / 1000000 + 2208988800) * 2 ^ 32
    + (2 ^ 32 * (t mod 1000000)) / 1000000
  /\ 0 <= (2 ^ 32 * (t mod 1000000)) / 1000000 < 2 ^ 32.
Proof.
  intros H0 H1.
  assert (Hr : 0 <= t mod 1000000 < 1000000) by (apply Z.mod_pos_bound; lia).
  assert (Hlo : 0 <= (2 ^ 32 * (t mod 1000000)) / 1000000 < 2 ^ 32).
  { split; [apply Z.div_pos; lia|].
    apply Z.div_lt_upper_bound; [lia|]. nia. }
  split; [|exact Hlo].
  unfold ntp_of_us, to_uint64.
  change (((70 * 365 + 17) * 24) * 60 * 60 * 1000000)
    with (2208988800 * 1000000).
  rewrite (Z.mod_small t) by lia.
  rewrite (Z.mod_small (t + 2208988800 * 1000000)) by lia.
  rewrite Z.div_add by lia. rewrite Z.mod_add by lia.
  rewrite (Z.mod_small (2 ^ 32 * (t mod 1000000))) by nia.
  assert (Hq : 0 <= t / 1000000 + 2208988800 < 2 ^ 32).
  { split; [pose proof (Z.div_pos t 1000000); lia|].
    apply Z.lt_le_trans with ((t + 2208988800 * 1000000) / 1000000 + 1).
    - rewrite Z.div_add by lia. lia.
    - assert ((t + 2208988800 * 1000000) / 1000000 < 2 ^ 32)
        by (apply Z.div_lt_upper_bound; lia).
      lia. }
  rewrite Z.shiftl_mul_pow2 by lia.
  rewrite (Z.mod_small ((t / 1000000 + 2208988800) * 2 ^ 32)) by nia.
  rewrite <- Z.shiftl_mul_pow2 by lia.
  rewrite lor_shiftl_32 by exact Hlo.
  rewrite Z.shiftl_mul_pow2 by lia. reflexivity.
Qed.

(** X7: [GetNowNTP] on a clock reading of [t] microseconds, for the
    readings whose seconds since 1900 fit 32 bits, is the 32.32
    fixed-point number of seconds since 1900: the high word is [t] in
    whole seconds plus 2208988800 (the seconds from 1900 to 1970), the low
    word the fraction of the second in units of 2^-32; it never goes back
    when the clock does not. *)
Theorem ntp_is_fixed_point_seconds_since_1900 (t : Z) :
  0 <= t -> t + 2208988800 * 1000000 < 2 ^ 32 * 1000000 ->
  ntp_of_us t = ((t + 2208988800 * 1000000) * 2 ^ 32) / 1000000
  /\ ntp_of_us t / 2 ^ 32 = t / 1000000 + 2208988800
  /\ ntp_of_us t mod 2 ^ 32 = (2 ^ 32 * (t mod 1000000)) / 1000000
  /\ 0 <= ntp_of_us t < 2 ^ 64
  /\ (forall t', 0 <= t' <= t -> ntp_of_us t' <= ntp_of_us t).
Proof.
  intros H0 H1.
  assert (Hexact : forall u, 0 <= u ->
            u + 2208988800 * 1000000 < 2 ^ 32 * 1000000 ->
            ntp_of_us u = ((u + 2208988800 * 1000000) * 2 ^ 32) / 1000000).
  { intros u Hu0 Hu1. destruct (ntp_of_us_closed u Hu0 Hu1) as [-> _].
    pose proof (Z.div_mod u 1000000 ltac:(lia)) as Hdm.
    replace ((u + 2208988800 * 1000000) * 2 ^ 32)
      with ((u / 1000000 + 2208988800) * 2 ^ 32 * 1000000
            + 2 ^ 32 * (u mod 1000000)) by lia.
    rewrite Z.div_add_l by lia. reflexivity. }
  destruct (ntp_of_us_closed t H0 H1) as [Hc Hlo].
  split; [apply Hexact; assumption|].
  split.
  { rewrite Hc. rewrite Z.div_add_l by lia.
    rewrite (Z.div_small _ (2 ^ 32)) by exact Hlo. lia. }
  split.
  { rewrite Hc. rewrite Z.add_comm, Z.mod_add by lia.
    apply Z.mod_small. exact Hlo. }
  split.
  { rewrite Hc.
    assert (0 <= t / 1000000) by (apply Z.div_pos; lia).
    assert (t / 1000000 + 2208988800 < 2 ^ 32).
    { assert ((t + 2208988800 * 1000000) / 1000000 < 2 ^ 32)
        by (apply Z.div_lt_upper_bound; lia).
      rewrite Z.div_add in H2 by lia. exact H2. }
    nia. }
  intros t' Ht'. rewrite (Hexact t') by lia. rewrite (Hexact t) by lia.
  apply Z.div_le_mono; [lia|]. nia.
Qed.

(** ** Messages of the network session *)


Section Messages.

Variable cfg : Config.
Variable kSendSRIntervalUs : Z.
Variable clock : nat -> Z.
Variable reasons : Reasons.
Context {Net : Type} {net_ops : ANetworkSession Net}.

Lemma onMessageReceived_notify (h : Handler) (net : Net) (msg : AMessage)
    (reason : Z) :
  notifies cfg msg reason ->
  onMessageReceived cfg kSendSRIntervalUs clock reasons h net msg
  = if reason =? kWhatError reasons then onError cfg h net msg
    else if reason =? kWhatDatagram reasons then onDatagram cfg h net msg
    else if reason =? kWhatConnected reasons then onConnected h net msg
    else Fault CheckFailed.
Proof.
  intros [Hn Hr]. unfold onMessageReceived. rewrite Hn, Hr. reflexivity.
Qed.

Lemma bind_ok {A B : Type} (m : res A) (k : A -> res B) (b : B) :
  bind m k = Ok b -> exists a, m = Ok a /\ k a = Ok b.
Proof.
  destruct m as [a | f]; cbn [bind]; intros H; [eauto | discriminate].
Qed.

Lemma retain_in_history_port (s : Sender) :
  mClientRTCPPort (retain_in_history cfg s) = mClientRTCPPort s.
Proof.
  unfold retain_in_history.
  destruct (kMaxHistoryLength cfg <? mHistoryLength s + 1).
  - destruct (mHistory s ++ _); reflexivity.
  - reflexivity.
Qed.

Lemma flush_queue_port (s : Sender) (disc : bool) :
  mClientRTCPPort (fst (flush_queue cfg clock s disc)) = mClientRTCPPort s.
Proof.
  unfold flush_queue, stamp_queue, GetNowNTP, GetNowUs.
  cbn [fst snd mTSQueue set_mTSQueue set_clockReads set_rtp_state
       mTransportMode mRTPChannel mRTPSessionID clockReads mRTPSeqNo
       mNumRTPSent mNumRTPOctetsSent
       mData setData setRange0 size mRangeLength].
  destruct (ENABLE_RETRANSMISSION cfg).
  - cbn [mClientRTCPPort set_mTSQueue]. rewrite retain_in_history_port.
    reflexivity.
  - reflexivity.
Qed.

Lemma appendTSData_port (s s' : Sender) (data : list byte) (sz n : Z)
    (disc flush : bool) (evs : list Event) :
  appendTSData cfg clock s data sz disc flush = Ok (n, s', evs) ->
  mClientRTCPPort s' = mClientRTCPPort s.
Proof.
  unfold appendTSData. intros H.
  apply bind_ok in H. destruct H as (_ & _ & H).
  apply bind_ok in H. destruct H as (_ & _ & H).
  apply bind_ok in H. destruct H as (src & _ & H).
  match type of H with
  | (if ?c then _ else _) = _ => destruct c
  end.
  - match type of H with
    | (let '(_, _) := flush_queue cfg clock ?x disc in _) = _ =>
        pose proof (flush_queue_port x disc) as Hp;
        destruct (flush_queue cfg clock x disc) as [s1 e1]
    end.
    apply Ok_triple_inv in H. destruct H as (_ & <- & _).
    exact Hp.
  - apply Ok_triple_inv in H. destruct H as (_ & <- & _). reflexivity.
Qed.

Lemma onQueuePackets_loop_port (packets : list byte) :
  forall (fuel : nat) (s s' : Sender) (offset : Z) (evs : list Event),
    onQueuePackets_loop cfg clock fuel s packets offset = Ok (s', evs) ->
    mClientRTCPPort s' = mClientRTCPPort s.
Proof.
  induction fuel as [|fuel IH]; intros s s' offset evs H;
    cbn [onQueuePackets_loop] in H;
    destruct (offset <? Z.of_nat (List.length packets));
    try discriminate H; try (injection H as <- _; reflexivity).
  apply bind_ok in H. destruct H as (((n1 & s1) & e1) & Happ & H).
  apply bind_ok in H. destruct H as ((s2 & e2) & Hloop & H).
  injection H as <- _.
  rewrite (IH _ _ _ _ Hloop). eapply appendTSData_port. exact Happ.
Qed.

Lemma onQueuePackets_port (s s' : Sender) (packets : list byte)
    (evs : list Event) :
  onQueuePackets cfg clock s packets = Ok (s', evs) ->
  mClientRTCPPort s' = mClientRTCPPort s.
Proof.
  unfold onQueuePackets, GetNowUs. intros H.
  apply onQueuePackets_loop_port in H. exact H.
Qed.

(** What a [kWhatConnected] notification that returns has done. *)
Lemma onConnected_ok (h h' : Handler) (net net' : Net) (msg : AMessage)
    (effs : list Effect) :
  onConnected h net msg = Ok (h', net', effs) ->
  net' = net /\ sender h' = sender h
  /\ mTransportMode (sender h) = TRANSPORT_TCP
  /\ ((mRTPConnected h = false /\ h' = set_mRTPConnected h true)
      \/ (mRTCPConnected h = false /\ h' = set_mRTCPConnected h true))
  /\ effs = (if mRTPConnected h'
                && ((mClientRTCPPort (sender h) <? 0) || mRTCPConnected h')
             then notifyInitDone else []).
Proof.
  unfold onConnected. intros H.
  apply bind_ok in H. destruct H as ([] & Hmode & H).
  apply bind_ok in H. destruct H as (sid & _ & H).
  apply bind_ok in H. destruct H as (h1 & Hflip & H).
  assert (Htcp : mTransportMode (sender h) = TRANSPORT_TCP).
  { destruct (mTransportMode (sender h)); try discriminate Hmode.
    reflexivity. }
  assert (Hh1 : sender h1 = sender h
                /\ ((mRTPConnected h = false /\ h1 = set_mRTPConnected h true)
                    \/ (mRTCPConnected h = false
                        /\ h1 = set_mRTCPConnected h true))).
  { destruct (sid =? mRTPSessionID (sender h)).
    - apply bind_ok in Hflip. destruct Hflip as ([] & Hc & Hflip).
      injection Hflip as <-.
      destruct (mRTPConnected h); [discriminate Hc|]. auto.
    - destruct (sid =? mRTCPSessionID (sender h)); [|discriminate Hflip].
      apply bind_ok in Hflip. destruct Hflip as ([] & Hc & Hflip).
      injection Hflip as <-.
      destruct (mRTCPConnected h); [discriminate Hc|]. auto. }
  destruct Hh1 as (Hs1 & Hcases). rewrite Hs1 in H.
  destruct (mRTPConnected h1
            && ((mClientRTCPPort (sender h) <? 0) || mRTCPConnected h1))
    eqn:Hdone;
    apply Ok_triple_inv in H; destruct H as (E1 & E2 & E3);
    subst h' net' effs; rewrite Hdone; auto.
Qed.

(** What one message that returns does to the connection flags and to
    the client RTCP port, and when it posts the init-done
    notification. *)
Lemma onMessageReceived_init_done (h h' : Handler) (net net' : Net)
    (msg : AMessage) (effs : list Effect) :
  onMessageReceived cfg kSendSRIntervalUs clock reasons h net msg
    = Ok (h', net', effs) ->
  mClientRTCPPort (sender h') = mClientRTCPPort (sender h)
  /\ (mRTPConnected h = true -> mRTPConnected h' = true)
  /\ (mRTCPConnected h = true -> mRTCPConnected h' = true)
  /\ (0 <= mClientRTCPPort (sender h) ->
      count_notify kWhatInitDone effs
      = if negb (mRTPConnected h && mRTCPConnected h)
           && (mRTPConnected h' && mRTCPConnected h')
        then 1%nat else 0%nat).
Proof.
  unfold onMessageReceived. intros H.
  assert (Hsame : forall x : Handler,
            (if negb (mRTPConnected x && mRTCPConnected x)
                && (mRTPConnected x && mRTCPConnected x)
             then 1%nat else 0%nat) = 0%nat).
  { intros x. destruct (mRTPConnected x), (mRTCPConnected x); reflexivity. }
  destruct (is_notify cfg (what msg)).
  - apply bind_ok in H. destruct H as (reason & _ & H).
    destruct (reason =? kWhatError reasons);
      [|destruct (reason =? kWhatDatagram reasons);
        [|destruct (reason =? kWhatConnected reasons);
          [|discriminate H]]].
    + (* error *)
      unfold onError in H.
      apply bind_ok in H. destruct H as (sid & _ & H).
      apply bind_ok in H. destruct H as (err & _ & H).
      apply bind_ok in H. destruct H as (snd & _ & H).
      apply bind_ok in H. destruct H as (detail & _ & H).
      destruct (is_rtp_notify cfg (what msg) && (snd =? 0)).
      * injection H as <- <- <-. rewrite Hsame. auto.
      * apply Ok_triple_inv in H. destruct H as (<- & _ & <-).
        cbn [mRTPConnected mRTCPConnected set_sender sender].
        rewrite Hsame.
        split; [|auto].
        destruct (sid =? mRTPSessionID (sender h)); [reflexivity|].
        destruct (sid =? mRTCPSessionID (sender h)); [reflexivity|].
        destruct (ENABLE_RETRANSMISSION cfg
                  && (sid =? mRTPRetransmissionSessionID (sender h)));
          [reflexivity|].
        destruct (ENABLE_RETRANSMISSION cfg
                  && (sid =? mRTCPRetransmissionSessionID (sender h)));
          reflexivity.
    + (* datagram *)
      unfold onDatagram in H.
      apply bind_ok in H. destruct H as (sid & _ & H).
      apply bind_ok in H. destruct H as (data & _ & H).
      destruct (is_rtcp_notify cfg (what msg)).
      * apply bind_ok in H. destruct H as (((st & s1) & evs) & Hparse & H).
        apply Ok_triple_inv in H. destruct H as (<- & _ & <-).
        cbn [mRTPConnected mRTCPConnected set_sender sender].
        rewrite Hsame.
        unfold parseRTCP in Hparse.
        apply parseRTCP_loop_frame in Hparse. destruct Hparse as (Hsb & _).
        unfold same_but_retransSeqNo in Hsb. rewrite Hsb.
        split; [reflexivity|]. split; [auto|]. split; [auto|].
        intros _. clear. induction evs; [reflexivity | exact IHevs].
      * injection H as <- <- <-. rewrite Hsame. auto.
    + (* connected *)
      apply onConnected_ok in H.
      destruct H as (_ & Hs & _ & Hflip & ->). rewrite Hs.
      split; [reflexivity|].
      destruct Hflip as [(Hf & ->) | (Hf & ->)];
        cbn [mRTPConnected mRTCPConnected set_mRTPConnected
             set_mRTCPConnected];
        (split; [auto|]); (split; [auto|]); intros Hport;
        destruct (Z.ltb_spec (mClientRTCPPort (sender h)) 0); try lia;
        rewrite ?Hf; cbn [orb andb negb];
        destruct (mRTCPConnected h), (mRTPConnected h);
        try discriminate Hf; reflexivity.
  - destruct (what msg).
    1, 2, 3, 4: injection H as <- <- <-; rewrite Hsame; auto.
    + (* queue packets *)
      apply bind_ok in H. destruct H as (packets & _ & H).
      apply bind_ok in H. destruct H as ((s1 & evs) & Hq & H).
      apply Ok_triple_inv in H. destruct H as (<- & _ & <-).
      cbn [mRTPConnected mRTCPConnected set_sender sender].
      rewrite Hsame.
      split; [eapply onQueuePackets_port; exact Hq|].
      split; [auto|]. split; [auto|].
      intros _. clear. induction evs; [reflexivity | exact IHevs].
    + (* send SR *)
      change (sender (set_mSendSRPending h false)) with (sender h) in H.
      destruct (mRTCPSessionID (sender h) =? 0).
      * injection H as <- <- <-.
        cbn [mRTPConnected mRTCPConnected set_mSendSRPending sender].
        rewrite Hsame. auto.
      * destruct (onSendSR_sends cfg (set_mSendSRPending h false))
          as (sr & sdes & Hsend & _).
        rewrite Hsend in H. cbn [bind] in H.
        unfold scheduleSendSR in H.
        destruct (mSendSRPending _ || _);
          apply Ok_triple_inv in H; destruct H as (<- & _ & <-);
          cbn [mRTPConnected mRTCPConnected set_mSendSRPending
               set_mNumSRsSent sender];
          rewrite Hsame; auto.
Qed.

Lemma onMessageReceived_connected (h : Handler) (net : Net)
    (msg : AMessage) :
  reasons_distinct reasons ->
  notifies cfg msg (kWhatConnected reasons) ->
  onMessageReceived cfg kSendSRIntervalUs clock reasons h net msg
  = onConnected h net msg.
Proof.
  intros (H1 & H2 & H3) Hn.
  rewrite (onMessageReceived_notify h net msg _ Hn).
  destruct (Z.eqb_spec (kWhatConnected reasons) (kWhatError reasons));
    [congruence|].
  destruct (Z.eqb_spec (kWhatConnected reasons) (kWhatDatagram reasons));
    [congruence|].
  rewrite Z.eqb_refl. reflexivity.
Qed.


Lemma connected_rtp (h : Handler) (net : Net) (msg : AMessage) :
  reasons_distinct reasons ->
  notifies cfg msg (kWhatConnected reasons) ->
  findInt32 msg "sessionID" = Some (mRTPSessionID (sender h)) ->
  mTransportMode (sender h) = TRANSPORT_TCP ->
  onMessageReceived cfg kSendSRIntervalUs clock reasons h net msg
  = if mRTPConnected h then Fault CheckFailed
    else Ok (set_mRTPConnected h true, net,
             if (mClientRTCPPort (sender h) <? 0) || mRTCPConnected h
             then notifyInitDone else []).
Proof.
  intros Hd Hn Hs Hmode.
  rewrite (onMessageReceived_connected h net msg Hd Hn).
  unfold onConnected. rewrite Hs, Hmode. cbn [CHECK_found is_tcp CHECK bind].
  rewrite Z.eqb_refl.
  destruct (mRTPConnected h) eqn:Hr; cbn [negb CHECK bind]; [reflexivity|].
  cbn [sender set_mRTPConnected mRTPConnected mRTCPConnected andb].
  destruct ((mClientRTCPPort (sender h) <? 0) || mRTCPConnected h);
    reflexivity.
Qed.

Lemma connected_rtcp (h : Handler) (net : Net) (msg : AMessage) :
  reasons_distinct reasons ->
  notifies cfg msg (kWhatConnected reasons) ->
  findInt32 msg "sessionID" = Some (mRTCPSessionID (sender h)) ->
  mRTPSessionID (sender h) <> mRTCPSessionID (sender h) ->
  mTransportMode (sender h) = TRANSPORT_TCP ->
  onMessageReceived cfg kSendSRIntervalUs clock reasons h net msg
  = if mRTCPConnected h then Fault CheckFailed
    else Ok (set_mRTCPConnected h true, net,
             if mRTPConnected h then notifyInitDone else []).
Proof.
  intros Hd Hn Hs Hne Hmode.
  rewrite (onMessageReceived_connected h net msg Hd Hn).
  unfold onConnected. rewrite Hs, Hmode. cbn [CHECK_found is_tcp CHECK bind].
  destruct (Z.eqb_spec (mRTCPSessionID (sender h))
              (mRTPSessionID (sender h))) as [He | _]; [congruence|].
  rewrite Z.eqb_refl.
  destruct (mRTCPConnected h) eqn:Hc; cbn [negb CHECK bind]; [reflexivity|].
  cbn [sender set_mRTCPConnected mRTPConnected mRTCPConnected].
  rewrite orb_true_r, andb_true_r.
  destruct (mRTPConnected h); reflexivity.
Qed.

End Messages.

(** X8: the report timer.  When the [kWhatSendSR] message arrives and
    the RTCP session is gone (its handle is 0), nothing is sent and no
    timer is left pending.  When the session lives, one report of 80
    bytes goes out on it, the count of reports moves by one, and exactly
    one new timer is posted, [kSendSRIntervalUs] ahead, whatever the
    pending flag was before. *)
Theorem sendSR_timer_rearms_while_session_lives
    (cfg : Config) (kSendSRIntervalUs : Z) (clock : nat -> Z)
    (reasons : Reasons) (Net : Type) (net_ops : ANetworkSession Net)
    (h : Handler) (net : Net) (msg : AMessage) :
  what msg = kWhatSendSR ->
  (mRTCPSessionID (sender h) = 0 ->
   onMessageReceived cfg kSendSRIntervalUs clock reasons h net msg
   = Ok (set_mSendSRPending h false, net, []))
  /\ (mRTCPSessionID (sender h) <> 0 ->
      exists report h',
        onMessageReceived cfg kSendSRIntervalUs clock reasons h net msg
        = Ok (h', net,
              [Sent (rtcp_event (sender h) report);
               PostSendSR kSendSRIntervalUs])
        /\ List.length report = 80%nat
        /\ sender h' = sender h
        /\ mSendSRPending h' = true
        /\ mNumSRsSent h' = to_uint32 (mNumSRsSent h + 1)
        /\ mRTPConnected h' = mRTPConnected h
        /\ mRTCPConnected h' = mRTCPConnected h).
Proof.
  intros Hwhat. unfold onMessageReceived. rewrite Hwhat.
  cbn [is_notify]. cbv iota.
  change (sender (set_mSendSRPending h false)) with (sender h).
  split.
  - intros H0. rewrite H0. reflexivity.
  - intros Hne.
    destruct (Z.eqb_spec (mRTCPSessionID (sender h)) 0) as [He | _];
      [contradiction|].
    destruct (onSendSR_sends cfg (set_mSendSRPending h false))
      as (sr & sdes & Hsend & _ & Lsr & _ & _ & _ & _ & _ & _ & _ & _ & _
          & _ & Lsdes & _).
    rewrite Hsend. cbn [bind]. unfold scheduleSendSR.
    cbn [mSendSRPending set_mNumSRsSent set_mSendSRPending sender orb].
    destruct (Z.eqb_spec (mRTCPSessionID (sender h)) 0) as [He | _];
      [contradiction|].
    exists (sr ++ sdes). eexists. split; [reflexivity|].
    split; [rewrite length_app, Lsr, Lsdes; reflexivity|].
    cbn. repeat split.
Qed.

(** X9: a transport error.  A receive-side error notified for the RTP
    session (or the RTP retransmission session) changes nothing and posts
    nothing.  Every other error destroys the session it names, posts one
    session-dead notification, and clears the first of the sender's
    handles that holds this session id; the packetizer's state and the
    handler's flags stay as they were. *)
Theorem transport_error_kills_the_session
    (cfg : Config) (kSendSRIntervalUs : Z) (clock : nat -> Z)
    (reasons : Reasons) (Net : Type) (net_ops : ANetworkSession Net)
    (h : Handler) (net : Net) (msg : AMessage)
    (sessionID err errorOccuredDuringSend : Z) (detail : string) :
  notifies cfg msg (kWhatError reasons) ->
  findInt32 msg "sessionID" = Some sessionID ->
  findInt32 msg "err" = Some err ->
  findInt32 msg "send" = Some errorOccuredDuringSend ->
  findString msg "detail" = Some detail ->
  exists h' net' effs,
    onMessageReceived cfg kSendSRIntervalUs clock reasons h net msg
    = Ok (h', net', effs)
    /\ (is_rtp_notify cfg (what msg) = true /\ errorOccuredDuringSend = 0 ->
        h' = h /\ net' = net /\ effs = [])
    /\ (~ (is_rtp_notify cfg (what msg) = true /\ errorOccuredDuringSend = 0) ->
        net' = destroySession net sessionID
        /\ effs = [Notify kWhatSessionDead]
        /\ same_flags h h'
        /\ only_session_differs (sender h) (sender h')
        /\ mRTPPort (sender h') = mRTPPort (sender h)
        /\ (sessionID = mRTPSessionID (sender h) ->
            mRTPSessionID (sender h') = 0
            /\ mRTCPSessionID (sender h') = mRTCPSessionID (sender h))
        /\ (sessionID <> mRTPSessionID (sender h) ->
            mRTPSessionID (sender h') = mRTPSessionID (sender h)
            /\ (sessionID = mRTCPSessionID (sender h) ->
                mRTCPSessionID (sender h') = 0)
            /\ (sessionID <> mRTCPSessionID (sender h) ->
                mRTCPSessionID (sender h') = mRTCPSessionID (sender h)))).
Proof.
  intros Hn Hsid Herr Hsend Hdetail.
  rewrite (onMessageReceived_notify cfg kSendSRIntervalUs clock reasons
             h net msg _ Hn).
  rewrite Z.eqb_refl. unfold onError.
  rewrite Hsid, Herr, Hsend, Hdetail. cbn [CHECK_found bind].
  destruct (is_rtp_notify cfg (what msg)) eqn:Hrtp;
    [destruct (Z.eqb_spec errorOccuredDuringSend 0) as [H0 | H0]|];
    cbn [andb].
  - eexists; eexists; eexists. split; [reflexivity|].
    split; [auto|]. intros Hno. exfalso. apply Hno. auto.
  - eexists; eexists; eexists. split; [reflexivity|].
    split; [intros [_ H1]; contradiction|]. intros _.
    split; [reflexivity|]. split; [reflexivity|].
    split; [repeat split|].
    destruct (Z.eqb_spec sessionID (mRTPSessionID (sender h)));
      [|destruct (Z.eqb_spec sessionID (mRTCPSessionID (sender h)));
        [|destruct (ENABLE_RETRANSMISSION cfg); cbn [andb];
          [destruct (Z.eqb_spec sessionID
                       (mRTPRetransmissionSessionID (sender h)));
           [|destruct (Z.eqb_spec sessionID
                         (mRTCPRetransmissionSessionID (sender h)))]|]]];
      cbn [sender set_sender];
      (split; [try reflexivity; destruct (sender h); reflexivity|]);
      (split; [reflexivity|]);
      (split; intros; try contradiction; repeat split; intros;
       try contradiction; try reflexivity).
  - eexists; eexists; eexists. split; [reflexivity|].
    split; [intros [H1 _]; discriminate|]. intros _.
    split; [reflexivity|]. split; [reflexivity|].
    split; [repeat split|].
    destruct (Z.eqb_spec sessionID (mRTPSessionID (sender h)));
      [|destruct (Z.eqb_spec sessionID (mRTCPSessionID (sender h)));
        [|destruct (ENABLE_RETRANSMISSION cfg); cbn [andb];
          [destruct (Z.eqb_spec sessionID
                       (mRTPRetransmissionSessionID (sender h)));
           [|destruct (Z.eqb_spec sessionID
                         (mRTCPRetransmissionSessionID (sender h)))]|]]];
      cbn [sender set_sender];
      (split; [try reflexivity; destruct (sender h); reflexivity|]);
      (split; [reflexivity|]);
      (split; intros; try contradiction; repeat split; intros;
       try contradiction; try reflexivity).
Qed.

(** X10: the init-done notification is posted at most once.  Over any
    run of messages that the handler gets through, of whatever kind and
    in whatever order, with a client RTCP port given, init-done is posted
    exactly when the run takes the handler from "not both sessions
    connected" to "both connected", hence once at most; a connection flag
    that is set stays set. *)
Theorem init_done_is_posted_at_most_once
    (cfg : Config) (kSendSRIntervalUs : Z) (clock : nat -> Z)
    (reasons : Reasons) (Net : Type) (net_ops : ANetworkSession Net)
    (msgs : list AMessage) :
  forall (h h' : Handler) (net net' : Net) (effs : list Effect),
    0 <= mClientRTCPPort (sender h) ->
    deliver_messages cfg kSendSRIntervalUs clock reasons h net msgs
      = Ok (h', net', effs) ->
    count_notify kWhatInitDone effs
    = (if negb (mRTPConnected h && mRTCPConnected h)
          && (mRTPConnected h' && mRTCPConnected h')
       then 1%nat else 0%nat)
    /\ (count_notify kWhatInitDone effs <= 1)%nat
    /\ (mRTPConnected h = true -> mRTPConnected h' = true)
    /\ (mRTCPConnected h = true -> mRTCPConnected h' = true)
    /\ mClientRTCPPort (sender h') = mClientRTCPPort (sender h).
Proof.
  induction msgs as [|msg rest IH]; intros h h' net net' effs Hport H;
    cbn [deliver_messages] in H.
  - injection H as <- <- <-.
    destruct (mRTPConnected h), (mRTCPConnected h); cbn; auto.
  - apply bind_ok in H. destruct H as (((h1 & net1) & e1) & Hstep & H).
    apply bind_ok in H. destruct H as (((h2 & net2) & e2) & Hrest & H).
    apply Ok_triple_inv in H. destruct H as (<- & _ & <-).
    destruct (onMessageReceived_init_done cfg kSendSRIntervalUs clock
                reasons h h1 net net1 msg e1 Hstep)
      as (Hp1 & Hr1 & Hc1 & Hn1).
    specialize (Hn1 Hport).
    destruct (IH h1 h2 net1 net2 e2 ltac:(lia) Hrest)
      as (Hn2 & _ & Hr2 & Hc2 & Hp2).
    assert (Hcount : count_notify kWhatInitDone (e1 ++ e2)
                     = (count_notify kWhatInitDone e1
                        + count_notify kWhatInitDone e2)%nat).
    { unfold count_notify. rewrite filter_app, length_app. reflexivity. }
    rewrite Hcount, Hn1, Hn2.
    split; [|split; [|split; [auto|split; [auto|lia]]]].
    + destruct (mRTPConnected h), (mRTCPConnected h),
        (mRTPConnected h1), (mRTCPConnected h1),
        (mRTPConnected h2), (mRTCPConnected h2);
        cbn; try reflexivity;
        try (specialize (Hr1 eq_refl)); try (specialize (Hc1 eq_refl));
        try (specialize (Hr2 eq_refl)); try (specialize (Hc2 eq_refl));
        discriminate.
    + destruct (mRTPConnected h), (mRTCPConnected h),
        (mRTPConnected h1), (mRTCPConnected h1),
        (mRTPConnected h2), (mRTCPConnected h2);
        cbn; try lia;
        try (specialize (Hr1 eq_refl)); try (specialize (Hc1 eq_refl));
        try (specialize (Hr2 eq_refl)); try (specialize (Hc2 eq_refl));
        discriminate.
Qed.

(** X11: the TCP handshake.  In TCP mode, with neither session connected
    and a client RTCP port given, the connected notification for the RTP
    session alone posts nothing; the two notifications, in either order,
    post init-done on the second.  Without a client RTCP port the RTP
    notification alone posts init-done.  A second notification for a
    session that is already connected stops the handler on a failed
    check, as does any connected notification outside TCP mode. *)
Theorem tcp_handshake_posts_init_done
    (cfg : Config) (kSendSRIntervalUs : Z) (clock : nat -> Z)
    (reasons : Reasons) (Net : Type) (net_ops : ANetworkSession Net)
    (h : Handler) (net : Net) (rtpMsg rtcpMsg : AMessage) :
  reasons_distinct reasons ->
  mRTPConnected h = false -> mRTCPConnected h = false ->
  mRTPSessionID (sender h) <> mRTCPSessionID (sender h) ->
  notifies cfg rtpMsg (kWhatConnected reasons) ->
  findInt32 rtpMsg "sessionID" = Some (mRTPSessionID (sender h)) ->
  notifies cfg rtcpMsg (kWhatConnected reasons) ->
  findInt32 rtcpMsg "sessionID" = Some (mRTCPSessionID (sender h)) ->
  let deliver := deliver_messages cfg kSendSRIntervalUs clock reasons h net in
  (mTransportMode (sender h) = TRANSPORT_TCP ->
   (0 <= mClientRTCPPort (sender h) ->
    deliver [rtpMsg] = Ok (set_mRTPConnected h true, net, [])
    /\ deliver [rtpMsg; rtcpMsg]
       = Ok (set_mRTCPConnected (set_mRTPConnected h true) true, net,
             [Notify kWhatInitDone])
    /\ deliver [rtcpMsg; rtpMsg]
       = Ok (set_mRTPConnected (set_mRTCPConnected h true) true, net,
             [Notify kWhatInitDone]))
   /\ (mClientRTCPPort (sender h) < 0 ->
       deliver [rtpMsg]
       = Ok (set_mRTPConnected h true, net, [Notify kWhatInitDone]))
   /\ deliver [rtpMsg; rtpMsg] = Fault CheckFailed
   /\ deliver [rtcpMsg; rtcpMsg] = Fault CheckFailed)
  /\ (mTransportMode (sender h) <> TRANSPORT_TCP ->
      deliver [rtpMsg] = Fault CheckFailed).
Proof.
  intros Hd Hr Hc Hne Hn1 Hs1 Hn2 Hs2 deliver. subst deliver.
  cbn [deliver_messages].
  split.
  - intros Hmode.
    pose proof (connected_rtp cfg kSendSRIntervalUs clock reasons h net
                  rtpMsg Hd Hn1 Hs1 Hmode) as A1.
    pose proof (connected_rtcp cfg kSendSRIntervalUs clock reasons h net
                  rtcpMsg Hd Hn2 Hs2 Hne Hmode) as A2.
    pose proof (connected_rtp cfg kSendSRIntervalUs clock reasons
                  (set_mRTPConnected h true) net rtpMsg Hd Hn1 Hs1 Hmode)
      as B1.
    pose proof (connected_rtcp cfg kSendSRIntervalUs clock reasons
                  (set_mRTPConnected h true) net rtcpMsg Hd Hn2 Hs2 Hne Hmode)
      as B2.
    pose proof (connected_rtp cfg kSendSRIntervalUs clock reasons
                  (set_mRTCPConnected h true) net rtpMsg Hd Hn1 Hs1 Hmode)
      as C1.
    pose proof (connected_rtcp cfg kSendSRIntervalUs clock reasons
                  (set_mRTCPConnected h true) net rtcpMsg Hd Hn2 Hs2 Hne Hmode)
      as C2.
    cbn [sender set_mRTPConnected set_mRTCPConnected mRTPConnected
         mRTCPConnected] in B1, B2, C1, C2.
    rewrite Hr, Hc in *. rewrite orb_false_r in A1.
    rewrite orb_true_r in C1.
    rewrite A1, A2.
    split.
    { intros Hport.
      destruct (Z.ltb_spec (mClientRTCPPort (sender h)) 0); [lia|].
      cbn [bind]. rewrite B2, C1. cbn [bind app]. repeat split. }
    split.
    { intros Hport.
      destruct (Z.ltb_spec (mClientRTCPPort (sender h)) 0); [|lia].
      reflexivity. }
    split.
    { destruct (mClientRTCPPort (sender h) <? 0);
        cbn [bind]; rewrite B1; reflexivity. }
    cbn [bind]. rewrite C2. reflexivity.
  - intros Hmode.
    rewrite (onMessageReceived_connected cfg kSendSRIntervalUs clock reasons
               _ _ _ Hd Hn1).
    unfold onConnected.
    destruct (mTransportMode (sender h)); try reflexivity. congruence.
Qed.


(** ** The route packets take *)

Section Routes.

Variable cfg : Config.
Variable clock : nat -> Z.

Lemma same_route_event (s s' : Sender) (packet : list byte) :
  same_route s s' -> rtp_event s' packet = rtp_event s packet.
Proof.
  intros (H1 & H2 & H3 & _). unfold rtp_event. rewrite H1, H2, H3.
  reflexivity.
Qed.

Lemma same_route_refl (s : Sender) : same_route s s.
Proof. repeat split. Qed.

Lemma same_route_trans (s1 s2 s3 : Sender) :
  same_route s1 s2 -> same_route s2 s3 -> same_route s1 s3.
Proof.
  intros (A1 & A2 & A3 & A4 & A5) (B1 & B2 & B3 & B4 & B5).
  unfold same_route. rewrite B1, B2, B3, B4, B5. auto.
Qed.

Lemma retain_in_history_route (s : Sender) :
  same_route s (retain_in_history cfg s).
Proof.
  unfold retain_in_history.
  destruct (kMaxHistoryLength cfg <? mHistoryLength s + 1).
  - destruct (mHistory s ++ _); repeat split.
  - repeat split.
Qed.

Lemma flush_queue_route (s : Sender) (disc : bool) :
  same_route s (fst (flush_queue cfg clock s disc))
  /\ exists packet, snd (flush_queue cfg clock s disc) = [rtp_event s packet].
Proof.
  split.
  - unfold flush_queue, stamp_queue, GetNowNTP, GetNowUs.
    cbn [fst snd mTSQueue set_mTSQueue set_clockReads set_rtp_state
         mTransportMode mRTPChannel mRTPSessionID clockReads mRTPSeqNo
         mNumRTPSent mNumRTPOctetsSent
         mData setData setRange0 size mRangeLength].
    destruct (ENABLE_RETRANSMISSION cfg).
    + match goal with
      | |- same_route _ (set_mTSQueue (retain_in_history cfg ?x) _) =>
          pose proof (retain_in_history_route x) as Hr;
          set (r := retain_in_history cfg x) in *
      end.
      destruct Hr as (R1 & R2 & R3 & R4 & R5).
      unfold same_route.
      cbn [set_mTSQueue mTransportMode mRTPChannel mRTPSessionID
           mRTCPChannel mRTCPSessionID].
      rewrite R1, R2, R3, R4, R5. repeat split.
    + repeat split.
  - unfold flush_queue, stamp_queue, GetNowNTP, GetNowUs, rtp_event.
    cbn [fst snd mTSQueue set_mTSQueue set_clockReads set_rtp_state
         mTransportMode mRTPChannel mRTPSessionID clockReads mRTPSeqNo
         mNumRTPSent mNumRTPOctetsSent
         mData setData setRange0 size mRangeLength].
    eexists. reflexivity.
Qed.

Lemma appendTSData_route (s s' : Sender) (data : list byte) (sz n : Z)
    (disc flush : bool) (evs : list Event) :
  appendTSData cfg clock s data sz disc flush = Ok (n, s', evs) ->
  same_route s s'
  /\ Forall (fun ev => exists packet, ev = rtp_event s packet) evs.
Proof.
  unfold appendTSData. intros H.
  apply bind_ok in H. destruct H as ([] & _ & H).
  apply bind_ok in H. destruct H as ([] & _ & H).
  apply bind_ok in H. destruct H as (src & _ & H).
  match type of H with
  | (if ?c then _ else _) = _ => destruct c
  end.
  - match type of H with
    | (let '(_, _) := flush_queue cfg clock ?x disc in _) = _ =>
        destruct (flush_queue_route x disc) as (Hr & packet & Hev);
        destruct (flush_queue cfg clock x disc) as [s1 e1];
        assert (Hx : same_route s x) by (repeat split);
        pose proof (same_route_trans _ _ _ Hx Hr) as Hr';
        change (rtp_event x packet) with (rtp_event s packet) in Hev
    end.
    apply Ok_triple_inv in H. destruct H as (_ & <- & <-).
    cbn [fst snd] in Hr', Hev. split; [exact Hr'|].
    rewrite Hev. constructor; [|constructor]. exists packet. reflexivity.
  - apply Ok_triple_inv in H. destruct H as (_ & <- & <-).
    split; [repeat split | constructor].
Qed.

Lemma onQueuePackets_loop_route (packets : list byte) :
  forall (fuel : nat) (s s' : Sender) (offset : Z) (evs : list Event),
    onQueuePackets_loop cfg clock fuel s packets offset = Ok (s', evs) ->
    same_route s s'
    /\ Forall (fun ev => exists packet, ev = rtp_event s packet) evs.
Proof.
  induction fuel as [|fuel IH]; intros s s' offset evs H;
    cbn [onQueuePackets_loop] in H;
    destruct (offset <? Z.of_nat (List.length packets));
    try discriminate H;
    try (injection H as <- <-; split; [apply same_route_refl | constructor]).
  apply bind_ok in H. destruct H as (((n1 & s1) & e1) & Happ & H).
  apply bind_ok in H. destruct H as ((s2 & e2) & Hloop & H).
  injection H as <- <-.
  destruct (appendTSData_route _ _ _ _ _ _ _ _ Happ) as (R1 & F1).
  destruct (IH _ _ _ _ Hloop) as (R2 & F2).
  split.
  - eapply same_route_trans; eassumption.
  - apply Forall_app. split; [exact F1|].
    eapply Forall_impl; [|exact F2].
    intros ev (packet & ->). exists packet.
    apply same_route_event. exact R1.
Qed.

Lemma deliver_batches_route (batches : list (list byte)) :
  forall (s s' : Sender) (evs : list Event),
    deliver_batches cfg clock s batches = Ok (s', evs) ->
    same_route s s'
    /\ Forall (fun ev => exists packet, ev = rtp_event s packet) evs.
Proof.
  induction batches as [|packets rest IH]; intros s s' evs H;
    cbn [deliver_batches] in H.
  - injection H as <- <-. split; [apply same_route_refl | constructor].
  - apply bind_ok in H. destruct H as ((s1 & e1) & Hq & H).
    apply bind_ok in H. destruct H as ((s2 & e2) & Hrest & H).
    injection H as <- <-.
    unfold onQueuePackets, GetNowUs in Hq.
    destruct (onQueuePackets_loop_route _ _ _ _ _ _ Hq) as (R1 & F1).
    destruct (IH _ _ _ Hrest) as (R2 & F2).
    split.
    + eapply same_route_trans; [|exact R2]. exact R1.
    + apply Forall_app. split; [exact F1|].
      eapply Forall_impl; [|exact F2].
      intros ev (packet & ->). exists packet.
      apply same_route_event. exact R1.
Qed.

End Routes.

(** X13: all RTP packets of a session leave by one route.  After [init]
    in interleaved mode, which makes no call to the network, every
    packet of every batch is posted as binary data on the RTP channel
    given to [init].  No sender report goes with them: [init] leaves the
    RTCP session handle 0, the batches keep it, and the report timer's
    message then sends nothing.  In the other modes every packet goes to
    the RTP session the sender holds when the batches start. *)
Theorem packets_leave_by_one_route
    (cfg : Config) (kSendSRIntervalUs : Z) (clock : nat -> Z)
    (reasons : Reasons) (Net : Type)
    (net_ops : ANetworkSession Net) (fuel : nat) (s : Sender) (net : Net)
    (clientIP : string) (clientRtp clientRtcp : Z)
    (batches : list (list byte)) :
  queue_inv s -> queue_idle s ->
  Forall (fun packets => Z.of_nat (List.length packets) mod 188 = 0)
    batches ->
  (exists s1,
      init cfg fuel s net clientIP clientRtp clientRtcp
        TRANSPORT_TCP_INTERLEAVED = Ok (OK, s1, net)
      /\ exists s2 evs,
           deliver_batches cfg clock s1 batches = Ok (s2, evs)
           /\ Forall (fun ev => exists packet,
                          ev = BinaryData clientRtp packet) evs
           /\ mRTCPSessionID s2 = 0
           /\ forall (h : Handler) (net' : Net) (msg : AMessage),
                sender h = s2 -> what msg = kWhatSendSR ->
                onMessageReceived cfg kSendSRIntervalUs clock reasons h net'
                  msg
                = Ok (set_mSendSRPending h false, net', []))
  /\ (mTransportMode s <> TRANSPORT_TCP_INTERLEAVED ->
      exists s2 evs,
        deliver_batches cfg clock s batches = Ok (s2, evs)
        /\ Forall (fun ev => exists packet,
                       ev = SendRequest (mRTPSessionID s) packet) evs).
Proof.
  intros Hinv Hidle Hall. split.
  - eexists. split; [reflexivity|].
    match goal with
    | |- exists s2 evs, deliver_batches cfg clock ?x batches = _ /\ _ =>
        set (s1 := x)
    end.
    assert (Hinv1 : queue_inv s1) by exact Hinv.
    assert (Hidle1 : queue_idle s1) by exact Hidle.
    destruct (deliver_batches_run cfg clock batches s1 Hinv1 Hidle1 Hall)
      as (s2 & evs & Hrun & _).
    destruct (deliver_batches_route cfg clock batches s1 s2 evs Hrun)
      as (Hroute & Hevs).
    assert (Hrtcp : mRTCPSessionID s2 = 0).
    { destruct Hroute as (_ & _ & _ & _ & Hsid). rewrite Hsid. reflexivity. }
    exists s2, evs. split; [exact Hrun|]. split.
    + eapply Forall_impl; [|exact Hevs].
      intros ev (packet & ->). exists packet. reflexivity.
    + split; [exact Hrtcp|].
      intros h net' msg Hh Hwhat. unfold onMessageReceived.
      rewrite Hwhat.
      replace (is_notify cfg kWhatSendSR) with false
        by (unfold is_notify; destruct (ENABLE_RETRANSMISSION cfg);
            reflexivity).
      cbn [sender set_mSendSRPending]. rewrite Hh, Hrtcp. reflexivity.
  - intros Hmode.
    destruct (deliver_batches_run cfg clock batches s Hinv Hidle Hall)
      as (s2 & evs & Hrun & _).
    destruct (deliver_batches_route cfg clock batches s s2 evs Hrun)
      as (Hroute & Hevs).
    exists s2, evs. split; [exact Hrun|].
    eapply Forall_impl; [|exact Hevs].
    intros ev (packet & ->). exists packet. unfold rtp_event.
    destruct (mTransportMode s); try reflexivity. congruence.
Qed.

(** ** What init asks of its arguments *)

Section Setup.

Variable cfg : Config.
Context {Net : Type} {net_ops : ANetworkSession Net}.

(** With retransmission compiled in and no client RTCP port, a round of
    the port scan either goes on to the next port pair or stops on
    [CHECK_GE(clientRtcp, 0)]. *)
Lemma init_scan_needs_rtcp (s : Sender) (clientIP : string)
    (clientRtp clientRtcp : Z) :
  ENABLE_RETRANSMISSION cfg = true ->
  clientRtcp < 0 ->
  mTransportMode s = TRANSPORT_UDP ->
  forall (fuel : nat) (net : Net) (serverRtp : Z),
    init_scan cfg fuel s net clientIP clientRtp clientRtcp serverRtp
      = Fault CheckFailed
    \/ init_scan cfg fuel s net clientIP clientRtp clientRtcp serverRtp
       = Fault OutOfFuel.
Proof.
  intros Hen Hneg Hudp.
  induction fuel as [|fuel IH]; intros net serverRtp; cbn [init_scan].
  - right. reflexivity.
  - unfold create_session. rewrite Hudp, Hen. cbn [is_udp andb].
    destruct (createUDPSession net serverRtp clientIP clientRtp)
      as [[err rtpSession] net1].
    destruct (failed err); [apply IH|].
    destruct (Z.leb_spec 0 clientRtcp) as [Hge | _]; [lia|].
    destruct (createUDPSession net1
                (serverRtp + kRetransmissionPortOffset cfg) clientIP
                (clientRtp + kRetransmissionPortOffset cfg))
      as [[err2 rtpR] net2].
    destruct (failed err2); [apply IH|].
    left. reflexivity.
Qed.

End Setup.

(** X14: with retransmission compiled in, [init] in UDP mode cannot
    succeed without a client RTCP port: whatever the network does, it
    never returns; as soon as an RTP port and its retransmission port
    bind, it stops on the failed check [CHECK_GE(clientRtcp, 0)]. *)
Theorem init_with_retransmission_needs_rtcp_port
    (cfg : Config) (Net : Type) (net_ops : ANetworkSession Net)
    (fuel : nat) (s : Sender) (net : Net) (clientIP : string)
    (clientRtp clientRtcp : Z) :
  ENABLE_RETRANSMISSION cfg = true ->
  clientRtcp < 0 ->
  (init cfg fuel s net clientIP clientRtp clientRtcp TRANSPORT_UDP
     = Fault CheckFailed
   \/ init cfg fuel s net clientIP clientRtp clientRtcp TRANSPORT_UDP
      = Fault OutOfFuel)
  /\ (forall rtpSession net1 rtpRetransmissionSession net2,
        createUDPSession net 15550 clientIP clientRtp
          = (OK, rtpSession, net1) ->
        createUDPSession net1 (15550 + kRetransmissionPortOffset cfg)
          clientIP (clientRtp + kRetransmissionPortOffset cfg)
          = (OK, rtpRetransmissionSession, net2) ->
        init cfg (S fuel) s net clientIP clientRtp clientRtcp TRANSPORT_UDP
          = Fault CheckFailed).
Proof.
  intros Hen Hneg. unfold init.
  match goal with
  | |- context [init_scan cfg fuel ?x net] => set (s0 := x)
  end.
  assert (Hudp : mTransportMode s0 = TRANSPORT_UDP) by reflexivity.
  split.
  - destruct (init_scan_needs_rtcp cfg s0 clientIP clientRtp clientRtcp
                Hen Hneg Hudp fuel net 15550) as [H | H];
      rewrite H; auto.
  - intros rtpSession net1 rtpR net2 H1 H2.
    cbn [init_scan]. unfold create_session.
    rewrite Hudp, Hen. cbn [is_udp andb]. rewrite H1.
    cbn [failed status_eqb negb].
    destruct (Z.leb_spec 0 clientRtcp) as [Hge | _]; [lia|].
    rewrite H2. reflexivity.
Qed.

(** X15: the setup in TCP mode.  [init] makes no call to the network
    and announces port 20000.  [finishInit] then opens the RTP session
    on local port 20000 and, when a client RTCP port was given, the RTCP
    session on 20001, each toward the client's port; it posts no
    init-done itself.  If the RTP session cannot be opened, the RTCP
    session is not tried; if the RTCP session cannot be opened, the
    error is returned and the RTP session is left open. *)
Theorem tcp_setup_opens_ports_20000_and_20001
    (cfg : Config) (Net : Type) (net_ops : ANetworkSession Net)
    (fuel : nat) (s : Sender) (net : Net) (clientIP : string)
    (clientRtp clientRtcp : Z) :
  exists s1,
    init cfg fuel s net clientIP clientRtp clientRtcp TRANSPORT_TCP
      = Ok (OK, s1, net)
    /\ getRTPPort s1 = 20000
    /\ forall err1 rtpSession net1,
         createTCPDatagramSession net 20000 clientIP clientRtp
           = (err1, rtpSession, net1) ->
         (err1 <> OK ->
          exists s2, finishInit s1 net = (err1, s2, net1, []))
         /\ (err1 = OK -> clientRtcp < 0 ->
             exists s2,
               finishInit s1 net = (OK, s2, net1, [])
               /\ mRTPSessionID s2 = rtpSession
               /\ mRTCPSessionID s2 = 0)
         /\ (err1 = OK -> 0 <= clientRtcp ->
             forall err2 rtcpSession net2,
               createTCPDatagramSession net1 20001 clientIP clientRtcp
                 = (err2, rtcpSession, net2) ->
               exists s2,
                 finishInit s1 net = (err2, s2, net2, [])
                 /\ mRTPSessionID s2 = rtpSession
                 /\ mRTCPSessionID s2 = rtcpSession
                 /\ only_session_differs s s2).
Proof.
  eexists. split; [reflexivity|]. split; [reflexivity|].
  intros err1 rtpSession net1 H1.
  unfold finishInit.
  cbn [mTransportMode mRTPPort mClientIP mClientRTPPort mClientRTCPPort
       set_session is_tcp negb].
  rewrite H1.
  split; [|split].
  - intros Herr. assert (Hf : failed err1 = true)
      by (destruct err1; try reflexivity; congruence).
    rewrite Hf. eexists. reflexivity.
  - intros -> Hneg. cbn [failed status_eqb negb].
    cbn [set_mRTPSessionID mClientRTCPPort set_session].
    destruct (Z.leb_spec 0 clientRtcp) as [Hge | _]; [lia|].
    eexists. split; [reflexivity|]. split; reflexivity.
  - intros -> Hge err2 rtcpSession net2 H2. cbn [failed status_eqb negb].
    cbn [set_mRTPSessionID mClientRTCPPort mRTPPort mClientIP set_session].
    destruct (Z.leb_spec 0 clientRtcp) as [_ | Hlt]; [|lia].
    change (20000 + 1) with 20001. rewrite H2.
    destruct err2; cbn [failed status_eqb negb];
      (eexists; split; [reflexivity|]);
      (split; [reflexivity|]); (split; [reflexivity|]);
      unfold only_session_differs; reflexivity.
Qed.

(** ** Sessions opened and closed *)

(** Comparisons of ports and of session ids, settled by arithmetic. *)
Ltac settle_eqb :=
  repeat match goal with
         | |- context [?a =? ?b] =>
             destruct (Z.eqb_spec a b); try lia
         end.

(** The next create call of a round, unfolded in [H]: whether the port
    is bound already is decided by arithmetic. *)
Ltac open_next H :=
  unfold open_session at 1 in H; unfold bound at 1 in H;
  cbn [sessions lastID calls existsb negb snd orb] in H;
  repeat match type of H with
         | context [?a =? ?b] => destruct (Z.eqb_spec a b); try lia
         end;
  cbn [negb orb] in H; rewrite ?andb_true_r in H.

Section Bookkeeping.

Variable free : Z -> bool.
Variable cfg : Config.
Variable s : Sender.
Variable clientIP : string.
Variables clientRtp clientRtcp : Z.

Hypothesis Hudp : mTransportMode s = TRANSPORT_UDP.
Hypothesis Hrtcp :
  ENABLE_RETRANSMISSION cfg = true ->
  0 <= clientRtcp
  /\ (kRetransmissionPortOffset cfg < -1 \/ 1 < kRetransmissionPortOffset cfg).

(** One round of the port scan on a network with nothing open. *)
Lemma init_scan_round (fuel : nat) (net : Network) (serverRtp : Z) :
  sessions net = [] -> 0 <= lastID net ->
  (round_free free cfg clientRtcp serverRtp = false ->
   exists net',
     init_scan (net_ops := bookkeeping free) cfg (S fuel) s net clientIP
       clientRtp clientRtcp serverRtp
     = init_scan (net_ops := bookkeeping free) cfg fuel s net' clientIP
         clientRtp clientRtcp (to_int32 (serverRtp + 2))
     /\ sessions net' = [] /\ 0 <= lastID net')
  /\ (round_free free cfg clientRtcp serverRtp = true ->
      exists s' net',
        init_scan (net_ops := bookkeeping free) cfg (S fuel) s net clientIP
          clientRtp clientRtcp serverRtp
        = Ok (s', net')
        /\ mRTPPort s' = serverRtp
        /\ map snd (sessions net')
           = rev (round_ports cfg clientRtcp serverRtp)
        /\ map fst (sessions net') = held_sessions cfg s'
        /\ NoDup (map fst (sessions net'))
        /\ (clientRtcp < 0 -> mRTCPSessionID s' = 0)).
Proof.
  intros Hs Hl. destruct net as [c ss l]. cbn [sessions lastID] in Hs, Hl.
  subst ss.
  unfold round_free, round_ports, held_sessions.
  remember (init_scan (net_ops := bookkeeping free) cfg (S fuel) s
              {| calls := c; sessions := []; lastID := l |} clientIP
              clientRtp clientRtcp serverRtp) as r eqn:Hr.
  cbn [init_scan] in Hr. unfold create_session in Hr.
  rewrite Hudp in Hr. cbn [is_udp createUDPSession bookkeeping] in Hr.
  open_next Hr.
  destruct (free serverRtp) eqn:F0.
  2: { cbn [andb failed status_eqb negb] in Hr. subst r.
       split; [intros _ | cbn [app forallb andb]; rewrite F0; discriminate].
       eexists. split; [reflexivity|]. split; [reflexivity | exact Hl]. }
  cbn [andb failed status_eqb negb] in Hr.
  destruct (Z.leb_spec 0 clientRtcp) as [Hge | Hlt].
  - (* an RTCP port is wanted *)
    open_next Hr.
    destruct (free (serverRtp + 1)) eqn:F1.
    2: { cbn [andb failed status_eqb negb destroySession bookkeeping] in Hr.
         subst r.
         split; [intros _ | ].
         2: { destruct (Z.leb_spec 0 clientRtcp); [|lia].
              cbn [app forallb andb]. rewrite F0, F1. discriminate. }
         eexists. split; [reflexivity|].
         unfold close_session. cbn [sessions lastID filter fst].
         rewrite Z.eqb_refl. cbn [negb]. split; [reflexivity | lia]. }
    cbn [andb failed status_eqb negb] in Hr.
    destruct (ENABLE_RETRANSMISSION cfg) eqn:Hen; cbn [andb is_udp] in Hr.
    + destruct (Hrtcp eq_refl) as (_ & Hoff).
      open_next Hr.
      destruct (free (serverRtp + kRetransmissionPortOffset cfg)) eqn:F2.
      2: { cbn [andb failed status_eqb negb destroySession bookkeeping]
             in Hr.
           subst r.
           split; [intros _ | ].
           2: { destruct (Z.leb_spec 0 clientRtcp); [|lia].
                cbn [app forallb andb]. rewrite F0, F1, F2. discriminate. }
           eexists. split; [reflexivity|].
           unfold close_session. cbn [sessions lastID filter fst].
           settle_eqb. cbn [negb filter fst]. settle_eqb.
           cbn [negb]. split; [reflexivity | lia]. }
      cbn [andb failed status_eqb negb] in Hr.
      destruct (Z.leb_spec 0 clientRtcp) as [_ | Hlt]; [|lia].
      cbn [CHECK bind] in Hr.
      open_next Hr.
      destruct (free (serverRtp + 1 + kRetransmissionPortOffset cfg)) eqn:F3.
      2: { cbn [andb failed status_eqb negb destroySession bookkeeping]
             in Hr.
           subst r.
           split; [intros _ | ].
           2: { destruct (Z.leb_spec 0 clientRtcp); [|lia].
                cbn [app forallb andb]. rewrite F0, F1, F2, F3.
                discriminate. }
           eexists. split; [reflexivity|].
           unfold close_session. cbn [sessions lastID filter fst].
           settle_eqb. cbn [negb filter fst]. settle_eqb.
           cbn [negb filter fst]. settle_eqb.
           cbn [negb]. split; [reflexivity | lia]. }
      cbn [andb failed status_eqb negb] in Hr. subst r.
      destruct (Z.leb_spec 0 clientRtcp); [|lia].
      split; [cbn [app forallb andb]; rewrite F0, F1, F2, F3; discriminate|].
      intros _. eexists. eexists. split; [reflexivity|].
      cbn [mRTPPort mRTPSessionID mRTCPSessionID mRTPRetransmissionSessionID
           mRTCPRetransmissionSessionID set_session sessions map fst snd
           app rev filter].
      split; [reflexivity|]. split; [reflexivity|].
      split; [settle_eqb; reflexivity|].
      split; [|intros; lia].
      repeat (constructor; [cbn [In]; intuition lia|]). constructor.
    + subst r. destruct (Z.leb_spec 0 clientRtcp); [|lia].
      split; [cbn [app forallb andb]; rewrite F0, F1; discriminate|].
      intros _. eexists. eexists. split; [reflexivity|].
      cbn [mRTPPort mRTPSessionID mRTCPSessionID set_session sessions map
           fst snd app rev filter].
      split; [reflexivity|]. split; [reflexivity|].
      split; [settle_eqb; reflexivity|].
      split; [|intros; lia].
      repeat (constructor; [cbn [In]; intuition lia|]). constructor.
  - (* no RTCP port *)
    destruct (ENABLE_RETRANSMISSION cfg) eqn:Hen; cbn [andb is_udp] in Hr.
    + destruct (Hrtcp eq_refl) as (Hge & _). lia.
    + subst r. destruct (Z.leb_spec 0 clientRtcp); [lia|].
      split; [cbn [app forallb andb]; rewrite F0; discriminate|].
      intros _. eexists. eexists. split; [reflexivity|].
      cbn [mRTPPort mRTPSessionID mRTCPSessionID set_session sessions map
           fst snd app rev filter].
      split; [reflexivity|]. split; [reflexivity|].
      split; [settle_eqb; reflexivity|].
      split; [|intros; reflexivity].
      repeat (constructor; [cbn [In]; intuition lia|]). constructor.
Qed.

Lemma to_int32_small (x : Z) :
  - 2 ^ 31 <= x < 2 ^ 31 -> to_int32 x = x.
Proof.
  intros H. unfold to_int32. rewrite Z.mod_small by lia. lia.
Qed.

(** The port scan stops at the first round whose ports are all free. *)
Lemma init_scan_first_free :
  forall (k fuel : nat) (net : Network) (serverRtp : Z),
    sessions net = [] -> 0 <= lastID net ->
    (k < fuel)%nat ->
    - 2 ^ 31 <= serverRtp -> serverRtp + 2 * Z.of_nat k + 2 < 2 ^ 31 ->
    (forall j, (j < k)%nat ->
       round_free free cfg clientRtcp (serverRtp + 2 * Z.of_nat j) = false) ->
    round_free free cfg clientRtcp (serverRtp + 2 * Z.of_nat k) = true ->
    exists s' net',
      init_scan (net_ops := bookkeeping free) cfg fuel s net clientIP
        clientRtp clientRtcp serverRtp
      = Ok (s', net')
      /\ mRTPPort s' = serverRtp + 2 * Z.of_nat k
      /\ map snd (sessions net')
         = rev (round_ports cfg clientRtcp (serverRtp + 2 * Z.of_nat k))
      /\ map fst (sessions net') = held_sessions cfg s'
      /\ NoDup (map fst (sessions net'))
      /\ (clientRtcp < 0 -> mRTCPSessionID s' = 0).
Proof.
  induction k as [|k IH]; intros fuel net serverRtp Hs Hl Hfuel Hlo Hhi
                                 Hbusy Hfree;
    (destruct fuel as [|fuel]; [lia|]).
  - replace (serverRtp + 2 * Z.of_nat 0) with serverRtp in * by lia.
    destruct (init_scan_round fuel net serverRtp Hs Hl) as (_ & Hok).
    exact (Hok Hfree).
  - destruct (init_scan_round fuel net serverRtp Hs Hl) as (Hnext & _).
    destruct Hnext as (net1 & Hstep & Hs1 & Hl1).
    { specialize (Hbusy 0%nat ltac:(lia)).
      replace (serverRtp + 2 * Z.of_nat 0) with serverRtp in Hbusy by lia.
      exact Hbusy. }
    rewrite Hstep. rewrite to_int32_small by lia.
    replace (serverRtp + 2 * Z.of_nat (S k))
      with (serverRtp + 2 + 2 * Z.of_nat k) in * by lia.
    apply IH; try assumption; try lia.
    intros j Hj. specialize (Hbusy (S j) ltac:(lia)).
    replace (serverRtp + 2 * Z.of_nat (S j))
      with (serverRtp + 2 + 2 * Z.of_nat j) in Hbusy by lia.
    exact Hbusy.
Qed.

End Bookkeeping.

Section Teardown.

Variable free : Z -> bool.
Variable cfg : Config.

Lemma close_session_In (net : Network) (id : Z) (e : Z * Z) :
  In e (sessions (close_session net id)) ->
  In e (sessions net) /\ fst e <> id.
Proof.
  unfold close_session. cbn [sessions]. intros H.
  apply filter_In in H. destruct H as [H1 H2]. split; [exact H1|].
  destruct (Z.eqb_spec (fst e) id); [discriminate H2 | assumption].
Qed.

(** The sessions the destructor leaves open are none of those the
    sender holds. *)
Lemma delete_Sender_In (s : Sender) (net : Network) (e : Z * Z) :
  In e (sessions (delete_Sender (net_ops := bookkeeping free) cfg s net)) ->
  In e (sessions net) /\ ~ In (fst e) (held_sessions cfg s).
Proof.
  unfold delete_Sender, held_sessions. cbn [destroySession bookkeeping].
  intros H.
  destruct (ENABLE_RETRANSMISSION cfg); cbn [andb app filter] in *;
    destruct (Z.eqb_spec (mRTPSessionID s) 0);
    destruct (Z.eqb_spec (mRTCPSessionID s) 0);
    try destruct (Z.eqb_spec (mRTPRetransmissionSessionID s) 0);
    try destruct (Z.eqb_spec (mRTCPRetransmissionSessionID s) 0);
    cbn [negb] in *;
    repeat match type of H with
           | In _ (sessions (close_session _ _)) =>
               apply close_session_In in H;
               let Hne := fresh "Hne" in destruct H as [H Hne]
           end;
    (split; [exact H|]); cbn [In]; intuition congruence.
Qed.

Lemma delete_Sender_calls (s : Sender) (net : Network) :
  calls (delete_Sender (net_ops := bookkeeping free) cfg s net)
  = calls net ++ map Destroy (held_sessions cfg s).
Proof.
  unfold delete_Sender, held_sessions. cbn [destroySession bookkeeping].
  destruct (ENABLE_RETRANSMISSION cfg); cbn [andb app filter];
    destruct (Z.eqb_spec (mRTPSessionID s) 0);
    destruct (Z.eqb_spec (mRTCPSessionID s) 0);
    try destruct (Z.eqb_spec (mRTPRetransmissionSessionID s) 0);
    try destruct (Z.eqb_spec (mRTCPRetransmissionSessionID s) 0);
    cbn [negb calls close_session map app];
    rewrite <- ?app_assoc, ?app_nil_r; reflexivity.
Qed.

Lemma delete_Sender_closes (s : Sender) (net : Network) :
  map fst (sessions net) = held_sessions cfg s ->
  sessions (delete_Sender (net_ops := bookkeeping free) cfg s net) = [].
Proof.
  intros Hheld.
  destruct (sessions (delete_Sender (net_ops := bookkeeping free) cfg s net))
    as [|e rest] eqn:Hleft; [reflexivity|].
  exfalso.
  destruct (delete_Sender_In s net e) as [Hin Hnot].
  { rewrite Hleft. left. reflexivity. }
  apply Hnot. rewrite <- Hheld. apply in_map. exact Hin.
Qed.

End Teardown.

(** X16: on a network with nothing open that binds a local port exactly
    when it is free, [init] in UDP mode stops at the first port pair,
    counted from 15550 in steps of two, whose ports (RTP, RTCP when a
    client RTCP port is given, and the two retransmission ports when
    compiled in) are all free.  It announces this RTP port, and the
    sessions left open are exactly the ones it keeps the handles of:
    everything bound in a round that failed has been released. *)
Theorem init_binds_first_free_port_pair
    (free : Z -> bool) (cfg : Config) (s : Sender) (clientIP : string)
    (clientRtp clientRtcp : Z) (k fuel : nat) (net : Network) :
  (ENABLE_RETRANSMISSION cfg = true ->
   0 <= clientRtcp
   /\ (kRetransmissionPortOffset cfg < -1
       \/ 1 < kRetransmissionPortOffset cfg)) ->
  sessions net = [] -> 0 <= lastID net ->
  (k < fuel)%nat -> 15550 + 2 * Z.of_nat k + 2 < 2 ^ 31 ->
  (forall j, (j < k)%nat ->
     round_free free cfg clientRtcp (15550 + 2 * Z.of_nat j) = false) ->
  round_free free cfg clientRtcp (15550 + 2 * Z.of_nat k) = true ->
  exists s' net',
    init (net_ops := bookkeeping free) cfg fuel s net clientIP clientRtp
      clientRtcp TRANSPORT_UDP
    = Ok (OK, s', net')
    /\ getRTPPort s' = 15550 + 2 * Z.of_nat k
    /\ map snd (sessions net')
       = rev (round_ports cfg clientRtcp (15550 + 2 * Z.of_nat k))
    /\ map fst (sessions net') = held_sessions cfg s'
    /\ NoDup (held_sessions cfg s')
    /\ (clientRtcp < 0 -> mRTCPSessionID s' = 0).
Proof.
  intros Hrtcp Hs Hl Hfuel Hhi Hbusy Hfree. unfold init.
  match goal with
  | |- context [init_scan cfg fuel ?x net] => set (s0 := x)
  end.
  destruct (init_scan_first_free free cfg s0 clientIP clientRtp clientRtcp
              eq_refl Hrtcp k fuel net 15550 Hs Hl Hfuel ltac:(lia) Hhi
              Hbusy Hfree)
    as (s' & net' & Hscan & Hport & Hports & Hheld & Hnodup & Hnone).
  rewrite Hscan. cbn [bind]. rewrite Hport.
  destruct (Z.eqb_spec (15550 + 2 * Z.of_nat k) 0) as [He | _]; [lia|].
  exists s', net'. split; [reflexivity|].
  split; [exact Hport|]. split; [exact Hports|]. split; [exact Hheld|].
  split; [rewrite <- Hheld; exact Hnodup | exact Hnone].
Qed.

(** X17: no session outlives the sender.  After such an [init], the
    destructor destroys each session the sender holds once, in the order
    retransmission RTCP, retransmission RTP, RTCP, RTP, and leaves
    nothing open on the network. *)
Theorem destructor_closes_every_session
    (free : Z -> bool) (cfg : Config) (s : Sender) (clientIP : string)
    (clientRtp clientRtcp : Z) (k fuel : nat) (net : Network) :
  (ENABLE_RETRANSMISSION cfg = true ->
   0 <= clientRtcp
   /\ (kRetransmissionPortOffset cfg < -1
       \/ 1 < kRetransmissionPortOffset cfg)) ->
  sessions net = [] -> 0 <= lastID net ->
  (k < fuel)%nat -> 15550 + 2 * Z.of_nat k + 2 < 2 ^ 31 ->
  (forall j, (j < k)%nat ->
     round_free free cfg clientRtcp (15550 + 2 * Z.of_nat j) = false) ->
  round_free free cfg clientRtcp (15550 + 2 * Z.of_nat k) = true ->
  exists s' net',
    init (net_ops := bookkeeping free) cfg fuel s net clientIP clientRtp
      clientRtcp TRANSPORT_UDP
    = Ok (OK, s', net')
    /\ sessions net' <> []
    /\ sessions (delete_Sender (net_ops := bookkeeping free) cfg s' net')
       = []
    /\ calls (delete_Sender (net_ops := bookkeeping free) cfg s' net')
       = calls net' ++ map Destroy (map fst (sessions net'))
    /\ NoDup (map fst (sessions net')).
Proof.
  intros Hrtcp Hs Hl Hfuel Hhi Hbusy Hfree. unfold init.
  match goal with
  | |- context [init_scan cfg fuel ?x net] => set (s0 := x)
  end.
  destruct (init_scan_first_free free cfg s0 clientIP clientRtp clientRtcp
              eq_refl Hrtcp k fuel net 15550 Hs Hl Hfuel ltac:(lia) Hhi
              Hbusy Hfree)
    as (s' & net' & Hscan & Hport & Hports & Hheld & Hnodup & Hnone).
  rewrite Hscan. cbn [bind]. rewrite Hport.
  destruct (Z.eqb_spec (15550 + 2 * Z.of_nat k) 0) as [He | _]; [lia|].
  exists s', net'. split; [reflexivity|].
  split.
  { intros Hnil. rewrite Hnil in Hports. cbn [map] in Hports.
    unfold round_ports in Hports. cbn [app rev] in Hports.
    symmetry in Hports. apply app_eq_nil in Hports.
    destruct Hports as [_ Hports]. discriminate Hports. }
  split; [apply delete_Sender_closes; exact Hheld|].
  split; [rewrite Hheld; apply delete_Sender_calls | exact Hnodup].
Qed.

(** ** Subpackets the walk steps over *)

Section Skipping.

Variable cfg : Config.

Lemma dispatch_rtcp_plain (s : Sender) (data : list byte)
    (packetType headerLength : Z) :
  packetType <> 205 \/ ENABLE_RETRANSMISSION cfg = false ->
  dispatch_rtcp cfg s data packetType headerLength = Ok (s, []).
Proof.
  intros H. unfold dispatch_rtcp.
  destruct ((200 <=? packetType) && (packetType <=? 204)); [reflexivity|].
  destruct (Z.eqb_spec packetType 205) as [He | Hne];
    destruct (ENABLE_RETRANSMISSION cfg); cbn [andb];
    try (destruct (packetType =? 206); reflexivity).
  destruct H as [H | H]; [contradiction | discriminate].
Qed.

Lemma parseRTCP_skips_plain (s : Sender) (sub rest : list byte) :
  plain_subpacket cfg sub ->
  parseRTCP cfg s (sub ++ rest) = parseRTCP cfg s rest.
Proof.
  intros (Hmin & Hv & Hnopad & Hwhole & Htype).
  assert (Hver : rtcp_version (sub ++ rest) = rtcp_version sub)
    by (unfold rtcp_version; rewrite byte_at_app by lia; reflexivity).
  assert (Hflag : rtcp_padding_flag (sub ++ rest) = rtcp_padding_flag sub)
    by (unfold rtcp_padding_flag; rewrite byte_at_app by lia; reflexivity).
  assert (Hlen : rtcp_length (sub ++ rest) = rtcp_length sub)
    by (unfold rtcp_length; rewrite !byte_at_app by lia; reflexivity).
  assert (Htyp : rtcp_packet_type (sub ++ rest) = rtcp_packet_type sub)
    by (unfold rtcp_packet_type; rewrite byte_at_app by lia; reflexivity).
  unfold parseRTCP. rewrite length_app.
  replace (List.length sub + List.length rest)%nat
    with (S (List.length sub + List.length rest - 1))%nat by lia.
  rewrite parseRTCP_loop_checked.
  - unfold rtcp_unpadded. rewrite Hflag, Hnopad, Hlen, Hwhole, Htyp.
    destruct (Z.ltb_spec
                (Z.of_nat (S (List.length sub + List.length rest - 1)))
                (Z.of_nat (List.length sub))) as [Hlt | _]; [lia|].
    rewrite dispatch_rtcp_plain by exact Htype. cbn [bind].
    rewrite Nat2Z.id, skipn_app, Nat.sub_diag, skipn_all, skipn_O,
      app_nil_l.
    replace (Z.of_nat (S (List.length sub + List.length rest - 1))
             - Z.of_nat (List.length sub))
      with (Z.of_nat (List.length rest)) by lia.
    rewrite (parseRTCP_loop_fuel cfg
               (List.length sub + List.length rest - 1)
               (List.length rest)) by lia.
    destruct (parseRTCP_loop cfg (List.length rest) s rest
                (Z.of_nat (List.length rest))) as [[[st s'] evs] | f];
      reflexivity.
  - rewrite length_app. lia.
  - congruence.
  - rewrite Hflag, Hnopad. discriminate.
Qed.

End Skipping.

(** X18: the walk of [parseRTCP] passes over every whole sub-packet of
    version 2 without padding whose type is not 205 (or of any type, when
    retransmission is not compiled in): a known type, payload feedback or
    an unknown type alike.  The result for the datagram is the result
    for what follows; a datagram made of such sub-packets only is walked
    to the end with status OK and no effect. *)
Theorem plain_subpackets_are_skipped
    (cfg : Config) (s : Sender) (subs : list (list byte))
    (rest : list byte) :
  Forall (plain_subpacket cfg) subs ->
  parseRTCP cfg s (concat subs ++ rest) = parseRTCP cfg s rest
  /\ parseRTCP cfg s (concat subs) = Ok (OK, s, []).
Proof.
  intros Hall.
  assert (Hskip : forall tail,
            parseRTCP cfg s (concat subs ++ tail) = parseRTCP cfg s tail).
  { induction Hall as [|sub subs Hsub Hall IH]; intros tail.
    - reflexivity.
    - cbn [concat]. rewrite <- app_assoc.
      rewrite (parseRTCP_skips_plain cfg s sub _ Hsub). apply IH. }
  split; [apply Hskip|].
  rewrite <- (app_nil_r (concat subs)). rewrite Hskip. reflexivity.
Qed.

(** X23: a feedback packet too short to hold a source id.  A whole
    transport-feedback sub-packet of 8 bytes makes the NACK handler read
    the source id from whatever follows it, the next sub-packet or the
    memory after the datagram.  Whatever it reads, the handler serves
    no entry, sends nothing and leaves the sender as it was, and the
    walk goes on behind the sub-packet as if it had started there. *)
Theorem short_feedback_is_walked_over
    (cfg : Config) (s : Sender) (sub rest : list byte) :
  whole_subpacket sub ->
  rtcp_packet_type sub = 205 ->
  Z.of_nat (List.length sub) < 12 ->
  (exists st, parseTSFB cfg s (sub ++ rest) (rtcp_length sub) = Ok (st, s, []))
  /\ parseRTCP cfg s (sub ++ rest) = parseRTCP cfg s rest
  /\ parseRTCP cfg s sub = Ok (OK, s, []).
Proof.
  intros Hsub Htype Hshort.
  assert (Hlen : 8 <= Z.of_nat (List.length sub)) by apply Hsub.
  assert (Hwhole : rtcp_length sub = Z.of_nat (List.length sub))
    by apply Hsub.
  assert (Hhandler : forall tail,
            exists st,
              parseTSFB cfg s (sub ++ tail) (rtcp_length sub)
              = Ok (st, s, [])).
  { intros tail. unfold parseTSFB.
    rewrite load_byte_at by (rewrite length_app; lia). cbn [bind].
    destruct (negb _); [eexists; reflexivity|].
    destruct (U32_AT_unchecked_returns cfg (sub ++ tail)) as (srcId & ->).
    cbn [bind]. destruct (negb _); [eexists; reflexivity|].
    destruct (Z.to_nat (rtcp_length sub)); cbn [parseTSFB_entries];
      replace (12 <? rtcp_length sub) with false
        by (symmetry; apply Z.ltb_ge; lia);
      cbn [bind]; eexists; reflexivity. }
  assert (Hstep : forall tail,
            parseRTCP cfg s (sub ++ tail) = parseRTCP cfg s tail).
  { intros tail. rewrite parseRTCP_whole by exact Hsub.
    unfold dispatch_rtcp. rewrite Htype.
    change ((200 <=? 205) && (205 <=? 204)) with false.
    change (205 =? 205) with true. cbn [andb].
    destruct (ENABLE_RETRANSMISSION cfg).
    - destruct (Hhandler tail) as (st & ->). cbn [bind].
      destruct (parseRTCP cfg s tail) as [[[st1 s1] e1]|]; reflexivity.
    - cbv iota. change (205 =? 206) with false. cbv iota. cbn [bind].
      destruct (parseRTCP cfg s tail) as [[[st1 s1] e1]|]; reflexivity. }
  split; [apply Hhandler|]. split; [apply Hstep|].
  rewrite <- (app_nil_r sub) at 1. rewrite Hstep. reflexivity.
Qed.

(** ** After the control channel is gone *)

Section DeadTimer.

Variable cfg : Config.
Variable kSendSRIntervalUs : Z.
Variable clock : nat -> Z.
Variable reasons : Reasons.
Context {Net : Type} {net_ops : ANetworkSession Net}.

(** Timer messages that find no RTCP session. *)
Lemma deliver_dead_timers (srMsg : AMessage) (n : nat) :
  what srMsg = kWhatSendSR ->
  forall (h : Handler) (net : Net),
    mRTCPSessionID (sender h) = 0 ->
    exists h',
      deliver_messages cfg kSendSRIntervalUs clock reasons h net
        (repeat srMsg n)
      = Ok (h', net, [])
      /\ sender h' = sender h
      /\ mNumSRsSent h' = mNumSRsSent h
      /\ ((0 < n)%nat -> mSendSRPending h' = false).
Proof.
  intros Hwhat. induction n as [|n IH]; intros h net H0;
    cbn [repeat deliver_messages].
  - exists h. repeat split. intros; lia.
  - unfold onMessageReceived. rewrite Hwhat. cbn [is_notify]. cbv iota.
    change (sender (set_mSendSRPending h false)) with (sender h).
    rewrite H0. cbn [Z.eqb bind].
    destruct (IH (set_mSendSRPending h false) net H0)
      as (h' & Hrun & Hs & Hn & Hp).
    rewrite Hrun. cbn [bind app].
    exists h'. split; [reflexivity|]. split; [exact Hs|].
    split; [exact Hn|]. intros _.
    destruct n as [|n'].
    + cbn [repeat deliver_messages] in Hrun. injection Hrun as <-.
      reflexivity.
    + apply Hp. lia.
Qed.

End DeadTimer.

(** X19: a dead timer is a no-op.  Once an error notification has taken
    the RTCP session down (the session is destroyed, its handle cleared,
    session-dead posted), the report timer messages that still arrive
    send nothing, post nothing and re-arm nothing: the whole run shows
    the one session-dead notification only. *)
Theorem dead_rtcp_session_silences_reports
    (cfg : Config) (kSendSRIntervalUs : Z) (clock : nat -> Z)
    (reasons : Reasons) (Net : Type) (net_ops : ANetworkSession Net)
    (h : Handler) (net : Net) (errMsg srMsg : AMessage)
    (err errorOccuredDuringSend : Z) (detail : string) (n : nat) :
  notifies cfg errMsg (kWhatError reasons) ->
  findInt32 errMsg "sessionID" = Some (mRTCPSessionID (sender h)) ->
  findInt32 errMsg "err" = Some err ->
  findInt32 errMsg "send" = Some errorOccuredDuringSend ->
  findString errMsg "detail" = Some detail ->
  is_rtp_notify cfg (what errMsg) = false \/ errorOccuredDuringSend <> 0 ->
  mRTCPSessionID (sender h) <> mRTPSessionID (sender h) ->
  what srMsg = kWhatSendSR ->
  exists h',
    deliver_messages cfg kSendSRIntervalUs clock reasons h net
      (errMsg :: repeat srMsg n)
    = Ok (h', destroySession net (mRTCPSessionID (sender h)),
          [Notify kWhatSessionDead])
    /\ mRTCPSessionID (sender h') = 0
    /\ mRTPSessionID (sender h') = mRTPSessionID (sender h)
    /\ mNumSRsSent h' = mNumSRsSent h
    /\ ((0 < n)%nat -> mSendSRPending h' = false).
Proof.
  intros Hn Hsid Herr Hsend Hdetail Hsurf Hne Hwhat.
  cbn [deliver_messages].
  rewrite (onMessageReceived_notify cfg kSendSRIntervalUs clock reasons
             h net errMsg _ Hn).
  rewrite Z.eqb_refl. unfold onError.
  rewrite Hsid, Herr, Hsend, Hdetail. cbn [CHECK_found bind].
  assert (Hnot : is_rtp_notify cfg (what errMsg)
                 && (errorOccuredDuringSend =? 0) = false).
  { destruct Hsurf as [-> | Hs]; [reflexivity|].
    destruct (Z.eqb_spec errorOccuredDuringSend 0); [contradiction|].
    apply andb_false_r. }
  rewrite Hnot.
  destruct (Z.eqb_spec (mRTCPSessionID (sender h)) (mRTPSessionID (sender h)))
    as [He | _]; [contradiction|].
  rewrite Z.eqb_refl. cbn [bind].
  destruct (deliver_dead_timers cfg kSendSRIntervalUs clock reasons srMsg n
              Hwhat
              (set_sender h (set_mRTCPSessionID (sender h) 0))
              (destroySession net (mRTCPSessionID (sender h))) eq_refl)
    as (h' & Hrun & Hs & Hcount & Hp).
  rewrite Hrun. cbn [bind app].
  exists h'. split; [reflexivity|]. rewrite Hs.
  split; [reflexivity|]. split; [reflexivity|].
  split; [exact Hcount | exact Hp].
Qed.

Lemma U16_AT_be16 (v : Z) (pre post : list byte) (i : Z) :
  0 <= v < 65536 ->
  Z.of_nat (List.length pre) = i ->
  U16_AT (pre ++ be16 v ++ post) i = Ok v.
Proof.
  intros Hv Hi. unfold U16_AT.
  assert (Hlen : Z.of_nat (List.length (pre ++ be16 v ++ post))
                 = i + 2 + Z.of_nat (List.length post)).
  { rewrite !length_app. unfold be16. cbn [List.length]. lia. }
  rewrite !load_ok by lia. cbn [bind].
  replace (Z.to_nat i) with (List.length pre + 0)%nat by lia.
  replace (Z.to_nat (i + 1)) with (List.length pre + 1)%nat by lia.
  rewrite !app_nth2_plus. unfold be16. cbn [nth app].
  rewrite !unsigned_of_Z_mod. f_equal.
  rewrite lor_shiftl_8 by (apply Z.mod_pos_bound; lia).
  pose proof (Z.div_mod v 256 ltac:(lia)) as Hdm.
  assert (0 <= v / 256 < 256).
  { split; [apply Z.div_pos; lia|]. apply Z.div_lt_upper_bound; lia. }
  change (2 ^ 8) with 256.
  rewrite (Z.mod_small (v / 256)) by lia. lia.
Qed.

(** The two bytes at [i] spell the number [U16_AT] reads there. *)
Lemma be16_of_U16_AT (h2 h3 : byte) :
  be16 (Z.lor (Z.shiftl (byte.unsigned h2) 8) (byte.unsigned h3))
  = [h2; h3].
Proof.
  pose proof (byte.unsigned_range h2) as R2.
  pose proof (byte.unsigned_range h3) as R3.
  rewrite lor_shiftl_8 by lia. unfold be16.
  replace ((256 * byte.unsigned h2 + byte.unsigned h3) / 256)
    with (byte.unsigned h2).
  2: { symmetry. rewrite Z.mul_comm, Z.div_add_l by lia.
       rewrite Z.div_small by lia. lia. }
  f_equal; [apply byte.of_Z_unsigned|]. f_equal.
  rewrite <- (byte.of_Z_unsigned h3) at 2.
  apply byte_of_Z_mod.
  change (2 ^ 8) with 256.
  rewrite Z.add_comm, Z.mul_comm, Z.mod_add by lia. reflexivity.
Qed.

Lemma be16_reads (h0 h1 h2 h3 : byte) (rest : list byte) (v : Z) :
  U16_AT (h0 :: h1 :: h2 :: h3 :: rest) 2 = Ok v -> be16 v = [h2; h3].
Proof.
  unfold U16_AT. rewrite !load_ok by (cbn [List.length]; lia).
  change (Z.to_nat 2) with 2%nat. change (Z.to_nat (2 + 1)) with 3%nat.
  cbn [nth bind]. intros H. apply Ok_inj in H. rewrite <- H.
  apply be16_of_U16_AT.
Qed.

(** X20: a retransmission can be undone.  For a packet held in the
    history, the retransmission packet is two bytes longer, carries the
    retransmission counter in the header and the original sequence
    number in front of the payload; putting that number back into the
    header and taking it out of the payload gives the packet as it was
    sent, byte for byte. *)
Theorem retransmission_restores_the_packet (r : Z) (b : ABuffer) :
  entry_ok b = true ->
  exists frame,
    retransRTP_of r b = Ok frame
    /\ Z.of_nat (List.length frame) = size b + 2
    /\ U16_AT frame 2 = Ok (r mod 65536)
    /\ U16_AT frame 12 = Ok (bufferSeqNo_of b)
    /\ undo_retransmission frame = contents b.
Proof.
  intros Hok. apply entry_ok_iff in Hok.
  destruct Hok as (Hb & Hsz & Hseq).
  apply buffer_ok_iff in Hb. destruct Hb as (Hcap & Hlen).
  assert (Hread : 12 <= size b <= Z.of_nat (List.length (mData b)))
    by (unfold capacity in *; lia).
  exists (spec_retrans_frame r b).
  split; [apply retransRTP_of_frame; exact Hread|].
  unfold spec_retrans_frame, undo_retransmission.
  assert (Hp : Z.of_nat (List.length (contents b)) = size b).
  { unfold contents. rewrite length_firstn. lia. }
  assert (Hseq' : U16_AT (contents b) 2 = Ok (bufferSeqNo_of b)).
  { rewrite <- Hseq. unfold U16_AT.
    assert (Hpre : firstn (List.length (contents b)) (mData b) = contents b).
    { unfold contents. rewrite length_firstn. f_equal. lia. }
    rewrite (load_prefix (mData b) (contents b) 2 Hpre) by lia.
    rewrite (load_prefix (mData b) (contents b) (2 + 1) Hpre) by lia.
    reflexivity. }
  remember (contents b) as p eqn:Ep. clear Ep.
  destruct p as [|h0 p];
    [exfalso; cbn [List.length] in Hp; clear - Hp Hsz; lia|].
  destruct p as [|h1 p];
    [exfalso; cbn [List.length] in Hp; clear - Hp Hsz; lia|].
  destruct p as [|h2 p];
    [exfalso; cbn [List.length] in Hp; clear - Hp Hsz; lia|].
  destruct p as [|h3 p];
    [exfalso; cbn [List.length] in Hp; clear - Hp Hsz; lia|].
  destruct p as [|h4 p];
    [exfalso; cbn [List.length] in Hp; clear - Hp Hsz; lia|].
  destruct p as [|h5 p];
    [exfalso; cbn [List.length] in Hp; clear - Hp Hsz; lia|].
  destruct p as [|h6 p];
    [exfalso; cbn [List.length] in Hp; clear - Hp Hsz; lia|].
  destruct p as [|h7 p];
    [exfalso; cbn [List.length] in Hp; clear - Hp Hsz; lia|].
  destruct p as [|h8 p];
    [exfalso; cbn [List.length] in Hp; clear - Hp Hsz; lia|].
  destruct p as [|h9 p];
    [exfalso; cbn [List.length] in Hp; clear - Hp Hsz; lia|].
  destruct p as [|h10 p];
    [exfalso; cbn [List.length] in Hp; clear - Hp Hsz; lia|].
  destruct p as [|h11 p];
    [exfalso; cbn [List.length] in Hp; clear - Hp Hsz; lia|].
  apply be16_reads in Hseq'.
  cbn [firstn skipn app].
  pose proof (bufferSeqNo_of_range b) as Hrange.
  split.
  { unfold be16. cbn [app List.length] in *. lia. }
  split.
  { apply (U16_AT_be16 (r mod 65536) [h0; h1]);
      [apply Z.mod_pos_bound; lia | reflexivity]. }
  split.
  { change (h0 :: h1 :: be16 (r mod 65536)
              ++ h4 :: h5 :: h6 :: h7 :: h8 :: h9 :: h10 :: h11
                   :: be16 (bufferSeqNo_of b) ++ p)
      with (([h0; h1] ++ be16 (r mod 65536)
             ++ [h4; h5; h6; h7; h8; h9; h10; h11])
            ++ be16 (bufferSeqNo_of b) ++ p).
    apply U16_AT_be16; [exact Hrange|].
    rewrite !length_app. reflexivity. }
  rewrite Hseq'. unfold be16. cbn [firstn skipn app]. reflexivity.
Qed.

Lemma U16_AT_inside (mem : list byte) (i : Z) :
  0 <= i -> i + 1 < Z.of_nat (List.length mem) ->
  exists v, U16_AT mem i = Ok v.
Proof.
  intros H0 H1. unfold U16_AT. rewrite !load_ok by lia. cbn [bind].
  eexists. reflexivity.
Qed.

Lemma set_retransSeqNo_same (s : Sender) :
  set_mRTPRetransmissionSeqNo s (mRTPRetransmissionSeqNo s) = s.
Proof. destruct s; reflexivity. Qed.

Section AbsentPackets.

Variable cfg : Config.

(** The entries of a NACK none of which asks for a packet of the
    history. *)
Lemma parseTSFB_entries_none (s : Sender) (data : list byte) (sz : Z) :
  history_inv cfg s -> kMaxHistoryLength cfg <= 65536 ->
  sz <= Z.of_nat (List.length data) ->
  forall (fuel : nat) (i : Z),
    0 <= i -> (sz - i) mod 4 = 0 -> sz - i <= Z.of_nat fuel ->
    (forall seqNo blp,
        In (Ok seqNo, Ok blp) (nack_entries fuel data sz i) ->
        Forall (fun b => nack_match seqNo blp b = false) (mHistory s)) ->
    parseTSFB_entries fuel s data sz i = Ok (s, []).
Proof.
  intros Hinv Hmax Hsz.
  induction fuel as [|fuel IH]; intros i Hi Hmod Hfuel Hnone;
    cbn [parseTSFB_entries].
  - destruct (Z.ltb_spec i sz); [lia | reflexivity].
  - destruct (Z.ltb_spec i sz) as [Hlt | Hge]; [|reflexivity].
    assert (Hfour : 4 <= sz - i).
    { destruct (Z_lt_le_dec (sz - i) 4) as [Hs | Hs]; [|exact Hs].
      rewrite Z.mod_small in Hmod by lia. lia. }
    destruct (U16_AT_inside data i ltac:(lia) ltac:(lia)) as (seqNo & Hseq).
    destruct (U16_AT_inside data (i + 2) ltac:(lia) ltac:(lia))
      as (blp & Hblp).
    rewrite Hseq, Hblp. cbn [bind].
    assert (Hthis : Forall (fun b => nack_match seqNo blp b = false)
                      (mHistory s)).
    { apply Hnone. cbn [nack_entries].
      destruct (Z.ltb_spec i sz); [|lia].
      left. rewrite Hseq, Hblp. reflexivity. }
    destruct (scan_history_spec seqNo (mHistory s) s blp false
                (history_readable cfg s Hinv)
                (history_NoDup cfg s Hinv Hmax)
                (U16_AT_range _ _ _ Hblp)
                ltac:(discriminate))
      as (s' & blp' & Hscan & Hs').
    rewrite (filter_none (nack_match seqNo blp) (mHistory s)) in Hscan, Hs'
      by (intros x Hx; rewrite Forall_forall in Hthis; apply Hthis, Hx).
    cbn [spec_retransmissions List.length bump] in Hscan, Hs'.
    rewrite set_retransSeqNo_same in Hs'. subst s'.
    rewrite Hscan. cbn [bind].
    rewrite IH.
    + reflexivity.
    + lia.
    + replace (sz - (i + 4)) with (sz - i + (-1) * 4) by lia.
      rewrite Z.mod_add by lia. exact Hmod.
    + lia.
    + intros seqNo2 blp2 Hin. apply Hnone. cbn [nack_entries].
      destruct (Z.ltb_spec i sz); [|lia]. right. exact Hin.
Qed.

End AbsentPackets.

(** X21: a NACK for packets the history does not hold is dropped in
    silence.  A generic NACK for this source, with any number of
    entries, none of which (by its sequence number or by a bit of its
    bitmask) names a packet of the history, returns OK, sends nothing and
    leaves the sender as it was. *)
Theorem nack_for_packets_not_held_is_dropped
    (cfg : Config) (s : Sender) (data : list byte) (sz b0 : Z) :
  history_inv cfg s -> kMaxHistoryLength cfg <= 65536 ->
  load data 0 = Ok b0 -> Z.land b0 0x1f = 1 ->
  U32_AT data 8 = Ok (kSourceID cfg) ->
  12 <= sz <= Z.of_nat (List.length data) -> (sz - 12) mod 4 = 0 ->
  (forall seqNo blp,
      In (Ok seqNo, Ok blp) (nack_entries (Z.to_nat sz) data sz 12) ->
      Forall (fun b => nack_match seqNo blp b = false) (mHistory s)) ->
  parseTSFB cfg s data sz = Ok (OK, s, [])
  /\ List.length (nack_entries (Z.to_nat sz) data sz 12)
     = Z.to_nat ((sz - 12) / 4).
Proof.
  intros Hinv Hmax H0 Hfmt Hsrc Hsz Hmod Hnone. split.
  - unfold parseTSFB. rewrite H0. cbn [bind]. rewrite Hfmt.
    cbn [Z.eqb Pos.eqb negb].
    rewrite (U32_AT_unchecked cfg _ _ Hsrc). cbn [bind].
    rewrite Z.eqb_refl. cbn [negb].
    rewrite (parseTSFB_entries_none cfg s data sz Hinv Hmax ltac:(lia)
               (Z.to_nat sz) 12 ltac:(lia) Hmod ltac:(lia) Hnone).
    reflexivity.
  - clear Hnone.
    assert (Hgen : forall (fuel : nat) (i : Z),
              0 <= i <= sz -> (sz - i) mod 4 = 0 ->
              sz - i <= Z.of_nat fuel ->
              List.length (nack_entries fuel data sz i)
              = Z.to_nat ((sz - i) / 4)).
    { induction fuel as [|fuel IH]; intros i Hi Hm Hf; cbn [nack_entries].
      - replace (sz - i) with 0 by lia. reflexivity.
      - destruct (Z.ltb_spec i sz) as [Hlt | Hge].
        + assert (Hfour : 4 <= sz - i).
          { destruct (Z_lt_le_dec (sz - i) 4) as [Hs | Hs]; [|exact Hs].
            rewrite Z.mod_small in Hm by lia. lia. }
          cbn [List.length]. rewrite IH.
          * replace (sz - i) with (sz - (i + 4) + 1 * 4) by lia.
            rewrite Z.div_add by lia.
            assert (0 <= (sz - (i + 4)) / 4) by (apply Z.div_pos; lia).
            lia.
          * lia.
          * replace (sz - (i + 4)) with (sz - i + (-1) * 4) by lia.
            rewrite Z.mod_add by lia. exact Hm.
          * lia.
        + replace (sz - i) with 0 by lia. reflexivity. }
    apply Hgen; lia.
Qed.

(** ** What the history holds *)

Lemma last_n_short {A : Type} (n : Z) (l : list A) :
  Z.of_nat (List.length l) <= n -> last_n n l = l.
Proof.
  intros H. unfold last_n.
  replace (List.length l - Z.to_nat n)%nat with 0%nat by lia.
  reflexivity.
Qed.

Lemma last_n_app {A : Type} (n : Z) (a b : list A) :
  last_n n (last_n n a ++ b) = last_n n (a ++ b).
Proof.
  unfold last_n. rewrite !length_app, length_skipn.
  set (k := Z.to_nat n).
  destruct (Nat.le_gt_cases (List.length a) k) as [Hle | Hgt].
  - replace (List.length a - k)%nat with 0%nat by lia.
    rewrite Nat.sub_0_r. reflexivity.
  - replace (List.length a - (List.length a - k) + List.length b - k)%nat
      with (List.length b) by lia.
    replace (List.length a + List.length b - k)%nat
      with (List.length b + (List.length a - k))%nat by lia.
    rewrite <- skipn_skipn. f_equal.
    rewrite skipn_app.
    replace (List.length a - k - List.length a)%nat with 0%nat by lia.
    reflexivity.
Qed.

Section LastPackets.

Variable cfg : Config.
Variable clock : nat -> Z.

Hypothesis Hen : ENABLE_RETRANSMISSION cfg = true.

Lemma appendTSData_history (s s' : Sender) (data : list byte) (sz n : Z)
    (disc flush : bool) (evs : list Event) :
  sender_inv cfg s ->
  appendTSData cfg clock s data sz disc flush = Ok (n, s', evs) ->
  map contents (mHistory s')
  = last_n (kMaxHistoryLength cfg)
      (map contents (mHistory s) ++ map event_data evs).
Proof.
  intros (Hq & Hh & _) Happ.
  destruct (appendTSData_returns cfg clock _ _ _ _ _ _ _ _ Happ)
    as (-> & Hfit & Hdata).
  pose proof Hh as Hh'. apply history_inv_iff in Hh'.
  destruct Hh' as (_ & Hlen & Hmax & _).
  destruct (Bool.bool_dec flush true) as [Hf | Hf];
    [| destruct (Z.eq_dec (size (mTSQueue s) + 188) (capacity (mTSQueue s)))
         as [Hc | Hc]].
  1, 2:
    rewrite appendTSData_flush in Happ by (solve [assumption | auto]);
    apply Ok_triple_inv in Happ; destruct Happ as (_ & <- & <-);
    rewrite (flush_queue_retains cfg clock _ disc Hen);
    cbn [mHistory set_mTSQueue];
    destruct (retain_after_stamp cfg clock s data disc Hq Hh Hfit Hdata)
      as (_ & Hfull & Hroom);
    cbn [map];
    destruct (rtp_payload_rtp_event s
                (contents (stamped cfg clock s data disc))) as (_ & ->);
    change (contents (stamped cfg clock s data disc))
      with (contents (retained cfg clock s data disc));
    replace (map contents (mHistory s)
             ++ [contents (retained cfg clock s data disc)])
      with (map contents (mHistory s ++ [retained cfg clock s data disc]))
      by (rewrite map_app; reflexivity);
    (destruct (Z_lt_le_dec (kMaxHistoryLength cfg) (mHistoryLength s + 1))
       as [Hover | Hunder];
     [ rewrite (Hfull Hover); cbn [map]; unfold last_n;
       cbn [List.length]; rewrite length_map;
       assert (Hl : List.length
                      (mHistory
                         (retain_in_history cfg
                            (fst (stamp_queue cfg clock
                                    (set_mTSQueue s (appended s data))
                                    disc))))
                    = List.length (mHistory s))
         by (apply (f_equal (@List.length ABuffer)) in Hfull;
             [ rewrite length_app in Hfull; cbn [List.length] in Hfull; lia
             | exact Hover ]);
       replace (S (List.length _) - Z.to_nat (kMaxHistoryLength cfg))%nat
         with 1%nat by lia;
       reflexivity
     | destruct (Hroom Hunder) as (-> & _);
       rewrite last_n_short;
       [ reflexivity
       | rewrite length_map, length_app; cbn [List.length]; lia ] ]).
  destruct flush; [congruence|].
  rewrite appendTSData_no_flush in Happ by assumption.
  apply Ok_triple_inv in Happ. destruct Happ as (_ & <- & <-).
  cbn [mHistory set_mTSQueue map]. rewrite app_nil_r.
  rewrite last_n_short; [reflexivity|]. rewrite length_map. lia.
Qed.

Lemma onQueuePackets_loop_history (packets : list byte) :
  forall (fuel : nat) (s s' : Sender) (offset : Z) (evs : list Event),
    sender_inv cfg s ->
    onQueuePackets_loop cfg clock fuel s packets offset = Ok (s', evs) ->
    sender_inv cfg s'
    /\ map contents (mHistory s')
       = last_n (kMaxHistoryLength cfg)
           (map contents (mHistory s) ++ map event_data evs).
Proof.
  induction fuel as [|fuel IH]; intros s s' offset evs Hinv H;
    cbn [onQueuePackets_loop] in H;
    destruct (offset <? Z.of_nat (List.length packets));
    try discriminate H.
  1, 3:
    injection H as <- <-; split; [exact Hinv|];
    cbn [map]; rewrite app_nil_r; rewrite last_n_short; [reflexivity|];
    rewrite length_map;
    destruct Hinv as (_ & Hh & _); apply history_inv_iff in Hh; lia.
  apply bind_ok in H. destruct H as (((n1 & s1) & e1) & Happ & H).
  apply bind_ok in H. destruct H as ((s2 & e2) & Hloop & H).
  injection H as <- <-.
  pose proof (sender_inv_appendTSData cfg clock _ _ _ _ _ _ _ _ Hinv Happ)
    as Hinv1.
  destruct (IH _ _ _ _ Hinv1 Hloop) as (Hinv2 & H2).
  split; [exact Hinv2|].
  rewrite H2, (appendTSData_history _ _ _ _ _ _ _ _ Hinv Happ).
  rewrite last_n_app, map_app, app_assoc. reflexivity.
Qed.

Lemma deliver_batches_history (batches : list (list byte)) :
  forall (s s' : Sender) (evs : list Event),
    sender_inv cfg s ->
    deliver_batches cfg clock s batches = Ok (s', evs) ->
    sender_inv cfg s'
    /\ map contents (mHistory s')
       = last_n (kMaxHistoryLength cfg)
           (map contents (mHistory s) ++ map event_data evs).
Proof.
  induction batches as [|packets rest IH]; intros s s' evs Hinv H;
    cbn [deliver_batches] in H.
  - injection H as <- <-. split; [exact Hinv|].
    cbn [map]. rewrite app_nil_r. rewrite last_n_short; [reflexivity|].
    rewrite length_map.
    destruct Hinv as (_ & Hh & _). apply history_inv_iff in Hh. lia.
  - apply bind_ok in H. destruct H as ((s1 & e1) & Hq & H).
    apply bind_ok in H. destruct H as ((s2 & e2) & Hrest & H).
    injection H as <- <-.
    unfold onQueuePackets, GetNowUs in Hq.
    assert (Hinv0 : sender_inv cfg (set_clockReads s (S (clockReads s))))
      by exact Hinv.
    destruct (onQueuePackets_loop_history _ _ _ _ _ _ Hinv0 Hq)
      as (Hinv1 & H1).
    destruct (IH _ _ _ Hinv1 Hrest) as (Hinv2 & H2).
    split; [exact Hinv2|].
    rewrite H2, H1. cbn [mHistory set_clockReads].
    rewrite last_n_app, map_app, app_assoc. reflexivity.
Qed.

End LastPackets.

(** X22: the history holds the last packets sent.  With retransmission
    compiled in, after any batches the history is, oldest first, the last
    [kMaxHistoryLength] of the packets it held before followed by the
    packets sent since, each byte for byte as it went out; from the
    constructor on it is the last [kMaxHistoryLength] packets sent. *)
Theorem history_holds_the_last_packets_sent
    (cfg : Config) (clock : nat -> Z) (s : Sender)
    (batches : list (list byte)) :
  ENABLE_RETRANSMISSION cfg = true ->
  sender_inv cfg s -> queue_idle s ->
  Forall (fun packets => Z.of_nat (List.length packets) mod 188 = 0)
    batches ->
  exists s' evs,
    deliver_batches cfg clock s batches = Ok (s', evs)
    /\ map contents (mHistory s')
       = last_n (kMaxHistoryLength cfg)
           (map contents (mHistory s) ++ map event_data evs)
    /\ (mHistory s = [] ->
        map contents (mHistory s')
        = last_n (kMaxHistoryLength cfg) (map event_data evs))
    /\ Z.of_nat (List.length (mHistory s')) <= kMaxHistoryLength cfg.
Proof.
  intros Hen Hinv Hidle Hall.
  destruct Hinv as (Hq & Hh & Hoff).
  destruct (deliver_batches_run cfg clock batches s Hq Hidle Hall)
    as (s' & evs & Hrun & _).
  destruct (deliver_batches_history cfg clock Hen batches s s' evs
              (conj Hq (conj Hh Hoff)) Hrun) as ((_ & Hh' & _) & Hhist).
  exists s', evs. split; [exact Hrun|]. split; [exact Hhist|].
  split.
  - intros Hnil. rewrite Hhist, Hnil. reflexivity.
  - apply history_inv_iff in Hh'. lia.
Qed.

(** ** The theorems at sample inputs *)

Lemma appendTSData_flush_policy_witness :
  queue_inv new_Sender
  /\ size (mTSQueue new_Sender) + 188 <= capacity (mTSQueue new_Sender)
  /\ 188 <= Z.of_nat (List.length ts_packet)
  /\ exists s' evs,
       appendTSData cfg_plain sample_clock new_Sender ts_packet 188 true false
       = Ok (188, s', evs)
       /\ queue_inv s'
       /\ size (mTSQueue s') <= capacity (mTSQueue s').
Proof.
  assert (H1 : queue_inv new_Sender) by by_evaluation.
  assert (H2 : size (mTSQueue new_Sender) + 188
               <= capacity (mTSQueue new_Sender)) by by_evaluation.
  assert (H3 : 188 <= Z.of_nat (List.length ts_packet)) by by_evaluation.
  split; [exact H1|]. split; [exact H2|]. split; [exact H3|].
  destruct (appendTSData_flush_policy cfg_plain sample_clock new_Sender
              ts_packet true false H1 H2 H3)
    as (s' & evs & Happ & _ & _ & _ & Hinv & _ & _ & Hle & _).
  exists s', evs. split; [exact Happ|]. split; [exact Hinv | exact Hle].
Defined.

Lemma flush_stamps_rtp_header_witness :
  queue_inv new_Sender
  /\ size (mTSQueue new_Sender) + 188 <= capacity (mTSQueue new_Sender)
  /\ 188 <= Z.of_nat (List.length ts_packet)
  /\ exists s' packet,
       appendTSData cfg_plain sample_clock new_Sender ts_packet 188 true true
       = Ok (188, s', [rtp_event new_Sender packet])
       /\ load packet 0 = Ok 0x80
       /\ U16_AT packet 2 = Ok (mRTPSeqNo new_Sender mod 2 ^ 16)
       /\ mRTPSeqNo s' = to_uint32 (mRTPSeqNo new_Sender + 1).
Proof.
  assert (H1 : queue_inv new_Sender) by by_evaluation.
  assert (H2 : size (mTSQueue new_Sender) + 188
               <= capacity (mTSQueue new_Sender)) by by_evaluation.
  assert (H3 : 188 <= Z.of_nat (List.length ts_packet)) by by_evaluation.
  split; [exact H1|]. split; [exact H2|]. split; [exact H3|].
  destruct (flush_stamps_rtp_header cfg_plain sample_clock new_Sender
              ts_packet true true H1 H2 H3 (or_introl eq_refl))
    as (s' & packet & Happ & _ & _ & H0 & _ & Hseq & _ & _ & _ & Hnext & _).
  exists s', packet. auto.
Defined.

Lemma rtp_sequence_numbers_consecutive_witness :
  queue_inv new_Sender /\ queue_idle new_Sender
  /\ Forall (fun packets => Z.of_nat (List.length packets) mod 188 = 0)
       [ts_packet; ts_packet ++ ts_packet]
  /\ exists s' evs,
       deliver_batches cfg_plain sample_clock new_Sender
         [ts_packet; ts_packet ++ ts_packet] = Ok (s', evs)
       /\ forall j d, (S j < List.length evs)%nat ->
            exists a b,
              rtp_seq_of (nth j evs d) = Ok a
              /\ rtp_seq_of (nth (S j) evs d) = Ok b
              /\ b = (a + 1) mod 65536.
Proof.
  assert (H1 : queue_inv new_Sender) by by_evaluation.
  assert (H2 : queue_idle new_Sender) by by_evaluation.
  assert (H3 : Forall (fun packets => Z.of_nat (List.length packets) mod 188 = 0)
                 [ts_packet; ts_packet ++ ts_packet])
    by (repeat constructor; by_evaluation).
  split; [exact H1|]. split; [exact H2|]. split; [exact H3|].
  destruct (rtp_sequence_numbers_consecutive cfg_plain sample_clock new_Sender
              [ts_packet; ts_packet ++ ts_packet] H1 H2 H3)
    as (s' & evs & Hrun & _ & Hstep).
  exists s', evs. split; [exact Hrun | exact Hstep].
Defined.


Lemma unsupported_version_stops_unsupported_nack_skipped_witness :
  8 <= Z.of_nat (List.length rr_version0)
  /\ rtcp_version rr_version0 <> 2
  /\ parseRTCP cfg_retransmit new_Sender (rr_version0 ++ nack_for 1 1)
     = Ok (ERROR_UNSUPPORTED, new_Sender, [])
  /\ 8 <= Z.of_nat (List.length tsfb_format2)
  /\ rtcp_version tsfb_format2 = 2
  /\ rtcp_padding_flag tsfb_format2 = false
  /\ rtcp_length tsfb_format2 = Z.of_nat (List.length tsfb_format2)
  /\ rtcp_packet_type tsfb_format2 = 205
  /\ Z.land (byte_at tsfb_format2 0) 31 <> 1
  /\ parseRTCP cfg_retransmit new_Sender (tsfb_format2 ++ rr_plain)
     = parseRTCP cfg_retransmit new_Sender rr_plain.
Proof.
  assert (H1 : 8 <= Z.of_nat (List.length rr_version0)) by by_evaluation.
  assert (H2 : rtcp_version rr_version0 <> 2) by by_evaluation.
  assert (H3 : 8 <= Z.of_nat (List.length tsfb_format2)) by by_evaluation.
  assert (H4 : rtcp_version tsfb_format2 = 2) by by_evaluation.
  assert (H5 : rtcp_padding_flag tsfb_format2 = false) by by_evaluation.
  assert (H6 : rtcp_length tsfb_format2
               = Z.of_nat (List.length tsfb_format2)) by by_evaluation.
  assert (H7 : rtcp_packet_type tsfb_format2 = 205) by by_evaluation.
  assert (H8 : Z.land (byte_at tsfb_format2 0) 31 <> 1) by by_evaluation.
  split; [exact H1|]. split; [exact H2|].
  split.
  { exact (proj1 (unsupported_version_stops_unsupported_nack_skipped
                    cfg_retransmit new_Sender rr_version0 (nack_for 1 1) H1)
             H2). }
  split; [exact H3|]. split; [exact H4|]. split; [exact H5|].
  split; [exact H6|]. split; [exact H7|]. split; [exact H8|].
  exact (proj2 (proj2 (unsupported_version_stops_unsupported_nack_skipped
                         cfg_retransmit new_Sender tsfb_format2 rr_plain H3)
                  H4 H5 H6 H7 H8)).
Defined.

Lemma nack_entry_retransmits_witness :
  history_inv cfg_retransmit (sender_after cfg_retransmit 3)
  /\ kMaxHistoryLength cfg_retransmit <= 65536
  /\ nack_with cfg_retransmit (nack_for_two 0 3 1 0) [(0, 3); (1, 0)]
  /\ In 1 (map bufferSeqNo_of (mHistory (sender_after cfg_retransmit 3)))
  /\ exists s',
       parseTSFB cfg_retransmit (sender_after cfg_retransmit 3)
         (nack_for_two 0 3 1 0)
         (12 + 4 * Z.of_nat (List.length [(0, 3); (1, 0)]))
       = Ok (OK, s',
             concat
               (spec_nack_answers
                  (mRTPRetransmissionSessionID
                     (sender_after cfg_retransmit 3))
                  (mRTPRetransmissionSeqNo (sender_after cfg_retransmit 3))
                  (mHistory (sender_after cfg_retransmit 3))
                  [(0, 3); (1, 0)]))
       /\ List.length
            (nth 1
               (spec_nack_answers
                  (mRTPRetransmissionSessionID
                     (sender_after cfg_retransmit 3))
                  (mRTPRetransmissionSeqNo (sender_after cfg_retransmit 3))
                  (mHistory (sender_after cfg_retransmit 3))
                  [(0, 3); (1, 0)]) [])
          = 1%nat.
Proof.
  assert (H1 : history_inv cfg_retransmit (sender_after cfg_retransmit 3))
    by by_evaluation.
  assert (H2 : kMaxHistoryLength cfg_retransmit <= 65536) by by_evaluation.
  assert (H3 : nack_with cfg_retransmit (nack_for_two 0 3 1 0)
                 [(0, 3); (1, 0)]).
  { split; [vm_compute; reflexivity|]. split; [vm_compute; reflexivity|].
    intros j seqNo blp Hj.
    destruct j as [|[|j]]; cbn [nth_error] in Hj.
    - injection Hj as <- <-. split; vm_compute; reflexivity.
    - injection Hj as <- <-. split; vm_compute; reflexivity.
    - destruct j; discriminate Hj. }
  assert (H4 : In 1 (map bufferSeqNo_of
                       (mHistory (sender_after cfg_retransmit 3))))
    by (vm_compute; right; left; reflexivity).
  split; [exact H1|]. split; [exact H2|]. split; [exact H3|].
  split; [exact H4|].
  destruct (nack_entry_retransmits cfg_retransmit
              (sender_after cfg_retransmit 3) [(0, 3); (1, 0)]
              (nack_for_two 0 3 1 0) H1 H2 H3)
    as (s' & Hr & _ & _ & Hentry).
  exists s'. split; [exact Hr|].
  destruct (Hentry 1%nat 1 0 eq_refl H4) as (Hlen & _).
  rewrite Hlen. vm_compute. reflexivity.
Defined.

Lemma history_is_bounded_and_recycled_witness :
  ENABLE_RETRANSMISSION cfg_small = true
  /\ kMaxHistoryLength cfg_small < 65536
  /\ queue_inv (sender_after cfg_small 3)
  /\ history_inv cfg_small (sender_after cfg_small 3)
  /\ size (mTSQueue (sender_after cfg_small 3)) + 188
     <= capacity (mTSQueue (sender_after cfg_small 3))
  /\ 188 <= Z.of_nat (List.length ts_packet)
  /\ kMaxHistoryLength cfg_small
     < Z.of_nat (List.length (mHistory (sender_after cfg_small 3))) + 1
  /\ exists s',
       appendTSData cfg_small sample_clock (sender_after cfg_small 3)
         ts_packet 188 true true
       = Ok (188, s',
             [rtp_event (sender_after cfg_small 3)
                (contents (retained cfg_small sample_clock
                             (sender_after cfg_small 3) ts_packet true))])
       /\ Z.of_nat (List.length (mHistory s')) <= kMaxHistoryLength cfg_small
       /\ exists oldest,
            mHistory (sender_after cfg_small 3)
              ++ [retained cfg_small sample_clock
                    (sender_after cfg_small 3) ts_packet true]
            = oldest :: mHistory s'
            /\ mTSQueue s' = setRange0 oldest 12.
Proof.
  assert (H1 : ENABLE_RETRANSMISSION cfg_small = true) by reflexivity.
  assert (H2 : kMaxHistoryLength cfg_small < 65536) by by_evaluation.
  assert (H3 : queue_inv (sender_after cfg_small 3)) by by_evaluation.
  assert (H4 : history_inv cfg_small (sender_after cfg_small 3))
    by by_evaluation.
  assert (H5 : size (mTSQueue (sender_after cfg_small 3)) + 188
               <= capacity (mTSQueue (sender_after cfg_small 3)))
    by by_evaluation.
  assert (H6 : 188 <= Z.of_nat (List.length ts_packet)) by by_evaluation.
  assert (H7 : kMaxHistoryLength cfg_small
               < Z.of_nat (List.length
                             (mHistory (sender_after cfg_small 3))) + 1)
    by by_evaluation.
  split; [exact H1|]. split; [exact H2|]. split; [exact H3|].
  split; [exact H4|]. split; [exact H5|]. split; [exact H6|].
  split; [exact H7|].
  destruct (history_is_bounded_and_recycled cfg_small sample_clock
              (sender_after cfg_small 3) ts_packet true true
              H1 H2 H3 H4 H5 H6 (or_introl eq_refl))
    as (s' & Happ & _ & Hlen & _ & Hev & _).
  destruct (Hev H7) as (oldest & Hold & Hq & _).
  exists s'. split; [exact Happ|]. split; [exact Hlen|].
  exists oldest. split; [exact Hold | exact Hq].
Defined.

Lemma queuePackets_schedule_witness :
  mFirstOutputBufferReadyTimeUs new_Sender < 0
  /\ 0 <= 0
  /\ no_overflow sample_clock 0
       (to_int64 (sample_clock (clockReads new_Sender)))
       (S (clockReads new_Sender)) [(33000, ts_packet)]
  /\ snd (queue_calls sample_clock new_Sender
            [(0, ts_packet); (33000, ts_packet)])
     = [ PostQueuePackets 0 0 1000000 0 ts_packet;
         PostQueuePackets 32000 33000 1033000 32000 ts_packet ].
Proof.
  assert (H1 : mFirstOutputBufferReadyTimeUs new_Sender < 0) by by_evaluation.
  assert (H2 : 0 <= 0) by lia.
  assert (H3 : no_overflow sample_clock 0
                 (to_int64 (sample_clock (clockReads new_Sender)))
                 (S (clockReads new_Sender)) [(33000, ts_packet)])
    by (repeat split; by_evaluation).
  split; [exact H1|]. split; [exact H2|]. split; [exact H3|].
  destruct (queuePackets_schedule sample_clock new_Sender 0 ts_packet
              [(33000, ts_packet)] H1 H2 H3) as (_ & _ & _ & Hs).
  rewrite Hs. vm_compute. reflexivity.
Defined.

Lemma rejected_nack_is_skipped_witness :
  Forall whole_subpacket [rr_plain]
  /\ whole_subpacket tsfb_format2
  /\ rtcp_packet_type tsfb_format2 = 205
  /\ rejected_feedback cfg_retransmit tsfb_format2
  /\ parseRTCP cfg_retransmit (sender_after cfg_retransmit 3)
       (concat [rr_plain] ++ tsfb_format2 ++ nack_for 1 1)
     = parseRTCP cfg_retransmit (sender_after cfg_retransmit 3)
         (concat [rr_plain] ++ nack_for 1 1)
  /\ outcome_summary
       (parseRTCP cfg_retransmit (sender_after cfg_retransmit 3)
          (concat [rr_plain] ++ tsfb_format2 ++ nack_for 1 1))
     = Some (OK, 2%nat, 2).
Proof.
  assert (Hrr : whole_subpacket rr_plain) by (repeat split; by_evaluation).
  assert (H1 : Forall whole_subpacket [rr_plain])
    by (apply Forall_cons; [exact Hrr | apply Forall_nil]).
  assert (H2 : whole_subpacket tsfb_format2)
    by (repeat split; by_evaluation).
  assert (H3 : rtcp_packet_type tsfb_format2 = 205) by by_evaluation.
  assert (H4 : rejected_feedback cfg_retransmit tsfb_format2)
    by (left; by_evaluation).
  split; [exact H1|]. split; [exact H2|]. split; [exact H3|].
  split; [exact H4|].
  destruct (rejected_nack_is_skipped cfg_retransmit
              (sender_after cfg_retransmit 3) [rr_plain] tsfb_format2
              (nack_for 1 1) H1 H2 H3 H4)
    as (_ & Hskip & _).
  split; [exact Hskip|].
  rewrite Hskip. vm_compute. reflexivity.
Defined.

Lemma batches_payload_is_conserved_witness :
  queue_inv new_Sender /\ queue_idle new_Sender
  /\ Forall (fun packets => Z.of_nat (List.length packets) mod 188 = 0)
       [ts_packet; ts_packet ++ ts_packet]
  /\ exists s' evs,
       deliver_batches cfg_plain sample_clock new_Sender
         [ts_packet; ts_packet ++ ts_packet] = Ok (s', evs)
       /\ concat (map rtp_payload evs)
          = concat [ts_packet; ts_packet ++ ts_packet].
Proof.
  assert (H1 : queue_inv new_Sender) by by_evaluation.
  assert (H2 : queue_idle new_Sender) by by_evaluation.
  assert (H3 : Forall (fun packets => Z.of_nat (List.length packets) mod 188 = 0)
                 [ts_packet; ts_packet ++ ts_packet])
    by (repeat constructor; by_evaluation).
  split; [exact H1|]. split; [exact H2|]. split; [exact H3|].
  destruct (batches_payload_is_conserved cfg_plain sample_clock
              [ts_packet; ts_packet ++ ts_packet] new_Sender H1 H2 H3)
    as (s' & evs & Hrun & Hpay & _).
  exists s', evs. split; [exact Hrun | exact Hpay].
Defined.

Lemma batch_is_cut_into_full_packets_witness :
  queue_inv new_Sender /\ queue_idle new_Sender
  /\ Z.of_nat (List.length (ts_packet ++ ts_packet)) mod 188 = 0
  /\ exists s' evs,
       onQueuePackets cfg_plain sample_clock new_Sender
         (ts_packet ++ ts_packet) = Ok (s', evs)
       /\ List.length evs = 1%nat.
Proof.
  assert (H1 : queue_inv new_Sender) by by_evaluation.
  assert (H2 : queue_idle new_Sender) by by_evaluation.
  assert (H3 : Z.of_nat (List.length (ts_packet ++ ts_packet)) mod 188 = 0)
    by by_evaluation.
  split; [exact H1|]. split; [exact H2|]. split; [exact H3|].
  destruct (batch_is_cut_into_full_packets cfg_plain sample_clock new_Sender
              (ts_packet ++ ts_packet) H1 H2 H3)
    as (s' & evs & Hrun & _ & Hlen & _).
  exists s', evs. split; [exact Hrun | exact Hlen].
Defined.

Lemma addSR_report_reads_back_witness :
  0 <= size (setRange0 (new_ABuffer 1500) 0)
  /\ size (setRange0 (new_ABuffer 1500) 0) + 28
     <= Z.of_nat (List.length (mData (setRange0 (new_ABuffer 1500) 0)))
  /\ exists buffer' sr,
       addSR cfg_plain new_Sender (setRange0 (new_ABuffer 1500) 0)
       = Ok buffer'
       /\ rtcp_packet_type sr = 200
       /\ U32_AT sr 4 = Ok (kSourceID cfg_plain mod 2 ^ 32).
Proof.
  assert (H1 : 0 <= size (setRange0 (new_ABuffer 1500) 0)) by by_evaluation.
  assert (H2 : size (setRange0 (new_ABuffer 1500) 0) + 28
               <= Z.of_nat
                    (List.length (mData (setRange0 (new_ABuffer 1500) 0))))
    by by_evaluation.
  split; [exact H1|]. split; [exact H2|].
  destruct (addSR_report_reads_back cfg_plain new_Sender
              (setRange0 (new_ABuffer 1500) 0) H1 H2)
    as (b' & sr & Hsr & _ & _ & _ & _ & _ & Htype & _ & _ & Hssrc & _).
  exists b', sr. split; [exact Hsr|]. split; [exact Htype | exact Hssrc].
Defined.

Lemma addSDES_is_word_aligned_witness :
  0 <= size (setRange0 (new_ABuffer 1500) 28)
  /\ size (setRange0 (new_ABuffer 1500) 28) + 52
     <= Z.of_nat (List.length (mData (setRange0 (new_ABuffer 1500) 28)))
  /\ exists buffer' sdes,
       addSDES cfg_plain (setRange0 (new_ABuffer 1500) 28) = Ok buffer'
       /\ Z.of_nat (List.length sdes) mod 4 = 0
       /\ rtcp_length sdes = Z.of_nat (List.length sdes).
Proof.
  assert (H1 : 0 <= size (setRange0 (new_ABuffer 1500) 28)) by by_evaluation.
  assert (H2 : size (setRange0 (new_ABuffer 1500) 28) + 52
               <= Z.of_nat
                    (List.length (mData (setRange0 (new_ABuffer 1500) 28))))
    by by_evaluation.
  split; [exact H1|]. split; [exact H2|].
  destruct (addSDES_is_word_aligned cfg_plain
              (setRange0 (new_ABuffer 1500) 28) H1 H2)
    as (b' & sdes & Hsdes & _ & _ & Hmod & Hlen & _).
  exists b', sdes. split; [exact Hsdes|]. split; [exact Hmod | exact Hlen].
Defined.

Lemma report_describes_last_flush_witness :
  queue_inv new_Sender
  /\ size (mTSQueue new_Sender) + 188 <= capacity (mTSQueue new_Sender)
  /\ 188 <= Z.of_nat (List.length ts_packet)
  /\ exists s' packet,
       appendTSData cfg_plain sample_clock new_Sender ts_packet 188 true true
       = Ok (188, s', [rtp_event new_Sender packet])
       /\ forall h : Handler,
            sender h = s' ->
            exists report,
              onSendSR cfg_plain h
              = Ok (set_mNumSRsSent h (to_uint32 (mNumSRsSent h + 1)),
                    [Sent (rtcp_event s' report)])
              /\ U32_AT report 16 = U32_AT packet 4.
Proof.
  assert (H1 : queue_inv new_Sender) by by_evaluation.
  assert (H2 : size (mTSQueue new_Sender) + 188
               <= capacity (mTSQueue new_Sender)) by by_evaluation.
  assert (H3 : 188 <= Z.of_nat (List.length ts_packet)) by by_evaluation.
  split; [exact H1|]. split; [exact H2|]. split; [exact H3|].
  destruct (report_describes_last_flush cfg_plain sample_clock new_Sender
              ts_packet true true H1 H2 H3 (or_introl eq_refl))
    as (s' & packet & Happ & Hreport).
  exists s', packet. split; [exact Happ|].
  intros h Hh. destruct (Hreport h Hh) as (report & Hsend & _ & _ & _ & H16 & _).
  exists report. split; [exact Hsend | exact H16].
Defined.

Lemma ntp_is_fixed_point_seconds_since_1900_witness :
  0 <= 1500000
  /\ 1500000 + 2208988800 * 1000000 < 2 ^ 32 * 1000000
  /\ ntp_of_us 1500000 / 2 ^ 32 = 1500000 / 1000000 + 2208988800
  /\ ntp_of_us 1500000 mod 2 ^ 32 = (2 ^ 32 * (1500000 mod 1000000)) / 1000000.
Proof.
  assert (H1 : 0 <= 1500000) by lia.
  assert (H2 : 1500000 + 2208988800 * 1000000 < 2 ^ 32 * 1000000) by lia.
  split; [exact H1|]. split; [exact H2|].
  destruct (ntp_is_fixed_point_seconds_since_1900 1500000 H1 H2)
    as (_ & Hhi & Hlo & _).
  split; [exact Hhi | exact Hlo].
Defined.

Lemma sendSR_timer_rearms_while_session_lives_witness :
  what sendSR_msg = kWhatSendSR
  /\ mRTCPSessionID (sender tcp_handler) <> 0
  /\ exists report h',
       onMessageReceived (net_ops := unbindable) cfg_plain 10000000
         sample_clock sample_reasons tcp_handler tt sendSR_msg
       = Ok (h', tt,
             [Sent (rtcp_event (sender tcp_handler) report);
              PostSendSR 10000000])
       /\ mSendSRPending h' = true.
Proof.
  assert (H1 : what sendSR_msg = kWhatSendSR) by reflexivity.
  assert (H2 : mRTCPSessionID (sender tcp_handler) <> 0) by by_evaluation.
  split; [exact H1|]. split; [exact H2|].
  destruct (sendSR_timer_rearms_while_session_lives cfg_plain 10000000
              sample_clock sample_reasons unit unbindable tcp_handler tt
              sendSR_msg H1) as (_ & Hlive).
  destruct (Hlive H2) as (report & h' & Hrun & _ & _ & Hpending & _).
  exists report, h'. split; [exact Hrun | exact Hpending].
Defined.

Lemma transport_error_kills_the_session_witness :
  notifies cfg_plain (error_msg kWhatRTCPNotify 2 1)
    (kWhatError sample_reasons)
  /\ findInt32 (error_msg kWhatRTCPNotify 2 1) "sessionID" = Some 2
  /\ findInt32 (error_msg kWhatRTCPNotify 2 1) "err" = Some (-32)
  /\ findInt32 (error_msg kWhatRTCPNotify 2 1) "send" = Some 1
  /\ findString (error_msg kWhatRTCPNotify 2 1) "detail"
     = Some "Broken pipe"%string
  /\ exists h' net' effs,
       onMessageReceived (net_ops := unbindable) cfg_plain 10000000
         sample_clock sample_reasons tcp_handler tt
         (error_msg kWhatRTCPNotify 2 1)
       = Ok (h', net', effs)
       /\ effs = [Notify kWhatSessionDead]
       /\ mRTCPSessionID (sender h') = 0.
Proof.
  assert (H1 : notifies cfg_plain (error_msg kWhatRTCPNotify 2 1)
                 (kWhatError sample_reasons)) by (split; reflexivity).
  assert (H2 : findInt32 (error_msg kWhatRTCPNotify 2 1) "sessionID" = Some 2)
    by reflexivity.
  assert (H3 : findInt32 (error_msg kWhatRTCPNotify 2 1) "err" = Some (-32))
    by reflexivity.
  assert (H4 : findInt32 (error_msg kWhatRTCPNotify 2 1) "send" = Some 1)
    by reflexivity.
  assert (H5 : findString (error_msg kWhatRTCPNotify 2 1) "detail"
               = Some "Broken pipe"%string) by reflexivity.
  split; [exact H1|]. split; [exact H2|]. split; [exact H3|].
  split; [exact H4|]. split; [exact H5|].
  destruct (transport_error_kills_the_session cfg_plain 10000000
              sample_clock sample_reasons unit unbindable tcp_handler tt
              (error_msg kWhatRTCPNotify 2 1) 2 (-32) 1 "Broken pipe"
              H1 H2 H3 H4 H5)
    as (h' & net' & effs & Hrun & _ & Hsurfaced).
  destruct Hsurfaced as (_ & Heffs & _ & _ & _ & _ & Hclear).
  { intros [Hrtp _]. discriminate Hrtp. }
  destruct Hclear as (_ & Hrtcp & _).
  { intro Heq. discriminate Heq. }
  exists h', net', effs. split; [exact Hrun|]. split; [exact Heffs|].
  apply Hrtcp. reflexivity.
Defined.

Lemma init_done_is_posted_at_most_once_witness :
  0 <= mClientRTCPPort (sender tcp_handler)
  /\ deliver_messages (net_ops := unbindable) cfg_plain 10000000
       sample_clock sample_reasons tcp_handler tt
       [connected_msg kWhatRTPNotify 1; connected_msg kWhatRTCPNotify 2]
     = Ok (set_mRTCPConnected (set_mRTPConnected tcp_handler true) true, tt,
           [Notify kWhatInitDone])
  /\ (count_notify kWhatInitDone [Notify kWhatInitDone] <= 1)%nat.
Proof.
  assert (H1 : 0 <= mClientRTCPPort (sender tcp_handler)) by by_evaluation.
  assert (H2 : deliver_messages (net_ops := unbindable) cfg_plain 10000000
                 sample_clock sample_reasons tcp_handler tt
                 [connected_msg kWhatRTPNotify 1;
                  connected_msg kWhatRTCPNotify 2]
               = Ok (set_mRTCPConnected (set_mRTPConnected tcp_handler true)
                       true, tt, [Notify kWhatInitDone]))
    by (vm_compute; reflexivity).
  split; [exact H1|]. split; [exact H2|].
  destruct (init_done_is_posted_at_most_once cfg_plain 10000000 sample_clock
              sample_reasons unit unbindable
              [connected_msg kWhatRTPNotify 1;
               connected_msg kWhatRTCPNotify 2]
              tcp_handler
              (set_mRTCPConnected (set_mRTPConnected tcp_handler true) true)
              tt tt [Notify kWhatInitDone] H1 H2)
    as (_ & Hle & _).
  exact Hle.
Defined.

Lemma tcp_handshake_posts_init_done_witness :
  reasons_distinct sample_reasons
  /\ mRTPConnected tcp_handler = false
  /\ mRTCPConnected tcp_handler = false
  /\ mRTPSessionID (sender tcp_handler) <> mRTCPSessionID (sender tcp_handler)
  /\ notifies cfg_plain (connected_msg kWhatRTPNotify 1)
       (kWhatConnected sample_reasons)
  /\ findInt32 (connected_msg kWhatRTPNotify 1) "sessionID"
     = Some (mRTPSessionID (sender tcp_handler))
  /\ notifies cfg_plain (connected_msg kWhatRTCPNotify 2)
       (kWhatConnected sample_reasons)
  /\ findInt32 (connected_msg kWhatRTCPNotify 2) "sessionID"
     = Some (mRTCPSessionID (sender tcp_handler))
  /\ deliver_messages (net_ops := unbindable) cfg_plain 10000000
       sample_clock sample_reasons tcp_handler tt
       [connected_msg kWhatRTPNotify 1; connected_msg kWhatRTPNotify 1]
     = Fault CheckFailed.
Proof.
  assert (H1 : reasons_distinct sample_reasons)
    by (repeat split; intro H; discriminate H).
  assert (H2 : mRTPConnected tcp_handler = false) by reflexivity.
  assert (H3 : mRTCPConnected tcp_handler = false) by reflexivity.
  assert (H4 : mRTPSessionID (sender tcp_handler)
               <> mRTCPSessionID (sender tcp_handler)) by by_evaluation.
  assert (H5 : notifies cfg_plain (connected_msg kWhatRTPNotify 1)
                 (kWhatConnected sample_reasons)) by (split; reflexivity).
  assert (H6 : findInt32 (connected_msg kWhatRTPNotify 1) "sessionID"
               = Some (mRTPSessionID (sender tcp_handler))) by reflexivity.
  assert (H7 : notifies cfg_plain (connected_msg kWhatRTCPNotify 2)
                 (kWhatConnected sample_reasons)) by (split; reflexivity).
  assert (H8 : findInt32 (connected_msg kWhatRTCPNotify 2) "sessionID"
               = Some (mRTCPSessionID (sender tcp_handler))) by reflexivity.
  split; [exact H1|]. split; [exact H2|]. split; [exact H3|].
  split; [exact H4|]. split; [exact H5|]. split; [exact H6|].
  split; [exact H7|]. split; [exact H8|].
  destruct (tcp_handshake_posts_init_done cfg_plain 10000000 sample_clock
              sample_reasons unit unbindable tcp_handler tt
              (connected_msg kWhatRTPNotify 1)
              (connected_msg kWhatRTCPNotify 2)
              H1 H2 H3 H4 H5 H6 H7 H8)
    as (Htcp & _).
  destruct (Htcp eq_refl) as (_ & _ & Htwice & _).
  exact Htwice.
Defined.


Lemma packets_leave_by_one_route_witness :
  queue_inv new_Sender /\ queue_idle new_Sender
  /\ Forall (fun packets => Z.of_nat (List.length packets) mod 188 = 0)
       [ts_packet]
  /\ exists s1,
       init (net_ops := unbindable) cfg_plain 0 new_Sender tt
         "10.0.0.2" 0 1 TRANSPORT_TCP_INTERLEAVED
       = Ok (OK, s1, tt)
       /\ exists s2 evs,
            deliver_batches cfg_plain sample_clock s1 [ts_packet]
            = Ok (s2, evs)
            /\ Forall (fun ev => exists packet, ev = BinaryData 0 packet) evs
            /\ onMessageReceived (net_ops := unbindable) cfg_plain 10000000
                 sample_clock sample_reasons (set_sender new_Handler s2) tt
                 sendSR_msg
               = Ok (set_mSendSRPending (set_sender new_Handler s2) false,
                     tt, []).
Proof.
  assert (H1 : queue_inv new_Sender) by by_evaluation.
  assert (H2 : queue_idle new_Sender) by by_evaluation.
  assert (H3 : Forall (fun packets => Z.of_nat (List.length packets) mod 188 = 0)
                 [ts_packet])
    by (repeat constructor; by_evaluation).
  split; [exact H1|]. split; [exact H2|]. split; [exact H3|].
  destruct (packets_leave_by_one_route cfg_plain 10000000 sample_clock
              sample_reasons unit unbindable
              0 new_Sender tt "10.0.0.2" 0 1 [ts_packet] H1 H2 H3)
    as ((s1 & Hinit & s2 & evs & Hrun & Hevs & _ & Hsr) & _).
  exists s1. split; [exact Hinit|].
  exists s2, evs. split; [exact Hrun|]. split; [exact Hevs|].
  apply Hsr; reflexivity.
Defined.

Lemma init_with_retransmission_needs_rtcp_port_witness :
  ENABLE_RETRANSMISSION cfg_retransmit = true
  /\ -1 < 0
  /\ init (net_ops := bookkeeping (fun _ => true)) cfg_retransmit 3
       new_Sender fresh_network "10.0.0.2" 5004 (-1) TRANSPORT_UDP
     = Fault CheckFailed.
Proof.
  assert (H1 : ENABLE_RETRANSMISSION cfg_retransmit = true) by reflexivity.
  assert (H2 : -1 < 0) by lia.
  split; [exact H1|]. split; [exact H2|].
  destruct (init_with_retransmission_needs_rtcp_port cfg_retransmit Network
              (bookkeeping (fun _ => true)) 2 new_Sender fresh_network
              "10.0.0.2" 5004 (-1) H1 H2)
    as (_ & Hstop).
  eapply Hstop; reflexivity.
Defined.

Lemma tcp_setup_opens_ports_20000_and_20001_witness :
  exists s1,
    init (net_ops := bookkeeping (fun _ => true)) cfg_plain 0 new_Sender
      fresh_network "10.0.0.2" 5004 5005 TRANSPORT_TCP
    = Ok (OK, s1, fresh_network)
    /\ getRTPPort s1 = 20000.
Proof.
  destruct (tcp_setup_opens_ports_20000_and_20001 cfg_plain Network
              (bookkeeping (fun _ => true)) 0 new_Sender fresh_network
              "10.0.0.2" 5004 5005)
    as (s1 & Hinit & Hport & _).
  exists s1. split; [exact Hinit | exact Hport].
Defined.

Lemma init_binds_first_free_port_pair_witness :
  (ENABLE_RETRANSMISSION cfg_retransmit = true ->
   0 <= 5005
   /\ (kRetransmissionPortOffset cfg_retransmit < -1
       \/ 1 < kRetransmissionPortOffset cfg_retransmit))
  /\ sessions fresh_network = [] /\ 0 <= lastID fresh_network
  /\ (1 < 4)%nat /\ 15550 + 2 * Z.of_nat 1 + 2 < 2 ^ 31
  /\ (forall j, (j < 1)%nat ->
        round_free port_15550_taken cfg_retransmit 5005
          (15550 + 2 * Z.of_nat j) = false)
  /\ round_free port_15550_taken cfg_retransmit 5005
       (15550 + 2 * Z.of_nat 1) = true
  /\ exists s' net',
       init (net_ops := bookkeeping port_15550_taken) cfg_retransmit 4
         new_Sender fresh_network "10.0.0.2" 5004 5005 TRANSPORT_UDP
       = Ok (OK, s', net')
       /\ getRTPPort s' = 15550 + 2 * Z.of_nat 1
       /\ map fst (sessions net') = held_sessions cfg_retransmit s'.
Proof.
  assert (H1 : ENABLE_RETRANSMISSION cfg_retransmit = true ->
               0 <= 5005
               /\ (kRetransmissionPortOffset cfg_retransmit < -1
                   \/ 1 < kRetransmissionPortOffset cfg_retransmit))
    by (intros _; split; [lia | right; reflexivity]).
  assert (H2 : sessions fresh_network = []) by reflexivity.
  assert (H3 : 0 <= lastID fresh_network) by by_evaluation.
  assert (H4 : (1 < 4)%nat) by lia.
  assert (H5 : 15550 + 2 * Z.of_nat 1 + 2 < 2 ^ 31) by reflexivity.
  assert (H6 : forall j, (j < 1)%nat ->
                 round_free port_15550_taken cfg_retransmit 5005
                   (15550 + 2 * Z.of_nat j) = false).
  { intros j Hj. assert (Hj0 : j = 0%nat) by lia. rewrite Hj0. reflexivity. }
  assert (H7 : round_free port_15550_taken cfg_retransmit 5005
                 (15550 + 2 * Z.of_nat 1) = true) by reflexivity.
  split; [exact H1|]. split; [exact H2|]. split; [exact H3|].
  split; [exact H4|]. split; [exact H5|]. split; [exact H6|].
  split; [exact H7|].
  destruct (init_binds_first_free_port_pair port_15550_taken cfg_retransmit
              new_Sender "10.0.0.2" 5004 5005 1 4 fresh_network
              H1 H2 H3 H4 H5 H6 H7)
    as (s' & net' & Hinit & Hport & _ & Hheld & _).
  exists s', net'. split; [exact Hinit|]. split; [exact Hport | exact Hheld].
Defined.

Lemma destructor_closes_every_session_witness :
  (ENABLE_RETRANSMISSION cfg_plain = true ->
   0 <= 5005
   /\ (kRetransmissionPortOffset cfg_plain < -1
       \/ 1 < kRetransmissionPortOffset cfg_plain))
  /\ sessions fresh_network = [] /\ 0 <= lastID fresh_network
  /\ (1 < 4)%nat /\ 15550 + 2 * Z.of_nat 1 + 2 < 2 ^ 31
  /\ (forall j, (j < 1)%nat ->
        round_free port_15550_taken cfg_plain 5005
          (15550 + 2 * Z.of_nat j) = false)
  /\ round_free port_15550_taken cfg_plain 5005
       (15550 + 2 * Z.of_nat 1) = true
  /\ exists s' net',
       init (net_ops := bookkeeping port_15550_taken) cfg_plain 4
         new_Sender fresh_network "10.0.0.2" 5004 5005 TRANSPORT_UDP
       = Ok (OK, s', net')
       /\ sessions
            (delete_Sender (net_ops := bookkeeping port_15550_taken)
               cfg_plain s' net')
          = [].
Proof.
  assert (H1 : ENABLE_RETRANSMISSION cfg_plain = true ->
               0 <= 5005
               /\ (kRetransmissionPortOffset cfg_plain < -1
                   \/ 1 < kRetransmissionPortOffset cfg_plain))
    by (intros _; split; [lia | right; reflexivity]).
  assert (H2 : sessions fresh_network = []) by reflexivity.
  assert (H3 : 0 <= lastID fresh_network) by by_evaluation.
  assert (H4 : (1 < 4)%nat) by lia.
  assert (H5 : 15550 + 2 * Z.of_nat 1 + 2 < 2 ^ 31) by reflexivity.
  assert (H6 : forall j, (j < 1)%nat ->
                 round_free port_15550_taken cfg_plain 5005
                   (15550 + 2 * Z.of_nat j) = false).
  { intros j Hj. assert (Hj0 : j = 0%nat) by lia. rewrite Hj0. reflexivity. }
  assert (H7 : round_free port_15550_taken cfg_plain 5005
                 (15550 + 2 * Z.of_nat 1) = true) by reflexivity.
  split; [exact H1|]. split; [exact H2|]. split; [exact H3|].
  split; [exact H4|]. split; [exact H5|]. split; [exact H6|].
  split; [exact H7|].
  destruct (destructor_closes_every_session port_15550_taken cfg_plain
              new_Sender "10.0.0.2" 5004 5005 1 4 fresh_network
              H1 H2 H3 H4 H5 H6 H7)
    as (s' & net' & Hinit & _ & Hclosed & _).
  exists s', net'. split; [exact Hinit | exact Hclosed].
Defined.

Lemma plain_subpackets_are_skipped_witness :
  Forall (plain_subpacket cfg_plain) [rr_plain; rr_plain]
  /\ parseRTCP cfg_plain new_Sender (concat [rr_plain; rr_plain])
     = Ok (OK, new_Sender, []).
Proof.
  assert (Hp : plain_subpacket cfg_plain rr_plain).
  { unfold plain_subpacket.
    split; [by_evaluation|]. split; [reflexivity|]. split; [reflexivity|].
    split; [reflexivity|]. right. reflexivity. }
  assert (H1 : Forall (plain_subpacket cfg_plain) [rr_plain; rr_plain])
    by (apply Forall_cons; [exact Hp | apply Forall_cons; [exact Hp | apply Forall_nil]]).
  split; [exact H1|].
  destruct (plain_subpackets_are_skipped cfg_plain new_Sender
              [rr_plain; rr_plain] [] H1) as (_ & Hwalk).
  exact Hwalk.
Defined.

Lemma dead_rtcp_session_silences_reports_witness :
  notifies cfg_plain (error_msg kWhatRTCPNotify 2 1)
    (kWhatError sample_reasons)
  /\ findInt32 (error_msg kWhatRTCPNotify 2 1) "sessionID"
     = Some (mRTCPSessionID (sender tcp_handler))
  /\ findInt32 (error_msg kWhatRTCPNotify 2 1) "err" = Some (-32)
  /\ findInt32 (error_msg kWhatRTCPNotify 2 1) "send" = Some 1
  /\ findString (error_msg kWhatRTCPNotify 2 1) "detail"
     = Some "Broken pipe"%string
  /\ (is_rtp_notify cfg_plain (what (error_msg kWhatRTCPNotify 2 1)) = false
      \/ 1 <> 0)
  /\ mRTCPSessionID (sender tcp_handler) <> mRTPSessionID (sender tcp_handler)
  /\ what sendSR_msg = kWhatSendSR
  /\ exists h',
       deliver_messages (net_ops := unbindable) cfg_plain 10000000
         sample_clock sample_reasons tcp_handler tt
         (error_msg kWhatRTCPNotify 2 1 :: repeat sendSR_msg 3)
       = Ok (h', destroySession (ANetworkSession := unbindable) tt
                   (mRTCPSessionID (sender tcp_handler)),
             [Notify kWhatSessionDead])
       /\ mRTCPSessionID (sender h') = 0.
Proof.
  assert (H1 : notifies cfg_plain (error_msg kWhatRTCPNotify 2 1)
                 (kWhatError sample_reasons)) by (split; reflexivity).
  assert (H2 : findInt32 (error_msg kWhatRTCPNotify 2 1) "sessionID"
               = Some (mRTCPSessionID (sender tcp_handler))) by reflexivity.
  assert (H3 : findInt32 (error_msg kWhatRTCPNotify 2 1) "err" = Some (-32))
    by reflexivity.
  assert (H4 : findInt32 (error_msg kWhatRTCPNotify 2 1) "send" = Some 1)
    by reflexivity.
  assert (H5 : findString (error_msg kWhatRTCPNotify 2 1) "detail"
               = Some "Broken pipe"%string) by reflexivity.
  assert (H6 : is_rtp_notify cfg_plain
                 (what (error_msg kWhatRTCPNotify 2 1)) = false
               \/ 1 <> 0) by (left; reflexivity).
  assert (H7 : mRTCPSessionID (sender tcp_handler)
               <> mRTPSessionID (sender tcp_handler)) by by_evaluation.
  assert (H8 : what sendSR_msg = kWhatSendSR) by reflexivity.
  split; [exact H1|]. split; [exact H2|]. split; [exact H3|].
  split; [exact H4|]. split; [exact H5|]. split; [exact H6|].
  split; [exact H7|]. split; [exact H8|].
  destruct (dead_rtcp_session_silences_reports cfg_plain 10000000
              sample_clock sample_reasons unit unbindable tcp_handler tt
              (error_msg kWhatRTCPNotify 2 1) sendSR_msg (-32) 1
              "Broken pipe" 3 H1 H2 H3 H4 H5 H6 H7 H8)
    as (h' & Hrun & Hdead & _).
  exists h'. split; [exact Hrun | exact Hdead].
Defined.

Lemma retransmission_restores_the_packet_witness :
  entry_ok (oldest_held (sender_after cfg_retransmit 1)) = true
  /\ exists frame,
       retransRTP_of 7 (oldest_held (sender_after cfg_retransmit 1))
       = Ok frame
       /\ undo_retransmission frame
          = contents (oldest_held (sender_after cfg_retransmit 1)).
Proof.
  assert (H1 : entry_ok (oldest_held (sender_after cfg_retransmit 1)) = true)
    by (vm_compute; reflexivity).
  split; [exact H1|].
  destruct (retransmission_restores_the_packet 7
              (oldest_held (sender_after cfg_retransmit 1)) H1)
    as (frame & Hframe & _ & _ & _ & Hundo).
  exists frame. split; [exact Hframe | exact Hundo].
Defined.

Lemma nack_for_packets_not_held_is_dropped_witness :
  history_inv cfg_retransmit (sender_after cfg_retransmit 3)
  /\ kMaxHistoryLength cfg_retransmit <= 65536
  /\ load (nack_for 100 0) 0 = Ok 0x81
  /\ Z.land 0x81 0x1f = 1
  /\ U32_AT (nack_for 100 0) 8 = Ok (kSourceID cfg_retransmit)
  /\ 12 <= 16 <= Z.of_nat (List.length (nack_for 100 0))
  /\ (16 - 12) mod 4 = 0
  /\ (forall seqNo blp,
        In (Ok seqNo, Ok blp)
           (nack_entries (Z.to_nat 16) (nack_for 100 0) 16 12) ->
        Forall (fun b => nack_match seqNo blp b = false)
          (mHistory (sender_after cfg_retransmit 3)))
  /\ parseTSFB cfg_retransmit (sender_after cfg_retransmit 3)
       (nack_for 100 0) 16
     = Ok (OK, sender_after cfg_retransmit 3, []).
Proof.
  assert (H1 : history_inv cfg_retransmit (sender_after cfg_retransmit 3))
    by (vm_compute; reflexivity).
  assert (H2 : kMaxHistoryLength cfg_retransmit <= 65536) by by_evaluation.
  assert (H3 : load (nack_for 100 0) 0 = Ok 0x81) by (vm_compute; reflexivity).
  assert (H4 : Z.land 0x81 0x1f = 1) by reflexivity.
  assert (H5 : U32_AT (nack_for 100 0) 8 = Ok (kSourceID cfg_retransmit))
    by (vm_compute; reflexivity).
  assert (H6 : 12 <= 16 <= Z.of_nat (List.length (nack_for 100 0)))
    by (split; by_evaluation).
  assert (H7 : (16 - 12) mod 4 = 0) by reflexivity.
  assert (H8 : forall seqNo blp,
             In (Ok seqNo, Ok blp)
                (nack_entries (Z.to_nat 16) (nack_for 100 0) 16 12) ->
             Forall (fun b => nack_match seqNo blp b = false)
               (mHistory (sender_after cfg_retransmit 3))).
  { intros seqNo blp Hin.
    assert (Hentries : nack_entries (Z.to_nat 16) (nack_for 100 0) 16 12
                       = [(Ok 100, Ok 0)]) by (vm_compute; reflexivity).
    rewrite Hentries in Hin. destruct Hin as [Heq | []].
    assert (Hs : seqNo = 100) by congruence.
    assert (Hb : blp = 0) by congruence.
    rewrite Hs, Hb.
    assert (Hall : forallb (fun b => negb (nack_match 100 0 b))
                     (mHistory (sender_after cfg_retransmit 3)) = true)
      by (vm_compute; reflexivity).
    rewrite forallb_forall in Hall.
    apply Forall_forall. intros b Hin.
    apply negb_true_iff. apply Hall. exact Hin. }
  split; [exact H1|]. split; [exact H2|]. split; [exact H3|].
  split; [exact H4|]. split; [exact H5|]. split; [exact H6|].
  split; [exact H7|]. split; [exact H8|].
  destruct (nack_for_packets_not_held_is_dropped cfg_retransmit
              (sender_after cfg_retransmit 3) (nack_for 100 0) 16 0x81
              H1 H2 H3 H4 H5 H6 H7 H8)
    as (Hdrop & _).
  exact Hdrop.
Defined.

Lemma history_holds_the_last_packets_sent_witness :
  ENABLE_RETRANSMISSION cfg_small = true
  /\ sender_inv cfg_small new_Sender /\ queue_idle new_Sender
  /\ Forall (fun packets => Z.of_nat (List.length packets) mod 188 = 0)
       [ts_packet; ts_packet; ts_packet]
  /\ exists s' evs,
       deliver_batches cfg_small sample_clock new_Sender
         [ts_packet; ts_packet; ts_packet] = Ok (s', evs)
       /\ map contents (mHistory s')
          = last_n (kMaxHistoryLength cfg_small) (map event_data evs).
Proof.
  assert (H1 : ENABLE_RETRANSMISSION cfg_small = true) by reflexivity.
  assert (H2 : sender_inv cfg_small new_Sender).
  { split; [by_evaluation|]. split; [by_evaluation|].
    intros _. reflexivity. }
  assert (H3 : queue_idle new_Sender) by by_evaluation.
  assert (H4 : Forall (fun packets => Z.of_nat (List.length packets) mod 188 = 0)
                 [ts_packet; ts_packet; ts_packet])
    by (repeat constructor; by_evaluation).
  split; [exact H1|]. split; [exact H2|]. split; [exact H3|].
  split; [exact H4|].
  destruct (history_holds_the_last_packets_sent cfg_small sample_clock
              new_Sender [ts_packet; ts_packet; ts_packet] H1 H2 H3 H4)
    as (s' & evs & Hrun & _ & Hnew & _).
  exists s', evs. split; [exact Hrun|]. apply Hnew. reflexivity.
Defined.

Lemma short_feedback_is_walked_over_witness :
  whole_subpacket short_feedback
  /\ rtcp_packet_type short_feedback = 205
  /\ Z.of_nat (List.length short_feedback) < 12
  /\ parseRTCP cfg_retransmit (sender_after cfg_retransmit 3)
       (short_feedback ++ nack_for 1 1)
     = parseRTCP cfg_retransmit (sender_after cfg_retransmit 3)
         (nack_for 1 1)
  /\ parseRTCP cfg_retransmit (sender_after cfg_retransmit 3) short_feedback
     = Ok (OK, sender_after cfg_retransmit 3, []).
Proof.
  assert (H1 : whole_subpacket short_feedback)
    by (repeat split; by_evaluation).
  assert (H2 : rtcp_packet_type short_feedback = 205) by by_evaluation.
  assert (H3 : Z.of_nat (List.length short_feedback) < 12) by by_evaluation.
  split; [exact H1|]. split; [exact H2|]. split; [exact H3|].
  destruct (short_feedback_is_walked_over cfg_retransmit
              (sender_after cfg_retransmit 3) short_feedback (nack_for 1 1)
              H1 H2 H3)
    as (_ & Hstep & Hend).
  split; [exact Hstep | exact Hend].
Defined.
